(** * PX4 Commander and Navigator: arming, command dispatch, navigation-mode
      dispatch and geofence breach check

    A shallow embedding of the decision logic of
    [src/modules/commander/Commander.cpp] and
    [src/modules/navigator/navigator_main.cpp].

    Conventions of the embedding.
    - Member functions become functions in a state-and-output monad [M]:
      the object's fields are the state, everything published or logged is
      appended to an output trace.
    - Classes whose implementation lives in other translation units
      (ArmStateMachine, HomePosition, WorkerThread, Safety, Geofence,
      GeofenceBreachAvoidance, Mission, RTL, ...) are interfaces: a type class
      gives their abstract state and the methods the two files call.
    - [hrt_absolute_time()] is sampled once for each handler invocation and
      passed as [now]; a module's cycle runs to completion without
      preemption.  Where a function compares the clock with a stored time
      and then stores the clock, both readings are arguments.

    After the two modules come the command line of the Commander
    ([CommanderShell]), the parts of its cycle that watch the geofence, the
    manual control and the tunes ([CommanderCycle]), and the services of
    the Navigator for the camera and the air traffic
    ([NavigatorServices]). *)

From Stdlib Require Import ZArith QArith Qabs Qround List Bool String Lia.
Import ListNotations.

Local Open Scope Z_scope.

(** ** Single-precision values

    Only the order and the finiteness tests of IEEE floats are interpreted:
    a finite float is the rational it denotes.  Arithmetic that rounds is
    left to the platform interface of the module that uses it. *)

Inductive float : Type :=
| NaN
| PInf
| NInf
| Fin (q : Q).

Definition PX4_ISFINITE (x : float) : bool :=
  match x with Fin _ => true | _ => false end.

(** [x > c], [x < c], [x <= c], [x >= c] against a finite constant; every
    comparison with NaN is false. *)
Definition fgt (x : float) (c : Q) : bool :=
  match x with
  | NaN => false | PInf => true | NInf => false
  | Fin q => negb (Qle_bool q c)
  end.

Definition flt (x : float) (c : Q) : bool :=
  match x with
  | NaN => false | PInf => false | NInf => true
  | Fin q => negb (Qle_bool c q)
  end.

Definition fle (x : float) (c : Q) : bool :=
  match x with
  | NaN => false | PInf => false | NInf => true
  | Fin q => Qle_bool q c
  end.

Definition fge (x : float) (c : Q) : bool :=
  match x with
  | NaN => false | PInf => true | NInf => false
  | Fin q => Qle_bool c q
  end.

Definition fabsf (x : float) : float :=
  match x with
  | NaN => NaN | PInf => PInf | NInf => PInf
  | Fin q => Fin (Qabs q)
  end.


(** The literals [0.6f] and [0.1f] are not dyadic: they denote the nearest
    binary32 values, 10066330 / 2^24 and 13421773 / 2^27. *)
Definition float_0_6 : Q := 5033165 # 8388608.
Definition float_0_1 : Q := 13421773 # 134217728.

(** Truncation toward zero, as a C cast of a finite value does. *)
Definition Qtrunc (q : Q) : Z := Z.quot (Qnum q) (Zpos (Qden q)).

(** [lroundf]/[roundf]: nearest integer, halfway cases away from zero. *)
Definition Qround_away (q : Q) : Z :=
  if Qle_bool 0 q
  then Qfloor (Qplus q (1 # 2))
  else Z.opp (Qfloor (Qplus (Qopp q) (1 # 2))).

(** Two's-complement reduction to [w] bits. *)
Definition wrap_unsigned (w : Z) (z : Z) : Z := z mod 2 ^ w.
Definition wrap_signed (w : Z) (z : Z) : Z :=
  (z + 2 ^ (w - 1)) mod 2 ^ w - 2 ^ (w - 1).

(** Conversions of a float to an integer type.  For NaN and the infinities
    (and for values out of range) C++ leaves the result undefined; the model
    yields 0 for the former and reduces modulo [2^w] for the latter. *)
Definition float_to_Z (x : float) : Z :=
  match x with Fin q => Qtrunc q | _ => 0 end.

Definition lroundf (x : float) : Z :=
  match x with Fin q => Qround_away q | _ => 0 end.

Definition roundf (x : float) : float :=
  match x with Fin q => Fin (inject_Z (Qround_away q)) | _ => x end.

Definition cast_int (x : float) : Z := wrap_signed 32 (float_to_Z x).
Definition cast_uint8 (x : float) : Z := wrap_unsigned 8 (float_to_Z x).
Definition cast_uint32 (x : float) : Z := wrap_unsigned 32 (float_to_Z x).

(** ** Time *)

Definition hrt_abstime := Z.

(** [hrt_elapsed_time(&then)] is the unsigned 64-bit difference. *)
Definition hrt_elapsed_time (now then_ : hrt_abstime) : Z :=
  wrap_unsigned 64 (now - then_).

Definition us_per_s : Z := 1000000.
Definition us_per_ms : Z := 1000.

(** ** The state-and-output monad *)

Section Monad.
Variables St Ev : Type.

Definition M (A : Type) : Type := St -> A * St * list Ev.

Definition ret {A} (a : A) : M A := fun s => (a, s, []).

Definition bind {A B} (c : M A) (k : A -> M B) : M B :=
  fun s =>
    let '(a, s1, o1) := c s in
    let '(b, s2, o2) := k a s1 in
    (b, s2, o1 ++ o2).

Definition get : M St := fun s => (s, s, []).
Definition gets {A} (f : St -> A) : M A := fun s => (f s, s, []).
Definition modify (f : St -> St) : M unit := fun s => (tt, f s, []).
Definition emit (e : Ev) : M unit := fun s => (tt, s, [e]).

Definition when (b : bool) (c : M unit) : M unit :=
  if b then c else ret tt.

Definition value_of {A} (r : A * St * list Ev) : A := fst (fst r).
Definition state_of {A} (r : A * St * list Ev) : St := snd (fst r).
Definition output_of {A} (r : A * St * list Ev) : list Ev := snd r.

(** A computation that never emits an event of the kind [P]. *)
Definition emits_none (P : Ev -> bool) {A} (c : M A) : Prop :=
  forall s, filter P (output_of (c s)) = [].
End Monad.

Arguments ret {St Ev A} a.
Arguments bind {St Ev A B} c k.
Arguments get {St Ev}.
Arguments gets {St Ev A} f.
Arguments modify {St Ev} f.
Arguments emit {St Ev} e.
Arguments when {St Ev} b c.
Arguments value_of {St Ev A} r.
Arguments state_of {St Ev A} r.
Arguments output_of {St Ev A} r.
Arguments emits_none {St Ev} P {A} c.

Declare Scope monad_scope.
Delimit Scope monad_scope with monad.
Notation "x <- c ;; k" := (bind c (fun x => k))
  (at level 61, c at next level, right associativity) : monad_scope.
Notation "c ;; k" := (bind c (fun _ => k))
  (at level 61, right associativity) : monad_scope.
Local Open Scope monad_scope.

(** ** uORB message vocabulary shared by both modules

    The message definitions are generated headers; the enumerators below are
    the ones the two source files name.  Each enumeration has a last
    constructor for every other raw value, which is what a [default:] label
    (or no label at all) receives. *)

Inductive nav_state_t : Type :=
| NAVIGATION_STATE_MANUAL
| NAVIGATION_STATE_ALTCTL
| NAVIGATION_STATE_POSCTL
| NAVIGATION_STATE_AUTO_MISSION
| NAVIGATION_STATE_AUTO_LOITER
| NAVIGATION_STATE_AUTO_RTL
| NAVIGATION_STATE_ACRO
| NAVIGATION_STATE_DESCEND
| NAVIGATION_STATE_TERMINATION
| NAVIGATION_STATE_OFFBOARD
| NAVIGATION_STATE_STAB
| NAVIGATION_STATE_AUTO_TAKEOFF
| NAVIGATION_STATE_AUTO_LAND
| NAVIGATION_STATE_AUTO_PRECLAND
| NAVIGATION_STATE_AUTO_VTOL_TAKEOFF
| NAVIGATION_STATE_other (raw : Z).

Inductive arming_state_t : Type :=
| ARMING_STATE_INIT
| ARMING_STATE_STANDBY
| ARMING_STATE_ARMED
| ARMING_STATE_STANDBY_ERROR
| ARMING_STATE_SHUTDOWN
| ARMING_STATE_IN_AIR_RESTORE.

Inductive vehicle_type_t : Type :=
| VEHICLE_TYPE_UNKNOWN
| VEHICLE_TYPE_ROTARY_WING
| VEHICLE_TYPE_FIXED_WING
| VEHICLE_TYPE_ROVER
| VEHICLE_TYPE_other (raw : Z).

Definition is_rotary_wing_type (t : vehicle_type_t) : bool :=
  match t with VEHICLE_TYPE_ROTARY_WING => true | _ => false end.
Definition is_fixed_wing_type (t : vehicle_type_t) : bool :=
  match t with VEHICLE_TYPE_FIXED_WING => true | _ => false end.
Definition is_rover_type (t : vehicle_type_t) : bool :=
  match t with VEHICLE_TYPE_ROVER => true | _ => false end.
Definition is_armed_state (a : arming_state_t) : bool :=
  match a with ARMING_STATE_ARMED => true | _ => false end.

Inductive vehicle_cmd : Type :=
| VEHICLE_CMD_DO_REPOSITION
| VEHICLE_CMD_DO_SET_MODE
| VEHICLE_CMD_COMPONENT_ARM_DISARM
| VEHICLE_CMD_DO_FLIGHTTERMINATION
| VEHICLE_CMD_DO_SET_HOME
| VEHICLE_CMD_NAV_RETURN_TO_LAUNCH
| VEHICLE_CMD_NAV_TAKEOFF
| VEHICLE_CMD_NAV_VTOL_TAKEOFF
| VEHICLE_CMD_NAV_LAND
| VEHICLE_CMD_NAV_PRECLAND
| VEHICLE_CMD_MISSION_START
| VEHICLE_CMD_CONTROL_HIGH_LATENCY
| VEHICLE_CMD_DO_ORBIT
| VEHICLE_CMD_ACTUATOR_TEST
| VEHICLE_CMD_PREFLIGHT_REBOOT_SHUTDOWN
| VEHICLE_CMD_PREFLIGHT_CALIBRATION
| VEHICLE_CMD_FIXED_MAG_CAL_YAW
| VEHICLE_CMD_PREFLIGHT_STORAGE
| VEHICLE_CMD_RUN_PREARM_CHECKS
| VEHICLE_CMD_START_RX_PAIR
| VEHICLE_CMD_CUSTOM_0
| VEHICLE_CMD_CUSTOM_1
| VEHICLE_CMD_CUSTOM_2
| VEHICLE_CMD_DO_MOUNT_CONTROL
| VEHICLE_CMD_DO_MOUNT_CONFIGURE
| VEHICLE_CMD_DO_MOUNT_CONTROL_QUAT
| VEHICLE_CMD_PREFLIGHT_SET_SENSOR_OFFSETS
| VEHICLE_CMD_PREFLIGHT_UAVCAN
| VEHICLE_CMD_PAYLOAD_PREPARE_DEPLOY
| VEHICLE_CMD_PAYLOAD_CONTROL_DEPLOY
| VEHICLE_CMD_DO_VTOL_TRANSITION
| VEHICLE_CMD_DO_TRIGGER_CONTROL
| VEHICLE_CMD_DO_DIGICAM_CONTROL
| VEHICLE_CMD_DO_SET_CAM_TRIGG_DIST
| VEHICLE_CMD_OBLIQUE_SURVEY
| VEHICLE_CMD_DO_SET_CAM_TRIGG_INTERVAL
| VEHICLE_CMD_SET_CAMERA_MODE
| VEHICLE_CMD_SET_CAMERA_ZOOM
| VEHICLE_CMD_SET_CAMERA_FOCUS
| VEHICLE_CMD_DO_CHANGE_SPEED
| VEHICLE_CMD_DO_LAND_START
| VEHICLE_CMD_DO_GO_AROUND
| VEHICLE_CMD_LOGGING_START
| VEHICLE_CMD_LOGGING_STOP
| VEHICLE_CMD_NAV_DELAY
| VEHICLE_CMD_DO_SET_ROI
| VEHICLE_CMD_NAV_ROI
| VEHICLE_CMD_DO_SET_ROI_LOCATION
| VEHICLE_CMD_DO_SET_ROI_WPNEXT_OFFSET
| VEHICLE_CMD_DO_SET_ROI_NONE
| VEHICLE_CMD_INJECT_FAILURE
| VEHICLE_CMD_SET_GPS_GLOBAL_ORIGIN
| VEHICLE_CMD_DO_GIMBAL_MANAGER_PITCHYAW
| VEHICLE_CMD_DO_GIMBAL_MANAGER_CONFIGURE
| VEHICLE_CMD_CONFIGURE_ACTUATOR
| VEHICLE_CMD_DO_SET_ACTUATOR
| VEHICLE_CMD_REQUEST_MESSAGE
| VEHICLE_CMD_DO_WINCH
| VEHICLE_CMD_DO_GRIPPER
| VEHICLE_CMD_DO_PARACHUTE
| VEHICLE_CMD_other (raw : Z).

Inductive cmd_result_t : Type :=
| VEHICLE_CMD_RESULT_ACCEPTED
| VEHICLE_CMD_RESULT_TEMPORARILY_REJECTED
| VEHICLE_CMD_RESULT_DENIED
| VEHICLE_CMD_RESULT_UNSUPPORTED
| VEHICLE_CMD_RESULT_FAILED.

Definition is_unsupported (r : cmd_result_t) : bool :=
  match r with VEHICLE_CMD_RESULT_UNSUPPORTED => true | _ => false end.

(** vehicle_command_s: opcode, seven parameters, addressing. *)
Record vehicle_command_s : Type := {
  command : vehicle_cmd;
  param1 : float;
  param2 : float;
  param3 : float;
  param4 : float;
  param5 : float;
  param6 : float;
  param7 : float;
  target_system : Z;
  target_component : Z;
  source_system : Z;
  source_component : Z;
  from_external : bool
}.

Inductive geofence_action_t : Type :=
| GF_ACTION_NONE
| GF_ACTION_WARN
| GF_ACTION_LOITER
| GF_ACTION_RTL
| GF_ACTION_LAND
| GF_ACTION_TERMINATE
| GF_ACTION_other (raw : Z).

Record geofence_result_s : Type := {
  gf_timestamp : hrt_abstime;
  geofence_violated : bool;
  geofence_action : geofence_action_t;
  home_required : bool
}.

(** * Commander *)

Module Commander.

Inductive transition_result_t : Type :=
| TRANSITION_DENIED
| TRANSITION_NOT_CHANGED
| TRANSITION_CHANGED.

Definition is_denied (r : transition_result_t) : bool :=
  match r with TRANSITION_DENIED => true | _ => false end.
Definition is_changed (r : transition_result_t) : bool :=
  match r with TRANSITION_CHANGED => true | _ => false end.

(** The enumerators listed by [arm_disarm_reason_str];
    [transition_to_standby] is the value of [arm_disarm_reason_t{}]. *)
Inductive arm_disarm_reason_t : Type :=
| transition_to_standby
| rc_stick
| rc_switch
| command_internal
| command_external
| mission_start
| auto_disarm_land
| auto_disarm_preflight
| kill_switch
| lockdown_reason
| failure_detector
| shutdown
| unit_test
| rc_button.

Definition is_rc_stick (r : arm_disarm_reason_t) : bool :=
  match r with rc_stick => true | _ => false end.
Definition is_rc_switch (r : arm_disarm_reason_t) : bool :=
  match r with rc_switch => true | _ => false end.
Definition is_rc_button (r : arm_disarm_reason_t) : bool :=
  match r with rc_button => true | _ => false end.

Inductive main_state_t : Type :=
| MAIN_STATE_MANUAL
| MAIN_STATE_ALTCTL
| MAIN_STATE_POSCTL
| MAIN_STATE_AUTO_MISSION
| MAIN_STATE_AUTO_LOITER
| MAIN_STATE_AUTO_RTL
| MAIN_STATE_ACRO
| MAIN_STATE_OFFBOARD
| MAIN_STATE_STAB
| MAIN_STATE_AUTO_TAKEOFF
| MAIN_STATE_AUTO_LAND
| MAIN_STATE_AUTO_FOLLOW_TARGET
| MAIN_STATE_AUTO_PRECLAND
| MAIN_STATE_ORBIT
| MAIN_STATE_AUTO_VTOL_TAKEOFF
| MAIN_STATE_MAX
| MAIN_STATE_other (raw : Z).

Definition is_main_state_max (m : main_state_t) : bool :=
  match m with MAIN_STATE_MAX => true | _ => false end.

Inductive action_source_t : Type :=
| SOURCE_RC_STICK_GESTURE
| SOURCE_RC_SWITCH
| SOURCE_RC_BUTTON
| SOURCE_RC_MODE_SLOT
| SOURCE_other (raw : Z).

Inductive action_t : Type :=
| ACTION_DISARM
| ACTION_ARM
| ACTION_TOGGLE_ARMING
| ACTION_UNKILL
| ACTION_KILL
| ACTION_SWITCH_MODE
| ACTION_other (raw : Z).

Record action_request_s : Type := {
  source : action_source_t;
  action : action_t;
  mode : main_state_t
}.

Inductive worker_request : Type :=
| GyroCalibration
| MagCalibration
| BaroCalibration
| RCTrimCalibration
| AccelCalibration
| LevelCalibration
| AccelCalibrationQuick
| AirspeedCalibration
| ESCCalibration
| MagCalibrationQuick
| ParamLoadDefault
| ParamSaveDefault
| ParamResetAllConfig
| ParamResetSensorFactory
| ParamResetAll.

Record vehicle_status_s : Type := {
  system_id : Z;
  component_id : Z;
  vehicle_type : vehicle_type_t;
  nav_state : nav_state_t;
  nav_state_timestamp : hrt_abstime;
  rc_signal_lost : bool;
  auto_mission_available : bool;
  in_transition_mode : bool;
  failsafe : bool
}.

Definition set_nav_state_timestamp (t : hrt_abstime) (v : vehicle_status_s)
  : vehicle_status_s :=
  {| system_id := system_id v; component_id := component_id v;
     vehicle_type := vehicle_type v; nav_state := nav_state v;
     nav_state_timestamp := t; rc_signal_lost := rc_signal_lost v;
     auto_mission_available := auto_mission_available v;
     in_transition_mode := in_transition_mode v; failsafe := failsafe v |}.

Record actuator_armed_s : Type := {
  armed : bool;
  prearmed : bool;
  ready_to_arm : bool;
  lockdown : bool;
  manual_lockdown : bool;
  force_failsafe : bool;
  in_esc_calibration_mode : bool
}.

Definition set_lockdown (b : bool) (a : actuator_armed_s) : actuator_armed_s :=
  {| armed := armed a; prearmed := prearmed a; ready_to_arm := ready_to_arm a;
     lockdown := b; manual_lockdown := manual_lockdown a;
     force_failsafe := force_failsafe a;
     in_esc_calibration_mode := in_esc_calibration_mode a |}.

Definition set_manual_lockdown (b : bool) (a : actuator_armed_s)
  : actuator_armed_s :=
  {| armed := armed a; prearmed := prearmed a; ready_to_arm := ready_to_arm a;
     lockdown := lockdown a; manual_lockdown := b;
     force_failsafe := force_failsafe a;
     in_esc_calibration_mode := in_esc_calibration_mode a |}.

Definition set_force_failsafe (b : bool) (a : actuator_armed_s)
  : actuator_armed_s :=
  {| armed := armed a; prearmed := prearmed a; ready_to_arm := ready_to_arm a;
     lockdown := lockdown a; manual_lockdown := manual_lockdown a;
     force_failsafe := b;
     in_esc_calibration_mode := in_esc_calibration_mode a |}.

Definition set_in_esc_calibration_mode (b : bool) (a : actuator_armed_s)
  : actuator_armed_s :=
  {| armed := armed a; prearmed := prearmed a; ready_to_arm := ready_to_arm a;
     lockdown := lockdown a; manual_lockdown := manual_lockdown a;
     force_failsafe := force_failsafe a;
     in_esc_calibration_mode := b |}.

Record vehicle_control_mode_s : Type := {
  flag_control_manual_enabled : bool;
  flag_control_climb_rate_enabled : bool;
  flag_control_auto_enabled : bool
}.

Record vehicle_land_detected_s : Type := {
  landed : bool;
  maybe_landed : bool
}.

Record vehicle_status_flags_s : Type := {
  home_position_valid : bool;
  calibration_enabled : bool;
  rc_calibration_in_progress : bool
}.

Definition set_calibration_enabled (b : bool) (f : vehicle_status_flags_s)
  : vehicle_status_flags_s :=
  {| home_position_valid := home_position_valid f;
     calibration_enabled := b;
     rc_calibration_in_progress := rc_calibration_in_progress f |}.

Definition set_rc_calibration_in_progress (b : bool)
  (f : vehicle_status_flags_s) : vehicle_status_flags_s :=
  {| home_position_valid := home_position_valid f;
     calibration_enabled := calibration_enabled f;
     rc_calibration_in_progress := b |}.

Record commander_state_s : Type := {
  main_state : main_state_t;
  main_state_changes : Z
}.

Record mission_result_s : Type := {
  seq_total : Z;
  finished : bool;
  stay_in_failsafe : bool
}.

(** The COM_*/NAV_* parameters handed to [set_nav_state]. *)
Record failsafe_params : Type := {
  param_nav_dll_act : Z;
  param_nav_rcl_act : Z;
  param_com_obl_act : Z;
  param_com_qc_act : Z;
  param_com_obl_rc_act : Z;
  param_com_posctl_navl : Z;
  param_com_rcl_act_t : float;
  param_com_rcl_except : Z
}.

Record actuator_test_s : Type := {
  at_timestamp : hrt_abstime;
  at_function : Z;
  at_value : float;
  at_action : Z;
  at_timeout_ms : Z
}.

(** Everything the Commander sends out. *)
Inductive event : Type :=
| command_ack (cmd : vehicle_cmd) (result : cmd_result_t)
| parachute_command
| tune_negative
| log (id : string)
| actuator_test (t : actuator_test_s)
| reject_mode (m : main_state_t).

Definition is_parachute (e : event) : bool :=
  match e with parachute_command => true | _ => false end.

(** VEHICLE_MODE_FLAG, as declared at the top of Commander.cpp. *)
Definition VEHICLE_MODE_FLAG_CUSTOM_MODE_ENABLED : Z := 1.
Definition VEHICLE_MODE_FLAG_AUTO_ENABLED : Z := 4.
Definition VEHICLE_MODE_FLAG_GUIDED_ENABLED : Z := 8.
Definition VEHICLE_MODE_FLAG_STABILIZE_ENABLED : Z := 16.
Definition VEHICLE_MODE_FLAG_MANUAL_INPUT_ENABLED : Z := 64.

(** Modelled from the spec: vehicle_command_s::ARMING_ACTION_DISARM and
    ARMING_ACTION_ARM are declared in the generated message header; the
    specification gives the encoding as arm(1)/disarm(0). *)
Definition ARMING_ACTION_DISARM : Z := 0.
Definition ARMING_ACTION_ARM : Z := 1.

(** ** Interfaces of the classes and helpers implemented elsewhere

    [arming_state_transition], [main_state_transition] and [set_nav_state]
    receive some of their arguments by non-const reference; the interface
    returns the possibly updated values next to the result.  Constants of
    generated or platform headers are fields as well. *)

Class Interfaces : Type := {
  ArmStateMachine : Type;
  HealthAndArmingChecks : Type;
  HomePosition : Type;
  WorkerThread : Type;
  Safety : Type;

  (* ArmStateMachine *)
  isArmed : ArmStateMachine -> bool;
  isStandby : ArmStateMachine -> bool;
  isShutdown : ArmStateMachine -> bool;
  forceArmState : arming_state_t -> ArmStateMachine -> ArmStateMachine;
  arming_state_transition :
    ArmStateMachine -> vehicle_status_s -> arming_state_t ->
    actuator_armed_s -> HealthAndArmingChecks -> bool ->
    arm_disarm_reason_t ->
    transition_result_t * ArmStateMachine * vehicle_status_s *
    actuator_armed_s * HealthAndArmingChecks;

  (* state_machine_helper *)
  main_state_transition :
    vehicle_status_s -> main_state_t -> vehicle_status_flags_s ->
    commander_state_s -> transition_result_t * commander_state_s;
  set_nav_state :
    vehicle_status_s -> actuator_armed_s -> commander_state_s ->
    bool -> bool -> vehicle_status_flags_s -> bool -> failsafe_params ->
    bool * vehicle_status_s * actuator_armed_s * commander_state_s;
  is_ground_vehicle : vehicle_status_s -> bool;

  (* HealthAndArmingChecks, HomePosition, WorkerThread, Safety *)
  checks_update : bool -> HealthAndArmingChecks -> HealthAndArmingChecks;
  setHomePosition : bool -> HomePosition -> bool * HomePosition;
  setManually :
    float -> float -> float -> float -> HomePosition -> bool * HomePosition;
  isBusy : WorkerThread -> bool;
  startTask : worker_request -> WorkerThread -> WorkerThread;
  setMagQuickData : float -> float -> float -> WorkerThread -> WorkerThread;
  isButtonAvailable : Safety -> bool;
  isSafetyOff : Safety -> bool;
  activateSafety : Safety -> Safety;

  (* platform: what the board and the battery report at a given time *)
  check_battery_disconnected : hrt_abstime -> bool;
  px4_reboot_request : bool -> hrt_abstime -> Z;
  px4_shutdown_request : hrt_abstime -> Z;
  CONFIG_BOARDCTL_RESET : bool;
  BOARD_HAS_POWER_CONTROL : bool;

  (* rounding arithmetic *)
  fadd : float -> float -> float;
  fmul : float -> float -> float;
  radians : float -> float;
  wrap_2pi : float -> float;

  (* constants of headers outside the two files *)
  INAIR_RESTART_HOLDOFF_INTERVAL : Z;
  PX4_CUSTOM_MAIN_MODE_MANUAL : Z;
  PX4_CUSTOM_MAIN_MODE_ALTCTL : Z;
  PX4_CUSTOM_MAIN_MODE_POSCTL : Z;
  PX4_CUSTOM_MAIN_MODE_AUTO : Z;
  PX4_CUSTOM_MAIN_MODE_ACRO : Z;
  PX4_CUSTOM_MAIN_MODE_STABILIZED : Z;
  PX4_CUSTOM_MAIN_MODE_OFFBOARD : Z;
  PX4_CUSTOM_SUB_MODE_AUTO_LOITER : Z;
  PX4_CUSTOM_SUB_MODE_AUTO_MISSION : Z;
  PX4_CUSTOM_SUB_MODE_AUTO_RTL : Z;
  PX4_CUSTOM_SUB_MODE_AUTO_TAKEOFF : Z;
  PX4_CUSTOM_SUB_MODE_AUTO_LAND : Z;
  PX4_CUSTOM_SUB_MODE_AUTO_FOLLOW_TARGET : Z;
  PX4_CUSTOM_SUB_MODE_AUTO_PRECLAND : Z;
  PREFLIGHT_CALIBRATION_TEMPERATURE_CALIBRATION : Z;
  MAX_NUM_MOTORS : Z;
  MAX_NUM_SERVOS : Z;
  FUNCTION_MOTOR1 : Z;
  FUNCTION_SERVO1 : Z;
  ACTION_RELEASE_CONTROL : Z;
  ACTION_DO_CONTROL : Z
}.

Section Model.
Context {I : Interfaces}.

(** ** The Commander object: the members the modelled functions touch *)

Record Commander : Type := {
  _vehicle_status : vehicle_status_s;
  _actuator_armed : actuator_armed_s;
  _vehicle_control_mode : vehicle_control_mode_s;
  _vehicle_land_detected : vehicle_land_detected_s;
  _vehicle_status_flags : vehicle_status_flags_s;
  _commander_state : commander_state_s;
  _geofence_result : geofence_result_s;
  _mission_result : mission_result_s;
  _arm_state_machine : ArmStateMachine;
  _health_and_arming_checks : HealthAndArmingChecks;
  _home_position : HomePosition;
  _worker_thread : WorkerThread;
  _safety : Safety;
  _lockdown_triggered : bool;
  _flight_termination_triggered : bool;
  _status_changed : bool;
  _is_throttle_above_center : bool;
  _is_throttle_low : bool;
  _was_armed : bool;
  _have_taken_off_since_arming : bool;
  _imbalanced_propeller_check_triggered : bool;
  _last_disarmed_timestamp : hrt_abstime;
  _boot_timestamp : hrt_abstime;
  _high_latency_datalink_heartbeat : hrt_abstime;
  _param_com_home_en : bool;
  _param_com_force_safety : bool;
  _param_com_mot_test_en : Z;
  _param_flight_uuid : Z;
  _failsafe_params : failsafe_params
}.

Definition set_vehicle_status (v : vehicle_status_s) (c : Commander) : Commander :=
  {| _vehicle_status := v; _actuator_armed := _actuator_armed c;
     _vehicle_control_mode := _vehicle_control_mode c; _vehicle_land_detected
     := _vehicle_land_detected c; _vehicle_status_flags :=
     _vehicle_status_flags c; _commander_state := _commander_state c;
     _geofence_result := _geofence_result c; _mission_result := _mission_result
     c; _arm_state_machine := _arm_state_machine c; _health_and_arming_checks
     := _health_and_arming_checks c; _home_position := _home_position c;
     _worker_thread := _worker_thread c; _safety := _safety c;
     _lockdown_triggered := _lockdown_triggered c;
     _flight_termination_triggered := _flight_termination_triggered c;
     _status_changed := _status_changed c; _is_throttle_above_center :=
     _is_throttle_above_center c; _is_throttle_low := _is_throttle_low c;
     _was_armed := _was_armed c; _have_taken_off_since_arming :=
     _have_taken_off_since_arming c; _imbalanced_propeller_check_triggered :=
     _imbalanced_propeller_check_triggered c; _last_disarmed_timestamp :=
     _last_disarmed_timestamp c; _boot_timestamp := _boot_timestamp c;
     _high_latency_datalink_heartbeat := _high_latency_datalink_heartbeat c;
     _param_com_home_en := _param_com_home_en c; _param_com_force_safety :=
     _param_com_force_safety c; _param_com_mot_test_en :=
     _param_com_mot_test_en c; _param_flight_uuid := _param_flight_uuid c;
     _failsafe_params := _failsafe_params c |}.

Definition set_actuator_armed (v : actuator_armed_s) (c : Commander) : Commander :=
  {| _vehicle_status := _vehicle_status c; _actuator_armed := v;
     _vehicle_control_mode := _vehicle_control_mode c; _vehicle_land_detected
     := _vehicle_land_detected c; _vehicle_status_flags :=
     _vehicle_status_flags c; _commander_state := _commander_state c;
     _geofence_result := _geofence_result c; _mission_result := _mission_result
     c; _arm_state_machine := _arm_state_machine c; _health_and_arming_checks
     := _health_and_arming_checks c; _home_position := _home_position c;
     _worker_thread := _worker_thread c; _safety := _safety c;
     _lockdown_triggered := _lockdown_triggered c;
     _flight_termination_triggered := _flight_termination_triggered c;
     _status_changed := _status_changed c; _is_throttle_above_center :=
     _is_throttle_above_center c; _is_throttle_low := _is_throttle_low c;
     _was_armed := _was_armed c; _have_taken_off_since_arming :=
     _have_taken_off_since_arming c; _imbalanced_propeller_check_triggered :=
     _imbalanced_propeller_check_triggered c; _last_disarmed_timestamp :=
     _last_disarmed_timestamp c; _boot_timestamp := _boot_timestamp c;
     _high_latency_datalink_heartbeat := _high_latency_datalink_heartbeat c;
     _param_com_home_en := _param_com_home_en c; _param_com_force_safety :=
     _param_com_force_safety c; _param_com_mot_test_en :=
     _param_com_mot_test_en c; _param_flight_uuid := _param_flight_uuid c;
     _failsafe_params := _failsafe_params c |}.

Definition set_vehicle_status_flags (v : vehicle_status_flags_s) (c : Commander) : Commander :=
  {| _vehicle_status := _vehicle_status c; _actuator_armed := _actuator_armed
     c; _vehicle_control_mode := _vehicle_control_mode c;
     _vehicle_land_detected := _vehicle_land_detected c; _vehicle_status_flags
     := v; _commander_state := _commander_state c; _geofence_result :=
     _geofence_result c; _mission_result := _mission_result c;
     _arm_state_machine := _arm_state_machine c; _health_and_arming_checks :=
     _health_and_arming_checks c; _home_position := _home_position c;
     _worker_thread := _worker_thread c; _safety := _safety c;
     _lockdown_triggered := _lockdown_triggered c;
     _flight_termination_triggered := _flight_termination_triggered c;
     _status_changed := _status_changed c; _is_throttle_above_center :=
     _is_throttle_above_center c; _is_throttle_low := _is_throttle_low c;
     _was_armed := _was_armed c; _have_taken_off_since_arming :=
     _have_taken_off_since_arming c; _imbalanced_propeller_check_triggered :=
     _imbalanced_propeller_check_triggered c; _last_disarmed_timestamp :=
     _last_disarmed_timestamp c; _boot_timestamp := _boot_timestamp c;
     _high_latency_datalink_heartbeat := _high_latency_datalink_heartbeat c;
     _param_com_home_en := _param_com_home_en c; _param_com_force_safety :=
     _param_com_force_safety c; _param_com_mot_test_en :=
     _param_com_mot_test_en c; _param_flight_uuid := _param_flight_uuid c;
     _failsafe_params := _failsafe_params c |}.

Definition set_commander_state (v : commander_state_s) (c : Commander) : Commander :=
  {| _vehicle_status := _vehicle_status c; _actuator_armed := _actuator_armed
     c; _vehicle_control_mode := _vehicle_control_mode c;
     _vehicle_land_detected := _vehicle_land_detected c; _vehicle_status_flags
     := _vehicle_status_flags c; _commander_state := v; _geofence_result :=
     _geofence_result c; _mission_result := _mission_result c;
     _arm_state_machine := _arm_state_machine c; _health_and_arming_checks :=
     _health_and_arming_checks c; _home_position := _home_position c;
     _worker_thread := _worker_thread c; _safety := _safety c;
     _lockdown_triggered := _lockdown_triggered c;
     _flight_termination_triggered := _flight_termination_triggered c;
     _status_changed := _status_changed c; _is_throttle_above_center :=
     _is_throttle_above_center c; _is_throttle_low := _is_throttle_low c;
     _was_armed := _was_armed c; _have_taken_off_since_arming :=
     _have_taken_off_since_arming c; _imbalanced_propeller_check_triggered :=
     _imbalanced_propeller_check_triggered c; _last_disarmed_timestamp :=
     _last_disarmed_timestamp c; _boot_timestamp := _boot_timestamp c;
     _high_latency_datalink_heartbeat := _high_latency_datalink_heartbeat c;
     _param_com_home_en := _param_com_home_en c; _param_com_force_safety :=
     _param_com_force_safety c; _param_com_mot_test_en :=
     _param_com_mot_test_en c; _param_flight_uuid := _param_flight_uuid c;
     _failsafe_params := _failsafe_params c |}.

Definition set_arm_state_machine (v : ArmStateMachine) (c : Commander) : Commander :=
  {| _vehicle_status := _vehicle_status c; _actuator_armed := _actuator_armed
     c; _vehicle_control_mode := _vehicle_control_mode c;
     _vehicle_land_detected := _vehicle_land_detected c; _vehicle_status_flags
     := _vehicle_status_flags c; _commander_state := _commander_state c;
     _geofence_result := _geofence_result c; _mission_result := _mission_result
     c; _arm_state_machine := v; _health_and_arming_checks :=
     _health_and_arming_checks c; _home_position := _home_position c;
     _worker_thread := _worker_thread c; _safety := _safety c;
     _lockdown_triggered := _lockdown_triggered c;
     _flight_termination_triggered := _flight_termination_triggered c;
     _status_changed := _status_changed c; _is_throttle_above_center :=
     _is_throttle_above_center c; _is_throttle_low := _is_throttle_low c;
     _was_armed := _was_armed c; _have_taken_off_since_arming :=
     _have_taken_off_since_arming c; _imbalanced_propeller_check_triggered :=
     _imbalanced_propeller_check_triggered c; _last_disarmed_timestamp :=
     _last_disarmed_timestamp c; _boot_timestamp := _boot_timestamp c;
     _high_latency_datalink_heartbeat := _high_latency_datalink_heartbeat c;
     _param_com_home_en := _param_com_home_en c; _param_com_force_safety :=
     _param_com_force_safety c; _param_com_mot_test_en :=
     _param_com_mot_test_en c; _param_flight_uuid := _param_flight_uuid c;
     _failsafe_params := _failsafe_params c |}.

Definition set_health_and_arming_checks (v : HealthAndArmingChecks) (c : Commander) : Commander :=
  {| _vehicle_status := _vehicle_status c; _actuator_armed := _actuator_armed
     c; _vehicle_control_mode := _vehicle_control_mode c;
     _vehicle_land_detected := _vehicle_land_detected c; _vehicle_status_flags
     := _vehicle_status_flags c; _commander_state := _commander_state c;
     _geofence_result := _geofence_result c; _mission_result := _mission_result
     c; _arm_state_machine := _arm_state_machine c; _health_and_arming_checks
     := v; _home_position := _home_position c; _worker_thread := _worker_thread
     c; _safety := _safety c; _lockdown_triggered := _lockdown_triggered c;
     _flight_termination_triggered := _flight_termination_triggered c;
     _status_changed := _status_changed c; _is_throttle_above_center :=
     _is_throttle_above_center c; _is_throttle_low := _is_throttle_low c;
     _was_armed := _was_armed c; _have_taken_off_since_arming :=
     _have_taken_off_since_arming c; _imbalanced_propeller_check_triggered :=
     _imbalanced_propeller_check_triggered c; _last_disarmed_timestamp :=
     _last_disarmed_timestamp c; _boot_timestamp := _boot_timestamp c;
     _high_latency_datalink_heartbeat := _high_latency_datalink_heartbeat c;
     _param_com_home_en := _param_com_home_en c; _param_com_force_safety :=
     _param_com_force_safety c; _param_com_mot_test_en :=
     _param_com_mot_test_en c; _param_flight_uuid := _param_flight_uuid c;
     _failsafe_params := _failsafe_params c |}.

Definition set_home_position (v : HomePosition) (c : Commander) : Commander :=
  {| _vehicle_status := _vehicle_status c; _actuator_armed := _actuator_armed
     c; _vehicle_control_mode := _vehicle_control_mode c;
     _vehicle_land_detected := _vehicle_land_detected c; _vehicle_status_flags
     := _vehicle_status_flags c; _commander_state := _commander_state c;
     _geofence_result := _geofence_result c; _mission_result := _mission_result
     c; _arm_state_machine := _arm_state_machine c; _health_and_arming_checks
     := _health_and_arming_checks c; _home_position := v; _worker_thread :=
     _worker_thread c; _safety := _safety c; _lockdown_triggered :=
     _lockdown_triggered c; _flight_termination_triggered :=
     _flight_termination_triggered c; _status_changed := _status_changed c;
     _is_throttle_above_center := _is_throttle_above_center c; _is_throttle_low
     := _is_throttle_low c; _was_armed := _was_armed c;
     _have_taken_off_since_arming := _have_taken_off_since_arming c;
     _imbalanced_propeller_check_triggered :=
     _imbalanced_propeller_check_triggered c; _last_disarmed_timestamp :=
     _last_disarmed_timestamp c; _boot_timestamp := _boot_timestamp c;
     _high_latency_datalink_heartbeat := _high_latency_datalink_heartbeat c;
     _param_com_home_en := _param_com_home_en c; _param_com_force_safety :=
     _param_com_force_safety c; _param_com_mot_test_en :=
     _param_com_mot_test_en c; _param_flight_uuid := _param_flight_uuid c;
     _failsafe_params := _failsafe_params c |}.

Definition set_worker_thread (v : WorkerThread) (c : Commander) : Commander :=
  {| _vehicle_status := _vehicle_status c; _actuator_armed := _actuator_armed
     c; _vehicle_control_mode := _vehicle_control_mode c;
     _vehicle_land_detected := _vehicle_land_detected c; _vehicle_status_flags
     := _vehicle_status_flags c; _commander_state := _commander_state c;
     _geofence_result := _geofence_result c; _mission_result := _mission_result
     c; _arm_state_machine := _arm_state_machine c; _health_and_arming_checks
     := _health_and_arming_checks c; _home_position := _home_position c;
     _worker_thread := v; _safety := _safety c; _lockdown_triggered :=
     _lockdown_triggered c; _flight_termination_triggered :=
     _flight_termination_triggered c; _status_changed := _status_changed c;
     _is_throttle_above_center := _is_throttle_above_center c; _is_throttle_low
     := _is_throttle_low c; _was_armed := _was_armed c;
     _have_taken_off_since_arming := _have_taken_off_since_arming c;
     _imbalanced_propeller_check_triggered :=
     _imbalanced_propeller_check_triggered c; _last_disarmed_timestamp :=
     _last_disarmed_timestamp c; _boot_timestamp := _boot_timestamp c;
     _high_latency_datalink_heartbeat := _high_latency_datalink_heartbeat c;
     _param_com_home_en := _param_com_home_en c; _param_com_force_safety :=
     _param_com_force_safety c; _param_com_mot_test_en :=
     _param_com_mot_test_en c; _param_flight_uuid := _param_flight_uuid c;
     _failsafe_params := _failsafe_params c |}.

Definition set_safety (v : Safety) (c : Commander) : Commander :=
  {| _vehicle_status := _vehicle_status c; _actuator_armed := _actuator_armed
     c; _vehicle_control_mode := _vehicle_control_mode c;
     _vehicle_land_detected := _vehicle_land_detected c; _vehicle_status_flags
     := _vehicle_status_flags c; _commander_state := _commander_state c;
     _geofence_result := _geofence_result c; _mission_result := _mission_result
     c; _arm_state_machine := _arm_state_machine c; _health_and_arming_checks
     := _health_and_arming_checks c; _home_position := _home_position c;
     _worker_thread := _worker_thread c; _safety := v; _lockdown_triggered :=
     _lockdown_triggered c; _flight_termination_triggered :=
     _flight_termination_triggered c; _status_changed := _status_changed c;
     _is_throttle_above_center := _is_throttle_above_center c; _is_throttle_low
     := _is_throttle_low c; _was_armed := _was_armed c;
     _have_taken_off_since_arming := _have_taken_off_since_arming c;
     _imbalanced_propeller_check_triggered :=
     _imbalanced_propeller_check_triggered c; _last_disarmed_timestamp :=
     _last_disarmed_timestamp c; _boot_timestamp := _boot_timestamp c;
     _high_latency_datalink_heartbeat := _high_latency_datalink_heartbeat c;
     _param_com_home_en := _param_com_home_en c; _param_com_force_safety :=
     _param_com_force_safety c; _param_com_mot_test_en :=
     _param_com_mot_test_en c; _param_flight_uuid := _param_flight_uuid c;
     _failsafe_params := _failsafe_params c |}.

Definition set_lockdown_triggered (v : bool) (c : Commander) : Commander :=
  {| _vehicle_status := _vehicle_status c; _actuator_armed := _actuator_armed
     c; _vehicle_control_mode := _vehicle_control_mode c;
     _vehicle_land_detected := _vehicle_land_detected c; _vehicle_status_flags
     := _vehicle_status_flags c; _commander_state := _commander_state c;
     _geofence_result := _geofence_result c; _mission_result := _mission_result
     c; _arm_state_machine := _arm_state_machine c; _health_and_arming_checks
     := _health_and_arming_checks c; _home_position := _home_position c;
     _worker_thread := _worker_thread c; _safety := _safety c;
     _lockdown_triggered := v; _flight_termination_triggered :=
     _flight_termination_triggered c; _status_changed := _status_changed c;
     _is_throttle_above_center := _is_throttle_above_center c; _is_throttle_low
     := _is_throttle_low c; _was_armed := _was_armed c;
     _have_taken_off_since_arming := _have_taken_off_since_arming c;
     _imbalanced_propeller_check_triggered :=
     _imbalanced_propeller_check_triggered c; _last_disarmed_timestamp :=
     _last_disarmed_timestamp c; _boot_timestamp := _boot_timestamp c;
     _high_latency_datalink_heartbeat := _high_latency_datalink_heartbeat c;
     _param_com_home_en := _param_com_home_en c; _param_com_force_safety :=
     _param_com_force_safety c; _param_com_mot_test_en :=
     _param_com_mot_test_en c; _param_flight_uuid := _param_flight_uuid c;
     _failsafe_params := _failsafe_params c |}.

Definition set_flight_termination_triggered (v : bool) (c : Commander) : Commander :=
  {| _vehicle_status := _vehicle_status c; _actuator_armed := _actuator_armed
     c; _vehicle_control_mode := _vehicle_control_mode c;
     _vehicle_land_detected := _vehicle_land_detected c; _vehicle_status_flags
     := _vehicle_status_flags c; _commander_state := _commander_state c;
     _geofence_result := _geofence_result c; _mission_result := _mission_result
     c; _arm_state_machine := _arm_state_machine c; _health_and_arming_checks
     := _health_and_arming_checks c; _home_position := _home_position c;
     _worker_thread := _worker_thread c; _safety := _safety c;
     _lockdown_triggered := _lockdown_triggered c;
     _flight_termination_triggered := v; _status_changed := _status_changed c;
     _is_throttle_above_center := _is_throttle_above_center c; _is_throttle_low
     := _is_throttle_low c; _was_armed := _was_armed c;
     _have_taken_off_since_arming := _have_taken_off_since_arming c;
     _imbalanced_propeller_check_triggered :=
     _imbalanced_propeller_check_triggered c; _last_disarmed_timestamp :=
     _last_disarmed_timestamp c; _boot_timestamp := _boot_timestamp c;
     _high_latency_datalink_heartbeat := _high_latency_datalink_heartbeat c;
     _param_com_home_en := _param_com_home_en c; _param_com_force_safety :=
     _param_com_force_safety c; _param_com_mot_test_en :=
     _param_com_mot_test_en c; _param_flight_uuid := _param_flight_uuid c;
     _failsafe_params := _failsafe_params c |}.

Definition set_status_changed (v : bool) (c : Commander) : Commander :=
  {| _vehicle_status := _vehicle_status c; _actuator_armed := _actuator_armed
     c; _vehicle_control_mode := _vehicle_control_mode c;
     _vehicle_land_detected := _vehicle_land_detected c; _vehicle_status_flags
     := _vehicle_status_flags c; _commander_state := _commander_state c;
     _geofence_result := _geofence_result c; _mission_result := _mission_result
     c; _arm_state_machine := _arm_state_machine c; _health_and_arming_checks
     := _health_and_arming_checks c; _home_position := _home_position c;
     _worker_thread := _worker_thread c; _safety := _safety c;
     _lockdown_triggered := _lockdown_triggered c;
     _flight_termination_triggered := _flight_termination_triggered c;
     _status_changed := v; _is_throttle_above_center :=
     _is_throttle_above_center c; _is_throttle_low := _is_throttle_low c;
     _was_armed := _was_armed c; _have_taken_off_since_arming :=
     _have_taken_off_since_arming c; _imbalanced_propeller_check_triggered :=
     _imbalanced_propeller_check_triggered c; _last_disarmed_timestamp :=
     _last_disarmed_timestamp c; _boot_timestamp := _boot_timestamp c;
     _high_latency_datalink_heartbeat := _high_latency_datalink_heartbeat c;
     _param_com_home_en := _param_com_home_en c; _param_com_force_safety :=
     _param_com_force_safety c; _param_com_mot_test_en :=
     _param_com_mot_test_en c; _param_flight_uuid := _param_flight_uuid c;
     _failsafe_params := _failsafe_params c |}.

Definition set_was_armed (v : bool) (c : Commander) : Commander :=
  {| _vehicle_status := _vehicle_status c; _actuator_armed := _actuator_armed
     c; _vehicle_control_mode := _vehicle_control_mode c;
     _vehicle_land_detected := _vehicle_land_detected c; _vehicle_status_flags
     := _vehicle_status_flags c; _commander_state := _commander_state c;
     _geofence_result := _geofence_result c; _mission_result := _mission_result
     c; _arm_state_machine := _arm_state_machine c; _health_and_arming_checks
     := _health_and_arming_checks c; _home_position := _home_position c;
     _worker_thread := _worker_thread c; _safety := _safety c;
     _lockdown_triggered := _lockdown_triggered c;
     _flight_termination_triggered := _flight_termination_triggered c;
     _status_changed := _status_changed c; _is_throttle_above_center :=
     _is_throttle_above_center c; _is_throttle_low := _is_throttle_low c;
     _was_armed := v; _have_taken_off_since_arming :=
     _have_taken_off_since_arming c; _imbalanced_propeller_check_triggered :=
     _imbalanced_propeller_check_triggered c; _last_disarmed_timestamp :=
     _last_disarmed_timestamp c; _boot_timestamp := _boot_timestamp c;
     _high_latency_datalink_heartbeat := _high_latency_datalink_heartbeat c;
     _param_com_home_en := _param_com_home_en c; _param_com_force_safety :=
     _param_com_force_safety c; _param_com_mot_test_en :=
     _param_com_mot_test_en c; _param_flight_uuid := _param_flight_uuid c;
     _failsafe_params := _failsafe_params c |}.

Definition set_have_taken_off_since_arming (v : bool) (c : Commander) : Commander :=
  {| _vehicle_status := _vehicle_status c; _actuator_armed := _actuator_armed
     c; _vehicle_control_mode := _vehicle_control_mode c;
     _vehicle_land_detected := _vehicle_land_detected c; _vehicle_status_flags
     := _vehicle_status_flags c; _commander_state := _commander_state c;
     _geofence_result := _geofence_result c; _mission_result := _mission_result
     c; _arm_state_machine := _arm_state_machine c; _health_and_arming_checks
     := _health_and_arming_checks c; _home_position := _home_position c;
     _worker_thread := _worker_thread c; _safety := _safety c;
     _lockdown_triggered := _lockdown_triggered c;
     _flight_termination_triggered := _flight_termination_triggered c;
     _status_changed := _status_changed c; _is_throttle_above_center :=
     _is_throttle_above_center c; _is_throttle_low := _is_throttle_low c;
     _was_armed := _was_armed c; _have_taken_off_since_arming := v;
     _imbalanced_propeller_check_triggered :=
     _imbalanced_propeller_check_triggered c; _last_disarmed_timestamp :=
     _last_disarmed_timestamp c; _boot_timestamp := _boot_timestamp c;
     _high_latency_datalink_heartbeat := _high_latency_datalink_heartbeat c;
     _param_com_home_en := _param_com_home_en c; _param_com_force_safety :=
     _param_com_force_safety c; _param_com_mot_test_en :=
     _param_com_mot_test_en c; _param_flight_uuid := _param_flight_uuid c;
     _failsafe_params := _failsafe_params c |}.

Definition set_imbalanced_propeller_check_triggered (v : bool) (c : Commander) : Commander :=
  {| _vehicle_status := _vehicle_status c; _actuator_armed := _actuator_armed
     c; _vehicle_control_mode := _vehicle_control_mode c;
     _vehicle_land_detected := _vehicle_land_detected c; _vehicle_status_flags
     := _vehicle_status_flags c; _commander_state := _commander_state c;
     _geofence_result := _geofence_result c; _mission_result := _mission_result
     c; _arm_state_machine := _arm_state_machine c; _health_and_arming_checks
     := _health_and_arming_checks c; _home_position := _home_position c;
     _worker_thread := _worker_thread c; _safety := _safety c;
     _lockdown_triggered := _lockdown_triggered c;
     _flight_termination_triggered := _flight_termination_triggered c;
     _status_changed := _status_changed c; _is_throttle_above_center :=
     _is_throttle_above_center c; _is_throttle_low := _is_throttle_low c;
     _was_armed := _was_armed c; _have_taken_off_since_arming :=
     _have_taken_off_since_arming c; _imbalanced_propeller_check_triggered :=
     v; _last_disarmed_timestamp := _last_disarmed_timestamp c; _boot_timestamp
     := _boot_timestamp c; _high_latency_datalink_heartbeat :=
     _high_latency_datalink_heartbeat c; _param_com_home_en :=
     _param_com_home_en c; _param_com_force_safety := _param_com_force_safety
     c; _param_com_mot_test_en := _param_com_mot_test_en c; _param_flight_uuid
     := _param_flight_uuid c; _failsafe_params := _failsafe_params c |}.

Definition set_last_disarmed_timestamp (v : hrt_abstime) (c : Commander) : Commander :=
  {| _vehicle_status := _vehicle_status c; _actuator_armed := _actuator_armed
     c; _vehicle_control_mode := _vehicle_control_mode c;
     _vehicle_land_detected := _vehicle_land_detected c; _vehicle_status_flags
     := _vehicle_status_flags c; _commander_state := _commander_state c;
     _geofence_result := _geofence_result c; _mission_result := _mission_result
     c; _arm_state_machine := _arm_state_machine c; _health_and_arming_checks
     := _health_and_arming_checks c; _home_position := _home_position c;
     _worker_thread := _worker_thread c; _safety := _safety c;
     _lockdown_triggered := _lockdown_triggered c;
     _flight_termination_triggered := _flight_termination_triggered c;
     _status_changed := _status_changed c; _is_throttle_above_center :=
     _is_throttle_above_center c; _is_throttle_low := _is_throttle_low c;
     _was_armed := _was_armed c; _have_taken_off_since_arming :=
     _have_taken_off_since_arming c; _imbalanced_propeller_check_triggered :=
     _imbalanced_propeller_check_triggered c; _last_disarmed_timestamp := v;
     _boot_timestamp := _boot_timestamp c; _high_latency_datalink_heartbeat :=
     _high_latency_datalink_heartbeat c; _param_com_home_en :=
     _param_com_home_en c; _param_com_force_safety := _param_com_force_safety
     c; _param_com_mot_test_en := _param_com_mot_test_en c; _param_flight_uuid
     := _param_flight_uuid c; _failsafe_params := _failsafe_params c |}.

Definition set_param_flight_uuid (v : Z) (c : Commander) : Commander :=
  {| _vehicle_status := _vehicle_status c; _actuator_armed := _actuator_armed
     c; _vehicle_control_mode := _vehicle_control_mode c;
     _vehicle_land_detected := _vehicle_land_detected c; _vehicle_status_flags
     := _vehicle_status_flags c; _commander_state := _commander_state c;
     _geofence_result := _geofence_result c; _mission_result := _mission_result
     c; _arm_state_machine := _arm_state_machine c; _health_and_arming_checks
     := _health_and_arming_checks c; _home_position := _home_position c;
     _worker_thread := _worker_thread c; _safety := _safety c;
     _lockdown_triggered := _lockdown_triggered c;
     _flight_termination_triggered := _flight_termination_triggered c;
     _status_changed := _status_changed c; _is_throttle_above_center :=
     _is_throttle_above_center c; _is_throttle_low := _is_throttle_low c;
     _was_armed := _was_armed c; _have_taken_off_since_arming :=
     _have_taken_off_since_arming c; _imbalanced_propeller_check_triggered :=
     _imbalanced_propeller_check_triggered c; _last_disarmed_timestamp :=
     _last_disarmed_timestamp c; _boot_timestamp := _boot_timestamp c;
     _high_latency_datalink_heartbeat := _high_latency_datalink_heartbeat c;
     _param_com_home_en := _param_com_home_en c; _param_com_force_safety :=
     _param_com_force_safety c; _param_com_mot_test_en :=
     _param_com_mot_test_en c; _param_flight_uuid := v; _failsafe_params :=
     _failsafe_params c |}.

Definition CM : Type -> Type := M Commander event.

(** [mavlink_log_*] followed by the [events::send] of the same message,
    or a [PX4_WARN], is one [log] entry named by its event id. *)
Definition log_event (id : string) : CM unit := emit (log id).

(** Default arguments are declared in Commander.hpp:
    [arm(reason, run_preflight_checks = true)] and
    [disarm(reason, forced = false)]. *)
Definition arm_default_run_preflight_checks : bool := true.
Definition disarm_default_forced : bool := false.

(** *** answer_command, send_parachute_command *)

Definition answer_command (cmd : vehicle_command_s) (result : cmd_result_t)
  : CM unit :=
  match result with
  | VEHICLE_CMD_RESULT_ACCEPTED => ret tt
  | VEHICLE_CMD_RESULT_DENIED => emit tune_negative
  | VEHICLE_CMD_RESULT_FAILED => emit tune_negative
  | VEHICLE_CMD_RESULT_TEMPORARILY_REJECTED => emit tune_negative
  | VEHICLE_CMD_RESULT_UNSUPPORTED => emit tune_negative
  end ;;
  (* publish ACK *)
  emit (command_ack (command cmd) result).

Definition send_parachute_command : CM unit := emit parachute_command.

(** *** Calls into the two state machines *)

Definition call_main_state_transition (new_main_state : main_state_t)
  : CM transition_result_t :=
  s <- get ;;
  let '(res, internal_state) :=
    main_state_transition (_vehicle_status s) new_main_state
      (_vehicle_status_flags s) (_commander_state s) in
  modify (set_commander_state internal_state) ;;
  ret res.

Definition call_arming_state_transition (new_arming_state : arming_state_t)
  (fRunPreArmChecks : bool) (calling_reason : arm_disarm_reason_t)
  : CM transition_result_t :=
  s <- get ;;
  let '(res, machine, status, armed_, checks) :=
    arming_state_transition (_arm_state_machine s) (_vehicle_status s)
      new_arming_state (_actuator_armed s) (_health_and_arming_checks s)
      fRunPreArmChecks calling_reason in
  modify (set_arm_state_machine machine) ;;
  modify (set_vehicle_status status) ;;
  modify (set_actuator_armed armed_) ;;
  modify (set_health_and_arming_checks checks) ;;
  ret res.

Definition shutdown_if_allowed : CM bool :=
  res <- call_arming_state_transition ARMING_STATE_SHUTDOWN false shutdown ;;
  ret (negb (is_denied res)).

(** *** Commander::arm *)

Definition commanded_by_rc (calling_reason : arm_disarm_reason_t) : bool :=
  is_rc_stick calling_reason || is_rc_switch calling_reason
  || is_rc_button calling_reason.

(** The grace period for re-arming: within 5 s of the last disarm a request
    by the RC switch does not need the preflight checks. *)
Definition arm_run_preflight_checks (now : hrt_abstime) (s : Commander)
  (calling_reason : arm_disarm_reason_t) (run_preflight_checks : bool)
  : bool :=
  if is_rc_switch calling_reason
     && (hrt_elapsed_time now (_last_disarmed_timestamp s) <? 5 * us_per_s)
  then false
  else run_preflight_checks.

(** The denial, if any, pronounced by [arm] itself before it asks the arm
    state machine: the id of the event it sends. *)
Definition arm_denial (s : Commander) (calling_reason : arm_disarm_reason_t)
  : option string :=
  let mode := _vehicle_control_mode s in
  let status := _vehicle_status s in
  let geofence_denial :=
    if (match geofence_action (_geofence_result s) with
        | GF_ACTION_RTL => true | _ => false end)
       && negb (home_position_valid (_vehicle_status_flags s))
    then Some "commander_arm_denied_geofence_rtl"%string
    else None in
  if flag_control_manual_enabled mode then
    if flag_control_climb_rate_enabled mode
       && negb (rc_signal_lost status) && _is_throttle_above_center s
    then Some "commander_arm_denied_throttle_center"%string
    else if negb (flag_control_climb_rate_enabled mode)
            && negb (rc_signal_lost status) && negb (_is_throttle_low s)
            && negb (is_rover_type (vehicle_type status))
    then Some "commander_arm_denied_throttle_high"%string
    else geofence_denial
  else if commanded_by_rc calling_reason
  then Some "commander_arm_denied_not_manual"%string
  else geofence_denial.

Definition arm (now : hrt_abstime) (calling_reason : arm_disarm_reason_t)
  (run_preflight_checks : bool) : CM transition_result_t :=
  s <- get ;;
  let run_preflight_checks :=
    arm_run_preflight_checks now s calling_reason run_preflight_checks in
  match
    (if run_preflight_checks && negb (isArmed (_arm_state_machine s))
     then arm_denial s calling_reason else None)
  with
  | Some id =>
      log_event id ;;
      emit tune_negative ;;
      ret TRANSITION_DENIED
  | None =>
      arming_res <-
        call_arming_state_transition ARMING_STATE_ARMED
          run_preflight_checks calling_reason ;;
      match arming_res with
      | TRANSITION_CHANGED =>
          log_event "commander_armed_by" ;;
          modify (set_status_changed true)
      | TRANSITION_DENIED => emit tune_negative
      | TRANSITION_NOT_CHANGED => ret tt
      end ;;
      ret arming_res
  end.

(** *** Commander::disarm *)

Definition landed_or_ground (s : Commander) : bool :=
  landed (_vehicle_land_detected s)
  || maybe_landed (_vehicle_land_detected s)
  || is_ground_vehicle (_vehicle_status s).

Definition mc_manual_thrust_mode (s : Commander) : bool :=
  is_rotary_wing_type (vehicle_type (_vehicle_status s))
  && flag_control_manual_enabled (_vehicle_control_mode s)
  && negb (flag_control_climb_rate_enabled (_vehicle_control_mode s)).

Definition disarm (calling_reason : arm_disarm_reason_t) (forced : bool)
  : CM transition_result_t :=
  s <- get ;;
  if negb forced
     && (negb (landed_or_ground s)
         && negb (mc_manual_thrust_mode s && commanded_by_rc calling_reason))
  then
    when (negb (is_rc_stick calling_reason))
         (log_event "commander_disarming_denied_not_landed") ;;
    ret TRANSITION_DENIED
  else
    arming_res <-
      call_arming_state_transition ARMING_STATE_STANDBY false
        calling_reason ;;
    match arming_res with
    | TRANSITION_CHANGED =>
        log_event "commander_disarmed_by" ;;
        s1 <- get ;;
        when (_param_com_force_safety s1)
             (modify (set_safety (activateSafety (_safety s1)))) ;;
        modify (set_status_changed true)
    | TRANSITION_DENIED => emit tune_negative
    | TRANSITION_NOT_CHANGED => ret tt
    end ;;
    ret arming_res.

(** *** Commander::handle_command, one definition for each case label

    Each case yields the value [cmd_result] has when the [switch] is left;
    it starts as [VEHICLE_CMD_RESULT_UNSUPPORTED]. *)

Definition accepted_unless_denied (res : transition_result_t)
  : cmd_result_t :=
  if is_denied res then VEHICLE_CMD_RESULT_TEMPORARILY_REJECTED
  else VEHICLE_CMD_RESULT_ACCEPTED.

Definition handle_do_reposition (cmd : vehicle_command_s)
  : CM cmd_result_t :=
  (* Check if a mode switch had been requested *)
  if 0 <? Z.land (cast_uint32 (param2 cmd)) 1 then
    main_ret <- call_main_state_transition MAIN_STATE_AUTO_LOITER ;;
    if negb (is_denied main_ret) then ret VEHICLE_CMD_RESULT_ACCEPTED
    else
      log_event "commander_reposition_rejected" ;;
      ret VEHICLE_CMD_RESULT_TEMPORARILY_REJECTED
  else ret VEHICLE_CMD_RESULT_ACCEPTED.

Definition has_flag (base_mode flag : Z) : bool :=
  negb (Z.land base_mode flag =? 0).

(** The decoding of DO_SET_MODE: the desired main state, the initial value
    of [main_ret], and whether "Unsupported auto mode" is reported. *)
Definition decode_set_mode (base_mode custom_main_mode custom_sub_mode : Z)
  : main_state_t * transition_result_t * bool :=
  if has_flag base_mode VEHICLE_MODE_FLAG_CUSTOM_MODE_ENABLED then
    (* use autopilot-specific mode *)
    if custom_main_mode =? PX4_CUSTOM_MAIN_MODE_MANUAL then
      (MAIN_STATE_MANUAL, TRANSITION_NOT_CHANGED, false)
    else if custom_main_mode =? PX4_CUSTOM_MAIN_MODE_ALTCTL then
      (MAIN_STATE_ALTCTL, TRANSITION_NOT_CHANGED, false)
    else if custom_main_mode =? PX4_CUSTOM_MAIN_MODE_POSCTL then
      (MAIN_STATE_POSCTL, TRANSITION_NOT_CHANGED, false)
    else if custom_main_mode =? PX4_CUSTOM_MAIN_MODE_AUTO then
      if 0 <? custom_sub_mode then
        if custom_sub_mode =? PX4_CUSTOM_SUB_MODE_AUTO_LOITER then
          (MAIN_STATE_AUTO_LOITER, TRANSITION_NOT_CHANGED, false)
        else if custom_sub_mode =? PX4_CUSTOM_SUB_MODE_AUTO_MISSION then
          (MAIN_STATE_AUTO_MISSION, TRANSITION_NOT_CHANGED, false)
        else if custom_sub_mode =? PX4_CUSTOM_SUB_MODE_AUTO_RTL then
          (MAIN_STATE_AUTO_RTL, TRANSITION_NOT_CHANGED, false)
        else if custom_sub_mode =? PX4_CUSTOM_SUB_MODE_AUTO_TAKEOFF then
          (MAIN_STATE_AUTO_TAKEOFF, TRANSITION_NOT_CHANGED, false)
        else if custom_sub_mode =? PX4_CUSTOM_SUB_MODE_AUTO_LAND then
          (MAIN_STATE_AUTO_LAND, TRANSITION_NOT_CHANGED, false)
        else if custom_sub_mode =? PX4_CUSTOM_SUB_MODE_AUTO_FOLLOW_TARGET
        then (MAIN_STATE_AUTO_FOLLOW_TARGET, TRANSITION_NOT_CHANGED, false)
        else if custom_sub_mode =? PX4_CUSTOM_SUB_MODE_AUTO_PRECLAND then
          (MAIN_STATE_AUTO_PRECLAND, TRANSITION_NOT_CHANGED, false)
        else (MAIN_STATE_MAX, TRANSITION_DENIED, true)
      else (MAIN_STATE_AUTO_MISSION, TRANSITION_NOT_CHANGED, false)
    else if custom_main_mode =? PX4_CUSTOM_MAIN_MODE_ACRO then
      (MAIN_STATE_ACRO, TRANSITION_NOT_CHANGED, false)
    else if custom_main_mode =? PX4_CUSTOM_MAIN_MODE_STABILIZED then
      (MAIN_STATE_STAB, TRANSITION_NOT_CHANGED, false)
    else if custom_main_mode =? PX4_CUSTOM_MAIN_MODE_OFFBOARD then
      (MAIN_STATE_OFFBOARD, TRANSITION_NOT_CHANGED, false)
    else (MAIN_STATE_MAX, TRANSITION_NOT_CHANGED, false)
  else
    (* use base mode *)
    if has_flag base_mode VEHICLE_MODE_FLAG_AUTO_ENABLED then
      (MAIN_STATE_AUTO_MISSION, TRANSITION_NOT_CHANGED, false)
    else if has_flag base_mode VEHICLE_MODE_FLAG_MANUAL_INPUT_ENABLED then
      if has_flag base_mode VEHICLE_MODE_FLAG_GUIDED_ENABLED then
        (MAIN_STATE_POSCTL, TRANSITION_NOT_CHANGED, false)
      else if has_flag base_mode VEHICLE_MODE_FLAG_STABILIZE_ENABLED then
        (MAIN_STATE_STAB, TRANSITION_NOT_CHANGED, false)
      else (MAIN_STATE_MANUAL, TRANSITION_NOT_CHANGED, false)
    else (MAIN_STATE_MAX, TRANSITION_NOT_CHANGED, false).

Definition handle_do_set_mode (cmd : vehicle_command_s) : CM cmd_result_t :=
  let base_mode := cast_uint8 (param1 cmd) in
  let custom_main_mode := cast_uint8 (param2 cmd) in
  let custom_sub_mode := cast_uint8 (param3 cmd) in
  let '(desired_main_state, main_ret0, unsupported_auto_mode) :=
    decode_set_mode base_mode custom_main_mode custom_sub_mode in
  when unsupported_auto_mode
       (log_event "commander_unsupported_auto_mode") ;;
  main_ret <-
    (if negb (is_main_state_max desired_main_state)
     then call_main_state_transition desired_main_state
     else ret main_ret0) ;;
  ret (accepted_unless_denied main_ret).

(** [arming_action], [forced] and [cmd_from_io] of an ARM_DISARM command. *)
Definition arming_action_of (cmd : vehicle_command_s) : Z :=
  wrap_signed 8 (lroundf (param1 cmd)).

Definition forced_of (cmd : vehicle_command_s) : bool :=
  wrap_signed 32 (lroundf (param2 cmd)) =? 21196.

Definition cmd_from_io_of (cmd : vehicle_command_s) : bool :=
  cast_int (roundf (param3 cmd)) =? 1234.

Definition arm_disarm_reason_of (cmd : vehicle_command_s)
  : arm_disarm_reason_t :=
  if from_external cmd then command_external else command_internal.

Definition handle_component_arm_disarm (now : hrt_abstime)
  (cmd : vehicle_command_s) : CM cmd_result_t :=
  let arming_action := arming_action_of cmd in
  if negb (arming_action =? ARMING_ACTION_ARM)
     && negb (arming_action =? ARMING_ACTION_DISARM)
  then
    log_event "commander_unsupported_arm_disarm_param" ;;
    ret VEHICLE_CMD_RESULT_UNSUPPORTED
  else
    (* Arm is forced (checks skipped) when param2 is set to a magic
       number. *)
    let forced := forced_of cmd in
    let cmd_from_io := cmd_from_io_of cmd in
    s <- get ;;
    (* Flick to in-air restore first if this comes from an onboard system
       and from IO *)
    when (negb forced && cmd_from_io
          && (source_system cmd =? system_id (_vehicle_status s))
          && (source_component cmd =? component_id (_vehicle_status s))
          && (arming_action =? ARMING_ACTION_ARM))
         (modify (set_arm_state_machine
                    (forceArmState ARMING_STATE_IN_AIR_RESTORE
                       (_arm_state_machine s)))) ;;
    let arm_disarm_reason := arm_disarm_reason_of cmd in
    arming_res <-
      (if arming_action =? ARMING_ACTION_ARM
       then arm now arm_disarm_reason (from_external cmd || negb forced)
       else if arming_action =? ARMING_ACTION_DISARM
       then disarm arm_disarm_reason forced
       else ret TRANSITION_DENIED) ;;
    if is_denied arming_res
    then ret VEHICLE_CMD_RESULT_TEMPORARILY_REJECTED
    else
      (* update home position on arming if at least 500 ms from commander
         start spent to avoid setting home on in-air restart *)
      s1 <- get ;;
      when ((arming_action =? ARMING_ACTION_ARM) && is_changed arming_res
            && (_boot_timestamp s1 + INAIR_RESTART_HOLDOFF_INTERVAL <? now)
            && _param_com_home_en s1)
           ((* setHomePosition(): the argument defaults to false *)
            modify (set_home_position
                      (snd (setHomePosition false (_home_position s1))))) ;;
      ret VEHICLE_CMD_RESULT_ACCEPTED.

Definition handle_do_flighttermination (cmd : vehicle_command_s)
  : CM cmd_result_t :=
  s <- get ;;
  (if fgt (param1 cmd) (3 # 2) then
     (* Test termination command triggers lockdown but not actual
        termination. *)
     when (negb (_lockdown_triggered s))
          (modify (fun c =>
                     set_actuator_armed
                       (set_lockdown true (_actuator_armed c)) c) ;;
           modify (set_lockdown_triggered true) ;;
           log_event "forcing lockdown (motors off)")
   else if fgt (param1 cmd) (1 # 2) then
     (* Trigger real termination. *)
     when (negb (_flight_termination_triggered s))
          (modify (fun c =>
                     set_actuator_armed
                       (set_force_failsafe true (_actuator_armed c)) c) ;;
           modify (set_flight_termination_triggered true) ;;
           log_event "forcing failsafe (termination)" ;;
           send_parachute_command)
   else
     modify (fun c =>
               set_actuator_armed
                 (set_force_failsafe false (_actuator_armed c)) c) ;;
     modify (fun c =>
               set_actuator_armed
                 (set_lockdown false (_actuator_armed c)) c) ;;
     modify (set_lockdown_triggered false) ;;
     modify (set_flight_termination_triggered false) ;;
     log_event "disabling failsafe and lockdown") ;;
  ret VEHICLE_CMD_RESULT_ACCEPTED.

Definition handle_do_set_home (cmd : vehicle_command_s) : CM cmd_result_t :=
  s <- get ;;
  if _param_com_home_en s then
    let use_current := fgt (param1 cmd) (1 # 2) in
    if use_current then
      (* use current position *)
      let '(ok, home) := setHomePosition true (_home_position s) in
      modify (set_home_position home) ;;
      ret (if ok then VEHICLE_CMD_RESULT_ACCEPTED
           else VEHICLE_CMD_RESULT_TEMPORARILY_REJECTED)
    else
      let yaw0 := wrap_2pi (radians (param4 cmd)) in
      let yaw := if PX4_ISFINITE yaw0 then yaw0 else NaN in
      let lat := param5 cmd in
      let lon := param6 cmd in
      let alt := param7 cmd in
      if PX4_ISFINITE lat && PX4_ISFINITE lon && PX4_ISFINITE alt then
        let '(ok, home) := setManually lat lon alt yaw (_home_position s) in
        modify (set_home_position home) ;;
        ret (if ok then VEHICLE_CMD_RESULT_ACCEPTED
             else VEHICLE_CMD_RESULT_TEMPORARILY_REJECTED)
      else ret VEHICLE_CMD_RESULT_DENIED
  else
    (* COM_HOME_EN disabled *)
    ret VEHICLE_CMD_RESULT_DENIED.

Definition handle_nav_return_to_launch : CM cmd_result_t :=
  (* switch to RTL which ends the mission *)
  res <- call_main_state_transition MAIN_STATE_AUTO_RTL ;;
  if is_changed res then
    log_event "commander_rtl" ;;
    ret VEHICLE_CMD_RESULT_ACCEPTED
  else
    log_event "commander_rtl_denied" ;;
    ret VEHICLE_CMD_RESULT_TEMPORARILY_REJECTED.

Definition handle_nav_takeoff : CM cmd_result_t :=
  res <- call_main_state_transition MAIN_STATE_AUTO_TAKEOFF ;;
  s <- get ;;
  if is_changed res then ret VEHICLE_CMD_RESULT_ACCEPTED
  else if (match main_state (_commander_state s) with
           | MAIN_STATE_AUTO_TAKEOFF => true | _ => false end)
  then ret VEHICLE_CMD_RESULT_ACCEPTED
  else
    log_event "commander_takeoff_denied" ;;
    ret VEHICLE_CMD_RESULT_TEMPORARILY_REJECTED.

Definition handle_nav_vtol_takeoff : CM cmd_result_t :=
  res <- call_main_state_transition MAIN_STATE_AUTO_VTOL_TAKEOFF ;;
  s <- get ;;
  if is_changed res then ret VEHICLE_CMD_RESULT_ACCEPTED
  else if (match main_state (_commander_state s) with
           | MAIN_STATE_AUTO_VTOL_TAKEOFF => true | _ => false end)
  then ret VEHICLE_CMD_RESULT_ACCEPTED
  else
    log_event "VTOL Takeoff denied! Please disarm and retry" ;;
    ret VEHICLE_CMD_RESULT_TEMPORARILY_REJECTED.

Definition handle_nav_land : CM cmd_result_t :=
  res <- call_main_state_transition MAIN_STATE_AUTO_LAND ;;
  if negb (is_denied res) then
    log_event "commander_landing_current_pos" ;;
    ret VEHICLE_CMD_RESULT_ACCEPTED
  else
    log_event "commander_landing_current_pos_denied" ;;
    ret VEHICLE_CMD_RESULT_TEMPORARILY_REJECTED.

Definition handle_nav_precland : CM cmd_result_t :=
  res <- call_main_state_transition MAIN_STATE_AUTO_PRECLAND ;;
  if negb (is_denied res) then
    log_event "commander_landing_prec_land" ;;
    ret VEHICLE_CMD_RESULT_ACCEPTED
  else
    log_event "commander_landing_prec_land_denied" ;;
    ret VEHICLE_CMD_RESULT_TEMPORARILY_REJECTED.

Definition handle_mission_start (now : hrt_abstime)
  (cmd : vehicle_command_s) : CM cmd_result_t :=
  s <- get ;;
  (* check if current mission and first item are valid *)
  if auto_mission_available (_vehicle_status s) then
    (* requested first mission item valid *)
    if PX4_ISFINITE (param1 cmd) && fge (param1 cmd) (-1 # 1)
       && flt (param1 cmd) (inject_Z (seq_total (_mission_result s)))
    then
      (* switch to AUTO_MISSION and ARM *)
      main_ret <- call_main_state_transition MAIN_STATE_AUTO_MISSION ;;
      ok <-
        (if negb (is_denied main_ret) then
           arming_res <-
             arm now mission_start arm_default_run_preflight_checks ;;
           ret (negb (is_denied arming_res))
         else ret false) ;;
      if (ok : bool) then ret VEHICLE_CMD_RESULT_ACCEPTED
      else
        log_event "commander_mission_start_denied" ;;
        ret VEHICLE_CMD_RESULT_TEMPORARILY_REJECTED
    else ret VEHICLE_CMD_RESULT_DENIED
  else
    log_event "commander_mission_start_denied_no_mission" ;;
    ret VEHICLE_CMD_RESULT_DENIED.

Definition handle_control_high_latency : CM cmd_result_t :=
  s <- get ;;
  (* if no high latency telemetry exists send a failed acknowledge *)
  if _boot_timestamp s <? _high_latency_datalink_heartbeat s then
    log_event "commander_ctrl_high_latency_failed" ;;
    ret VEHICLE_CMD_RESULT_FAILED
  else ret VEHICLE_CMD_RESULT_UNSUPPORTED.

Definition handle_do_orbit : CM cmd_result_t :=
  s <- get ;;
  main_ret <-
    (if in_transition_mode (_vehicle_status s) then ret TRANSITION_DENIED
     else if is_fixed_wing_type (vehicle_type (_vehicle_status s)) then
       (* for fixed wings the behavior of orbit is the same as loiter *)
       call_main_state_transition MAIN_STATE_AUTO_LOITER
     else
       (* Switch to orbit state and let the orbit task handle the command
          further *)
       call_main_state_transition MAIN_STATE_ORBIT) ;;
  if negb (is_denied main_ret) then ret VEHICLE_CMD_RESULT_ACCEPTED
  else
    log_event "Orbit command rejected" ;;
    ret VEHICLE_CMD_RESULT_TEMPORARILY_REJECTED.

(** *** Commander::handle_command_actuator_test

    The function is computed in [actuator_test.function] itself, a uint16
    of actuator_test.msg: the [int] assigned to it is reduced modulo 2^16
    before the first comparison, and so is every later assignment.
    [actuator_test.timeout_ms] is a uint32. *)

Definition handle_command_actuator_test (now : hrt_abstime)
  (cmd : vehicle_command_s) : CM cmd_result_t :=
  s <- get ;;
  if isArmed (_arm_state_machine s)
     || (isButtonAvailable (_safety s) && negb (isSafetyOff (_safety s)))
  then ret VEHICLE_CMD_RESULT_DENIED
  else if negb (_param_com_mot_test_en s =? 1)
  then ret VEHICLE_CMD_RESULT_DENIED
  else
    let function0 :=
      wrap_unsigned 16 (cast_int (fadd (param5 cmd) (Fin (1 # 2)))) in
    let first_motor_function := 1 in
    let first_servo_function := 33 in
    let function1 : option Z :=
      if function0 <? 1000 then
        if (first_motor_function <=? function0)
           && (function0 <? first_motor_function + MAX_NUM_MOTORS)
        then Some (wrap_unsigned 16
                     (function0 - first_motor_function + FUNCTION_MOTOR1))
        else if (first_servo_function <=? function0)
                && (function0 <? first_servo_function + MAX_NUM_SERVOS)
        then Some (wrap_unsigned 16
                     (function0 - first_servo_function + FUNCTION_SERVO1))
        else None
      else Some (wrap_unsigned 16 (function0 - 1000)) in
    match function1 with
    | None => ret VEHICLE_CMD_RESULT_UNSUPPORTED
    | Some function_ =>
        let timeout_ms :=
          cast_int (fadd (fmul (param2 cmd) (Fin (1000 # 1)))
                         (Fin (1 # 2))) in
        let action_ :=
          if timeout_ms <=? 0 then ACTION_RELEASE_CONTROL
          else ACTION_DO_CONTROL in
        let timeout0 :=
          if timeout_ms <=? 0 then 0 else wrap_unsigned 32 timeout_ms in
        (* enforce a timeout and a maximum limit *)
        let timeout1 :=
          if (timeout0 =? 0) || (3000 <? timeout0) then 3000
          else timeout0 in
        emit (actuator_test
                {| at_timestamp := now; at_function := function_;
                   at_value := param1 cmd; at_action := action_;
                   at_timeout_ms := timeout1 |}) ;;
        ret VEHICLE_CMD_RESULT_ACCEPTED
    end.

(** How the [switch] of [handle_command] is left: by [break], with the
    value of [cmd_result]; or never, when a reboot or shutdown request was
    accepted and the task spins in [while (1)]. *)
Inductive switch_exit : Type :=
| leaves_switch (cmd_result : cmd_result_t)
| spins_forever.

Definition leaving (c : CM cmd_result_t) : CM switch_exit :=
  r <- c ;; ret (leaves_switch r).

(** One [else if ((param1 == n) && shutdown_if_allowed() && request == 0)]
    arm; [enabled] is the preprocessor condition around it. *)
Definition reboot_arm (enabled : bool) (param1_ n : Z) (request : Z)
  : CM bool :=
  if enabled && (param1_ =? n) then
    allowed <- shutdown_if_allowed ;;
    ret (allowed && (request =? 0))
  else ret false.

Definition handle_preflight_reboot_shutdown (now : hrt_abstime)
  (cmd : vehicle_command_s) : CM switch_exit :=
  let param1_ := cast_int (param1 cmd) in
  let accept_and_spin :=
    answer_command cmd VEHICLE_CMD_RESULT_ACCEPTED ;; ret spins_forever in
  if param1_ =? 0 then
    (* 0: Do nothing for autopilot *)
    answer_command cmd VEHICLE_CMD_RESULT_ACCEPTED ;;
    ret (leaves_switch VEHICLE_CMD_RESULT_UNSUPPORTED)
  else
    (* 1: Reboot autopilot *)
    r1 <- reboot_arm CONFIG_BOARDCTL_RESET param1_ 1
            (px4_reboot_request false now) ;;
    if (r1 : bool) then accept_and_spin
    else
      (* 2: Shutdown autopilot *)
      r2 <- reboot_arm BOARD_HAS_POWER_CONTROL param1_ 2
              (px4_shutdown_request now) ;;
      if (r2 : bool) then accept_and_spin
      else
        (* 3: Reboot autopilot and keep it in the bootloader until
           upgraded. *)
        r3 <- reboot_arm CONFIG_BOARDCTL_RESET param1_ 3
                (px4_reboot_request true now) ;;
        if (r3 : bool) then accept_and_spin
        else
          answer_command cmd VEHICLE_CMD_RESULT_DENIED ;;
          ret (leaves_switch VEHICLE_CMD_RESULT_UNSUPPORTED).

Definition start_calibration (cmd : vehicle_command_s)
  (task : worker_request) : CM unit :=
  answer_command cmd VEHICLE_CMD_RESULT_ACCEPTED ;;
  modify (fun c =>
            set_vehicle_status_flags
              (set_calibration_enabled true (_vehicle_status_flags c)) c) ;;
  modify (fun c => set_worker_thread (startTask task (_worker_thread c)) c).

Definition busy_or_armed (s : Commander) : bool :=
  isArmed (_arm_state_machine s) || isShutdown (_arm_state_machine s)
  || isBusy (_worker_thread s).

Definition handle_preflight_calibration (now : hrt_abstime)
  (cmd : vehicle_command_s) : CM cmd_result_t :=
  s <- get ;;
  (if busy_or_armed s then
     (* reject if armed or shutting down *)
     answer_command cmd VEHICLE_CMD_RESULT_TEMPORARILY_REJECTED
   else
     (* try to go to INIT/PREFLIGHT arming state *)
     res <- call_arming_state_transition ARMING_STATE_INIT false
              (arm_disarm_reason_of cmd) ;;
     if is_denied res then answer_command cmd VEHICLE_CMD_RESULT_DENIED
     else if cast_int (param1 cmd) =? 1 then
       (* gyro calibration *)
       start_calibration cmd GyroCalibration
     else if (cast_int (param1 cmd)
                =? PREFLIGHT_CALIBRATION_TEMPERATURE_CALIBRATION)
             || (cast_int (param5 cmd)
                   =? PREFLIGHT_CALIBRATION_TEMPERATURE_CALIBRATION)
             || (cast_int (param7 cmd)
                   =? PREFLIGHT_CALIBRATION_TEMPERATURE_CALIBRATION)
     then
       (* temperature calibration: handled in events module *)
       ret tt
     else if cast_int (param2 cmd) =? 1 then
       (* magnetometer calibration *)
       start_calibration cmd MagCalibration
     else if cast_int (param3 cmd) =? 1 then
       (* baro calibration *)
       start_calibration cmd BaroCalibration
     else if cast_int (param4 cmd) =? 1 then
       (* RC calibration *)
       answer_command cmd VEHICLE_CMD_RESULT_ACCEPTED ;;
       (* disable RC control input completely *)
       modify (fun c =>
                 set_vehicle_status_flags
                   (set_rc_calibration_in_progress true
                      (_vehicle_status_flags c)) c) ;;
       log_event "commander_calib_rc_off"
     else if cast_int (param4 cmd) =? 2 then
       (* RC trim calibration *)
       start_calibration cmd RCTrimCalibration
     else if cast_int (param5 cmd) =? 1 then
       (* accelerometer calibration *)
       start_calibration cmd AccelCalibration
     else if cast_int (param5 cmd) =? 2 then
       (* board offset calibration *)
       start_calibration cmd LevelCalibration
     else if cast_int (param5 cmd) =? 4 then
       (* accelerometer quick calibration *)
       start_calibration cmd AccelCalibrationQuick
     else if (cast_int (param6 cmd) =? 1) || (cast_int (param6 cmd) =? 2)
     then
       (* airspeed calibration *)
       start_calibration cmd AirspeedCalibration
     else if cast_int (param7 cmd) =? 1 then
       (* do esc calibration *)
       if check_battery_disconnected now then
         answer_command cmd VEHICLE_CMD_RESULT_ACCEPTED ;;
         s1 <- get ;;
         if isButtonAvailable (_safety s1) && negb (isSafetyOff (_safety s1))
         then log_event "commander_esc_calibration_denied"
         else
           modify (fun c =>
                     set_vehicle_status_flags
                       (set_calibration_enabled true
                          (_vehicle_status_flags c)) c) ;;
           modify (fun c =>
                     set_actuator_armed
                       (set_in_esc_calibration_mode true
                          (_actuator_armed c)) c) ;;
           modify (fun c =>
                     set_worker_thread
                       (startTask ESCCalibration (_worker_thread c)) c)
       else answer_command cmd VEHICLE_CMD_RESULT_DENIED
     else if cast_int (param4 cmd) =? 0 then
       (* RC calibration ended - have we been in one worth confirming? *)
       s1 <- get ;;
       when (rc_calibration_in_progress (_vehicle_status_flags s1))
            ((* enable RC control input *)
             modify (fun c =>
                       set_vehicle_status_flags
                         (set_rc_calibration_in_progress false
                            (_vehicle_status_flags c)) c) ;;
             log_event "commander_calib_rc_on") ;;
       answer_command cmd VEHICLE_CMD_RESULT_ACCEPTED
     else answer_command cmd VEHICLE_CMD_RESULT_UNSUPPORTED) ;;
  ret VEHICLE_CMD_RESULT_UNSUPPORTED.

Definition handle_fixed_mag_cal_yaw (cmd : vehicle_command_s)
  : CM cmd_result_t :=
  s <- get ;;
  (* Magnetometer quick calibration using world magnetic model and known
     heading *)
  (if busy_or_armed s then
     (* reject if armed or shutting down *)
     answer_command cmd VEHICLE_CMD_RESULT_TEMPORARILY_REJECTED
   else
     answer_command cmd VEHICLE_CMD_RESULT_ACCEPTED ;;
     (* assume vehicle pointing north (0 degrees) if heading isn't
        specified *)
     let heading_radians :=
       if PX4_ISFINITE (param1 cmd) then radians (roundf (param1 cmd))
       else Fin 0 in
     let valid_lat_lon :=
       PX4_ISFINITE (param3 cmd) && PX4_ISFINITE (param4 cmd)
       (* invalid if both lat & lon are 0 (current mavlink spec) *)
       && fgt (fabsf (param3 cmd)) 0 && fgt (fabsf (param4 cmd)) 0 in
     let latitude := if valid_lat_lon then param3 cmd else NaN in
     let longitude := if valid_lat_lon then param4 cmd else NaN in
     modify (fun c =>
               set_vehicle_status_flags
                 (set_calibration_enabled true (_vehicle_status_flags c))
                 c) ;;
     modify (fun c =>
               set_worker_thread
                 (setMagQuickData heading_radians latitude longitude
                    (_worker_thread c)) c) ;;
     modify (fun c =>
               set_worker_thread
                 (startTask MagCalibrationQuick (_worker_thread c)) c)) ;;
  ret VEHICLE_CMD_RESULT_UNSUPPORTED.

Definition start_storage_task (cmd : vehicle_command_s)
  (task : worker_request) : CM unit :=
  answer_command cmd VEHICLE_CMD_RESULT_ACCEPTED ;;
  modify (fun c => set_worker_thread (startTask task (_worker_thread c)) c).

Definition handle_preflight_storage (cmd : vehicle_command_s)
  : CM cmd_result_t :=
  s <- get ;;
  (if busy_or_armed s then
     (* reject if armed or shutting down *)
     answer_command cmd VEHICLE_CMD_RESULT_TEMPORARILY_REJECTED
   else if cast_int (param1 cmd) =? 0 then
     start_storage_task cmd ParamLoadDefault
   else if cast_int (param1 cmd) =? 1 then
     start_storage_task cmd ParamSaveDefault
   else if cast_int (param1 cmd) =? 2 then
     start_storage_task cmd ParamResetAllConfig
   else if cast_int (param1 cmd) =? 3 then
     start_storage_task cmd ParamResetSensorFactory
   else if cast_int (param1 cmd) =? 4 then
     start_storage_task cmd ParamResetAll
   else ret tt) ;;
  ret VEHICLE_CMD_RESULT_UNSUPPORTED.

Definition handle_run_prearm_checks (cmd : vehicle_command_s)
  : CM cmd_result_t :=
  modify (fun c =>
            set_health_and_arming_checks
              (checks_update true (_health_and_arming_checks c)) c) ;;
  answer_command cmd VEHICLE_CMD_RESULT_ACCEPTED ;;
  ret VEHICLE_CMD_RESULT_UNSUPPORTED.

(** The case labels that share the comment "ignore commands that are
    handled by other parts of the system". *)
Definition handled_by_other_parts (c : vehicle_cmd) : bool :=
  match c with
  | VEHICLE_CMD_START_RX_PAIR
  | VEHICLE_CMD_CUSTOM_0
  | VEHICLE_CMD_CUSTOM_1
  | VEHICLE_CMD_CUSTOM_2
  | VEHICLE_CMD_DO_MOUNT_CONTROL
  | VEHICLE_CMD_DO_MOUNT_CONFIGURE
  | VEHICLE_CMD_DO_MOUNT_CONTROL_QUAT
  | VEHICLE_CMD_PREFLIGHT_SET_SENSOR_OFFSETS
  | VEHICLE_CMD_PREFLIGHT_UAVCAN
  | VEHICLE_CMD_PAYLOAD_PREPARE_DEPLOY
  | VEHICLE_CMD_PAYLOAD_CONTROL_DEPLOY
  | VEHICLE_CMD_DO_VTOL_TRANSITION
  | VEHICLE_CMD_DO_TRIGGER_CONTROL
  | VEHICLE_CMD_DO_DIGICAM_CONTROL
  | VEHICLE_CMD_DO_SET_CAM_TRIGG_DIST
  | VEHICLE_CMD_OBLIQUE_SURVEY
  | VEHICLE_CMD_DO_SET_CAM_TRIGG_INTERVAL
  | VEHICLE_CMD_SET_CAMERA_MODE
  | VEHICLE_CMD_SET_CAMERA_ZOOM
  | VEHICLE_CMD_SET_CAMERA_FOCUS
  | VEHICLE_CMD_DO_CHANGE_SPEED
  | VEHICLE_CMD_DO_LAND_START
  | VEHICLE_CMD_DO_GO_AROUND
  | VEHICLE_CMD_LOGGING_START
  | VEHICLE_CMD_LOGGING_STOP
  | VEHICLE_CMD_NAV_DELAY
  | VEHICLE_CMD_DO_SET_ROI
  | VEHICLE_CMD_NAV_ROI
  | VEHICLE_CMD_DO_SET_ROI_LOCATION
  | VEHICLE_CMD_DO_SET_ROI_WPNEXT_OFFSET
  | VEHICLE_CMD_DO_SET_ROI_NONE
  | VEHICLE_CMD_INJECT_FAILURE
  | VEHICLE_CMD_SET_GPS_GLOBAL_ORIGIN
  | VEHICLE_CMD_DO_GIMBAL_MANAGER_PITCHYAW
  | VEHICLE_CMD_DO_GIMBAL_MANAGER_CONFIGURE
  | VEHICLE_CMD_CONFIGURE_ACTUATOR
  | VEHICLE_CMD_DO_SET_ACTUATOR
  | VEHICLE_CMD_REQUEST_MESSAGE
  | VEHICLE_CMD_DO_WINCH
  | VEHICLE_CMD_DO_GRIPPER => true
  | _ => false
  end.


(** only handle commands that are meant to be handled by this system and
    component, or broadcast *)
Definition not_for_us (s : Commander) (cmd : vehicle_command_s) : bool :=
  (negb (target_system cmd =? system_id (_vehicle_status s))
   && negb (target_system cmd =? 0))
  || (negb (target_component cmd =? component_id (_vehicle_status s))
      && negb (target_component cmd =? 0)).

Definition handle_command_switch (now : hrt_abstime)
  (cmd : vehicle_command_s) : CM switch_exit :=
  match command cmd with
  | VEHICLE_CMD_DO_REPOSITION => leaving (handle_do_reposition cmd)
  | VEHICLE_CMD_DO_SET_MODE => leaving (handle_do_set_mode cmd)
  | VEHICLE_CMD_COMPONENT_ARM_DISARM =>
      leaving (handle_component_arm_disarm now cmd)
  | VEHICLE_CMD_DO_FLIGHTTERMINATION =>
      leaving (handle_do_flighttermination cmd)
  | VEHICLE_CMD_DO_SET_HOME => leaving (handle_do_set_home cmd)
  | VEHICLE_CMD_NAV_RETURN_TO_LAUNCH => leaving handle_nav_return_to_launch
  | VEHICLE_CMD_NAV_TAKEOFF => leaving handle_nav_takeoff
  | VEHICLE_CMD_NAV_VTOL_TAKEOFF => leaving handle_nav_vtol_takeoff
  | VEHICLE_CMD_NAV_LAND => leaving handle_nav_land
  | VEHICLE_CMD_NAV_PRECLAND => leaving handle_nav_precland
  | VEHICLE_CMD_MISSION_START => leaving (handle_mission_start now cmd)
  | VEHICLE_CMD_CONTROL_HIGH_LATENCY => leaving handle_control_high_latency
  | VEHICLE_CMD_DO_ORBIT => leaving handle_do_orbit
  | VEHICLE_CMD_ACTUATOR_TEST =>
      leaving (handle_command_actuator_test now cmd)
  | VEHICLE_CMD_PREFLIGHT_REBOOT_SHUTDOWN =>
      handle_preflight_reboot_shutdown now cmd
  | VEHICLE_CMD_PREFLIGHT_CALIBRATION =>
      leaving (handle_preflight_calibration now cmd)
  | VEHICLE_CMD_FIXED_MAG_CAL_YAW => leaving (handle_fixed_mag_cal_yaw cmd)
  | VEHICLE_CMD_PREFLIGHT_STORAGE => leaving (handle_preflight_storage cmd)
  | VEHICLE_CMD_RUN_PREARM_CHECKS => leaving (handle_run_prearm_checks cmd)
  | VEHICLE_CMD_DO_PARACHUTE | VEHICLE_CMD_other _ =>
      (* default: Warn about unsupported commands, this makes sense because
         only commands to this component ID (or all) are passed by
         mavlink. *)
      answer_command cmd VEHICLE_CMD_RESULT_UNSUPPORTED ;;
      ret (leaves_switch VEHICLE_CMD_RESULT_UNSUPPORTED)
  | _ =>
      (* ignore commands that are handled by other parts of the system *)
      ret (leaves_switch VEHICLE_CMD_RESULT_UNSUPPORTED)
  end.

(** What a call of [handle_command] amounts to for its caller. *)
Inductive handle_result : Type :=
| returns (handled : bool)
| never_returns.

Definition handle_command (now : hrt_abstime) (cmd : vehicle_command_s)
  : CM handle_result :=
  s <- get ;;
  if not_for_us s cmd then ret (returns false)
  else
    exit <- handle_command_switch now cmd ;;
    match exit with
    | spins_forever => ret never_returns
    | leaves_switch cmd_result =>
        when (negb (is_unsupported cmd_result))
             ((* already warned about unsupported commands in "default"
                 case *)
              answer_command cmd cmd_result) ;;
        ret (returns true)
    end.

(** *** Commander::executeActionRequest *)

Definition reason_of_source (src : action_source_t) : arm_disarm_reason_t :=
  match src with
  | SOURCE_RC_STICK_GESTURE => rc_stick
  | SOURCE_RC_SWITCH => rc_switch
  | SOURCE_RC_BUTTON => rc_button
  | _ => transition_to_standby
  end.

Definition is_rc_source (src : action_source_t) : bool :=
  match src with
  | SOURCE_RC_STICK_GESTURE | SOURCE_RC_SWITCH | SOURCE_RC_BUTTON
  | SOURCE_RC_MODE_SLOT => true
  | SOURCE_other _ => false
  end.

Definition executeActionRequest (now : hrt_abstime)
  (action_request : action_request_s) : CM unit :=
  s <- get ;;
  (* Silently ignore RC actions during RC calibration *)
  if rc_calibration_in_progress (_vehicle_status_flags s)
     && is_rc_source (source action_request)
  then ret tt
  else
    let arm_disarm_reason := reason_of_source (source action_request) in
    match action action_request with
    | ACTION_DISARM =>
        _ <- disarm arm_disarm_reason disarm_default_forced ;; ret tt
    | ACTION_ARM =>
        _ <- arm now arm_disarm_reason arm_default_run_preflight_checks ;;
        ret tt
    | ACTION_TOGGLE_ARMING =>
        if isArmed (_arm_state_machine s) then
          _ <- disarm arm_disarm_reason disarm_default_forced ;; ret tt
        else
          _ <- arm now arm_disarm_reason arm_default_run_preflight_checks ;;
          ret tt
    | ACTION_UNKILL =>
        when (is_rc_switch arm_disarm_reason
              && manual_lockdown (_actuator_armed s))
             (log_event "commander_kill_sw_disengaged" ;;
              modify (set_status_changed true) ;;
              modify (fun c =>
                        set_actuator_armed
                          (set_manual_lockdown false (_actuator_armed c))
                          c))
    | ACTION_KILL =>
        when (is_rc_switch arm_disarm_reason
              && negb (manual_lockdown (_actuator_armed s)))
             (log_event "commander_kill_sw_engaged" ;;
              modify (set_status_changed true) ;;
              modify (fun c =>
                        set_actuator_armed
                          (set_manual_lockdown true (_actuator_armed c))
                          c) ;;
              send_parachute_command)
    | ACTION_SWITCH_MODE =>
        (* if there's never been a mode change force RC switch as initial
           state *)
        when ((match source action_request with
               | SOURCE_RC_MODE_SLOT => true | _ => false end)
              && negb (isArmed (_arm_state_machine s))
              && (main_state_changes (_commander_state s) =? 0)
              && (match mode action_request with
                  | MAIN_STATE_ALTCTL | MAIN_STATE_POSCTL => true
                  | _ => false end))
             (modify (set_commander_state
                        {| main_state := mode action_request;
                           main_state_changes :=
                             main_state_changes (_commander_state s) + 1
                        |})) ;;
        ret_ <- call_main_state_transition (mode action_request) ;;
        when (is_denied ret_) (emit (reject_mode (mode action_request)))
    | ACTION_other _ => ret tt
    end.

(** *** Commander::run, the parts of one cycle the properties are about *)

(** "handle commands last": a handled command marks the status changed. *)
Definition run_handle_command (now : hrt_abstime) (cmd : vehicle_command_s)
  : CM handle_result :=
  r <- handle_command now cmd ;;
  match r with
  | returns true => modify (set_status_changed true)
  | _ => ret tt
  end ;;
  ret r.

(** "check for arming state changes" up to the reset of the take-off
    flags. *)
Definition run_arming_state_changes (now : hrt_abstime) : CM unit :=
  s <- get ;;
  let is_armed := isArmed (_arm_state_machine s) in
  when (negb (Bool.eqb (_was_armed s) is_armed))
       (modify (set_status_changed true)) ;;
  when (negb (_was_armed s) && is_armed
        && negb (landed (_vehicle_land_detected s)))
       (modify (set_have_taken_off_since_arming true)) ;;
  when (_was_armed s && negb is_armed)
       (modify (set_param_flight_uuid
                  (wrap_signed 32 (_param_flight_uuid s + 1))) ;;
        modify (set_last_disarmed_timestamp now) ;;
        (* Switch back to Hold mode after autonomous landing *)
        when (flag_control_auto_enabled (_vehicle_control_mode s))
             (_ <- call_main_state_transition MAIN_STATE_AUTO_LOITER ;;
              ret tt)) ;;
  when (negb is_armed)
       ((* Reset the flag if disarmed. *)
        modify (set_have_taken_off_since_arming false) ;;
        modify (set_imbalanced_propeller_check_triggered false)).

(** "now set navigation state according to failsafe and main state". *)
Definition run_set_nav_state (now : hrt_abstime) : CM bool :=
  s <- get ;;
  let '(nav_state_changed, status, armed_, internal_state) :=
    set_nav_state (_vehicle_status s) (_actuator_armed s)
      (_commander_state s) (finished (_mission_result s))
      (stay_in_failsafe (_mission_result s)) (_vehicle_status_flags s)
      (landed (_vehicle_land_detected s)) (_failsafe_params s) in
  modify (set_vehicle_status status) ;;
  modify (set_actuator_armed armed_) ;;
  modify (set_commander_state internal_state) ;;
  when nav_state_changed
       (modify (fun c =>
                  set_vehicle_status
                    (set_nav_state_timestamp now (_vehicle_status c)) c)) ;;
  ret nav_state_changed.

End Model.

End Commander.

(** * Navigator *)

Module Navigator.

(** The navigation behaviours, in the order of [_navigation_mode_array]:
    [_mission], [_loiter], [_rtl], [_takeoff], [_land], [_precland],
    [_vtol_takeoff].  A [NavigatorMode *] is [Some] of one of them, or
    [None] for [nullptr]. *)
Inductive navigator_mode : Type :=
| mode_mission
| mode_loiter
| mode_rtl
| mode_takeoff
| mode_land
| mode_precland
| mode_vtol_takeoff.

Definition navigator_mode_eqb (a b : navigator_mode) : bool :=
  match a, b with
  | mode_mission, mode_mission
  | mode_loiter, mode_loiter
  | mode_rtl, mode_rtl
  | mode_takeoff, mode_takeoff
  | mode_land, mode_land
  | mode_precland, mode_precland
  | mode_vtol_takeoff, mode_vtol_takeoff => true
  | _, _ => false
  end.

(** Pointer equality of two [NavigatorMode *]. *)
Definition mode_ptr_eqb (a b : option navigator_mode) : bool :=
  match a, b with
  | None, None => true
  | Some x, Some y => navigator_mode_eqb x y
  | _, _ => false
  end.

Definition _navigation_mode_array : list navigator_mode :=
  [mode_mission; mode_loiter; mode_rtl; mode_takeoff; mode_land;
   mode_precland; mode_vtol_takeoff].

Inductive setpoint_type_t : Type :=
| SETPOINT_TYPE_POSITION
| SETPOINT_TYPE_LOITER
| SETPOINT_TYPE_TAKEOFF
| SETPOINT_TYPE_LAND
| SETPOINT_TYPE_IDLE
| SETPOINT_TYPE_other (raw : Z).

Definition is_loiter_type (t : setpoint_type_t) : bool :=
  match t with SETPOINT_TYPE_LOITER => true | _ => false end.
Definition is_takeoff_type (t : setpoint_type_t) : bool :=
  match t with SETPOINT_TYPE_TAKEOFF => true | _ => false end.
Definition is_land_type (t : setpoint_type_t) : bool :=
  match t with SETPOINT_TYPE_LAND => true | _ => false end.

(** position_setpoint_s: the fields navigator_main.cpp reads or writes. *)
Record position_setpoint_s : Type := {
  timestamp : hrt_abstime;
  valid : bool;
  type : setpoint_type_t;
  lat : float;
  lon : float;
  alt : float;
  yaw : float;
  yaw_valid : bool;
  alt_valid : bool;
  loiter_radius : float;
  loiter_direction_counter_clockwise : bool;
  acceptance_radius : float;
  cruising_speed : float;
  cruising_throttle : float;
  disable_weather_vane : bool
}.

Definition set_sp_timestamp (v : hrt_abstime) (c : position_setpoint_s) : position_setpoint_s :=
  {| timestamp := v; valid := valid c; type := type c; lat := lat c; lon := lon
     c; alt := alt c; yaw := yaw c; yaw_valid := yaw_valid c; alt_valid :=
     alt_valid c; loiter_radius := loiter_radius c;
     loiter_direction_counter_clockwise := loiter_direction_counter_clockwise
     c; acceptance_radius := acceptance_radius c; cruising_speed :=
     cruising_speed c; cruising_throttle := cruising_throttle c;
     disable_weather_vane := disable_weather_vane c |}.

Definition set_sp_valid (v : bool) (c : position_setpoint_s) : position_setpoint_s :=
  {| timestamp := timestamp c; valid := v; type := type c; lat := lat c; lon :=
     lon c; alt := alt c; yaw := yaw c; yaw_valid := yaw_valid c; alt_valid :=
     alt_valid c; loiter_radius := loiter_radius c;
     loiter_direction_counter_clockwise := loiter_direction_counter_clockwise
     c; acceptance_radius := acceptance_radius c; cruising_speed :=
     cruising_speed c; cruising_throttle := cruising_throttle c;
     disable_weather_vane := disable_weather_vane c |}.

Definition set_sp_type (v : setpoint_type_t) (c : position_setpoint_s) : position_setpoint_s :=
  {| timestamp := timestamp c; valid := valid c; type := v; lat := lat c; lon
     := lon c; alt := alt c; yaw := yaw c; yaw_valid := yaw_valid c; alt_valid
     := alt_valid c; loiter_radius := loiter_radius c;
     loiter_direction_counter_clockwise := loiter_direction_counter_clockwise
     c; acceptance_radius := acceptance_radius c; cruising_speed :=
     cruising_speed c; cruising_throttle := cruising_throttle c;
     disable_weather_vane := disable_weather_vane c |}.

Definition set_sp_lat (v : float) (c : position_setpoint_s) : position_setpoint_s :=
  {| timestamp := timestamp c; valid := valid c; type := type c; lat := v; lon
     := lon c; alt := alt c; yaw := yaw c; yaw_valid := yaw_valid c; alt_valid
     := alt_valid c; loiter_radius := loiter_radius c;
     loiter_direction_counter_clockwise := loiter_direction_counter_clockwise
     c; acceptance_radius := acceptance_radius c; cruising_speed :=
     cruising_speed c; cruising_throttle := cruising_throttle c;
     disable_weather_vane := disable_weather_vane c |}.

Definition set_sp_lon (v : float) (c : position_setpoint_s) : position_setpoint_s :=
  {| timestamp := timestamp c; valid := valid c; type := type c; lat := lat c;
     lon := v; alt := alt c; yaw := yaw c; yaw_valid := yaw_valid c; alt_valid
     := alt_valid c; loiter_radius := loiter_radius c;
     loiter_direction_counter_clockwise := loiter_direction_counter_clockwise
     c; acceptance_radius := acceptance_radius c; cruising_speed :=
     cruising_speed c; cruising_throttle := cruising_throttle c;
     disable_weather_vane := disable_weather_vane c |}.

Definition set_sp_alt (v : float) (c : position_setpoint_s) : position_setpoint_s :=
  {| timestamp := timestamp c; valid := valid c; type := type c; lat := lat c;
     lon := lon c; alt := v; yaw := yaw c; yaw_valid := yaw_valid c; alt_valid
     := alt_valid c; loiter_radius := loiter_radius c;
     loiter_direction_counter_clockwise := loiter_direction_counter_clockwise
     c; acceptance_radius := acceptance_radius c; cruising_speed :=
     cruising_speed c; cruising_throttle := cruising_throttle c;
     disable_weather_vane := disable_weather_vane c |}.

Definition set_sp_yaw (v : float) (c : position_setpoint_s) : position_setpoint_s :=
  {| timestamp := timestamp c; valid := valid c; type := type c; lat := lat c;
     lon := lon c; alt := alt c; yaw := v; yaw_valid := yaw_valid c; alt_valid
     := alt_valid c; loiter_radius := loiter_radius c;
     loiter_direction_counter_clockwise := loiter_direction_counter_clockwise
     c; acceptance_radius := acceptance_radius c; cruising_speed :=
     cruising_speed c; cruising_throttle := cruising_throttle c;
     disable_weather_vane := disable_weather_vane c |}.

Definition set_sp_yaw_valid (v : bool) (c : position_setpoint_s) : position_setpoint_s :=
  {| timestamp := timestamp c; valid := valid c; type := type c; lat := lat c;
     lon := lon c; alt := alt c; yaw := yaw c; yaw_valid := v; alt_valid :=
     alt_valid c; loiter_radius := loiter_radius c;
     loiter_direction_counter_clockwise := loiter_direction_counter_clockwise
     c; acceptance_radius := acceptance_radius c; cruising_speed :=
     cruising_speed c; cruising_throttle := cruising_throttle c;
     disable_weather_vane := disable_weather_vane c |}.

Definition set_sp_alt_valid (v : bool) (c : position_setpoint_s) : position_setpoint_s :=
  {| timestamp := timestamp c; valid := valid c; type := type c; lat := lat c;
     lon := lon c; alt := alt c; yaw := yaw c; yaw_valid := yaw_valid c;
     alt_valid := v; loiter_radius := loiter_radius c;
     loiter_direction_counter_clockwise := loiter_direction_counter_clockwise
     c; acceptance_radius := acceptance_radius c; cruising_speed :=
     cruising_speed c; cruising_throttle := cruising_throttle c;
     disable_weather_vane := disable_weather_vane c |}.

Definition set_sp_loiter_radius (v : float) (c : position_setpoint_s) : position_setpoint_s :=
  {| timestamp := timestamp c; valid := valid c; type := type c; lat := lat c;
     lon := lon c; alt := alt c; yaw := yaw c; yaw_valid := yaw_valid c;
     alt_valid := alt_valid c; loiter_radius := v;
     loiter_direction_counter_clockwise := loiter_direction_counter_clockwise
     c; acceptance_radius := acceptance_radius c; cruising_speed :=
     cruising_speed c; cruising_throttle := cruising_throttle c;
     disable_weather_vane := disable_weather_vane c |}.

Definition set_sp_loiter_direction_counter_clockwise (v : bool) (c : position_setpoint_s) : position_setpoint_s :=
  {| timestamp := timestamp c; valid := valid c; type := type c; lat := lat c;
     lon := lon c; alt := alt c; yaw := yaw c; yaw_valid := yaw_valid c;
     alt_valid := alt_valid c; loiter_radius := loiter_radius c;
     loiter_direction_counter_clockwise := v; acceptance_radius :=
     acceptance_radius c; cruising_speed := cruising_speed c; cruising_throttle
     := cruising_throttle c; disable_weather_vane := disable_weather_vane c |}.

Definition set_sp_acceptance_radius (v : float) (c : position_setpoint_s) : position_setpoint_s :=
  {| timestamp := timestamp c; valid := valid c; type := type c; lat := lat c;
     lon := lon c; alt := alt c; yaw := yaw c; yaw_valid := yaw_valid c;
     alt_valid := alt_valid c; loiter_radius := loiter_radius c;
     loiter_direction_counter_clockwise := loiter_direction_counter_clockwise
     c; acceptance_radius := v; cruising_speed := cruising_speed c;
     cruising_throttle := cruising_throttle c; disable_weather_vane :=
     disable_weather_vane c |}.

Definition set_sp_cruising_speed (v : float) (c : position_setpoint_s) : position_setpoint_s :=
  {| timestamp := timestamp c; valid := valid c; type := type c; lat := lat c;
     lon := lon c; alt := alt c; yaw := yaw c; yaw_valid := yaw_valid c;
     alt_valid := alt_valid c; loiter_radius := loiter_radius c;
     loiter_direction_counter_clockwise := loiter_direction_counter_clockwise
     c; acceptance_radius := acceptance_radius c; cruising_speed := v;
     cruising_throttle := cruising_throttle c; disable_weather_vane :=
     disable_weather_vane c |}.

Definition set_sp_cruising_throttle (v : float) (c : position_setpoint_s) : position_setpoint_s :=
  {| timestamp := timestamp c; valid := valid c; type := type c; lat := lat c;
     lon := lon c; alt := alt c; yaw := yaw c; yaw_valid := yaw_valid c;
     alt_valid := alt_valid c; loiter_radius := loiter_radius c;
     loiter_direction_counter_clockwise := loiter_direction_counter_clockwise
     c; acceptance_radius := acceptance_radius c; cruising_speed :=
     cruising_speed c; cruising_throttle := v; disable_weather_vane :=
     disable_weather_vane c |}.

(** [position_setpoint_s{}]: every field zero. *)
Definition position_setpoint_zero : position_setpoint_s :=
  {| timestamp := 0; valid := false; type := SETPOINT_TYPE_POSITION;
     lat := Fin 0; lon := Fin 0; alt := Fin 0; yaw := Fin 0;
     yaw_valid := false; alt_valid := false; loiter_radius := Fin 0;
     loiter_direction_counter_clockwise := false;
     acceptance_radius := Fin 0; cruising_speed := Fin 0;
     cruising_throttle := Fin 0; disable_weather_vane := false |}.

Record position_setpoint_triplet_s : Type := {
  triplet_timestamp : hrt_abstime;
  previous : position_setpoint_s;
  current : position_setpoint_s;
  next : position_setpoint_s
}.

Definition set_previous (v : position_setpoint_s)
  (t : position_setpoint_triplet_s) : position_setpoint_triplet_s :=
  {| triplet_timestamp := triplet_timestamp t; previous := v;
     current := current t; next := next t |}.

Definition set_current (v : position_setpoint_s)
  (t : position_setpoint_triplet_s) : position_setpoint_triplet_s :=
  {| triplet_timestamp := triplet_timestamp t; previous := previous t;
     current := v; next := next t |}.

Definition set_next (v : position_setpoint_s)
  (t : position_setpoint_triplet_s) : position_setpoint_triplet_s :=
  {| triplet_timestamp := triplet_timestamp t; previous := previous t;
     current := current t; next := v |}.

Definition set_triplet_timestamp (v : hrt_abstime)
  (t : position_setpoint_triplet_s) : position_setpoint_triplet_s :=
  {| triplet_timestamp := v; previous := previous t;
     current := current t; next := next t |}.

(** vehicle_status_s as the navigator reads it. *)
Record vehicle_status_s : Type := {
  system_id : Z;
  component_id : Z;
  nav_state : nav_state_t;
  arming_state : arming_state_t;
  vehicle_type : vehicle_type_t;
  is_vtol : bool;
  in_transition_to_fw : bool
}.

Record vehicle_global_position_s : Type := {
  gpos_lat : float;
  gpos_lon : float;
  gpos_alt : float
}.

Record vehicle_local_position_s : Type := {
  heading : float;
  vx : float;
  vy : float;
  vz : float
}.

Record home_position_s : Type := {
  home_lat : float;
  home_lon : float;
  home_alt : float
}.

Record vehicle_land_detected_s : Type := {
  landed : bool
}.

Record position_controller_status_s : Type := {
  pcs_timestamp : hrt_abstime;
  nav_bearing : float;
  pcs_acceptance_radius : float
}.

Record mission_result_s : Type := {
  mission_result_valid : bool
}.

Inductive roi_mode_t : Type :=
| VEHICLE_ROI_NONE
| VEHICLE_ROI_WPNEXT
| VEHICLE_ROI_LOCATION
| VEHICLE_ROI_raw (raw : Z).

Record vehicle_roi_s : Type := {
  roi_timestamp : hrt_abstime;
  roi_mode : roi_mode_t;
  roi_lat : float;
  roi_lon : float;
  roi_alt : float;
  roll_offset : float;
  pitch_offset : float;
  yaw_offset : float
}.

(** [_vroi = {}]. *)
Definition vehicle_roi_zero : vehicle_roi_s :=
  {| roi_timestamp := 0; roi_mode := VEHICLE_ROI_raw 0; roi_lat := Fin 0;
     roi_lon := Fin 0; roi_alt := Fin 0; roll_offset := Fin 0;
     pitch_offset := Fin 0; yaw_offset := Fin 0 |}.

(** geofence_violation_type_u: the three flags whose union is [value]. *)
Record geofence_violation_type_u : Type := {
  dist_to_home_exceeded : bool;
  max_altitude_exceeded : bool;
  fence_violation : bool
}.


Inductive mission_execution_mode : Type :=
| MISSION_EXECUTION_MODE_NORMAL
| MISSION_EXECUTION_MODE_REVERSE
| MISSION_EXECUTION_MODE_FAST_FORWARD.

Inductive rtl_type_t : Type :=
| RTL_TYPE_MISSION_LANDING
| RTL_TYPE_CLOSEST
| RTL_TYPE_MISSION_LANDING_REVERSED
| RTL_TYPE_other (raw : Z).

Inductive precland_mode : Type :=
| PrecLandMode_Opportunistic
| PrecLandMode_Required.

(** Everything the Navigator sends out. *)
Inductive event : Type :=
| command_ack (cmd : vehicle_cmd) (result : cmd_result_t)
| vehicle_cmd_published (cmd : vehicle_cmd) (param1 : float)
| log (id : string)
| geofence_warning (text : string)
| geofence_result_published (r : geofence_result_s)
| vehicle_roi_published (r : vehicle_roi_s)
| triplet_published (t : position_setpoint_triplet_s)
| mission_result_published
| mode_run (m : navigator_mode) (active : bool).


Definition active_runs (o : list event) : list navigator_mode :=
  flat_map (fun e => match e with mode_run m true => [m] | _ => [] end) o.

Definition inactive_runs (o : list event) : list navigator_mode :=
  flat_map (fun e => match e with mode_run m false => [m] | _ => [] end) o.

(** [FLT_EPSILON] of <float.h>: 2^-23. *)
Definition FLT_EPSILON : Q := 1 # 8388608.

(** ** Interfaces of the classes implemented elsewhere

    A member function that only returns a value is a query of the object; a
    setter returns the object it leaves. *)

Class Interfaces : Type := {
  Geofence : Type;
  GeofenceBreachAvoidance : Type;
  Mission : Type;
  RTL : Type;
  PrecLand : Type;
  VtolTakeoff : Type;
  sensor_gps_s : Type;

  (* Geofence *)
  getGeofenceAction : Geofence -> geofence_action_t;
  getPredict : Geofence -> bool;
  isHomeRequired : Geofence -> bool;
  getMaxHorDistanceHome : Geofence -> float;
  getMaxVerDistanceHome : Geofence -> float;
  isCloserThanMaxDistToHome : float -> float -> float -> Geofence -> bool;
  isBelowMaxAltitude : float -> Geofence -> bool;
  isInsidePolygonOrCircle : float -> float -> float -> Geofence -> bool;
  geofence_check :
    vehicle_global_position_s -> sensor_gps_s -> Geofence -> bool;

  (* GeofenceBreachAvoidance *)
  setHorizontalVelocity :
    float -> GeofenceBreachAvoidance -> GeofenceBreachAvoidance;
  setClimbRate : float -> GeofenceBreachAvoidance -> GeofenceBreachAvoidance;
  setHorizontalTestPointDistance :
    float -> GeofenceBreachAvoidance -> GeofenceBreachAvoidance;
  setVerticalTestPointDistance :
    float -> GeofenceBreachAvoidance -> GeofenceBreachAvoidance;
  setTestPointBearing :
    float -> GeofenceBreachAvoidance -> GeofenceBreachAvoidance;
  setCurrentPosition :
    float -> float -> float ->
    GeofenceBreachAvoidance -> GeofenceBreachAvoidance;
  setMaxHorDistHome :
    float -> GeofenceBreachAvoidance -> GeofenceBreachAvoidance;
  setMaxVerDistHome :
    float -> GeofenceBreachAvoidance -> GeofenceBreachAvoidance;
  setHomePosition :
    float -> float -> float ->
    GeofenceBreachAvoidance -> GeofenceBreachAvoidance;
  computeBrakingDistanceMultirotor : GeofenceBreachAvoidance -> float;
  computeVerticalBrakingDistanceMultirotor :
    GeofenceBreachAvoidance -> float;
  getFenceViolationTestPoint : GeofenceBreachAvoidance -> float * float;
  generateLoiterPointForMultirotor :
    geofence_violation_type_u -> Geofence -> GeofenceBreachAvoidance ->
    float * float;
  generateLoiterPointForFixedWing :
    geofence_violation_type_u -> Geofence -> GeofenceBreachAvoidance ->
    float * float;
  generateLoiterAltitudeForMulticopter :
    geofence_violation_type_u -> GeofenceBreachAvoidance -> float;
  generateLoiterAltitudeForFixedWing :
    geofence_violation_type_u -> GeofenceBreachAvoidance -> float;

  (* Mission *)
  set_execution_mode : mission_execution_mode -> Mission -> Mission;
  land_start : Mission -> bool * Mission;
  get_land_start_index : Mission -> float;
  get_land_start_available : Mission -> bool;
  set_closest_item_as_current : Mission -> Mission;
  set_current_mission_index : float -> Mission -> bool * Mission;
  get_mission_changed : Mission -> bool;
  get_mission_finished : Mission -> bool;
  get_mission_waypoints_changed : Mission -> bool;
  (* Navigator::start_mission_landing, on_mission_landing and
     getMissionLandingInProgress forward to the mission *)
  start_mission_landing : Mission -> Mission;
  on_mission_landing : Mission -> bool;
  getMissionLandingInProgress : Mission -> bool;

  (* RTL, PrecLand, VtolTakeoff *)
  get_rtl_type : RTL -> rtl_type_t;
  getRTLState : RTL -> Z;
  RTL_STATE_LOITER : Z;
  getShouldEngageMissionForLanding : RTL -> bool;
  set_mode : precland_mode -> PrecLand -> PrecLand;
  setTransitionAltitudeAbsolute : float -> VtolTakeoff -> VtolTakeoff;
  setLoiterLocation : float -> float -> VtolTakeoff -> VtolTakeoff;
  setLoiterHeight : float -> VtolTakeoff -> VtolTakeoff;

  (* Navigator::home_global_position_valid, declared in navigator.h *)
  home_global_position_valid :
    vehicle_global_position_s -> home_position_s -> bool;

  (* rounding arithmetic and geodesy *)
  fadd : float -> float -> float;
  fmul : float -> float -> float;
  fdiv : float -> float -> float;
  fmax : float -> float -> float;
  atan2f : float -> float -> float;
  sqrtf : float -> float;
  computeBrakingDistanceFromVelocity :
    float -> float -> float -> float -> float;
  waypoint_from_heading_and_distance :
    float -> float -> float -> float -> float * float;
  M_DEG_TO_RAD_F : float;

  (* navigator.h and vtol_vehicle_status_s *)
  GEOFENCE_CHECK_INTERVAL_US : Z;
  VEHICLE_VTOL_STATE_MC : float
}.

Section Model.
Context {I : Interfaces}.

(** ** The Navigator object: the members the modelled functions touch.
    [have_geofence_position_data] is the local of [run] that lives across
    the iterations of its loop. *)

Record Navigator : Type := {
  _vstatus : vehicle_status_s;
  _global_pos : vehicle_global_position_s;
  _local_pos : vehicle_local_position_s;
  _gps_pos : sensor_gps_s;
  _home_pos : home_position_s;
  _land_detected : vehicle_land_detected_s;
  _position_controller_status : position_controller_status_s;
  _mission_result : mission_result_s;
  _geofence_result : geofence_result_s;
  _vroi : vehicle_roi_s;
  _pos_sp_triplet : position_setpoint_triplet_s;
  _reposition_triplet : position_setpoint_triplet_s;
  _takeoff_triplet : position_setpoint_triplet_s;
  _navigation_mode : option navigator_mode;
  _previous_nav_state : nav_state_t;
  _pos_sp_triplet_published_invalid_once : bool;
  _pos_sp_triplet_updated : bool;
  _mission_result_updated : bool;
  _can_loiter_at_sp : bool;
  _geofence_violation_warning_sent : bool;
  _last_geofence_check : hrt_abstime;
  have_geofence_position_data : bool;
  _mission_cruising_speed_mc : float;
  _mission_cruising_speed_fw : float;
  _mission_throttle : float;
  _param_nav_loiter_rad : float;
  _param_nav_acc_rad : float;
  _param_nav_force_vt : bool;
  _param_mpc_jerk_auto : float;
  _param_mpc_acc_hor : float;
  _geofence : Geofence;
  _gf_breach_avoidance : GeofenceBreachAvoidance;
  _mission : Mission;
  _rtl : RTL;
  _precland : PrecLand;
  _vtol_takeoff : VtolTakeoff
}.


Definition set_vroi (v : vehicle_roi_s) (c : Navigator) : Navigator :=
  {| _vstatus := _vstatus c; _global_pos := _global_pos c; _local_pos :=
     _local_pos c; _gps_pos := _gps_pos c; _home_pos := _home_pos c;
     _land_detected := _land_detected c; _position_controller_status :=
     _position_controller_status c; _mission_result := _mission_result c;
     _geofence_result := _geofence_result c; _vroi := v; _pos_sp_triplet :=
     _pos_sp_triplet c; _reposition_triplet := _reposition_triplet c;
     _takeoff_triplet := _takeoff_triplet c; _navigation_mode :=
     _navigation_mode c; _previous_nav_state := _previous_nav_state c;
     _pos_sp_triplet_published_invalid_once :=
     _pos_sp_triplet_published_invalid_once c; _pos_sp_triplet_updated :=
     _pos_sp_triplet_updated c; _mission_result_updated :=
     _mission_result_updated c; _can_loiter_at_sp := _can_loiter_at_sp c;
     _geofence_violation_warning_sent := _geofence_violation_warning_sent c;
     _last_geofence_check := _last_geofence_check c;
     have_geofence_position_data := have_geofence_position_data c;
     _mission_cruising_speed_mc := _mission_cruising_speed_mc c;
     _mission_cruising_speed_fw := _mission_cruising_speed_fw c;
     _mission_throttle := _mission_throttle c; _param_nav_loiter_rad :=
     _param_nav_loiter_rad c; _param_nav_acc_rad := _param_nav_acc_rad c;
     _param_nav_force_vt := _param_nav_force_vt c; _param_mpc_jerk_auto :=
     _param_mpc_jerk_auto c; _param_mpc_acc_hor := _param_mpc_acc_hor c;
     _geofence := _geofence c; _gf_breach_avoidance := _gf_breach_avoidance c;
     _mission := _mission c; _rtl := _rtl c; _precland := _precland c;
     _vtol_takeoff := _vtol_takeoff c |}.

Definition set_pos_sp_triplet (v : position_setpoint_triplet_s) (c : Navigator) : Navigator :=
  {| _vstatus := _vstatus c; _global_pos := _global_pos c; _local_pos :=
     _local_pos c; _gps_pos := _gps_pos c; _home_pos := _home_pos c;
     _land_detected := _land_detected c; _position_controller_status :=
     _position_controller_status c; _mission_result := _mission_result c;
     _geofence_result := _geofence_result c; _vroi := _vroi c; _pos_sp_triplet
     := v; _reposition_triplet := _reposition_triplet c; _takeoff_triplet :=
     _takeoff_triplet c; _navigation_mode := _navigation_mode c;
     _previous_nav_state := _previous_nav_state c;
     _pos_sp_triplet_published_invalid_once :=
     _pos_sp_triplet_published_invalid_once c; _pos_sp_triplet_updated :=
     _pos_sp_triplet_updated c; _mission_result_updated :=
     _mission_result_updated c; _can_loiter_at_sp := _can_loiter_at_sp c;
     _geofence_violation_warning_sent := _geofence_violation_warning_sent c;
     _last_geofence_check := _last_geofence_check c;
     have_geofence_position_data := have_geofence_position_data c;
     _mission_cruising_speed_mc := _mission_cruising_speed_mc c;
     _mission_cruising_speed_fw := _mission_cruising_speed_fw c;
     _mission_throttle := _mission_throttle c; _param_nav_loiter_rad :=
     _param_nav_loiter_rad c; _param_nav_acc_rad := _param_nav_acc_rad c;
     _param_nav_force_vt := _param_nav_force_vt c; _param_mpc_jerk_auto :=
     _param_mpc_jerk_auto c; _param_mpc_acc_hor := _param_mpc_acc_hor c;
     _geofence := _geofence c; _gf_breach_avoidance := _gf_breach_avoidance c;
     _mission := _mission c; _rtl := _rtl c; _precland := _precland c;
     _vtol_takeoff := _vtol_takeoff c |}.

Definition set_reposition_triplet (v : position_setpoint_triplet_s) (c : Navigator) : Navigator :=
  {| _vstatus := _vstatus c; _global_pos := _global_pos c; _local_pos :=
     _local_pos c; _gps_pos := _gps_pos c; _home_pos := _home_pos c;
     _land_detected := _land_detected c; _position_controller_status :=
     _position_controller_status c; _mission_result := _mission_result c;
     _geofence_result := _geofence_result c; _vroi := _vroi c; _pos_sp_triplet
     := _pos_sp_triplet c; _reposition_triplet := v; _takeoff_triplet :=
     _takeoff_triplet c; _navigation_mode := _navigation_mode c;
     _previous_nav_state := _previous_nav_state c;
     _pos_sp_triplet_published_invalid_once :=
     _pos_sp_triplet_published_invalid_once c; _pos_sp_triplet_updated :=
     _pos_sp_triplet_updated c; _mission_result_updated :=
     _mission_result_updated c; _can_loiter_at_sp := _can_loiter_at_sp c;
     _geofence_violation_warning_sent := _geofence_violation_warning_sent c;
     _last_geofence_check := _last_geofence_check c;
     have_geofence_position_data := have_geofence_position_data c;
     _mission_cruising_speed_mc := _mission_cruising_speed_mc c;
     _mission_cruising_speed_fw := _mission_cruising_speed_fw c;
     _mission_throttle := _mission_throttle c; _param_nav_loiter_rad :=
     _param_nav_loiter_rad c; _param_nav_acc_rad := _param_nav_acc_rad c;
     _param_nav_force_vt := _param_nav_force_vt c; _param_mpc_jerk_auto :=
     _param_mpc_jerk_auto c; _param_mpc_acc_hor := _param_mpc_acc_hor c;
     _geofence := _geofence c; _gf_breach_avoidance := _gf_breach_avoidance c;
     _mission := _mission c; _rtl := _rtl c; _precland := _precland c;
     _vtol_takeoff := _vtol_takeoff c |}.

Definition set_takeoff_triplet (v : position_setpoint_triplet_s) (c : Navigator) : Navigator :=
  {| _vstatus := _vstatus c; _global_pos := _global_pos c; _local_pos :=
     _local_pos c; _gps_pos := _gps_pos c; _home_pos := _home_pos c;
     _land_detected := _land_detected c; _position_controller_status :=
     _position_controller_status c; _mission_result := _mission_result c;
     _geofence_result := _geofence_result c; _vroi := _vroi c; _pos_sp_triplet
     := _pos_sp_triplet c; _reposition_triplet := _reposition_triplet c;
     _takeoff_triplet := v; _navigation_mode := _navigation_mode c;
     _previous_nav_state := _previous_nav_state c;
     _pos_sp_triplet_published_invalid_once :=
     _pos_sp_triplet_published_invalid_once c; _pos_sp_triplet_updated :=
     _pos_sp_triplet_updated c; _mission_result_updated :=
     _mission_result_updated c; _can_loiter_at_sp := _can_loiter_at_sp c;
     _geofence_violation_warning_sent := _geofence_violation_warning_sent c;
     _last_geofence_check := _last_geofence_check c;
     have_geofence_position_data := have_geofence_position_data c;
     _mission_cruising_speed_mc := _mission_cruising_speed_mc c;
     _mission_cruising_speed_fw := _mission_cruising_speed_fw c;
     _mission_throttle := _mission_throttle c; _param_nav_loiter_rad :=
     _param_nav_loiter_rad c; _param_nav_acc_rad := _param_nav_acc_rad c;
     _param_nav_force_vt := _param_nav_force_vt c; _param_mpc_jerk_auto :=
     _param_mpc_jerk_auto c; _param_mpc_acc_hor := _param_mpc_acc_hor c;
     _geofence := _geofence c; _gf_breach_avoidance := _gf_breach_avoidance c;
     _mission := _mission c; _rtl := _rtl c; _precland := _precland c;
     _vtol_takeoff := _vtol_takeoff c |}.

Definition set_navigation_mode (v : option navigator_mode) (c : Navigator) : Navigator :=
  {| _vstatus := _vstatus c; _global_pos := _global_pos c; _local_pos :=
     _local_pos c; _gps_pos := _gps_pos c; _home_pos := _home_pos c;
     _land_detected := _land_detected c; _position_controller_status :=
     _position_controller_status c; _mission_result := _mission_result c;
     _geofence_result := _geofence_result c; _vroi := _vroi c; _pos_sp_triplet
     := _pos_sp_triplet c; _reposition_triplet := _reposition_triplet c;
     _takeoff_triplet := _takeoff_triplet c; _navigation_mode := v;
     _previous_nav_state := _previous_nav_state c;
     _pos_sp_triplet_published_invalid_once :=
     _pos_sp_triplet_published_invalid_once c; _pos_sp_triplet_updated :=
     _pos_sp_triplet_updated c; _mission_result_updated :=
     _mission_result_updated c; _can_loiter_at_sp := _can_loiter_at_sp c;
     _geofence_violation_warning_sent := _geofence_violation_warning_sent c;
     _last_geofence_check := _last_geofence_check c;
     have_geofence_position_data := have_geofence_position_data c;
     _mission_cruising_speed_mc := _mission_cruising_speed_mc c;
     _mission_cruising_speed_fw := _mission_cruising_speed_fw c;
     _mission_throttle := _mission_throttle c; _param_nav_loiter_rad :=
     _param_nav_loiter_rad c; _param_nav_acc_rad := _param_nav_acc_rad c;
     _param_nav_force_vt := _param_nav_force_vt c; _param_mpc_jerk_auto :=
     _param_mpc_jerk_auto c; _param_mpc_acc_hor := _param_mpc_acc_hor c;
     _geofence := _geofence c; _gf_breach_avoidance := _gf_breach_avoidance c;
     _mission := _mission c; _rtl := _rtl c; _precland := _precland c;
     _vtol_takeoff := _vtol_takeoff c |}.

Definition set_previous_nav_state (v : nav_state_t) (c : Navigator) : Navigator :=
  {| _vstatus := _vstatus c; _global_pos := _global_pos c; _local_pos :=
     _local_pos c; _gps_pos := _gps_pos c; _home_pos := _home_pos c;
     _land_detected := _land_detected c; _position_controller_status :=
     _position_controller_status c; _mission_result := _mission_result c;
     _geofence_result := _geofence_result c; _vroi := _vroi c; _pos_sp_triplet
     := _pos_sp_triplet c; _reposition_triplet := _reposition_triplet c;
     _takeoff_triplet := _takeoff_triplet c; _navigation_mode :=
     _navigation_mode c; _previous_nav_state := v;
     _pos_sp_triplet_published_invalid_once :=
     _pos_sp_triplet_published_invalid_once c; _pos_sp_triplet_updated :=
     _pos_sp_triplet_updated c; _mission_result_updated :=
     _mission_result_updated c; _can_loiter_at_sp := _can_loiter_at_sp c;
     _geofence_violation_warning_sent := _geofence_violation_warning_sent c;
     _last_geofence_check := _last_geofence_check c;
     have_geofence_position_data := have_geofence_position_data c;
     _mission_cruising_speed_mc := _mission_cruising_speed_mc c;
     _mission_cruising_speed_fw := _mission_cruising_speed_fw c;
     _mission_throttle := _mission_throttle c; _param_nav_loiter_rad :=
     _param_nav_loiter_rad c; _param_nav_acc_rad := _param_nav_acc_rad c;
     _param_nav_force_vt := _param_nav_force_vt c; _param_mpc_jerk_auto :=
     _param_mpc_jerk_auto c; _param_mpc_acc_hor := _param_mpc_acc_hor c;
     _geofence := _geofence c; _gf_breach_avoidance := _gf_breach_avoidance c;
     _mission := _mission c; _rtl := _rtl c; _precland := _precland c;
     _vtol_takeoff := _vtol_takeoff c |}.

Definition set_pos_sp_triplet_published_invalid_once (v : bool) (c : Navigator) : Navigator :=
  {| _vstatus := _vstatus c; _global_pos := _global_pos c; _local_pos :=
     _local_pos c; _gps_pos := _gps_pos c; _home_pos := _home_pos c;
     _land_detected := _land_detected c; _position_controller_status :=
     _position_controller_status c; _mission_result := _mission_result c;
     _geofence_result := _geofence_result c; _vroi := _vroi c; _pos_sp_triplet
     := _pos_sp_triplet c; _reposition_triplet := _reposition_triplet c;
     _takeoff_triplet := _takeoff_triplet c; _navigation_mode :=
     _navigation_mode c; _previous_nav_state := _previous_nav_state c;
     _pos_sp_triplet_published_invalid_once := v; _pos_sp_triplet_updated :=
     _pos_sp_triplet_updated c; _mission_result_updated :=
     _mission_result_updated c; _can_loiter_at_sp := _can_loiter_at_sp c;
     _geofence_violation_warning_sent := _geofence_violation_warning_sent c;
     _last_geofence_check := _last_geofence_check c;
     have_geofence_position_data := have_geofence_position_data c;
     _mission_cruising_speed_mc := _mission_cruising_speed_mc c;
     _mission_cruising_speed_fw := _mission_cruising_speed_fw c;
     _mission_throttle := _mission_throttle c; _param_nav_loiter_rad :=
     _param_nav_loiter_rad c; _param_nav_acc_rad := _param_nav_acc_rad c;
     _param_nav_force_vt := _param_nav_force_vt c; _param_mpc_jerk_auto :=
     _param_mpc_jerk_auto c; _param_mpc_acc_hor := _param_mpc_acc_hor c;
     _geofence := _geofence c; _gf_breach_avoidance := _gf_breach_avoidance c;
     _mission := _mission c; _rtl := _rtl c; _precland := _precland c;
     _vtol_takeoff := _vtol_takeoff c |}.

Definition set_pos_sp_triplet_updated (v : bool) (c : Navigator) : Navigator :=
  {| _vstatus := _vstatus c; _global_pos := _global_pos c; _local_pos :=
     _local_pos c; _gps_pos := _gps_pos c; _home_pos := _home_pos c;
     _land_detected := _land_detected c; _position_controller_status :=
     _position_controller_status c; _mission_result := _mission_result c;
     _geofence_result := _geofence_result c; _vroi := _vroi c; _pos_sp_triplet
     := _pos_sp_triplet c; _reposition_triplet := _reposition_triplet c;
     _takeoff_triplet := _takeoff_triplet c; _navigation_mode :=
     _navigation_mode c; _previous_nav_state := _previous_nav_state c;
     _pos_sp_triplet_published_invalid_once :=
     _pos_sp_triplet_published_invalid_once c; _pos_sp_triplet_updated := v;
     _mission_result_updated := _mission_result_updated c; _can_loiter_at_sp :=
     _can_loiter_at_sp c; _geofence_violation_warning_sent :=
     _geofence_violation_warning_sent c; _last_geofence_check :=
     _last_geofence_check c; have_geofence_position_data :=
     have_geofence_position_data c; _mission_cruising_speed_mc :=
     _mission_cruising_speed_mc c; _mission_cruising_speed_fw :=
     _mission_cruising_speed_fw c; _mission_throttle := _mission_throttle c;
     _param_nav_loiter_rad := _param_nav_loiter_rad c; _param_nav_acc_rad :=
     _param_nav_acc_rad c; _param_nav_force_vt := _param_nav_force_vt c;
     _param_mpc_jerk_auto := _param_mpc_jerk_auto c; _param_mpc_acc_hor :=
     _param_mpc_acc_hor c; _geofence := _geofence c; _gf_breach_avoidance :=
     _gf_breach_avoidance c; _mission := _mission c; _rtl := _rtl c; _precland
     := _precland c; _vtol_takeoff := _vtol_takeoff c |}.

Definition set_mission_result_updated (v : bool) (c : Navigator) : Navigator :=
  {| _vstatus := _vstatus c; _global_pos := _global_pos c; _local_pos :=
     _local_pos c; _gps_pos := _gps_pos c; _home_pos := _home_pos c;
     _land_detected := _land_detected c; _position_controller_status :=
     _position_controller_status c; _mission_result := _mission_result c;
     _geofence_result := _geofence_result c; _vroi := _vroi c; _pos_sp_triplet
     := _pos_sp_triplet c; _reposition_triplet := _reposition_triplet c;
     _takeoff_triplet := _takeoff_triplet c; _navigation_mode :=
     _navigation_mode c; _previous_nav_state := _previous_nav_state c;
     _pos_sp_triplet_published_invalid_once :=
     _pos_sp_triplet_published_invalid_once c; _pos_sp_triplet_updated :=
     _pos_sp_triplet_updated c; _mission_result_updated := v; _can_loiter_at_sp
     := _can_loiter_at_sp c; _geofence_violation_warning_sent :=
     _geofence_violation_warning_sent c; _last_geofence_check :=
     _last_geofence_check c; have_geofence_position_data :=
     have_geofence_position_data c; _mission_cruising_speed_mc :=
     _mission_cruising_speed_mc c; _mission_cruising_speed_fw :=
     _mission_cruising_speed_fw c; _mission_throttle := _mission_throttle c;
     _param_nav_loiter_rad := _param_nav_loiter_rad c; _param_nav_acc_rad :=
     _param_nav_acc_rad c; _param_nav_force_vt := _param_nav_force_vt c;
     _param_mpc_jerk_auto := _param_mpc_jerk_auto c; _param_mpc_acc_hor :=
     _param_mpc_acc_hor c; _geofence := _geofence c; _gf_breach_avoidance :=
     _gf_breach_avoidance c; _mission := _mission c; _rtl := _rtl c; _precland
     := _precland c; _vtol_takeoff := _vtol_takeoff c |}.

Definition set_can_loiter_at_sp (v : bool) (c : Navigator) : Navigator :=
  {| _vstatus := _vstatus c; _global_pos := _global_pos c; _local_pos :=
     _local_pos c; _gps_pos := _gps_pos c; _home_pos := _home_pos c;
     _land_detected := _land_detected c; _position_controller_status :=
     _position_controller_status c; _mission_result := _mission_result c;
     _geofence_result := _geofence_result c; _vroi := _vroi c; _pos_sp_triplet
     := _pos_sp_triplet c; _reposition_triplet := _reposition_triplet c;
     _takeoff_triplet := _takeoff_triplet c; _navigation_mode :=
     _navigation_mode c; _previous_nav_state := _previous_nav_state c;
     _pos_sp_triplet_published_invalid_once :=
     _pos_sp_triplet_published_invalid_once c; _pos_sp_triplet_updated :=
     _pos_sp_triplet_updated c; _mission_result_updated :=
     _mission_result_updated c; _can_loiter_at_sp := v;
     _geofence_violation_warning_sent := _geofence_violation_warning_sent c;
     _last_geofence_check := _last_geofence_check c;
     have_geofence_position_data := have_geofence_position_data c;
     _mission_cruising_speed_mc := _mission_cruising_speed_mc c;
     _mission_cruising_speed_fw := _mission_cruising_speed_fw c;
     _mission_throttle := _mission_throttle c; _param_nav_loiter_rad :=
     _param_nav_loiter_rad c; _param_nav_acc_rad := _param_nav_acc_rad c;
     _param_nav_force_vt := _param_nav_force_vt c; _param_mpc_jerk_auto :=
     _param_mpc_jerk_auto c; _param_mpc_acc_hor := _param_mpc_acc_hor c;
     _geofence := _geofence c; _gf_breach_avoidance := _gf_breach_avoidance c;
     _mission := _mission c; _rtl := _rtl c; _precland := _precland c;
     _vtol_takeoff := _vtol_takeoff c |}.




Definition set_mission_cruising_speed_mc (v : float) (c : Navigator) : Navigator :=
  {| _vstatus := _vstatus c; _global_pos := _global_pos c; _local_pos :=
     _local_pos c; _gps_pos := _gps_pos c; _home_pos := _home_pos c;
     _land_detected := _land_detected c; _position_controller_status :=
     _position_controller_status c; _mission_result := _mission_result c;
     _geofence_result := _geofence_result c; _vroi := _vroi c; _pos_sp_triplet
     := _pos_sp_triplet c; _reposition_triplet := _reposition_triplet c;
     _takeoff_triplet := _takeoff_triplet c; _navigation_mode :=
     _navigation_mode c; _previous_nav_state := _previous_nav_state c;
     _pos_sp_triplet_published_invalid_once :=
     _pos_sp_triplet_published_invalid_once c; _pos_sp_triplet_updated :=
     _pos_sp_triplet_updated c; _mission_result_updated :=
     _mission_result_updated c; _can_loiter_at_sp := _can_loiter_at_sp c;
     _geofence_violation_warning_sent := _geofence_violation_warning_sent c;
     _last_geofence_check := _last_geofence_check c;
     have_geofence_position_data := have_geofence_position_data c;
     _mission_cruising_speed_mc := v; _mission_cruising_speed_fw :=
     _mission_cruising_speed_fw c; _mission_throttle := _mission_throttle c;
     _param_nav_loiter_rad := _param_nav_loiter_rad c; _param_nav_acc_rad :=
     _param_nav_acc_rad c; _param_nav_force_vt := _param_nav_force_vt c;
     _param_mpc_jerk_auto := _param_mpc_jerk_auto c; _param_mpc_acc_hor :=
     _param_mpc_acc_hor c; _geofence := _geofence c; _gf_breach_avoidance :=
     _gf_breach_avoidance c; _mission := _mission c; _rtl := _rtl c; _precland
     := _precland c; _vtol_takeoff := _vtol_takeoff c |}.

Definition set_mission_cruising_speed_fw (v : float) (c : Navigator) : Navigator :=
  {| _vstatus := _vstatus c; _global_pos := _global_pos c; _local_pos :=
     _local_pos c; _gps_pos := _gps_pos c; _home_pos := _home_pos c;
     _land_detected := _land_detected c; _position_controller_status :=
     _position_controller_status c; _mission_result := _mission_result c;
     _geofence_result := _geofence_result c; _vroi := _vroi c; _pos_sp_triplet
     := _pos_sp_triplet c; _reposition_triplet := _reposition_triplet c;
     _takeoff_triplet := _takeoff_triplet c; _navigation_mode :=
     _navigation_mode c; _previous_nav_state := _previous_nav_state c;
     _pos_sp_triplet_published_invalid_once :=
     _pos_sp_triplet_published_invalid_once c; _pos_sp_triplet_updated :=
     _pos_sp_triplet_updated c; _mission_result_updated :=
     _mission_result_updated c; _can_loiter_at_sp := _can_loiter_at_sp c;
     _geofence_violation_warning_sent := _geofence_violation_warning_sent c;
     _last_geofence_check := _last_geofence_check c;
     have_geofence_position_data := have_geofence_position_data c;
     _mission_cruising_speed_mc := _mission_cruising_speed_mc c;
     _mission_cruising_speed_fw := v; _mission_throttle := _mission_throttle c;
     _param_nav_loiter_rad := _param_nav_loiter_rad c; _param_nav_acc_rad :=
     _param_nav_acc_rad c; _param_nav_force_vt := _param_nav_force_vt c;
     _param_mpc_jerk_auto := _param_mpc_jerk_auto c; _param_mpc_acc_hor :=
     _param_mpc_acc_hor c; _geofence := _geofence c; _gf_breach_avoidance :=
     _gf_breach_avoidance c; _mission := _mission c; _rtl := _rtl c; _precland
     := _precland c; _vtol_takeoff := _vtol_takeoff c |}.

Definition set_mission_throttle (v : float) (c : Navigator) : Navigator :=
  {| _vstatus := _vstatus c; _global_pos := _global_pos c; _local_pos :=
     _local_pos c; _gps_pos := _gps_pos c; _home_pos := _home_pos c;
     _land_detected := _land_detected c; _position_controller_status :=
     _position_controller_status c; _mission_result := _mission_result c;
     _geofence_result := _geofence_result c; _vroi := _vroi c; _pos_sp_triplet
     := _pos_sp_triplet c; _reposition_triplet := _reposition_triplet c;
     _takeoff_triplet := _takeoff_triplet c; _navigation_mode :=
     _navigation_mode c; _previous_nav_state := _previous_nav_state c;
     _pos_sp_triplet_published_invalid_once :=
     _pos_sp_triplet_published_invalid_once c; _pos_sp_triplet_updated :=
     _pos_sp_triplet_updated c; _mission_result_updated :=
     _mission_result_updated c; _can_loiter_at_sp := _can_loiter_at_sp c;
     _geofence_violation_warning_sent := _geofence_violation_warning_sent c;
     _last_geofence_check := _last_geofence_check c;
     have_geofence_position_data := have_geofence_position_data c;
     _mission_cruising_speed_mc := _mission_cruising_speed_mc c;
     _mission_cruising_speed_fw := _mission_cruising_speed_fw c;
     _mission_throttle := v; _param_nav_loiter_rad := _param_nav_loiter_rad c;
     _param_nav_acc_rad := _param_nav_acc_rad c; _param_nav_force_vt :=
     _param_nav_force_vt c; _param_mpc_jerk_auto := _param_mpc_jerk_auto c;
     _param_mpc_acc_hor := _param_mpc_acc_hor c; _geofence := _geofence c;
     _gf_breach_avoidance := _gf_breach_avoidance c; _mission := _mission c;
     _rtl := _rtl c; _precland := _precland c; _vtol_takeoff := _vtol_takeoff c |}.


Definition set_mission (v : Mission) (c : Navigator) : Navigator :=
  {| _vstatus := _vstatus c; _global_pos := _global_pos c; _local_pos :=
     _local_pos c; _gps_pos := _gps_pos c; _home_pos := _home_pos c;
     _land_detected := _land_detected c; _position_controller_status :=
     _position_controller_status c; _mission_result := _mission_result c;
     _geofence_result := _geofence_result c; _vroi := _vroi c; _pos_sp_triplet
     := _pos_sp_triplet c; _reposition_triplet := _reposition_triplet c;
     _takeoff_triplet := _takeoff_triplet c; _navigation_mode :=
     _navigation_mode c; _previous_nav_state := _previous_nav_state c;
     _pos_sp_triplet_published_invalid_once :=
     _pos_sp_triplet_published_invalid_once c; _pos_sp_triplet_updated :=
     _pos_sp_triplet_updated c; _mission_result_updated :=
     _mission_result_updated c; _can_loiter_at_sp := _can_loiter_at_sp c;
     _geofence_violation_warning_sent := _geofence_violation_warning_sent c;
     _last_geofence_check := _last_geofence_check c;
     have_geofence_position_data := have_geofence_position_data c;
     _mission_cruising_speed_mc := _mission_cruising_speed_mc c;
     _mission_cruising_speed_fw := _mission_cruising_speed_fw c;
     _mission_throttle := _mission_throttle c; _param_nav_loiter_rad :=
     _param_nav_loiter_rad c; _param_nav_acc_rad := _param_nav_acc_rad c;
     _param_nav_force_vt := _param_nav_force_vt c; _param_mpc_jerk_auto :=
     _param_mpc_jerk_auto c; _param_mpc_acc_hor := _param_mpc_acc_hor c;
     _geofence := _geofence c; _gf_breach_avoidance := _gf_breach_avoidance c;
     _mission := v; _rtl := _rtl c; _precland := _precland c; _vtol_takeoff :=
     _vtol_takeoff c |}.

Definition set_precland (v : PrecLand) (c : Navigator) : Navigator :=
  {| _vstatus := _vstatus c; _global_pos := _global_pos c; _local_pos :=
     _local_pos c; _gps_pos := _gps_pos c; _home_pos := _home_pos c;
     _land_detected := _land_detected c; _position_controller_status :=
     _position_controller_status c; _mission_result := _mission_result c;
     _geofence_result := _geofence_result c; _vroi := _vroi c; _pos_sp_triplet
     := _pos_sp_triplet c; _reposition_triplet := _reposition_triplet c;
     _takeoff_triplet := _takeoff_triplet c; _navigation_mode :=
     _navigation_mode c; _previous_nav_state := _previous_nav_state c;
     _pos_sp_triplet_published_invalid_once :=
     _pos_sp_triplet_published_invalid_once c; _pos_sp_triplet_updated :=
     _pos_sp_triplet_updated c; _mission_result_updated :=
     _mission_result_updated c; _can_loiter_at_sp := _can_loiter_at_sp c;
     _geofence_violation_warning_sent := _geofence_violation_warning_sent c;
     _last_geofence_check := _last_geofence_check c;
     have_geofence_position_data := have_geofence_position_data c;
     _mission_cruising_speed_mc := _mission_cruising_speed_mc c;
     _mission_cruising_speed_fw := _mission_cruising_speed_fw c;
     _mission_throttle := _mission_throttle c; _param_nav_loiter_rad :=
     _param_nav_loiter_rad c; _param_nav_acc_rad := _param_nav_acc_rad c;
     _param_nav_force_vt := _param_nav_force_vt c; _param_mpc_jerk_auto :=
     _param_mpc_jerk_auto c; _param_mpc_acc_hor := _param_mpc_acc_hor c;
     _geofence := _geofence c; _gf_breach_avoidance := _gf_breach_avoidance c;
     _mission := _mission c; _rtl := _rtl c; _precland := v; _vtol_takeoff :=
     _vtol_takeoff c |}.

Definition set_vtol_takeoff (v : VtolTakeoff) (c : Navigator) : Navigator :=
  {| _vstatus := _vstatus c; _global_pos := _global_pos c; _local_pos :=
     _local_pos c; _gps_pos := _gps_pos c; _home_pos := _home_pos c;
     _land_detected := _land_detected c; _position_controller_status :=
     _position_controller_status c; _mission_result := _mission_result c;
     _geofence_result := _geofence_result c; _vroi := _vroi c; _pos_sp_triplet
     := _pos_sp_triplet c; _reposition_triplet := _reposition_triplet c;
     _takeoff_triplet := _takeoff_triplet c; _navigation_mode :=
     _navigation_mode c; _previous_nav_state := _previous_nav_state c;
     _pos_sp_triplet_published_invalid_once :=
     _pos_sp_triplet_published_invalid_once c; _pos_sp_triplet_updated :=
     _pos_sp_triplet_updated c; _mission_result_updated :=
     _mission_result_updated c; _can_loiter_at_sp := _can_loiter_at_sp c;
     _geofence_violation_warning_sent := _geofence_violation_warning_sent c;
     _last_geofence_check := _last_geofence_check c;
     have_geofence_position_data := have_geofence_position_data c;
     _mission_cruising_speed_mc := _mission_cruising_speed_mc c;
     _mission_cruising_speed_fw := _mission_cruising_speed_fw c;
     _mission_throttle := _mission_throttle c; _param_nav_loiter_rad :=
     _param_nav_loiter_rad c; _param_nav_acc_rad := _param_nav_acc_rad c;
     _param_nav_force_vt := _param_nav_force_vt c; _param_mpc_jerk_auto :=
     _param_mpc_jerk_auto c; _param_mpc_acc_hor := _param_mpc_acc_hor c;
     _geofence := _geofence c; _gf_breach_avoidance := _gf_breach_avoidance c;
     _mission := _mission c; _rtl := _rtl c; _precland := _precland c;
     _vtol_takeoff := v |}.

(** [NavigatorMode::run(active)] of the seven mode objects.  Each was
    constructed with a pointer to the Navigator and works on it. *)
Class NavigatorModes : Type := {
  run : navigator_mode -> bool -> Navigator -> Navigator
}.

Context {Modes : NavigatorModes}.

Definition NM : Type -> Type := M Navigator event.

Definition log_event (id : string) : NM unit := emit (log id).

(** *** Getters and setters of navigator.h and navigator_main.cpp *)

Definition get_loiter_radius (s : Navigator) : float :=
  _param_nav_loiter_rad s.

Definition get_default_acceptance_radius (s : Navigator) : float :=
  _param_nav_acc_rad s.

Definition get_cruising_speed (s : Navigator) : float :=
  (* there are three options: The mission-requested cruise speed, or the
     current hover / plane speed *)
  if is_rotary_wing_type (vehicle_type (_vstatus s)) then
    if fgt (_mission_cruising_speed_mc s) 0
    then _mission_cruising_speed_mc s else Fin (-1 # 1)
  else
    if fgt (_mission_cruising_speed_fw s) 0
    then _mission_cruising_speed_fw s else Fin (-1 # 1).

(** [set_sp_cruising_speed(float speed = -1.0f)]. *)
Definition set_cruising_speed (speed : float) : NM unit :=
  s <- get ;;
  if is_rotary_wing_type (vehicle_type (_vstatus s))
  then modify (set_mission_cruising_speed_mc speed)
  else modify (set_mission_cruising_speed_fw speed).

Definition reset_cruising_speed : NM unit :=
  modify (set_mission_cruising_speed_mc (Fin (-1 # 1))) ;;
  modify (set_mission_cruising_speed_fw (Fin (-1 # 1))).

Definition get_cruising_throttle (s : Navigator) : float :=
  (* Return the mission-requested cruise speed, or default FW_THR_TRIM
     value *)
  if fgt (_mission_throttle s) FLT_EPSILON then _mission_throttle s
  else NaN.

(** [set_sp_cruising_throttle(float throttle = NAN)]. *)
Definition set_cruising_throttle (throttle : float) : NM unit :=
  modify (set_mission_throttle throttle).

Definition get_acceptance_radius (s : Navigator) : float :=
  let acceptance_radius := get_default_acceptance_radius s in
  let pos_ctrl_status := _position_controller_status s in
  (* for fixed-wing and rover, return the max of NAV_ACC_RAD and the
     controller acceptance radius (e.g. L1 distance) *)
  if negb (is_rotary_wing_type (vehicle_type (_vstatus s)))
     && PX4_ISFINITE (pcs_acceptance_radius pos_ctrl_status)
     && negb (pcs_timestamp pos_ctrl_status =? 0)
  then fmax acceptance_radius (pcs_acceptance_radius pos_ctrl_status)
  else acceptance_radius.

Definition force_vtol (s : Navigator) : bool :=
  is_vtol (_vstatus s)
  && (is_fixed_wing_type (vehicle_type (_vstatus s))
      || in_transition_to_fw (_vstatus s))
  && _param_nav_force_vt s.

(** *** reset_position_setpoint, reset_triplets *)

Definition reset_position_setpoint (now : hrt_abstime) (s : Navigator)
  : position_setpoint_s :=
  {| timestamp := now;
     valid := false;
     type := SETPOINT_TYPE_IDLE;
     lat := NaN;
     lon := NaN;
     alt := alt position_setpoint_zero;
     yaw := yaw position_setpoint_zero;
     yaw_valid := yaw_valid position_setpoint_zero;
     alt_valid := alt_valid position_setpoint_zero;
     loiter_radius := get_loiter_radius s;
     loiter_direction_counter_clockwise := false;
     acceptance_radius := get_default_acceptance_radius s;
     cruising_speed := get_cruising_speed s;
     cruising_throttle := get_cruising_throttle s;
     disable_weather_vane := false |}.

Definition reset_triplets (now : hrt_abstime) : NM unit :=
  modify (fun s =>
            set_pos_sp_triplet
              (set_previous (reset_position_setpoint now s)
                 (_pos_sp_triplet s)) s) ;;
  modify (fun s =>
            set_pos_sp_triplet
              (set_current (reset_position_setpoint now s)
                 (_pos_sp_triplet s)) s) ;;
  modify (fun s =>
            set_pos_sp_triplet
              (set_next (reset_position_setpoint now s)
                 (_pos_sp_triplet s)) s) ;;
  modify (set_pos_sp_triplet_updated true).

Definition publish_position_setpoint_triplet (now : hrt_abstime)
  : NM unit :=
  modify (fun s =>
            set_pos_sp_triplet
              (set_triplet_timestamp now (_pos_sp_triplet s)) s) ;;
  s <- get ;;
  emit (triplet_published (_pos_sp_triplet s)) ;;
  modify (set_pos_sp_triplet_updated false).

Definition publish_mission_result : NM unit :=
  emit mission_result_published ;;
  modify (set_mission_result_updated false).

(** [publish_vehicle_cmd] for the opcodes this file publishes itself
    (MISSION_START, DO_VTOL_TRANSITION): the switch on camera opcodes takes
    its default label and no member changes. *)
Definition publish_vehicle_cmd (cmd : vehicle_cmd) (p1 : float) : NM unit :=
  emit (vehicle_cmd_published cmd p1).

Definition publish_vehicle_command_ack (cmd : vehicle_command_s)
  (result : cmd_result_t) : NM unit :=
  emit (command_ack (command cmd) result).

(** *** geofence_allows_position, calculate_breaking_stop *)

Definition geofence_allows_position (s : Navigator)
  (pos : vehicle_global_position_s) : bool :=
  if (match getGeofenceAction (_geofence s) with
      | GF_ACTION_NONE | GF_ACTION_WARN => false
      | _ => true
      end)
     && (PX4_ISFINITE (gpos_lat pos) && PX4_ISFINITE (gpos_lon pos))
  then geofence_check pos (_gps_pos s) (_geofence s)
  else true.

(** The values left in [lat], [lon] and [yaw]. *)
Definition calculate_breaking_stop (s : Navigator) : float * float * float :=
  (* For multirotors we need to account for the braking distance, otherwise
     the vehicle will overshoot and go back *)
  let course_over_ground := atan2f (vy (_local_pos s)) (vx (_local_pos s)) in
  (* predict braking distance *)
  let velocity_hor_abs :=
    sqrtf (fadd (fmul (vx (_local_pos s)) (vx (_local_pos s)))
                (fmul (vy (_local_pos s)) (vy (_local_pos s)))) in
  let multirotor_braking_distance :=
    computeBrakingDistanceFromVelocity velocity_hor_abs
      (_param_mpc_jerk_auto s) (_param_mpc_acc_hor s)
      (fmul (Fin float_0_6) (_param_mpc_jerk_auto s)) in
  let '(lat_, lon_) :=
    waypoint_from_heading_and_distance (gpos_lat (_global_pos s))
      (gpos_lon (_global_pos s)) course_over_ground
      multirotor_braking_distance in
  (lat_, lon_, heading (_local_pos s)).

(** *** Navigator::run, "Handle Vehicle commands": one command *)

(** The [position_setpoint] tested against the geofence for
    DO_REPOSITION. *)
Definition reposition_test_point (s : Navigator) (cmd : vehicle_command_s)
  : vehicle_global_position_s :=
  {| gpos_lat := param5 cmd;
     gpos_lon := param6 cmd;
     gpos_alt := if PX4_ISFINITE (param7 cmd) then param7 cmd
                 else gpos_alt (_global_pos s) |}.

(** The reposition triplet a valid DO_REPOSITION leaves behind. *)
Definition reposition_setpoint (now : hrt_abstime) (s : Navigator)
  (cmd : vehicle_command_s) : position_setpoint_triplet_s :=
  let rep := _reposition_triplet s in
  let curr := _pos_sp_triplet s in
  let gpos := _global_pos s in
  (* store current position as previous position and goal as next *)
  let prev1 :=
    set_sp_alt (gpos_alt gpos)
      (set_sp_lon (gpos_lon gpos)
         (set_sp_lat (gpos_lat gpos)
            (set_sp_yaw (heading (_local_pos s)) (previous rep)))) in
  let c1 := set_sp_type SETPOINT_TYPE_LOITER (current rep) in
  (* If no argument for ground speed, use default value. *)
  let c2 :=
    if fle (param1 cmd) 0 || negb (PX4_ISFINITE (param1 cmd))
    then set_sp_cruising_speed (get_cruising_speed s) c1
    else set_sp_cruising_speed (param1 cmd) c1 in
  let c3 :=
    set_sp_acceptance_radius (get_acceptance_radius s)
      (set_sp_cruising_throttle (get_cruising_throttle s) c2) in
  (* Go on and check which changes had been requested *)
  let c4 :=
    if PX4_ISFINITE (param4 cmd)
    then set_sp_yaw_valid true (set_sp_yaw (param4 cmd) c3)
    else set_sp_yaw_valid false (set_sp_yaw NaN c3) in
  let '(c5, only_alt_change_requested) :=
    if PX4_ISFINITE (param5 cmd) && PX4_ISFINITE (param6 cmd) then
      (* Position change with optional altitude change *)
      (set_sp_alt (if PX4_ISFINITE (param7 cmd) then param7 cmd
                else gpos_alt gpos)
         (set_sp_lon (param6 cmd) (set_sp_lat (param5 cmd) c4)), false)
    else if PX4_ISFINITE (param7 cmd) || PX4_ISFINITE (param4 cmd) then
      (* Position is not changing, thus we keep the setpoint *)
      let c :=
        set_sp_lon (if PX4_ISFINITE (lon (current curr))
                 then lon (current curr) else gpos_lon gpos)
          (set_sp_lat (if PX4_ISFINITE (lat (current curr))
                    then lat (current curr) else gpos_lat gpos) c4) in
      if PX4_ISFINITE (param7 cmd)
      then (set_sp_alt (param7 cmd) c, true)
      else (set_sp_alt (gpos_alt gpos) c, false)
    else
      (* All three set to NaN - pause vehicle *)
      let c := set_sp_alt (gpos_alt gpos) c4 in
      if is_rotary_wing_type (vehicle_type (_vstatus s))
         && negb (is_takeoff_type (type (current curr)))
      then
        let '(lat_, lon_, yaw_) := calculate_breaking_stop s in
        (set_sp_yaw_valid true (set_sp_yaw yaw_ (set_sp_lon lon_ (set_sp_lat lat_ c))),
         false)
      else
        (* For fixedwings we can use the current vehicle's position to
           define the loiter point *)
        (set_sp_lon (gpos_lon gpos) (set_sp_lat (gpos_lat gpos) c), false) in
  let c6 :=
    if (only_alt_change_requested : bool) then
      set_sp_loiter_direction_counter_clockwise
        (loiter_direction_counter_clockwise (current curr))
        (if PX4_ISFINITE (loiter_radius (current curr))
            && fgt (loiter_radius (current curr)) 0
         then set_sp_loiter_radius (loiter_radius (current curr)) c5
         else set_sp_loiter_radius (get_loiter_radius s) c5)
    else c5 in
  let prev2 := set_sp_timestamp now prev1 in
  let c7 := set_sp_timestamp now (set_sp_valid true c6) in
  let next1 := set_sp_valid false (next rep) in
  {| triplet_timestamp := triplet_timestamp rep;
     previous := prev2; current := c7; next := next1 |}.

Definition handle_do_reposition (now : hrt_abstime)
  (cmd : vehicle_command_s) : NM unit :=
  (* only update the reposition setpoint if armed, as it otherwise won't
     get executed until the vehicle switches to loiter, which can lead to
     dangerous and unexpected behaviors *)
  s <- get ;;
  let position_setpoint := reposition_test_point s cmd in
  let reposition_valid :=
    if have_geofence_position_data s
    then geofence_allows_position s position_setpoint
    else true in
  if reposition_valid
  then modify (set_reposition_triplet (reposition_setpoint now s cmd))
  else log_event "navigator_reposition_outside_geofence".
  (* CMD_DO_REPOSITION is acknowledged by commander *)

Definition orbit_setpoint (now : hrt_abstime) (s : Navigator)
  (cmd : vehicle_command_s) (pos : vehicle_global_position_s)
  : position_setpoint_triplet_s :=
  let rep := _reposition_triplet s in
  let c1 :=
    set_sp_cruising_throttle (get_cruising_throttle s)
      (set_sp_loiter_direction_counter_clockwise false
         (set_sp_loiter_radius (get_loiter_radius s)
            (set_sp_type SETPOINT_TYPE_LOITER (current rep)))) in
  let c2 :=
    if PX4_ISFINITE (param1 cmd)
    then set_sp_loiter_direction_counter_clockwise (flt (param1 cmd) 0)
           (set_sp_loiter_radius (fabsf (param1 cmd)) c1)
    else c1 in
  let c3 :=
    set_sp_alt (gpos_alt pos) (set_sp_lon (gpos_lon pos)
                              (set_sp_lat (gpos_lat pos) c2)) in
  set_current (set_sp_timestamp now (set_sp_valid true c3)) rep.

Definition handle_do_orbit (now : hrt_abstime) (cmd : vehicle_command_s)
  : NM unit :=
  (* for multicopters the orbit command is directly executed by the orbit
     flighttask *)
  s <- get ;;
  let gpos := _global_pos s in
  let position_setpoint :=
    {| gpos_lat := if PX4_ISFINITE (param5 cmd) then param5 cmd
                   else gpos_lat gpos;
       gpos_lon := if PX4_ISFINITE (param6 cmd) then param6 cmd
                   else gpos_lon gpos;
       gpos_alt := if PX4_ISFINITE (param7 cmd) then param7 cmd
                   else gpos_alt gpos |} in
  let orbit_location_valid :=
    if have_geofence_position_data s
    then geofence_allows_position s position_setpoint
    else true in
  if orbit_location_valid
  then modify (set_reposition_triplet
                 (orbit_setpoint now s cmd position_setpoint))
  else log_event "Orbit is outside geofence".

Definition takeoff_setpoint (now : hrt_abstime) (s : Navigator)
  (cmd : vehicle_command_s) : position_setpoint_triplet_s :=
  let rep := _takeoff_triplet s in
  let gpos := _global_pos s in
  (* store current position as previous position and goal as next *)
  let prev1 :=
    set_sp_alt (gpos_alt gpos)
      (set_sp_lon (gpos_lon gpos)
         (set_sp_lat (gpos_lat gpos)
            (set_sp_yaw (heading (_local_pos s)) (previous rep)))) in
  let c1 :=
    set_sp_type SETPOINT_TYPE_TAKEOFF
      (set_sp_loiter_direction_counter_clockwise false
         (set_sp_loiter_radius (get_loiter_radius s) (current rep))) in
  let '(c2, prev2) :=
    if home_global_position_valid (_global_pos s) (_home_pos s) then
      (* Only set yaw if we know the true heading *)
      (set_sp_yaw (param4 cmd) c1, set_sp_timestamp now (set_sp_valid true prev1))
    else
      (set_sp_yaw (heading (_local_pos s)) c1, set_sp_valid false prev1) in
  let c3 :=
    if PX4_ISFINITE (param5 cmd) && PX4_ISFINITE (param6 cmd)
    then set_sp_lon (param6 cmd) (set_sp_lat (param5 cmd) c2)
    else
      (* If one of them is non-finite set the current global position as
         target *)
      set_sp_lon (gpos_lon gpos) (set_sp_lat (gpos_lat gpos) c2) in
  let c4 := set_sp_timestamp now (set_sp_valid true (set_sp_alt (param7 cmd) c3)) in
  {| triplet_timestamp := triplet_timestamp rep;
     previous := prev2; current := c4;
     next := set_sp_valid false (next rep) |}.

Definition handle_do_change_speed (cmd : vehicle_command_s) : NM unit :=
  (if fgt (param2 cmd) FLT_EPSILON then
     (* XXX not differentiating ground and airspeed yet *)
     set_cruising_speed (param2 cmd)
   else
     set_cruising_speed (Fin (-1 # 1)) ;;
     (* if no speed target was given try to set throttle *)
     if fgt (param3 cmd) FLT_EPSILON
     then set_cruising_throttle (fdiv (param3 cmd) (Fin (100 # 1)))
     else set_cruising_throttle NaN) ;;
  publish_vehicle_command_ack cmd VEHICLE_CMD_RESULT_ACCEPTED.

Definition roi_mode_of_float (x : float) : roi_mode_t :=
  VEHICLE_ROI_raw (cast_uint8 x).

Definition handle_set_roi (now : hrt_abstime) (cmd : vehicle_command_s)
  : NM unit :=
  let vroi :=
    match command cmd with
    | VEHICLE_CMD_DO_SET_ROI | VEHICLE_CMD_NAV_ROI =>
        {| roi_timestamp := now; roi_mode := roi_mode_of_float (param1 cmd);
           roi_lat := Fin 0; roi_lon := Fin 0; roi_alt := Fin 0;
           roll_offset := Fin 0; pitch_offset := Fin 0;
           yaw_offset := Fin 0 |}
    | VEHICLE_CMD_DO_SET_ROI_LOCATION =>
        {| roi_timestamp := now; roi_mode := VEHICLE_ROI_LOCATION;
           roi_lat := param5 cmd; roi_lon := param6 cmd;
           roi_alt := param7 cmd;
           roll_offset := Fin 0; pitch_offset := Fin 0;
           yaw_offset := Fin 0 |}
    | VEHICLE_CMD_DO_SET_ROI_WPNEXT_OFFSET =>
        {| roi_timestamp := now; roi_mode := VEHICLE_ROI_WPNEXT;
           roi_lat := Fin 0; roi_lon := Fin 0; roi_alt := Fin 0;
           roll_offset := fmul (param6 cmd) M_DEG_TO_RAD_F;
           pitch_offset := fmul (param5 cmd) M_DEG_TO_RAD_F;
           yaw_offset := fmul (param7 cmd) M_DEG_TO_RAD_F |}
    | _ =>
        {| roi_timestamp := now; roi_mode := VEHICLE_ROI_NONE;
           roi_lat := Fin 0; roi_lon := Fin 0; roi_alt := Fin 0;
           roll_offset := Fin 0; pitch_offset := Fin 0;
           yaw_offset := Fin 0 |}
    end in
  modify (set_vroi vroi) ;;
  emit (vehicle_roi_published vroi) ;;
  publish_vehicle_command_ack cmd VEHICLE_CMD_RESULT_ACCEPTED.

Definition handle_do_vtol_transition : NM unit :=
  (* reset cruise speed and throttle to default when transitioning (VTOL
     Takeoff handles it separately) *)
  reset_cruising_speed ;;
  set_cruising_throttle NaN ;;
  (* need to update current setpooint with reset cruise speed and
     throttle *)
  modify (fun s => set_reposition_triplet (_pos_sp_triplet s) s) ;;
  modify (fun s =>
            set_reposition_triplet
              (set_current
                 (set_sp_cruising_speed (get_cruising_speed s)
                    (current (_reposition_triplet s)))
                 (_reposition_triplet s)) s) ;;
  modify (fun s =>
            set_reposition_triplet
              (set_current
                 (set_sp_cruising_throttle (get_cruising_throttle s)
                    (current (_reposition_triplet s)))
                 (_reposition_triplet s)) s).

(** The [if]/[else if] chain on [cmd.command] in the command loop. *)
Definition handle_vehicle_command (now : hrt_abstime)
  (cmd : vehicle_command_s) : NM unit :=
  s <- get ;;
  match command cmd with
  | VEHICLE_CMD_DO_GO_AROUND =>
      (* DO_GO_AROUND is currently handled by the position controller
         (unacknowledged) *)
      publish_vehicle_command_ack cmd VEHICLE_CMD_RESULT_ACCEPTED
  | VEHICLE_CMD_DO_REPOSITION =>
      if is_armed_state (arming_state (_vstatus s))
      then handle_do_reposition now cmd
      else ret tt
  | VEHICLE_CMD_DO_ORBIT =>
      if is_fixed_wing_type (vehicle_type (_vstatus s))
      then handle_do_orbit now cmd
      else ret tt
  | VEHICLE_CMD_NAV_TAKEOFF =>
      modify (set_takeoff_triplet (takeoff_setpoint now s cmd))
      (* CMD_NAV_TAKEOFF is acknowledged by commander *)
  | VEHICLE_CMD_NAV_VTOL_TAKEOFF =>
      modify (fun c =>
                set_vtol_takeoff
                  (setTransitionAltitudeAbsolute (param7 cmd)
                     (_vtol_takeoff c)) c) ;;
      (* after the transition the vehicle will establish on a loiter at
         this position *)
      modify (fun c =>
                set_vtol_takeoff
                  (setLoiterLocation (param5 cmd) (param6 cmd)
                     (_vtol_takeoff c)) c) ;;
      (* loiter height is the height above takeoff altitude at which the
         vehicle will establish on a loiter circle *)
      modify (fun c =>
                set_vtol_takeoff
                  (setLoiterHeight (param1 cmd) (_vtol_takeoff c)) c)
  | VEHICLE_CMD_DO_LAND_START =>
      (* find NAV_CMD_DO_LAND_START in the mission and use
         MAV_CMD_MISSION_START to start the mission there *)
      let '(found, mission) := land_start (_mission s) in
      modify (set_mission mission) ;;
      (if found
       then publish_vehicle_cmd VEHICLE_CMD_MISSION_START
              (get_land_start_index mission)
       else log_event "planned mission landing not available") ;;
      publish_vehicle_command_ack cmd VEHICLE_CMD_RESULT_ACCEPTED
  | VEHICLE_CMD_MISSION_START =>
      when (mission_result_valid (_mission_result s)
            && PX4_ISFINITE (param1 cmd) && fge (param1 cmd) 0)
           (let '(ok, mission) :=
              set_current_mission_index (param1 cmd) (_mission s) in
            modify (set_mission mission) ;;
            when (negb ok) (log_event "CMD_MISSION_START failed"))
      (* CMD_MISSION_START is acknowledged by commander *)
  | VEHICLE_CMD_DO_CHANGE_SPEED => handle_do_change_speed cmd
  | VEHICLE_CMD_DO_SET_ROI
  | VEHICLE_CMD_NAV_ROI
  | VEHICLE_CMD_DO_SET_ROI_LOCATION
  | VEHICLE_CMD_DO_SET_ROI_WPNEXT_OFFSET
  | VEHICLE_CMD_DO_SET_ROI_NONE => handle_set_roi now cmd
  | VEHICLE_CMD_DO_VTOL_TRANSITION =>
      if (match nav_state (_vstatus s) with
          | NAVIGATION_STATE_AUTO_VTOL_TAKEOFF => false
          | _ => true
          end)
      then handle_do_vtol_transition
      else ret tt
  | _ => ret tt
  end.

(** *** Navigator::geofence_breach_check *)







(** *** Navigator::run, "Do stuff according to navigation state set by
        commander" *)

Definition is_nav_state_auto_rtl (n : nav_state_t) : bool :=
  match n with NAVIGATION_STATE_AUTO_RTL => true | _ => false end.

Definition is_mode (m : navigator_mode) (p : option navigator_mode) : bool :=
  mode_ptr_eqb p (Some m).

(** The case NAVIGATION_STATE_AUTO_RTL. *)
Definition select_rtl_mode : NM (option navigator_mode) :=
  modify (set_pos_sp_triplet_published_invalid_once false) ;;
  s <- get ;;
  let rtl_activated := negb (is_nav_state_auto_rtl (_previous_nav_state s)) in
  match get_rtl_type (_rtl s) with
  | RTL_TYPE_MISSION_LANDING | RTL_TYPE_CLOSEST =>
      if negb rtl_activated && (RTL_STATE_LOITER <? getRTLState (_rtl s))
         && getShouldEngageMissionForLanding (_rtl s)
      then
        modify (fun c =>
                  set_mission
                    (set_execution_mode MISSION_EXECUTION_MODE_FAST_FORWARD
                       (_mission c)) c) ;;
        s1 <- get ;;
        when (negb (getMissionLandingInProgress (_mission s1))
              && is_armed_state (arming_state (_vstatus s1))
              && negb (landed (_land_detected s1)))
             (modify (fun c =>
                        set_mission (start_mission_landing (_mission c)) c)) ;;
        ret (Some mode_mission)
      else ret (Some mode_rtl)
  | RTL_TYPE_MISSION_LANDING_REVERSED =>
      if get_land_start_available (_mission s)
         && negb (landed (_land_detected s))
      then
        (* the mission contains a landing spot *)
        modify (fun c =>
                  set_mission
                    (set_execution_mode MISSION_EXECUTION_MODE_FAST_FORWARD
                       (_mission c)) c) ;;
        when (negb (is_mode mode_mission (_navigation_mode s)))
             (if mode_ptr_eqb (_navigation_mode s) None then
                (* switching from an manual mode, go to landing if not
                   already landing *)
                s1 <- get ;;
                when (negb (on_mission_landing (_mission s1)))
                     (modify (fun c =>
                                set_mission
                                  (start_mission_landing (_mission c)) c))
              else
                (* switching from an auto mode, continue the mission from
                   the closest item *)
                modify (fun c =>
                          set_mission
                            (set_closest_item_as_current (_mission c)) c)) ;;
        when rtl_activated (log_event "navigator_rtl_mission_activated") ;;
        ret (Some mode_mission)
      else
        (* fly the mission in reverse if switching from a non-manual mode *)
        modify (fun c =>
                  set_mission
                    (set_execution_mode MISSION_EXECUTION_MODE_REVERSE
                       (_mission c)) c) ;;
        s1 <- get ;;
        if (negb (mode_ptr_eqb (_navigation_mode s1) None)
            && (negb (is_mode mode_rtl (_navigation_mode s1))
                || get_mission_changed (_mission s1)))
           && negb (get_mission_finished (_mission s1))
           && negb (landed (_land_detected s1))
        then
          (* determine the closest mission item if switching from a
             non-mission mode, and we are either not already mission mode
             or the mission waypoints changed. *)
          when (negb (is_mode mode_mission (_navigation_mode s1))
                && (rtl_activated
                    || get_mission_waypoints_changed (_mission s1)))
               (modify (fun c =>
                          set_mission
                            (set_closest_item_as_current (_mission c)) c)) ;;
          when rtl_activated
               (log_event "navigator_rtl_mission_activated_rev") ;;
          ret (Some mode_mission)
        else
          when rtl_activated
               (log_event "navigator_rtl_mission_activated_home") ;;
          ret (Some mode_rtl)
  | RTL_TYPE_other _ =>
      when rtl_activated (log_event "navigator_rtl_home_activated") ;;
      ret (Some mode_rtl)
  end.

(** The [switch (_vstatus.nav_state)]: the value of
    [navigation_mode_new] when the switch is left. *)
Definition select_navigation_mode : NM (option navigator_mode) :=
  s <- get ;;
  match nav_state (_vstatus s) with
  | NAVIGATION_STATE_AUTO_MISSION =>
      modify (set_pos_sp_triplet_published_invalid_once false) ;;
      modify (fun c =>
                set_mission
                  (set_execution_mode MISSION_EXECUTION_MODE_NORMAL
                     (_mission c)) c) ;;
      ret (Some mode_mission)
  | NAVIGATION_STATE_AUTO_LOITER =>
      modify (set_pos_sp_triplet_published_invalid_once false) ;;
      ret (Some mode_loiter)
  | NAVIGATION_STATE_AUTO_RTL => select_rtl_mode
  | NAVIGATION_STATE_AUTO_TAKEOFF =>
      modify (set_pos_sp_triplet_published_invalid_once false) ;;
      ret (Some mode_takeoff)
  | NAVIGATION_STATE_AUTO_VTOL_TAKEOFF =>
      modify (set_pos_sp_triplet_published_invalid_once false) ;;
      ret (Some mode_vtol_takeoff)
  | NAVIGATION_STATE_AUTO_LAND =>
      modify (set_pos_sp_triplet_published_invalid_once false) ;;
      ret (Some mode_land)
  | NAVIGATION_STATE_AUTO_PRECLAND =>
      modify (set_pos_sp_triplet_published_invalid_once false) ;;
      modify (fun c =>
                set_precland (set_mode PrecLandMode_Required (_precland c))
                  c) ;;
      ret (Some mode_precland)
  | NAVIGATION_STATE_MANUAL
  | NAVIGATION_STATE_ACRO
  | NAVIGATION_STATE_ALTCTL
  | NAVIGATION_STATE_POSCTL
  | NAVIGATION_STATE_DESCEND
  | NAVIGATION_STATE_TERMINATION
  | NAVIGATION_STATE_OFFBOARD
  | NAVIGATION_STATE_STAB
  | NAVIGATION_STATE_other _ =>
      modify (set_can_loiter_at_sp false) ;;
      ret None
  end.

(** "we have a new navigation mode: reset triplet", then
    [_navigation_mode = navigation_mode_new]. *)
Definition valid_loiter_setpoint (s : Navigator) : bool :=
  valid (current (_pos_sp_triplet s))
  && is_loiter_type (type (current (_pos_sp_triplet s))).

Definition switch_navigation_mode (now : hrt_abstime)
  (navigation_mode_new : option navigator_mode) : NM unit :=
  s <- get ;;
  when (negb (mode_ptr_eqb (_navigation_mode s) navigation_mode_new))
    (let current_mode_is_takeoff := is_mode mode_takeoff (_navigation_mode s) in
     let new_mode_is_loiter := is_mode mode_loiter navigation_mode_new in
     let did_not_switch_takeoff_to_loiter :=
       negb (current_mode_is_takeoff && new_mode_is_loiter) in
     let did_not_switch_to_loiter_with_valid_loiter_setpoint :=
       negb (new_mode_is_loiter && valid_loiter_setpoint s) in
     when (did_not_switch_takeoff_to_loiter
           && did_not_switch_to_loiter_with_valid_loiter_setpoint)
          (reset_triplets now) ;;
     (* transition to hover in Descend mode *)
     s1 <- get ;;
     when ((match nav_state (_vstatus s1) with
            | NAVIGATION_STATE_DESCEND => true | _ => false end)
           && is_vtol (_vstatus s1)
           && is_fixed_wing_type (vehicle_type (_vstatus s1))
           && force_vtol s1)
          (publish_vehicle_cmd VEHICLE_CMD_DO_VTOL_TRANSITION
             VEHICLE_VTOL_STATE_MC ;;
           log_event "navigator_transition_descend")) ;;
  modify (set_navigation_mode navigation_mode_new).

(** "iterate through navigation modes and set active/inactive for each".
    No entry of the array is null. *)
Fixpoint run_navigation_modes (modes : list navigator_mode) : NM unit :=
  match modes with
  | [] => ret tt
  | m :: rest =>
      s <- get ;;
      let active := mode_ptr_eqb (_navigation_mode s) (Some m) in
      emit (mode_run m active) ;;
      modify (run m active) ;;
      run_navigation_modes rest
  end.

(** One pass from the [switch] on the navigation state to the publication
    of the triplet and of the mission result. *)
Definition navigation_cycle (now : hrt_abstime) : NM unit :=
  selected <- select_navigation_mode ;;
  s <- get ;;
  (* Do not execute any state machine while we are disarmed *)
  let navigation_mode_new :=
    if negb (is_armed_state (arming_state (_vstatus s))) then None
    else selected in
  (* update the vehicle status *)
  modify (set_previous_nav_state (nav_state (_vstatus s))) ;;
  switch_navigation_mode now navigation_mode_new ;;
  run_navigation_modes _navigation_mode_array ;;
  (* if nothing is running, set position setpoint triplet invalid once *)
  s1 <- get ;;
  when (mode_ptr_eqb (_navigation_mode s1) None
        && negb (_pos_sp_triplet_published_invalid_once s1))
       (modify (set_pos_sp_triplet_published_invalid_once true) ;;
        reset_triplets now) ;;
  s2 <- get ;;
  when (_pos_sp_triplet_updated s2)
       (publish_position_setpoint_triplet now) ;;
  s3 <- get ;;
  when (_mission_result_updated s3) publish_mission_result.

End Model.

End Navigator.

(** * Reference instances of the interfaces

    Small executable stand-ins for the collaborators, used to run the model
    on concrete inputs. *)

Module Reference.

Import Commander.

(** An arm state machine with the transitions Init/Standby/Armed of the
    design: arming from Standby or InAirRestore, disarming from Armed,
    Init and Shutdown refused while armed. *)
Definition ref_arming_transition (m : arming_state_t) (target : arming_state_t)
  : transition_result_t * arming_state_t :=
  match target, m with
  | ARMING_STATE_ARMED, ARMING_STATE_ARMED => (TRANSITION_NOT_CHANGED, m)
  | ARMING_STATE_ARMED, (ARMING_STATE_STANDBY | ARMING_STATE_IN_AIR_RESTORE) =>
      (TRANSITION_CHANGED, ARMING_STATE_ARMED)
  | ARMING_STATE_ARMED, _ => (TRANSITION_DENIED, m)
  | ARMING_STATE_STANDBY, ARMING_STATE_STANDBY => (TRANSITION_NOT_CHANGED, m)
  | ARMING_STATE_STANDBY, (ARMING_STATE_ARMED | ARMING_STATE_INIT) =>
      (TRANSITION_CHANGED, ARMING_STATE_STANDBY)
  | ARMING_STATE_STANDBY, _ => (TRANSITION_DENIED, m)
  | (ARMING_STATE_INIT | ARMING_STATE_SHUTDOWN), ARMING_STATE_ARMED =>
      (TRANSITION_DENIED, m)
  | t, _ => (TRANSITION_CHANGED, t)
  end.

Definition ref_nav_state_of (m : main_state_t) : nav_state_t :=
  match m with
  | MAIN_STATE_MANUAL => NAVIGATION_STATE_MANUAL
  | MAIN_STATE_ALTCTL => NAVIGATION_STATE_ALTCTL
  | MAIN_STATE_POSCTL => NAVIGATION_STATE_POSCTL
  | MAIN_STATE_AUTO_MISSION => NAVIGATION_STATE_AUTO_MISSION
  | MAIN_STATE_AUTO_LOITER => NAVIGATION_STATE_AUTO_LOITER
  | MAIN_STATE_AUTO_RTL => NAVIGATION_STATE_AUTO_RTL
  | MAIN_STATE_ACRO => NAVIGATION_STATE_ACRO
  | MAIN_STATE_OFFBOARD => NAVIGATION_STATE_OFFBOARD
  | MAIN_STATE_STAB => NAVIGATION_STATE_STAB
  | MAIN_STATE_AUTO_TAKEOFF => NAVIGATION_STATE_AUTO_TAKEOFF
  | MAIN_STATE_AUTO_LAND => NAVIGATION_STATE_AUTO_LAND
  | MAIN_STATE_AUTO_PRECLAND => NAVIGATION_STATE_AUTO_PRECLAND
  | MAIN_STATE_AUTO_VTOL_TAKEOFF => NAVIGATION_STATE_AUTO_VTOL_TAKEOFF
  | _ => NAVIGATION_STATE_MANUAL
  end.

Definition nav_state_eqb (a b : nav_state_t) : bool :=
  match a, b with
  | NAVIGATION_STATE_MANUAL, NAVIGATION_STATE_MANUAL
  | NAVIGATION_STATE_ALTCTL, NAVIGATION_STATE_ALTCTL
  | NAVIGATION_STATE_POSCTL, NAVIGATION_STATE_POSCTL
  | NAVIGATION_STATE_AUTO_MISSION, NAVIGATION_STATE_AUTO_MISSION
  | NAVIGATION_STATE_AUTO_LOITER, NAVIGATION_STATE_AUTO_LOITER
  | NAVIGATION_STATE_AUTO_RTL, NAVIGATION_STATE_AUTO_RTL
  | NAVIGATION_STATE_ACRO, NAVIGATION_STATE_ACRO
  | NAVIGATION_STATE_DESCEND, NAVIGATION_STATE_DESCEND
  | NAVIGATION_STATE_TERMINATION, NAVIGATION_STATE_TERMINATION
  | NAVIGATION_STATE_OFFBOARD, NAVIGATION_STATE_OFFBOARD
  | NAVIGATION_STATE_STAB, NAVIGATION_STATE_STAB
  | NAVIGATION_STATE_AUTO_TAKEOFF, NAVIGATION_STATE_AUTO_TAKEOFF
  | NAVIGATION_STATE_AUTO_LAND, NAVIGATION_STATE_AUTO_LAND
  | NAVIGATION_STATE_AUTO_PRECLAND, NAVIGATION_STATE_AUTO_PRECLAND
  | NAVIGATION_STATE_AUTO_VTOL_TAKEOFF, NAVIGATION_STATE_AUTO_VTOL_TAKEOFF =>
      true
  | NAVIGATION_STATE_other x, NAVIGATION_STATE_other y => x =? y
  | _, _ => false
  end.

(** A resolver without failsafe conditions: the navigation state follows
    the main state; the result reports whether it changed. *)
Definition ref_set_nav_state (status : vehicle_status_s)
  (armed_ : actuator_armed_s) (internal_state : commander_state_s)
  : bool * vehicle_status_s * actuator_armed_s * commander_state_s :=
  let new_state := ref_nav_state_of (main_state internal_state) in
  (negb (nav_state_eqb (nav_state status) new_state),
   {| system_id := system_id status; component_id := component_id status;
      vehicle_type := vehicle_type status; nav_state := new_state;
      nav_state_timestamp := nav_state_timestamp status;
      rc_signal_lost := rc_signal_lost status;
      auto_mission_available := auto_mission_available status;
      in_transition_mode := in_transition_mode status;
      failsafe := failsafe status |},
   armed_, internal_state).

#[export] Instance commander_ref : Commander.Interfaces := {|
  ArmStateMachine := arming_state_t;
  HealthAndArmingChecks := unit;
  HomePosition := unit;
  WorkerThread := bool;
  Safety := bool;
  isArmed := is_armed_state;
  isStandby := fun m => match m with ARMING_STATE_STANDBY => true | _ => false end;
  isShutdown := fun m => match m with ARMING_STATE_SHUTDOWN => true | _ => false end;
  forceArmState := fun target _ => target;
  arming_state_transition := fun m status target armed_ checks _ _ =>
    let '(r, m') := ref_arming_transition m target in
    (r, m', status, armed_, checks);
  main_state_transition := fun _ new_state _ internal_state =>
    (TRANSITION_CHANGED,
     {| main_state := new_state;
        main_state_changes := main_state_changes internal_state + 1 |});
  set_nav_state := fun status armed_ internal_state _ _ _ _ _ =>
    ref_set_nav_state status armed_ internal_state;
  is_ground_vehicle := fun status => is_rover_type (vehicle_type status);
  checks_update := fun _ c => c;
  setHomePosition := fun _ h => (true, h);
  setManually := fun _ _ _ _ h => (true, h);
  isBusy := fun w => w;
  startTask := fun _ _ => true;
  setMagQuickData := fun _ _ _ w => w;
  isButtonAvailable := fun _ => false;
  isSafetyOff := fun sfty => sfty;
  activateSafety := fun _ => false;
  check_battery_disconnected := fun _ => true;
  px4_reboot_request := fun _ _ => 0;
  px4_shutdown_request := fun _ => 0;
  CONFIG_BOARDCTL_RESET := true;
  BOARD_HAS_POWER_CONTROL := false;
  fadd := fun x y =>
    match x, y with Fin a, Fin b => Fin (Qred (a + b)) | _, _ => NaN end;
  fmul := fun x y =>
    match x, y with Fin a, Fin b => Fin (Qred (a * b)) | _, _ => NaN end;
  radians := fun x => x;
  wrap_2pi := fun x => x;
  INAIR_RESTART_HOLDOFF_INTERVAL := 500000;
  PX4_CUSTOM_MAIN_MODE_MANUAL := 1;
  PX4_CUSTOM_MAIN_MODE_ALTCTL := 2;
  PX4_CUSTOM_MAIN_MODE_POSCTL := 3;
  PX4_CUSTOM_MAIN_MODE_AUTO := 4;
  PX4_CUSTOM_MAIN_MODE_ACRO := 5;
  PX4_CUSTOM_MAIN_MODE_OFFBOARD := 6;
  PX4_CUSTOM_MAIN_MODE_STABILIZED := 7;
  PX4_CUSTOM_SUB_MODE_AUTO_TAKEOFF := 2;
  PX4_CUSTOM_SUB_MODE_AUTO_LOITER := 3;
  PX4_CUSTOM_SUB_MODE_AUTO_MISSION := 4;
  PX4_CUSTOM_SUB_MODE_AUTO_RTL := 5;
  PX4_CUSTOM_SUB_MODE_AUTO_LAND := 6;
  PX4_CUSTOM_SUB_MODE_AUTO_FOLLOW_TARGET := 8;
  PX4_CUSTOM_SUB_MODE_AUTO_PRECLAND := 9;
  PREFLIGHT_CALIBRATION_TEMPERATURE_CALIBRATION := 3;
  MAX_NUM_MOTORS := 12;
  MAX_NUM_SERVOS := 8;
  FUNCTION_MOTOR1 := 101;
  FUNCTION_SERVO1 := 201;
  ACTION_RELEASE_CONTROL := 0;
  ACTION_DO_CONTROL := 1
|}.

(** A vehicle on the ground after boot: system 1, component 1, disarmed
    (Standby), manual mode, nothing triggered. *)
Definition commander_boot : Commander.Commander :=
  {| _vehicle_status :=
       {| system_id := 1; component_id := 1;
          vehicle_type := VEHICLE_TYPE_ROTARY_WING;
          nav_state := NAVIGATION_STATE_MANUAL; nav_state_timestamp := 0;
          rc_signal_lost := false; auto_mission_available := false;
          in_transition_mode := false; failsafe := false |};
     _actuator_armed :=
       {| armed := false; prearmed := false; ready_to_arm := true;
          lockdown := false; manual_lockdown := false;
          force_failsafe := false; in_esc_calibration_mode := false |};
     _vehicle_control_mode :=
       {| flag_control_manual_enabled := false;
          flag_control_climb_rate_enabled := true;
          flag_control_auto_enabled := false |};
     _vehicle_land_detected := {| landed := true; maybe_landed := false |};
     _vehicle_status_flags :=
       {| home_position_valid := true; calibration_enabled := false;
          rc_calibration_in_progress := false |};
     _commander_state :=
       {| main_state := MAIN_STATE_MANUAL; main_state_changes := 0 |};
     _geofence_result :=
       {| gf_timestamp := 0; geofence_violated := false;
          geofence_action := GF_ACTION_NONE; home_required := false |};
     _mission_result :=
       {| seq_total := 0; finished := false; stay_in_failsafe := false |};
     _arm_state_machine := ARMING_STATE_STANDBY;
     _health_and_arming_checks := tt;
     _home_position := tt;
     _worker_thread := false;
     _safety := false;
     _lockdown_triggered := false;
     _flight_termination_triggered := false;
     _status_changed := false;
     _is_throttle_above_center := false;
     _is_throttle_low := true;
     _was_armed := false;
     _have_taken_off_since_arming := false;
     _imbalanced_propeller_check_triggered := false;
     _last_disarmed_timestamp := 0;
     _boot_timestamp := 0;
     _high_latency_datalink_heartbeat := 0;
     _param_com_home_en := true;
     _param_com_force_safety := false;
     _param_com_mot_test_en := 0;
     _param_flight_uuid := 0;
     _failsafe_params :=
       {| param_nav_dll_act := 0; param_nav_rcl_act := 2;
          param_com_obl_act := 0; param_com_qc_act := 0;
          param_com_obl_rc_act := 0; param_com_posctl_navl := 0;
          param_com_rcl_act_t := Fin (1 # 2); param_com_rcl_except := 0 |}
  |}.

(** The same vehicle armed and flying in an automatic mode. *)
Definition commander_flying : Commander.Commander :=
    {| _vehicle_status := _vehicle_status commander_boot;
       _actuator_armed := _actuator_armed commander_boot;
       _vehicle_control_mode := _vehicle_control_mode commander_boot;
       _vehicle_land_detected := {| landed := false; maybe_landed := false |};
       _vehicle_status_flags := _vehicle_status_flags commander_boot;
       _commander_state :=
         {| main_state := MAIN_STATE_AUTO_LOITER; main_state_changes := 1 |};
       _geofence_result := _geofence_result commander_boot;
       _mission_result := _mission_result commander_boot;
       _arm_state_machine := ARMING_STATE_ARMED;
       _health_and_arming_checks := tt;
       _home_position := tt;
       _worker_thread := false;
       _safety := false;
       _lockdown_triggered := false;
       _flight_termination_triggered := false;
       _status_changed := false;
       _is_throttle_above_center := false;
       _is_throttle_low := true;
       _was_armed := true;
       _have_taken_off_since_arming := true;
       _imbalanced_propeller_check_triggered := false;
       _last_disarmed_timestamp := 0;
       _boot_timestamp := 0;
       _high_latency_datalink_heartbeat := 0;
       _param_com_home_en := true;
       _param_com_force_safety := false;
       _param_com_mot_test_en := 0;
       _param_flight_uuid := 0;
       _failsafe_params := _failsafe_params commander_boot |}.

(** The vehicle on the ground in the cycle, 60 s after boot, that saw it
    go from armed to disarmed. *)
Definition commander_just_disarmed : Commander.Commander :=
  state_of (run_arming_state_changes (60 * us_per_s)
              (set_was_armed true commander_boot)).

(** A command from a ground station addressed to system 1, component 1;
    the parameters after the second are 0. *)
Definition command_to_us (c : vehicle_cmd) (p1 p2 : float)
  : vehicle_command_s :=
  {| command := c; param1 := p1; param2 := p2; param3 := Fin 0;
     param4 := Fin 0; param5 := Fin 0; param6 := Fin 0; param7 := Fin 0;
     target_system := 1; target_component := 1;
     source_system := 255; source_component := 190;
     from_external := true |}.

Definition flight_termination (p : Q) : vehicle_command_s :=
  command_to_us VEHICLE_CMD_DO_FLIGHTTERMINATION (Fin p) (Fin 0).

Definition kill_request (src : action_source_t) : action_request_s :=
  {| source := src; action := ACTION_KILL; mode := MAIN_STATE_MANUAL |}.

Definition disarm_command : vehicle_command_s :=
  command_to_us VEHICLE_CMD_COMPONENT_ARM_DISARM (Fin 0) (Fin 0).



End Reference.

Module NavigatorReference.

Import Navigator.

(** A fence that is a northern boundary: inside is every latitude up to
    [ref_max_lat].  The breach avoidance object keeps the current position;
    the loiter point for a multirotor is that position, as the comment at
    the call in [geofence_breach_check] has it ("we set the loiter point to
    the current position"), the one for a fixed wing lies on the
    boundary. *)
Record ref_geofence : Type := {
  ref_action : geofence_action_t;
  ref_predict : bool;
  ref_max_lat : Q
}.

Definition ref_inside (lat_ : float) (g : ref_geofence) : bool :=
  fle lat_ (ref_max_lat g).

#[export] Instance navigator_ref : Navigator.Interfaces := {|
  Geofence := ref_geofence;
  GeofenceBreachAvoidance := float * float;
  Mission := Z;
  RTL := rtl_type_t;
  PrecLand := precland_mode;
  VtolTakeoff := float;
  sensor_gps_s := unit;
  getGeofenceAction := ref_action;
  getPredict := ref_predict;
  isHomeRequired := fun _ => false;
  getMaxHorDistanceHome := fun _ => Fin 0;
  getMaxVerDistanceHome := fun _ => Fin 0;
  isCloserThanMaxDistToHome := fun _ _ _ _ => true;
  isBelowMaxAltitude := fun _ _ => true;
  isInsidePolygonOrCircle := fun lat_ _ _ g => ref_inside lat_ g;
  geofence_check := fun pos _ g => ref_inside (gpos_lat pos) g;
  setHorizontalVelocity := fun _ b => b;
  setClimbRate := fun _ b => b;
  setHorizontalTestPointDistance := fun _ b => b;
  setVerticalTestPointDistance := fun _ b => b;
  setTestPointBearing := fun _ b => b;
  setCurrentPosition := fun lat_ lon_ _ _ => (lat_, lon_);
  setMaxHorDistHome := fun _ b => b;
  setMaxVerDistHome := fun _ b => b;
  setHomePosition := fun _ _ _ b => b;
  computeBrakingDistanceMultirotor := fun _ => Fin 0;
  computeVerticalBrakingDistanceMultirotor := fun _ => Fin 0;
  getFenceViolationTestPoint := fun b => b;
  generateLoiterPointForMultirotor := fun _ _ b => b;
  generateLoiterPointForFixedWing := fun _ g b => (Fin (ref_max_lat g), snd b);
  generateLoiterAltitudeForMulticopter := fun _ _ => Fin (50 # 1);
  generateLoiterAltitudeForFixedWing := fun _ _ => Fin (80 # 1);
  set_execution_mode := fun _ m => m;
  land_start := fun m => (false, m);
  get_land_start_index := fun _ => Fin 0;
  get_land_start_available := fun _ => false;
  set_closest_item_as_current := fun m => m;
  set_current_mission_index := fun _ m => (true, m);
  get_mission_changed := fun _ => false;
  get_mission_finished := fun _ => false;
  get_mission_waypoints_changed := fun _ => false;
  start_mission_landing := fun m => m;
  on_mission_landing := fun _ => false;
  getMissionLandingInProgress := fun _ => false;
  get_rtl_type := fun r => r;
  getRTLState := fun _ => 0;
  RTL_STATE_LOITER := 3;
  getShouldEngageMissionForLanding := fun _ => false;
  set_mode := fun m _ => m;
  setTransitionAltitudeAbsolute := fun a _ => a;
  setLoiterLocation := fun _ _ v => v;
  setLoiterHeight := fun _ v => v;
  home_global_position_valid := fun _ _ => true;
  fadd := fun x y =>
    match x, y with Fin a, Fin b => Fin (Qred (a + b)) | _, _ => NaN end;
  fmul := fun x y =>
    match x, y with Fin a, Fin b => Fin (Qred (a * b)) | _, _ => NaN end;
  fdiv := fun x y =>
    match x, y with Fin a, Fin b => Fin (Qred (a / b)) | _, _ => NaN end;
  fmax := fun x y =>
    match x, y with
    | Fin a, Fin b => if Qle_bool a b then y else x
    | _, _ => NaN
    end;
  atan2f := fun _ _ => Fin 0;
  sqrtf := fun x => x;
  computeBrakingDistanceFromVelocity := fun _ _ _ _ => Fin 0;
  waypoint_from_heading_and_distance := fun lat_ lon_ _ _ => (lat_, lon_);
  M_DEG_TO_RAD_F := Fin (17453 # 1000000);
  GEOFENCE_CHECK_INTERVAL_US := 200000;
  VEHICLE_VTOL_STATE_MC := Fin (3 # 1)
|}.

(** A mode's [run]: the active one marks the triplet as updated. *)
#[export] Instance modes_ref : Navigator.NavigatorModes := {|
  run := fun _ active s =>
    if active then set_pos_sp_triplet_updated true s else s
|}.

Definition setpoint_at (lat_ lon_ : Q) (ty : setpoint_type_t) (v : bool)
  : position_setpoint_s :=
  {| timestamp := 0; valid := v; type := ty; lat := Fin lat_; lon := Fin lon_;
     alt := Fin (30 # 1); yaw := Fin 0; yaw_valid := false;
     alt_valid := true; loiter_radius := Fin (50 # 1);
     loiter_direction_counter_clockwise := false;
     acceptance_radius := Fin (2 # 1); cruising_speed := Fin (-1 # 1);
     cruising_throttle := NaN; disable_weather_vane := false |}.

Definition triplet_at (lat_ lon_ : Q) (ty : setpoint_type_t) (v : bool)
  : position_setpoint_triplet_s :=
  {| triplet_timestamp := 0;
     previous := setpoint_at lat_ lon_ ty false;
     current := setpoint_at lat_ lon_ ty v;
     next := setpoint_at lat_ lon_ ty false |}.

(** A rotary-wing vehicle at latitude 47.5 with a fence at latitude 47,
    geofence action Loiter; the arguments are the navigation state, the
    arming state and the mode of the previous cycle. *)
Definition navigator_at (n : nav_state_t) (a : arming_state_t)
  (m : option navigator_mode) : Navigator.Navigator :=
  {| _vstatus :=
       {| system_id := 1; component_id := 1; nav_state := n;
          arming_state := a; vehicle_type := VEHICLE_TYPE_ROTARY_WING;
          is_vtol := false; in_transition_to_fw := false |};
     _global_pos :=
       {| gpos_lat := Fin (95 # 2); gpos_lon := Fin (17 # 2);
          gpos_alt := Fin (500 # 1) |};
     _local_pos :=
       {| heading := Fin 0; vx := Fin 1; vy := Fin 0; vz := Fin 0 |};
     _gps_pos := tt;
     _home_pos :=
       {| home_lat := Fin (47 # 1); home_lon := Fin (17 # 2);
          home_alt := Fin (480 # 1) |};
     _land_detected := {| landed := false |};
     _position_controller_status :=
       {| pcs_timestamp := 0; nav_bearing := NaN;
          pcs_acceptance_radius := NaN |};
     _mission_result := {| mission_result_valid := false |};
     _geofence_result :=
       {| gf_timestamp := 0; geofence_violated := false;
          geofence_action := GF_ACTION_LOITER; home_required := false |};
     _vroi := vehicle_roi_zero;
     _pos_sp_triplet := triplet_at (93 # 2) (17 # 2) SETPOINT_TYPE_POSITION true;
     _reposition_triplet :=
       triplet_at (93 # 2) (17 # 2) SETPOINT_TYPE_IDLE false;
     _takeoff_triplet := triplet_at (93 # 2) (17 # 2) SETPOINT_TYPE_IDLE false;
     _navigation_mode := m;
     _previous_nav_state := n;
     _pos_sp_triplet_published_invalid_once := false;
     _pos_sp_triplet_updated := false;
     _mission_result_updated := false;
     _can_loiter_at_sp := false;
     _geofence_violation_warning_sent := false;
     _last_geofence_check := 0;
     have_geofence_position_data := true;
     _mission_cruising_speed_mc := Fin (-1 # 1);
     _mission_cruising_speed_fw := Fin (-1 # 1);
     _mission_throttle := NaN;
     _param_nav_loiter_rad := Fin (80 # 1);
     _param_nav_acc_rad := Fin (10 # 1);
     _param_nav_force_vt := false;
     _param_mpc_jerk_auto := Fin (4 # 1);
     _param_mpc_acc_hor := Fin (3 # 1);
     _geofence :=
       {| ref_action := GF_ACTION_LOITER; ref_predict := false;
          ref_max_lat := 47 # 1 |};
     _gf_breach_avoidance := (Fin 0, Fin 0);
     _mission := 0;
     _rtl := RTL_TYPE_other 0;
     _precland := PrecLandMode_Opportunistic;
     _vtol_takeoff := Fin 0 |}.

Definition reposition_to (lat_ lon_ : Q) : vehicle_command_s :=
  {| command := VEHICLE_CMD_DO_REPOSITION; param1 := NaN; param2 := Fin 1;
     param3 := NaN; param4 := NaN; param5 := Fin lat_; param6 := Fin lon_;
     param7 := NaN; target_system := 1; target_component := 1;
     source_system := 255; source_component := 190;
     from_external := true |}.

End NavigatorReference.

(** * Terms in which the properties are stated *)

Module CommanderSpec.

Import Commander.

Section Terms.
Context {I : Interfaces}.

Definition parachute_commands (o : list event) : nat :=
  List.length (filter is_parachute o).

Definition acks_of (o : list event) : list cmd_result_t :=
  flat_map (fun e => match e with command_ack _ r => [r] | _ => [] end) o.

(** What the arm state machine answers when [arm] asks it to arm, with or
    without the pre-arm checks. *)
Definition arming_answer (s : Commander) (fRunPreArmChecks : bool)
  (calling_reason : arm_disarm_reason_t) : transition_result_t :=
  value_of (call_arming_state_transition ARMING_STATE_ARMED
              fRunPreArmChecks calling_reason s).

(** The checks that [arm] makes itself deny the request: the vehicle is
    not armed and one of the denials applies. *)
Definition denied_by_arm (s : Commander)
  (calling_reason : arm_disarm_reason_t) : bool :=
  negb (isArmed (_arm_state_machine s))
  && match arm_denial s calling_reason with
     | Some _ => true
     | None => false
     end.

(** A latch that is set vouches for its flag. *)
Definition latches_hold (s : Commander) : Prop :=
  (_lockdown_triggered s = true -> lockdown (_actuator_armed s) = true)
  /\ (_flight_termination_triggered s = true ->
      force_failsafe (_actuator_armed s) = true).

Definition is_flight_termination (cmd : vehicle_command_s) : bool :=
  match command cmd with
  | VEHICLE_CMD_DO_FLIGHTTERMINATION => true
  | _ => false
  end.

(** The three severities of DO_FLIGHTTERMINATION. *)
Definition lockdown_severity (cmd : vehicle_command_s) : bool :=
  fgt (param1 cmd) (3 # 2).
Definition termination_severity (cmd : vehicle_command_s) : bool :=
  fgt (param1 cmd) (1 # 2) && fle (param1 cmd) (3 # 2).
Definition clear_severity (cmd : vehicle_command_s) : bool :=
  fle (param1 cmd) (1 # 2).

(** Commands that trigger: lockdown or termination severity. *)
Definition triggers (cmd : vehicle_command_s) : bool :=
  lockdown_severity cmd || termination_severity cmd.

Definition same_trigger_severity (c1 c2 : vehicle_command_s) : bool :=
  (lockdown_severity c1 && lockdown_severity c2)
  || (termination_severity c1 && termination_severity c2).

(** A flight-termination command this vehicle handles. *)
Definition termination_for (s : Commander) (cmd : vehicle_command_s)
  : bool :=
  is_flight_termination cmd && negb (not_for_us s cmd).

(** Commands handled one after the other. *)
Fixpoint handle_commands (cmds : list (hrt_abstime * vehicle_command_s))
  : CM unit :=
  match cmds with
  | [] => ret tt
  | (now, cmd) :: rest =>
      _ <- handle_command now cmd ;; handle_commands rest
  end.

(** Action requests executed one after the other. *)
Fixpoint executeActionRequests
  (reqs : list (hrt_abstime * action_request_s)) : CM unit :=
  match reqs with
  | [] => ret tt
  | (now, req) :: rest =>
      executeActionRequest now req ;; executeActionRequests rest
  end.

Definition is_kill (req : action_request_s) : bool :=
  match action req with ACTION_KILL => true | _ => false end.
Definition is_unkill (req : action_request_s) : bool :=
  match action req with ACTION_UNKILL => true | _ => false end.
Definition from_rc_switch (req : action_request_s) : bool :=
  match source req with SOURCE_RC_SWITCH => true | _ => false end.

(** The kill edges of a run: the Kill requests that find
    [manual_lockdown] clear and leave it set. *)
Fixpoint kill_edges (reqs : list (hrt_abstime * action_request_s))
  (s : Commander) : nat :=
  match reqs with
  | [] => 0%nat
  | (now, req) :: rest =>
      let s' := state_of (executeActionRequest now req s) in
      ((if is_kill req && negb (manual_lockdown (_actuator_armed s))
           && manual_lockdown (_actuator_armed s')
        then 1 else 0)
       + kill_edges rest s')%nat
  end.




(** What [answer_command] sends. *)
Definition answer_events (cmd : vehicle_command_s) (result : cmd_result_t)
  : list event :=
  match result with
  | VEHICLE_CMD_RESULT_ACCEPTED => [command_ack (command cmd) result]
  | _ => [tune_negative; command_ack (command cmd) result]
  end.


(** What [set_nav_state] returns at a state: the change report, and the
    vehicle status it has written. *)
Definition nav_state_result (s : Commander)
  : bool * vehicle_status_s * actuator_armed_s * commander_state_s :=
  set_nav_state (_vehicle_status s) (_actuator_armed s)
    (_commander_state s) (finished (_mission_result s))
    (stay_in_failsafe (_mission_result s)) (_vehicle_status_flags s)
    (landed (_vehicle_land_detected s)) (_failsafe_params s).

Definition resolver_changed (s : Commander) : bool :=
  fst (fst (fst (nav_state_result s))).
Definition resolver_status (s : Commander) : vehicle_status_s :=
  snd (fst (fst (nav_state_result s))).

(** Modelled from the spec: [set_nav_state] is implemented in
    state_machine_helper.cpp.  The specification says of it that "a
    nav_state change is reported via a boolean so the caller can refresh the
    change timestamp": its boolean is true exactly when the nav_state it
    wrote differs from the one it was given, and the timestamp is left to
    the caller. *)
Definition resolver_reports_change (s : Commander) : Prop :=
  nav_state_timestamp (resolver_status s)
    = nav_state_timestamp (_vehicle_status s)
  /\ (resolver_changed s = true <->
      nav_state (resolver_status s) <> nav_state (_vehicle_status s)).
End Terms.

End CommanderSpec.

Module NavigatorSpec.

Import Navigator.

Section Terms.
Context {I : Interfaces} {Modes : NavigatorModes}.

(** The calls [run(active)] of a cycle, in order. *)
Definition runs (o : list event) : list (navigator_mode * bool) :=
  flat_map (fun e => match e with mode_run m b => [(m, b)] | _ => [] end) o.

(** The navigation states with a case label that selects a behaviour. *)
Definition selects_behavior (n : nav_state_t) : bool :=
  match n with
  | NAVIGATION_STATE_AUTO_MISSION
  | NAVIGATION_STATE_AUTO_LOITER
  | NAVIGATION_STATE_AUTO_RTL
  | NAVIGATION_STATE_AUTO_TAKEOFF
  | NAVIGATION_STATE_AUTO_VTOL_TAKEOFF
  | NAVIGATION_STATE_AUTO_LAND
  | NAVIGATION_STATE_AUTO_PRECLAND => true
  | _ => false
  end.

(** The behaviours a navigation state can select; return to launch runs
    the RTL behaviour or hands over to the mission. *)
Definition behaviors_for (n : nav_state_t) : list navigator_mode :=
  match n with
  | NAVIGATION_STATE_AUTO_MISSION => [mode_mission]
  | NAVIGATION_STATE_AUTO_LOITER => [mode_loiter]
  | NAVIGATION_STATE_AUTO_RTL => [mode_rtl; mode_mission]
  | NAVIGATION_STATE_AUTO_TAKEOFF => [mode_takeoff]
  | NAVIGATION_STATE_AUTO_VTOL_TAKEOFF => [mode_vtol_takeoff]
  | NAVIGATION_STATE_AUTO_LAND => [mode_land]
  | NAVIGATION_STATE_AUTO_PRECLAND => [mode_precland]
  | _ => []
  end.

(** Every behaviour run once, in array order: [m] as active and the
    others as inactive, or all of them as inactive. *)
Definition dispatch_of (p : option navigator_mode)
  : list (navigator_mode * bool) :=
  map (fun m => (m, mode_ptr_eqb p (Some m))) _navigation_mode_array.

Definition is_mode_run (e : event) : bool :=
  match e with mode_run _ _ => true | _ => false end.

(** A mode's [run] cannot redirect the dispatcher: [_navigation_mode] is
    a private member written by [Navigator::run] alone. *)
Definition run_keeps_navigation_mode : Prop :=
  forall m active s,
    _navigation_mode (run m active s) = _navigation_mode s.

(** The invalid/idle setpoint and triplet. *)
Definition is_idle (sp : position_setpoint_s) : Prop :=
  valid sp = false /\ type sp = SETPOINT_TYPE_IDLE
  /\ lat sp = NaN /\ lon sp = NaN.

Definition triplet_is_idle (t : position_setpoint_triplet_s) : Prop :=
  is_idle (previous t) /\ is_idle (current t) /\ is_idle (next t).

(** The two continuity exceptions of the mode switch. *)
Definition takeoff_to_loiter (s : Navigator)
  (navigation_mode_new : option navigator_mode) : bool :=
  is_mode mode_takeoff (_navigation_mode s)
  && is_mode mode_loiter navigation_mode_new.

Definition loiter_with_valid_loiter_setpoint (s : Navigator)
  (navigation_mode_new : option navigator_mode) : bool :=
  is_mode mode_loiter navigation_mode_new && valid_loiter_setpoint s.







End Terms.

End NavigatorSpec.

(** * Comparison of opcodes

    [cmd.command == ...] and the case labels of a [switch] on an opcode. *)

Definition vehicle_cmd_eq_dec (a b : vehicle_cmd) : {a = b} + {a <> b}.
Proof. decide equality. apply Z.eq_dec. Defined.

Definition same_command (a b : vehicle_cmd) : bool :=
  if vehicle_cmd_eq_dec a b then true else false.

(** * The command-line front end of the Commander

    [Commander::custom_command] with the three static helpers of
    Commander.cpp that publish a vehicle command or wait for its
    acknowledgment.  The shell command runs in the caller's task: it reads
    the vehicle_status topic, publishes on vehicle_command and prints. *)

Module CommanderShell.

Import Commander.

(** What an invocation does: the calls of [vcmd_pub.publish(vcmd)] and
    the lines it prints. *)
Inductive event : Type :=
| publish (vcmd : vehicle_command_s)
| usage (reason : string)
| error (message : string)
| info (message : string).

(** The world around one invocation: whether the module runs, the
    vehicle_status and vehicle_status_flags topics, what [publish] returns,
    and the vehicle_command_ack updates seen during the 100 ms after a
    takeoff command, each with its opcode and result. *)
Record invocation : Type := {
  is_running : bool;
  vehicle_status : vehicle_status_s;
  pre_flight_checks_pass : bool;
  publish_result : bool;
  acks_within_100_ms : list (vehicle_cmd * cmd_result_t)
}.

(** Values of headers and of the C library. *)
Class Platform : Type := {
  CONSTRAINED_FLASH : bool;
  VEHICLE_VTOL_STATE_MC : float;
  VEHICLE_VTOL_STATE_FW : float;
  atof : string -> float
}.

Section Model.
Context {I : Interfaces} {P : Platform}.

Definition SH : Type -> Type := M unit event.

(** The default argument of the parameters. *)
Definition NAN : float := NaN.

(** The [vcmd] that [send_vehicle_command] fills in: from this vehicle to
    this vehicle. *)
Definition command_to_self (env : invocation) (cmd : vehicle_cmd)
  (param1_ param2_ param3_ param4_ param5_ param6_ param7_ : float)
  : vehicle_command_s :=
  {| command := cmd;
     param1 := param1_; param2 := param2_; param3 := param3_;
     param4 := param4_; param5 := param5_; param6 := param6_;
     param7 := param7_;
     target_system := system_id (vehicle_status env);
     target_component := component_id (vehicle_status env);
     source_system := system_id (vehicle_status env);
     source_component := component_id (vehicle_status env);
     from_external := false |}.

Definition send_vehicle_command (env : invocation) (cmd : vehicle_cmd)
  (param1_ param2_ param3_ param4_ param5_ param6_ param7_ : float)
  : SH bool :=
  emit (publish (command_to_self env cmd param1_ param2_ param3_ param4_
                   param5_ param6_ param7_)) ;;
  ret (publish_result env).

(** The [vcmd] that [broadcast_vehicle_command] fills in: from this
    vehicle to every system and component. *)
Definition command_to_all (env : invocation) (cmd : vehicle_cmd)
  (param1_ param2_ param3_ param4_ param5_ param6_ param7_ : float)
  : vehicle_command_s :=
  {| command := cmd;
     param1 := param1_; param2 := param2_; param3 := param3_;
     param4 := param4_; param5 := param5_; param6 := param6_;
     param7 := param7_;
     target_system := 0;
     target_component := 0;
     source_system := system_id (vehicle_status env);
     source_component := component_id (vehicle_status env);
     from_external := false |}.

Definition broadcast_vehicle_command (env : invocation) (cmd : vehicle_cmd)
  (param1_ param2_ param3_ param4_ param5_ param6_ param7_ : float)
  : SH bool :=
  emit (publish (command_to_all env cmd param1_ param2_ param3_ param4_
                   param5_ param6_ param7_)) ;;
  ret (publish_result env).

(** The first acknowledgment of [cmd] that arrives within the 100 ms
    decides; without one the answer is [false]. *)
Definition wait_for_vehicle_command_reply (cmd : vehicle_cmd)
  (acks : list (vehicle_cmd * cmd_result_t)) : bool :=
  match find (fun a => same_command (fst a) cmd) acks with
  | Some (_, VEHICLE_CMD_RESULT_ACCEPTED) => true
  | _ => false
  end.

(** [Commander::print_usage] returns 1. *)
Definition print_usage (reason : string) : SH Z :=
  emit (usage reason) ;; ret 1.

(** [argv[0]] is [arg0], [argv[1 + n]] is the [n]-th of [rest], and
    [argc] is [1 + length rest]. *)
Definition arg_is (n : nat) (rest : list string) (s : string) : bool :=
  match nth_error rest n with
  | Some a => String.eqb a s
  | None => false
  end.

Definition of_Z (z : Z) : float := Fin (inject_Z z).

(** ["argument %s unsupported."] *)
Definition unsupported (argument : string) : string :=
  String.append "argument " (String.append argument " unsupported.").

(** A block [if (!strcmp(argv[0], ...)) { ... }] either returns a value or
    falls through to the code after it. *)
Definition or_else (block : SH (option Z)) (rest : SH Z) : SH Z :=
  r <- block ;;
  match r with
  | Some code => ret code
  | None => rest
  end.

Definition preflight_calibration (env : invocation)
  (p1 p2 p3 p4 p5 p6 p7 : Q) : SH bool :=
  send_vehicle_command env VEHICLE_CMD_PREFLIGHT_CALIBRATION
    (Fin p1) (Fin p2) (Fin p3) (Fin p4) (Fin p5) (Fin p6) (Fin p7).

Definition custom_calibrate (env : invocation) (arg0 : string)
  (rest : list string) : SH (option Z) :=
  if String.eqb arg0 "calibrate" then
    match rest with
    | argv1 :: _ =>
        if String.eqb argv1 "gyro" then
          (* gyro calibration: param1 = 1 *)
          _ <- preflight_calibration env 1 0 0 0 0 0 0 ;; ret (Some 0)
        else if String.eqb argv1 "mag" then
          (if arg_is 1 rest "quick" then
             (* magnetometer quick calibration:
                VEHICLE_CMD_FIXED_MAG_CAL_YAW *)
             _ <- send_vehicle_command env VEHICLE_CMD_FIXED_MAG_CAL_YAW
                    NAN NAN NAN NAN NAN NAN NAN ;;
             ret tt
           else
             (* magnetometer calibration: param2 = 1 *)
             _ <- preflight_calibration env 0 1 0 0 0 0 0 ;; ret tt) ;;
          ret (Some 0)
        else if String.eqb argv1 "baro" then
          (* baro calibration: param3 = 1 *)
          _ <- preflight_calibration env 0 0 1 0 0 0 0 ;; ret (Some 0)
        else if String.eqb argv1 "accel" then
          (if arg_is 1 rest "quick" then
             (* accelerometer quick calibration *)
             _ <- preflight_calibration env 0 0 0 0 4 0 0 ;; ret tt
           else
             (* accelerometer calibration: param5 = 1 *)
             _ <- preflight_calibration env 0 0 0 0 1 0 0 ;; ret tt) ;;
          ret (Some 0)
        else if String.eqb argv1 "level" then
          (* board level calibration: param5 = 2 *)
          _ <- preflight_calibration env 0 0 0 0 2 0 0 ;; ret (Some 0)
        else if String.eqb argv1 "airspeed" then
          (* airspeed calibration: param6 = 2 *)
          _ <- preflight_calibration env 0 0 0 0 0 2 0 ;; ret (Some 0)
        else if String.eqb argv1 "esc" then
          (* ESC calibration: param7 = 1 *)
          _ <- preflight_calibration env 0 0 0 0 0 0 1 ;; ret (Some 0)
        else
          emit (error (unsupported argv1)) ;; ret (Some 1)
    | [] => emit (error "missing argument") ;; ret None
    end
  else ret None.

Definition custom_check (env : invocation) (arg0 : string)
  : SH (option Z) :=
  if String.eqb arg0 "check" then
    _ <- send_vehicle_command env VEHICLE_CMD_RUN_PREARM_CHECKS
           NAN NAN NAN NAN NAN NAN NAN ;;
    emit (info (if pre_flight_checks_pass env
                then "Preflight check: OK"
                else "Preflight check: FAILED")) ;;
    ret (Some 0)
  else ret None.

(** 21196: force arming/disarming (e.g. allow arming to override preflight
    checks and disarming in flight) *)
Definition force_param (rest : list string) : float :=
  if arg_is 0 rest "-f" then Fin 21196 else Fin 0.

Definition custom_arm (env : invocation) (arg0 : string)
  (rest : list string) : SH (option Z) :=
  if String.eqb arg0 "arm" then
    _ <- send_vehicle_command env VEHICLE_CMD_COMPONENT_ARM_DISARM
           (of_Z ARMING_ACTION_ARM) (force_param rest)
           NAN NAN NAN NAN NAN ;;
    ret (Some 0)
  else ret None.

Definition custom_disarm (env : invocation) (arg0 : string)
  (rest : list string) : SH (option Z) :=
  if String.eqb arg0 "disarm" then
    _ <- send_vehicle_command env VEHICLE_CMD_COMPONENT_ARM_DISARM
           (of_Z ARMING_ACTION_DISARM) (force_param rest)
           NAN NAN NAN NAN NAN ;;
    ret (Some 0)
  else ret None.

Definition custom_takeoff (env : invocation) (arg0 : string)
  : SH (option Z) :=
  if String.eqb arg0 "takeoff" then
    (* switch to takeoff mode and arm *)
    _ <- send_vehicle_command env VEHICLE_CMD_NAV_TAKEOFF
           NAN NAN NAN NAN NAN NAN NAN ;;
    (if wait_for_vehicle_command_reply VEHICLE_CMD_NAV_TAKEOFF
          (acks_within_100_ms env)
     then
       _ <- send_vehicle_command env VEHICLE_CMD_COMPONENT_ARM_DISARM
              (of_Z ARMING_ACTION_ARM) (Fin 0) NAN NAN NAN NAN NAN ;;
       ret tt
     else ret tt) ;;
    ret (Some 0)
  else ret None.

Definition custom_land (env : invocation) (arg0 : string)
  : SH (option Z) :=
  if String.eqb arg0 "land" then
    _ <- send_vehicle_command env VEHICLE_CMD_NAV_LAND
           NAN NAN NAN NAN NAN NAN NAN ;;
    ret (Some 0)
  else ret None.

Definition custom_transition (env : invocation) (arg0 : string)
  : SH (option Z) :=
  if String.eqb arg0 "transition" then
    _ <- send_vehicle_command env VEHICLE_CMD_DO_VTOL_TRANSITION
           (if is_rotary_wing_type (vehicle_type (vehicle_status env))
            then VEHICLE_VTOL_STATE_FW else VEHICLE_VTOL_STATE_MC)
           (Fin 0) NAN NAN NAN NAN NAN ;;
    ret (Some 0)
  else ret None.

Definition set_mode (env : invocation) (custom_main_mode : Z)
  (custom_sub_mode : option Z) : SH unit :=
  _ <- send_vehicle_command env VEHICLE_CMD_DO_SET_MODE (Fin 1)
         (of_Z custom_main_mode)
         (match custom_sub_mode with Some m => of_Z m | None => NAN end)
         NAN NAN NAN NAN ;;
  ret tt.

Definition custom_mode (env : invocation) (arg0 : string)
  (rest : list string) : SH (option Z) :=
  if String.eqb arg0 "mode" then
    match rest with
    | argv1 :: _ =>
        (if String.eqb argv1 "manual" then
           set_mode env PX4_CUSTOM_MAIN_MODE_MANUAL None
         else if String.eqb argv1 "altctl" then
           set_mode env PX4_CUSTOM_MAIN_MODE_ALTCTL None
         else if String.eqb argv1 "posctl" then
           set_mode env PX4_CUSTOM_MAIN_MODE_POSCTL None
         else if String.eqb argv1 "auto:mission" then
           set_mode env PX4_CUSTOM_MAIN_MODE_AUTO
             (Some PX4_CUSTOM_SUB_MODE_AUTO_MISSION)
         else if String.eqb argv1 "auto:loiter" then
           set_mode env PX4_CUSTOM_MAIN_MODE_AUTO
             (Some PX4_CUSTOM_SUB_MODE_AUTO_LOITER)
         else if String.eqb argv1 "auto:rtl" then
           set_mode env PX4_CUSTOM_MAIN_MODE_AUTO
             (Some PX4_CUSTOM_SUB_MODE_AUTO_RTL)
         else if String.eqb argv1 "acro" then
           set_mode env PX4_CUSTOM_MAIN_MODE_ACRO None
         else if String.eqb argv1 "offboard" then
           set_mode env PX4_CUSTOM_MAIN_MODE_OFFBOARD None
         else if String.eqb argv1 "stabilized" then
           set_mode env PX4_CUSTOM_MAIN_MODE_STABILIZED None
         else if String.eqb argv1 "auto:takeoff" then
           set_mode env PX4_CUSTOM_MAIN_MODE_AUTO
             (Some PX4_CUSTOM_SUB_MODE_AUTO_TAKEOFF)
         else if String.eqb argv1 "auto:land" then
           set_mode env PX4_CUSTOM_MAIN_MODE_AUTO
             (Some PX4_CUSTOM_SUB_MODE_AUTO_LAND)
         else if String.eqb argv1 "auto:precland" then
           set_mode env PX4_CUSTOM_MAIN_MODE_AUTO
             (Some PX4_CUSTOM_SUB_MODE_AUTO_PRECLAND)
         else emit (error (unsupported argv1))) ;;
        ret (Some 0)
    | [] => emit (error "missing argument") ;; ret None
    end
  else ret None.

Definition exit_code (ok : bool) : Z := if ok then 0 else 1.

Definition custom_lockdown (env : invocation) (arg0 : string)
  (rest : list string) : SH (option Z) :=
  if String.eqb arg0 "lockdown" then
    match rest with
    | [] =>
        code <- print_usage "not enough arguments, missing [on, off]" ;;
        ret (Some 1)
    | argv1 :: _ =>
        ok <- send_vehicle_command env VEHICLE_CMD_DO_FLIGHTTERMINATION
                (if String.eqb argv1 "off" then Fin 0 else Fin 2)
                (* lockdown *) (Fin 0) NAN NAN NAN NAN NAN ;;
        ret (Some (exit_code ok))
    end
  else ret None.

Definition custom_pair (env : invocation) (arg0 : string)
  : SH (option Z) :=
  if String.eqb arg0 "pair" then
    (* GCS pairing request handled by a companion *)
    ok <- broadcast_vehicle_command env VEHICLE_CMD_START_RX_PAIR
            (Fin 10) NAN NAN NAN NAN NAN NAN ;;
    ret (Some (exit_code ok))
  else ret None.

Definition custom_set_ekf_origin (env : invocation) (arg0 : string)
  (rest : list string) : SH (option Z) :=
  if String.eqb arg0 "set_ekf_origin" then
    match rest with
    | argv1 :: argv2 :: argv3 :: _ =>
        let latitude := atof argv1 in
        let longitude := atof argv2 in
        let altitude := atof argv3 in
        (* Set the ekf NED origin global coordinates. *)
        ok <- send_vehicle_command env VEHICLE_CMD_SET_GPS_GLOBAL_ORIGIN
                (Fin 0) (Fin 0) (Fin 0) (Fin 0)
                latitude longitude altitude ;;
        ret (Some (exit_code ok))
    | _ => emit (error "missing argument") ;; ret (Some 0)
    end
  else ret None.

Definition custom_poweroff (env : invocation) (arg0 : string)
  : SH (option Z) :=
  if String.eqb arg0 "poweroff" then
    ok <- send_vehicle_command env VEHICLE_CMD_PREFLIGHT_REBOOT_SHUTDOWN
            (Fin 2) NAN NAN NAN NAN NAN NAN ;;
    ret (Some (exit_code ok))
  else ret None.

Definition custom_command (env : invocation) (arg0 : string)
  (rest : list string) : SH Z :=
  if negb (is_running env) then print_usage "not running"
  else if CONSTRAINED_FLASH then print_usage "unknown command"
  else
    or_else (custom_calibrate env arg0 rest)
   (or_else (custom_check env arg0)
   (or_else (custom_arm env arg0 rest)
   (or_else (custom_disarm env arg0 rest)
   (or_else (custom_takeoff env arg0)
   (or_else (custom_land env arg0)
   (or_else (custom_transition env arg0)
   (or_else (custom_mode env arg0 rest)
   (or_else (custom_lockdown env arg0 rest)
   (or_else (custom_pair env arg0)
   (or_else (custom_set_ekf_origin env arg0 rest)
   (or_else (custom_poweroff env arg0)
            (print_usage "unknown command")))))))))))).

(** ** Terms of the statements *)

(** The vehicle commands an invocation publishes, in order. *)
Definition published (r : Z * unit * list event) : list vehicle_command_s :=
  flat_map (fun e => match e with publish c => [c] | _ => [] end)
    (output_of r).

Definition run (env : invocation) (arg0 : string) (rest : list string)
  : Z * unit * list event :=
  custom_command env arg0 rest tt.

(** The argument of [commander mode] and the main state it stands for. *)
Definition mode_names : list (string * main_state_t) :=
  [("manual", MAIN_STATE_MANUAL); ("altctl", MAIN_STATE_ALTCTL);
   ("posctl", MAIN_STATE_POSCTL); ("auto:mission", MAIN_STATE_AUTO_MISSION);
   ("auto:loiter", MAIN_STATE_AUTO_LOITER); ("auto:rtl", MAIN_STATE_AUTO_RTL);
   ("acro", MAIN_STATE_ACRO); ("offboard", MAIN_STATE_OFFBOARD);
   ("stabilized", MAIN_STATE_STAB); ("auto:takeoff", MAIN_STATE_AUTO_TAKEOFF);
   ("auto:land", MAIN_STATE_AUTO_LAND);
   ("auto:precland", MAIN_STATE_AUTO_PRECLAND)]%string.

(** The arguments of [commander calibrate] and the worker task they stand
    for. *)
Definition calibration_names : list (list string * worker_request) :=
  [(["gyro"], GyroCalibration); (["mag"], MagCalibration);
   (["baro"], BaroCalibration); (["accel"], AccelCalibration);
   (["accel"; "quick"], AccelCalibrationQuick);
   (["level"], LevelCalibration);
   (["airspeed"], AirspeedCalibration)]%string.

(** The first words [custom_command] knows. *)
Definition known_commands : list string :=
  ["calibrate"; "check"; "arm"; "disarm"; "takeoff"; "land"; "transition";
   "mode"; "lockdown"; "pair"; "set_ekf_origin"; "poweroff"]%string.

Definition is_known (arg0 : string) : bool :=
  existsb (String.eqb arg0) known_commands.

(** The numbering of the custom modes, px4_custom_mode.h: the main modes
    differ from one another, the automatic sub modes as well, and all fit
    the [uint8_t] they are decoded into; no sub mode is 0. *)
Definition custom_modes_distinct : Prop :=
  NoDup [PX4_CUSTOM_MAIN_MODE_MANUAL; PX4_CUSTOM_MAIN_MODE_ALTCTL;
         PX4_CUSTOM_MAIN_MODE_POSCTL; PX4_CUSTOM_MAIN_MODE_AUTO;
         PX4_CUSTOM_MAIN_MODE_ACRO; PX4_CUSTOM_MAIN_MODE_STABILIZED;
         PX4_CUSTOM_MAIN_MODE_OFFBOARD]
  /\ Forall (fun m => 0 <= m < 256)
       [PX4_CUSTOM_MAIN_MODE_MANUAL; PX4_CUSTOM_MAIN_MODE_ALTCTL;
        PX4_CUSTOM_MAIN_MODE_POSCTL; PX4_CUSTOM_MAIN_MODE_AUTO;
        PX4_CUSTOM_MAIN_MODE_ACRO; PX4_CUSTOM_MAIN_MODE_STABILIZED;
        PX4_CUSTOM_MAIN_MODE_OFFBOARD]
  /\ NoDup [PX4_CUSTOM_SUB_MODE_AUTO_LOITER; PX4_CUSTOM_SUB_MODE_AUTO_MISSION;
            PX4_CUSTOM_SUB_MODE_AUTO_RTL; PX4_CUSTOM_SUB_MODE_AUTO_TAKEOFF;
            PX4_CUSTOM_SUB_MODE_AUTO_LAND;
            PX4_CUSTOM_SUB_MODE_AUTO_FOLLOW_TARGET;
            PX4_CUSTOM_SUB_MODE_AUTO_PRECLAND]
  /\ Forall (fun m => 0 < m < 256)
       [PX4_CUSTOM_SUB_MODE_AUTO_LOITER; PX4_CUSTOM_SUB_MODE_AUTO_MISSION;
        PX4_CUSTOM_SUB_MODE_AUTO_RTL; PX4_CUSTOM_SUB_MODE_AUTO_TAKEOFF;
        PX4_CUSTOM_SUB_MODE_AUTO_LAND;
        PX4_CUSTOM_SUB_MODE_AUTO_FOLLOW_TARGET;
        PX4_CUSTOM_SUB_MODE_AUTO_PRECLAND].

(** What [handle_command] decodes from a DO_SET_MODE command; [sub] stands
    for the sub mode when param3 is not a number. *)
Definition decoded (cmd : vehicle_command_s) (sub : Z)
  : main_state_t * transition_result_t * bool :=
  decode_set_mode (cast_uint8 (param1 cmd)) (cast_uint8 (param2 cmd))
    (if PX4_ISFINITE (param3 cmd) then cast_uint8 (param3 cmd) else sub).

(** The sensors [commander calibrate] knows. *)
Definition sensor_names : list string :=
  ["gyro"; "mag"; "baro"; "accel"; "level"; "airspeed"; "esc"]%string.

(** PREFLIGHT_CALIBRATION_TEMPERATURE_CALIBRATION is none of the values the
    command line puts into a calibration command. *)
Definition temperature_code_apart : Prop :=
  ~ In PREFLIGHT_CALIBRATION_TEMPERATURE_CALIBRATION [0; 1; 2; 4].

(** The shell and the Commander agree on who the vehicle is: the
    vehicle_status topic carries the ids of [_vehicle_status]. *)
Definition same_vehicle (env : invocation) (s : Commander) : Prop :=
  system_id (vehicle_status env) = system_id (_vehicle_status s)
  /\ component_id (vehicle_status env) = component_id (_vehicle_status s).

(** What the arm state machine answers when asked to go to [target]
    without preflight checks, for an internal command. *)
Definition state_machine_answer (target : arming_state_t) (s : Commander)
  : transition_result_t :=
  value_of (call_arming_state_transition target false command_internal s).

(** An accepted acknowledgment of NAV_TAKEOFF arrives before any other
    acknowledgment of NAV_TAKEOFF. *)
Definition takeoff_accepted_first (acks : list (vehicle_cmd * cmd_result_t))
  : Prop :=
  exists before after,
    acks = before
           ++ (VEHICLE_CMD_NAV_TAKEOFF, VEHICLE_CMD_RESULT_ACCEPTED) :: after
    /\ Forall (fun a => fst a <> VEHICLE_CMD_NAV_TAKEOFF) before.

End Model.

End CommanderShell.


(** * The monitoring cycle of the Commander

    The parts of [Commander::run] and of the member functions it calls on
    each pass that decide about the geofence action, the tunes, the loss
    of manual control and the message for a rejected mode switch.  The
    members they use besides those of [Commander.Commander] make up
    [Cycle]. *)

Module CommanderCycle.

Import Commander.

(** battery_status_s::BATTERY_WARNING_*. *)
Inductive battery_warning_t : Type :=
| BATTERY_WARNING_NONE
| BATTERY_WARNING_LOW
| BATTERY_WARNING_CRITICAL
| BATTERY_WARNING_EMERGENCY
| BATTERY_WARNING_other (raw : Z).

(** tune_control_s::TUNE_ID_* handed to [set_tune], and the helpers of
    commander_helper that play one tune. *)
Inductive tune_t : Type :=
| TUNE_ID_ARMING_WARNING
| TUNE_ID_BATTERY_WARNING_FAST
| TUNE_ID_BATTERY_WARNING_SLOW
| TUNE_ID_STOP
| tune_failsafe
| tune_neutral
| tune_positive
| tune_negative_buzzer (use_buzzer : bool).

(** manual_control_setpoint_s, the fields read here. *)
Record manual_control_setpoint_s : Type := {
  mcs_timestamp : hrt_abstime;
  mcs_valid : bool;
  mcs_z : float;
  sticks_moving : bool;
  data_source : Z
}.

(** Everything these functions send out: what the functions of
    [Commander] send, the tunes, and the message of a rejected mode
    switch with the main state it names. *)
Inductive event : Type :=
| core_event (e : Commander.event)
| tune (t : tune_t)
| mode_not_available (main_state : main_state_t).

Definition is_core_parachute (e : event) : bool :=
  match e with core_event parachute_command => true | _ => false end.

Definition is_mode_not_available (e : event) : bool :=
  match e with mode_not_available _ => true | _ => false end.

Definition is_arming_tune (e : event) : bool :=
  match e with tune TUNE_ID_ARMING_WARNING => true | _ => false end.

Definition is_neutral_tune (e : event) : bool :=
  match e with tune tune_neutral => true | _ => false end.

Section Model.
Context {I : Interfaces}.

(** Values of Commander.hpp and of the message headers, and the one
    comparison made in single precision: [elapsed > seconds * 1_s]. *)
Class CycleInterfaces : Type := {
  AUTO_MODE_BIT : Z;
  OFFBOARD_MODE_BIT : Z;
  SOURCE_RC : Z;
  exceeds_seconds : Z -> float -> bool
}.

Context {CI : CycleInterfaces}.

(** The members: those of [Commander.Commander], the private members of
    the class named as in Commander.hpp, and the fields of the topic
    structs that [Commander.Commander] does not carry:
    [_vehicle_status.usb_connected], [_vehicle_status.hil_state] as the
    comparison with HIL_STATE_ON, [_vehicle_status_flags.rc_signal_found_once]
    and [_vehicle_control_mode.flag_control_offboard_enabled];
    [_param_com_rc_override] and [_param_com_rc_loss_t] are the values of
    the parameters. *)
Record Cycle : Type := {
  core : Commander;
  _last_print_mode_reject_time : hrt_abstime;
  _geofence_warning_action_on : bool;
  _geofence_loiter_on : bool;
  _geofence_rtl_on : bool;
  _geofence_land_on : bool;
  _geofence_violated_prev : bool;
  _battery_failsafe_timestamp : hrt_abstime;
  _arm_tune_played : bool;
  _battery_warning : battery_warning_t;
  usb_connected : bool;
  hil_state_on : bool;
  rc_signal_found_once : bool;
  _last_valid_manual_control_setpoint : hrt_abstime;
  flag_control_offboard_enabled : bool;
  _mode_switch_mapped : bool;
  _param_com_rc_override : Z;
  _param_com_rc_loss_t : float
}.


Definition set_core (v : Commander) (c : Cycle) : Cycle :=
  {| core := v; _last_print_mode_reject_time := _last_print_mode_reject_time
     c; _geofence_warning_action_on := _geofence_warning_action_on c;
     _geofence_loiter_on := _geofence_loiter_on c; _geofence_rtl_on :=
     _geofence_rtl_on c; _geofence_land_on := _geofence_land_on c;
     _geofence_violated_prev := _geofence_violated_prev c;
     _battery_failsafe_timestamp := _battery_failsafe_timestamp c;
     _arm_tune_played := _arm_tune_played c; _battery_warning :=
     _battery_warning c; usb_connected := usb_connected c; hil_state_on :=
     hil_state_on c; rc_signal_found_once := rc_signal_found_once c;
     _last_valid_manual_control_setpoint :=
     _last_valid_manual_control_setpoint c; flag_control_offboard_enabled :=
     flag_control_offboard_enabled c; _mode_switch_mapped :=
     _mode_switch_mapped c; _param_com_rc_override := _param_com_rc_override
     c; _param_com_rc_loss_t := _param_com_rc_loss_t c |}.

Definition set_last_print_mode_reject_time (v : hrt_abstime) (c : Cycle) : Cycle :=
  {| core := core c; _last_print_mode_reject_time := v;
     _geofence_warning_action_on := _geofence_warning_action_on c;
     _geofence_loiter_on := _geofence_loiter_on c; _geofence_rtl_on :=
     _geofence_rtl_on c; _geofence_land_on := _geofence_land_on c;
     _geofence_violated_prev := _geofence_violated_prev c;
     _battery_failsafe_timestamp := _battery_failsafe_timestamp c;
     _arm_tune_played := _arm_tune_played c; _battery_warning :=
     _battery_warning c; usb_connected := usb_connected c; hil_state_on :=
     hil_state_on c; rc_signal_found_once := rc_signal_found_once c;
     _last_valid_manual_control_setpoint :=
     _last_valid_manual_control_setpoint c; flag_control_offboard_enabled :=
     flag_control_offboard_enabled c; _mode_switch_mapped :=
     _mode_switch_mapped c; _param_com_rc_override := _param_com_rc_override
     c; _param_com_rc_loss_t := _param_com_rc_loss_t c |}.

Definition set_geofence_warning_action_on (v : bool) (c : Cycle) : Cycle :=
  {| core := core c; _last_print_mode_reject_time :=
     _last_print_mode_reject_time c; _geofence_warning_action_on := v;
     _geofence_loiter_on := _geofence_loiter_on c; _geofence_rtl_on :=
     _geofence_rtl_on c; _geofence_land_on := _geofence_land_on c;
     _geofence_violated_prev := _geofence_violated_prev c;
     _battery_failsafe_timestamp := _battery_failsafe_timestamp c;
     _arm_tune_played := _arm_tune_played c; _battery_warning :=
     _battery_warning c; usb_connected := usb_connected c; hil_state_on :=
     hil_state_on c; rc_signal_found_once := rc_signal_found_once c;
     _last_valid_manual_control_setpoint :=
     _last_valid_manual_control_setpoint c; flag_control_offboard_enabled :=
     flag_control_offboard_enabled c; _mode_switch_mapped :=
     _mode_switch_mapped c; _param_com_rc_override := _param_com_rc_override
     c; _param_com_rc_loss_t := _param_com_rc_loss_t c |}.

Definition set_geofence_loiter_on (v : bool) (c : Cycle) : Cycle :=
  {| core := core c; _last_print_mode_reject_time :=
     _last_print_mode_reject_time c; _geofence_warning_action_on :=
     _geofence_warning_action_on c; _geofence_loiter_on := v;
     _geofence_rtl_on := _geofence_rtl_on c; _geofence_land_on :=
     _geofence_land_on c; _geofence_violated_prev := _geofence_violated_prev
     c; _battery_failsafe_timestamp := _battery_failsafe_timestamp c;
     _arm_tune_played := _arm_tune_played c; _battery_warning :=
     _battery_warning c; usb_connected := usb_connected c; hil_state_on :=
     hil_state_on c; rc_signal_found_once := rc_signal_found_once c;
     _last_valid_manual_control_setpoint :=
     _last_valid_manual_control_setpoint c; flag_control_offboard_enabled :=
     flag_control_offboard_enabled c; _mode_switch_mapped :=
     _mode_switch_mapped c; _param_com_rc_override := _param_com_rc_override
     c; _param_com_rc_loss_t := _param_com_rc_loss_t c |}.

Definition set_geofence_rtl_on (v : bool) (c : Cycle) : Cycle :=
  {| core := core c; _last_print_mode_reject_time :=
     _last_print_mode_reject_time c; _geofence_warning_action_on :=
     _geofence_warning_action_on c; _geofence_loiter_on :=
     _geofence_loiter_on c; _geofence_rtl_on := v; _geofence_land_on :=
     _geofence_land_on c; _geofence_violated_prev := _geofence_violated_prev
     c; _battery_failsafe_timestamp := _battery_failsafe_timestamp c;
     _arm_tune_played := _arm_tune_played c; _battery_warning :=
     _battery_warning c; usb_connected := usb_connected c; hil_state_on :=
     hil_state_on c; rc_signal_found_once := rc_signal_found_once c;
     _last_valid_manual_control_setpoint :=
     _last_valid_manual_control_setpoint c; flag_control_offboard_enabled :=
     flag_control_offboard_enabled c; _mode_switch_mapped :=
     _mode_switch_mapped c; _param_com_rc_override := _param_com_rc_override
     c; _param_com_rc_loss_t := _param_com_rc_loss_t c |}.

Definition set_geofence_land_on (v : bool) (c : Cycle) : Cycle :=
  {| core := core c; _last_print_mode_reject_time :=
     _last_print_mode_reject_time c; _geofence_warning_action_on :=
     _geofence_warning_action_on c; _geofence_loiter_on :=
     _geofence_loiter_on c; _geofence_rtl_on := _geofence_rtl_on c;
     _geofence_land_on := v; _geofence_violated_prev :=
     _geofence_violated_prev c; _battery_failsafe_timestamp :=
     _battery_failsafe_timestamp c; _arm_tune_played := _arm_tune_played c;
     _battery_warning := _battery_warning c; usb_connected := usb_connected
     c; hil_state_on := hil_state_on c; rc_signal_found_once :=
     rc_signal_found_once c; _last_valid_manual_control_setpoint :=
     _last_valid_manual_control_setpoint c; flag_control_offboard_enabled :=
     flag_control_offboard_enabled c; _mode_switch_mapped :=
     _mode_switch_mapped c; _param_com_rc_override := _param_com_rc_override
     c; _param_com_rc_loss_t := _param_com_rc_loss_t c |}.

Definition set_geofence_violated_prev (v : bool) (c : Cycle) : Cycle :=
  {| core := core c; _last_print_mode_reject_time :=
     _last_print_mode_reject_time c; _geofence_warning_action_on :=
     _geofence_warning_action_on c; _geofence_loiter_on :=
     _geofence_loiter_on c; _geofence_rtl_on := _geofence_rtl_on c;
     _geofence_land_on := _geofence_land_on c; _geofence_violated_prev := v;
     _battery_failsafe_timestamp := _battery_failsafe_timestamp c;
     _arm_tune_played := _arm_tune_played c; _battery_warning :=
     _battery_warning c; usb_connected := usb_connected c; hil_state_on :=
     hil_state_on c; rc_signal_found_once := rc_signal_found_once c;
     _last_valid_manual_control_setpoint :=
     _last_valid_manual_control_setpoint c; flag_control_offboard_enabled :=
     flag_control_offboard_enabled c; _mode_switch_mapped :=
     _mode_switch_mapped c; _param_com_rc_override := _param_com_rc_override
     c; _param_com_rc_loss_t := _param_com_rc_loss_t c |}.

Definition set_arm_tune_played (v : bool) (c : Cycle) : Cycle :=
  {| core := core c; _last_print_mode_reject_time :=
     _last_print_mode_reject_time c; _geofence_warning_action_on :=
     _geofence_warning_action_on c; _geofence_loiter_on :=
     _geofence_loiter_on c; _geofence_rtl_on := _geofence_rtl_on c;
     _geofence_land_on := _geofence_land_on c; _geofence_violated_prev :=
     _geofence_violated_prev c; _battery_failsafe_timestamp :=
     _battery_failsafe_timestamp c; _arm_tune_played := v; _battery_warning
     := _battery_warning c; usb_connected := usb_connected c; hil_state_on :=
     hil_state_on c; rc_signal_found_once := rc_signal_found_once c;
     _last_valid_manual_control_setpoint :=
     _last_valid_manual_control_setpoint c; flag_control_offboard_enabled :=
     flag_control_offboard_enabled c; _mode_switch_mapped :=
     _mode_switch_mapped c; _param_com_rc_override := _param_com_rc_override
     c; _param_com_rc_loss_t := _param_com_rc_loss_t c |}.

Definition set_rc_signal_found_once (v : bool) (c : Cycle) : Cycle :=
  {| core := core c; _last_print_mode_reject_time :=
     _last_print_mode_reject_time c; _geofence_warning_action_on :=
     _geofence_warning_action_on c; _geofence_loiter_on :=
     _geofence_loiter_on c; _geofence_rtl_on := _geofence_rtl_on c;
     _geofence_land_on := _geofence_land_on c; _geofence_violated_prev :=
     _geofence_violated_prev c; _battery_failsafe_timestamp :=
     _battery_failsafe_timestamp c; _arm_tune_played := _arm_tune_played c;
     _battery_warning := _battery_warning c; usb_connected := usb_connected
     c; hil_state_on := hil_state_on c; rc_signal_found_once := v;
     _last_valid_manual_control_setpoint :=
     _last_valid_manual_control_setpoint c; flag_control_offboard_enabled :=
     flag_control_offboard_enabled c; _mode_switch_mapped :=
     _mode_switch_mapped c; _param_com_rc_override := _param_com_rc_override
     c; _param_com_rc_loss_t := _param_com_rc_loss_t c |}.

Definition set_last_valid_manual_control_setpoint (v : hrt_abstime) (c : Cycle) : Cycle :=
  {| core := core c; _last_print_mode_reject_time :=
     _last_print_mode_reject_time c; _geofence_warning_action_on :=
     _geofence_warning_action_on c; _geofence_loiter_on :=
     _geofence_loiter_on c; _geofence_rtl_on := _geofence_rtl_on c;
     _geofence_land_on := _geofence_land_on c; _geofence_violated_prev :=
     _geofence_violated_prev c; _battery_failsafe_timestamp :=
     _battery_failsafe_timestamp c; _arm_tune_played := _arm_tune_played c;
     _battery_warning := _battery_warning c; usb_connected := usb_connected
     c; hil_state_on := hil_state_on c; rc_signal_found_once :=
     rc_signal_found_once c; _last_valid_manual_control_setpoint := v;
     flag_control_offboard_enabled := flag_control_offboard_enabled c;
     _mode_switch_mapped := _mode_switch_mapped c; _param_com_rc_override :=
     _param_com_rc_override c; _param_com_rc_loss_t := _param_com_rc_loss_t c |}.


Definition set_is_throttle_above_center (v : bool) (c : Commander) : Commander :=
  {| _vehicle_status := _vehicle_status c; _actuator_armed := _actuator_armed
     c; _vehicle_control_mode := _vehicle_control_mode c;
     _vehicle_land_detected := _vehicle_land_detected c;
     _vehicle_status_flags := _vehicle_status_flags c; _commander_state :=
     _commander_state c; _geofence_result := _geofence_result c;
     _mission_result := _mission_result c; _arm_state_machine :=
     _arm_state_machine c; _health_and_arming_checks :=
     _health_and_arming_checks c; _home_position := _home_position c;
     _worker_thread := _worker_thread c; _safety := _safety c;
     _lockdown_triggered := _lockdown_triggered c;
     _flight_termination_triggered := _flight_termination_triggered c;
     _status_changed := _status_changed c; _is_throttle_above_center := v;
     _is_throttle_low := _is_throttle_low c; _was_armed := _was_armed c;
     _have_taken_off_since_arming := _have_taken_off_since_arming c;
     _imbalanced_propeller_check_triggered :=
     _imbalanced_propeller_check_triggered c; _last_disarmed_timestamp :=
     _last_disarmed_timestamp c; _boot_timestamp := _boot_timestamp c;
     _high_latency_datalink_heartbeat := _high_latency_datalink_heartbeat c;
     _param_com_home_en := _param_com_home_en c; _param_com_force_safety :=
     _param_com_force_safety c; _param_com_mot_test_en :=
     _param_com_mot_test_en c; _param_flight_uuid := _param_flight_uuid c;
     _failsafe_params := _failsafe_params c |}.

Definition set_is_throttle_low (v : bool) (c : Commander) : Commander :=
  {| _vehicle_status := _vehicle_status c; _actuator_armed := _actuator_armed
     c; _vehicle_control_mode := _vehicle_control_mode c;
     _vehicle_land_detected := _vehicle_land_detected c;
     _vehicle_status_flags := _vehicle_status_flags c; _commander_state :=
     _commander_state c; _geofence_result := _geofence_result c;
     _mission_result := _mission_result c; _arm_state_machine :=
     _arm_state_machine c; _health_and_arming_checks :=
     _health_and_arming_checks c; _home_position := _home_position c;
     _worker_thread := _worker_thread c; _safety := _safety c;
     _lockdown_triggered := _lockdown_triggered c;
     _flight_termination_triggered := _flight_termination_triggered c;
     _status_changed := _status_changed c; _is_throttle_above_center :=
     _is_throttle_above_center c; _is_throttle_low := v; _was_armed :=
     _was_armed c; _have_taken_off_since_arming :=
     _have_taken_off_since_arming c; _imbalanced_propeller_check_triggered :=
     _imbalanced_propeller_check_triggered c; _last_disarmed_timestamp :=
     _last_disarmed_timestamp c; _boot_timestamp := _boot_timestamp c;
     _high_latency_datalink_heartbeat := _high_latency_datalink_heartbeat c;
     _param_com_home_en := _param_com_home_en c; _param_com_force_safety :=
     _param_com_force_safety c; _param_com_mot_test_en :=
     _param_com_mot_test_en c; _param_flight_uuid := _param_flight_uuid c;
     _failsafe_params := _failsafe_params c |}.

Definition set_rc_signal_lost (v : bool) (c : vehicle_status_s) : vehicle_status_s :=
  {| system_id := system_id c; component_id := component_id c; vehicle_type
     := vehicle_type c; nav_state := nav_state c; nav_state_timestamp :=
     nav_state_timestamp c; rc_signal_lost := v; auto_mission_available :=
     auto_mission_available c; in_transition_mode := in_transition_mode c;
     failsafe := failsafe c |}.


Definition CY : Type -> Type := M Cycle event.

(** A member function of [Commander] run on the [core] members. *)
Definition lift {A : Type} (c : CM A) : CY A :=
  fun s =>
    let '(a, c1, o) := c (core s) in
    (a, set_core c1 s, map core_event o).

Definition modify_core (f : Commander -> Commander) : CY unit :=
  modify (fun s => set_core (f (core s)) s).

Definition log_event (id : string) : CY unit :=
  emit (core_event (log id)).

(** *** Commander::print_reject_mode *)

(** The clock is read twice: [now] by [hrt_elapsed_time], [stamp] by the
    [hrt_absolute_time] that is stored. *)
Definition print_reject_mode (now stamp : hrt_abstime)
  (main_state_ : main_state_t) : CY unit :=
  s <- get ;;
  when (1 * us_per_s <? hrt_elapsed_time now (_last_print_mode_reject_time s))
       (emit (mode_not_available main_state_) ;;
        (* only buzz if armed, because else we're driving people nuts
           indoors they really need to look at the leds as well. *)
        emit (tune (tune_negative_buzzer
                      (isArmed (_arm_state_machine (core s))))) ;;
        modify (set_last_print_mode_reject_time stamp)).

(** *** Commander::run, the flag of the geofence action and the block
        "Geofence actions" *)



Definition is_auto_loiter (m : main_state_t) : bool :=
  match m with MAIN_STATE_AUTO_LOITER => true | _ => false end.
Definition is_auto_rtl (m : main_state_t) : bool :=
  match m with MAIN_STATE_AUTO_RTL => true | _ => false end.
Definition is_auto_land (m : main_state_t) : bool :=
  match m with MAIN_STATE_AUTO_LAND => true | _ => false end.

(** One arm of the switch on the action: the transition to [target], and
    the flag that records that it changed the main state. *)
Definition geofence_transition (target : main_state_t)
  (set_on : bool -> Cycle -> Cycle) : CY unit :=
  res <- lift (call_main_state_transition target) ;;
  when (is_changed res) (modify (set_on true)).

Definition geofence_terminate : CY unit :=
  log_event "Flight termination because of geofence" ;;
  s <- get ;;
  when (negb (_flight_termination_triggered (core s))
        && negb (_lockdown_triggered (core s)))
       (modify_core (set_flight_termination_triggered true) ;;
        log_event "commander_geofence_termination" ;;
        modify_core (fun c =>
                       set_actuator_armed
                         (set_force_failsafe true (_actuator_armed c)) c) ;;
        modify_core (set_status_changed true) ;;
        lift send_parachute_command).

Definition geofence_actions_due (s : Cycle) : bool :=
  let in_low_battery_failsafe_delay :=
    negb (_battery_failsafe_timestamp s =? 0) in
  isArmed (_arm_state_machine (core s))
  && (match geofence_action (_geofence_result (core s)) with
      | GF_ACTION_NONE => false | _ => true end)
  && negb in_low_battery_failsafe_delay.

Definition geofence_actions : CY unit :=
  s <- get ;;
  if geofence_actions_due s then
    (* check for geofence violation transition *)
    when (geofence_violated (_geofence_result (core s))
          && negb (_geofence_violated_prev s))
         (match geofence_action (_geofence_result (core s)) with
          | GF_ACTION_NONE => ret tt (* do nothing *)
          | GF_ACTION_WARN =>
              (* do nothing, mavlink critical messages are sent by
                 navigator *)
              ret tt
          | GF_ACTION_LOITER =>
              geofence_transition MAIN_STATE_AUTO_LOITER
                set_geofence_loiter_on
          | GF_ACTION_RTL =>
              geofence_transition MAIN_STATE_AUTO_RTL set_geofence_rtl_on
          | GF_ACTION_LAND =>
              geofence_transition MAIN_STATE_AUTO_LAND set_geofence_land_on
          | GF_ACTION_TERMINATE => geofence_terminate
          | GF_ACTION_other _ => ret tt
          end) ;;
    modify (fun c =>
              set_geofence_violated_prev
                (geofence_violated (_geofence_result (core c))) c) ;;
    (* reset if no longer in LOITER or if manually switched to LOITER *)
    s1 <- get ;;
    when (negb (is_auto_loiter (main_state (_commander_state (core s1)))))
         (modify (set_geofence_loiter_on false)) ;;
    (* reset if no longer in RTL or if manually switched to RTL *)
    when (negb (is_auto_rtl (main_state (_commander_state (core s1)))))
         (modify (set_geofence_rtl_on false)) ;;
    (* reset if no longer in LAND or if manually switched to LAND *)
    when (negb (is_auto_land (main_state (_commander_state (core s1)))))
         (modify (set_geofence_land_on false)) ;;
    modify (fun c =>
              set_geofence_warning_action_on
                (_geofence_warning_action_on c
                 || (_geofence_loiter_on c || _geofence_rtl_on c
                     || _geofence_land_on c)) c)
  else
    (* No geofence checks, reset flags *)
    modify (set_geofence_loiter_on false) ;;
    modify (set_geofence_rtl_on false) ;;
    modify (set_geofence_land_on false) ;;
    modify (set_geofence_warning_action_on false) ;;
    modify (set_geofence_violated_prev false).

(** *** Commander::manual_control_check

    [update] is what [_manual_control_setpoint_sub.update] delivers:
    nothing, or the new setpoint. *)

Definition has_bit (value bit : Z) : bool :=
  negb (Z.land value bit =? 0).

Definition stick_override : CY unit :=
  s <- get ;;
  let mode := _vehicle_control_mode (core s) in
  let override_enabled :=
    (flag_control_auto_enabled mode
     && has_bit (_param_com_rc_override s) AUTO_MODE_BIT)
    || (flag_control_offboard_enabled s
        && has_bit (_param_com_rc_override s) OFFBOARD_MODE_BIT) in
  let in_low_battery_failsafe_delay :=
    negb (_battery_failsafe_timestamp s =? 0) in
  when (override_enabled && negb in_low_battery_failsafe_delay
        && negb (_geofence_warning_action_on s))
       (posctl_result <- lift (call_main_state_transition MAIN_STATE_POSCTL) ;;
        match posctl_result with
        | TRANSITION_CHANGED =>
            emit (tune tune_positive) ;;
            log_event "commander_rc_override_pos" ;;
            modify_core (set_status_changed true)
        | TRANSITION_DENIED =>
            (* If transition to POSCTL was denied, then we can try again
               with ALTCTL. *)
            altctl_result <-
              lift (call_main_state_transition MAIN_STATE_ALTCTL) ;;
            when (is_changed altctl_result)
                 (emit (tune tune_positive) ;;
                  log_event "commander_rc_override_alt" ;;
                  modify_core (set_status_changed true))
        | TRANSITION_NOT_CHANGED => ret tt
        end).

Definition manual_control_check (now : hrt_abstime)
  (update : option manual_control_setpoint_s) : CY unit :=
  s <- get ;;
  match update with
  | Some manual_control_setpoint =>
      if mcs_valid manual_control_setpoint then
        (if negb (rc_signal_found_once s) then
           modify (set_rc_signal_found_once true)
         else
           when (rc_signal_lost (_vehicle_status (core s))
                 && (0 <? _last_valid_manual_control_setpoint s))
                (log_event "commander_rc_regained")) ;;
        when (rc_signal_lost (_vehicle_status (core s)))
             (modify_core (fun c =>
                             set_vehicle_status
                               (set_rc_signal_lost false (_vehicle_status c))
                               c) ;;
              modify_core (set_status_changed true)) ;;
        modify (set_last_valid_manual_control_setpoint
                  (mcs_timestamp manual_control_setpoint)) ;;
        modify_core (set_is_throttle_above_center
                       (fgt (mcs_z manual_control_setpoint) float_0_6)) ;;
        modify_core (set_is_throttle_low
                       (flt (mcs_z manual_control_setpoint) float_0_1)) ;;
        if isArmed (_arm_state_machine (core s)) then
          (* Abort autonomous mode and switch to position mode if sticks
             are moved significantly but only if actually in air. *)
          when (sticks_moving manual_control_setpoint
                && negb (flag_control_manual_enabled
                           (_vehicle_control_mode (core s)))
                && is_rotary_wing_type
                     (vehicle_type (_vehicle_status (core s))))
               stick_override
        else
          let is_mavlink := SOURCE_RC <? data_source manual_control_setpoint in
          (* disarmed: if there's never been a mode change force position
             control as initial state *)
          when ((main_state_changes (_commander_state (core s)) =? 0)
                && (is_mavlink || negb (_mode_switch_mapped s)))
               (modify_core
                  (fun c =>
                     set_commander_state
                       {| main_state := MAIN_STATE_POSCTL;
                          main_state_changes :=
                            main_state_changes (_commander_state c) + 1 |}
                       c))
      else
        (* prohibit stick use in case of reported invalidity *)
        when (negb (rc_signal_lost (_vehicle_status (core s))))
             (modify_core (fun c =>
                             set_vehicle_status
                               (set_rc_signal_lost true (_vehicle_status c))
                               c) ;;
              modify_core (set_status_changed true) ;;
              log_event "commander_rc_lost")
  | None =>
      when (exceeds_seconds
              (hrt_elapsed_time now (_last_valid_manual_control_setpoint s))
              (_param_com_rc_loss_t s))
           ((* prohibit stick use in case of data timeout *)
            when (negb (rc_signal_lost (_vehicle_status (core s))))
                 (modify_core (fun c =>
                                 set_vehicle_status
                                   (set_rc_signal_lost true
                                      (_vehicle_status c)) c) ;;
                  modify_core (set_status_changed true) ;;
                  log_event "commander_rc_lost"))
  end.

(** *** Commander::updateTunes *)

Definition is_battery_critical (w : battery_warning_t) : bool :=
  match w with BATTERY_WARNING_CRITICAL => true | _ => false end.
Definition is_battery_low (w : battery_warning_t) : bool :=
  match w with BATTERY_WARNING_LOW => true | _ => false end.

Definition updateTunes : CY unit :=
  s <- get ;;
  let is_armed := isArmed (_arm_state_machine (core s)) in
  (* play arming and battery warning tunes *)
  (if negb (_arm_tune_played s) && is_armed then
     (* play tune when armed *)
     emit (tune TUNE_ID_ARMING_WARNING) ;;
     modify (set_arm_tune_played true)
   else if negb (usb_connected s) && negb (hil_state_on s)
           && is_battery_critical (_battery_warning s) then
     (* play tune on battery critical *)
     emit (tune TUNE_ID_BATTERY_WARNING_FAST)
   else if negb (hil_state_on s) && is_battery_low (_battery_warning s) then
     (* play tune on battery warning *)
     emit (tune TUNE_ID_BATTERY_WARNING_SLOW)
   else if failsafe (_vehicle_status (core s)) && is_armed then
     emit (tune tune_failsafe)
   else emit (tune TUNE_ID_STOP)) ;;
  (* reset arm_tune_played when disarmed *)
  when (negb is_armed)
       (s1 <- get ;;
        (* Notify the user that it is safe to approach the vehicle *)
        when (_arm_tune_played s1) (emit (tune tune_neutral)) ;;
        modify (set_arm_tune_played false)).

(** ** Terms of the statements *)

(** The messages of rejected mode switches in an output. *)
Definition rejections (o : list event) : nat :=
  List.length (filter is_mode_not_available o).

Definition parachutes (o : list event) : nat :=
  List.length (filter is_core_parachute o).

Definition arming_tunes (o : list event) : nat :=
  List.length (filter is_arming_tune o).

Definition neutral_tunes (o : list event) : nat :=
  List.length (filter is_neutral_tune o).

(** A rejected mode switch: the two readings of the clock and the main
    state asked for. *)
Record rejected_switch : Type := {
  read_at : hrt_abstime;
  stamped_at : hrt_abstime;
  asked_for : main_state_t
}.

(** Mode switches rejected one after the other. *)
Fixpoint print_reject_modes (calls : list rejected_switch) : CY unit :=
  match calls with
  | [] => ret tt
  | c :: rest =>
      print_reject_mode (read_at c) (stamped_at c) (asked_for c) ;;
      print_reject_modes rest
  end.

(** [updateTunes] on [n] passes in a row. *)
Fixpoint updateTunes_passes (n : nat) : CY unit :=
  match n with
  | O => ret tt
  | S k => updateTunes ;; updateTunes_passes k
  end.

(** Readings of a clock that does not go back, all of them in the 64 bits
    of [hrt_abstime] and none before [start]. *)
Fixpoint ascending (start : hrt_abstime) (calls : list rejected_switch)
  : Prop :=
  match calls with
  | [] => True
  | c :: rest =>
      start <= read_at c <= stamped_at c /\ stamped_at c < 2 ^ 64
      /\ ascending (stamped_at c) rest
  end.

(** The last reading of the clock, [start] when there is none. *)
Fixpoint last_time (start : hrt_abstime) (calls : list rejected_switch)
  : hrt_abstime :=
  match calls with
  | [] => start
  | c :: rest => last_time (stamped_at c) rest
  end.

(** The reports of the loss of manual control in an output. *)
Definition is_rc_lost_report (e : event) : bool :=
  match e with
  | core_event (log id) => String.eqb id "commander_rc_lost"
  | _ => false
  end.

Definition rc_lost_reports (o : list event) : nat :=
  List.length (filter is_rc_lost_report o).

(** An update that carries a valid setpoint. *)
Definition is_valid_update (update : option manual_control_setpoint_s)
  : bool :=
  match update with
  | Some manual_control_setpoint => mcs_valid manual_control_setpoint
  | None => false
  end.

(** [manual_control_check] on passes in a row, each with the time and what
    the subscription delivers. *)
Fixpoint manual_control_checks
  (passes : list (hrt_abstime * option manual_control_setpoint_s))
  : CY unit :=
  match passes with
  | [] => ret tt
  | (now, update) :: rest =>
      manual_control_check now update ;; manual_control_checks rest
  end.

(** What a Cycle holds outside the geofence block: the Cycle with the
    memory of the violation and the four flags of the block cleared.  Two
    Cycles with the same image differ in these five members at most. *)
Definition outside_geofence_block (c : Cycle) : Cycle :=
  set_geofence_violated_prev false
    (set_geofence_warning_action_on false
       (set_geofence_land_on false
          (set_geofence_rtl_on false (set_geofence_loiter_on false c)))).

(** The mode changes by which the pilot takes over with the sticks. *)
Definition is_takeover (e : event) : bool :=
  match e with
  | tune tune_positive => true
  | _ => false
  end.

End Model.

End CommanderCycle.


(** * Services of the Navigator

    Member functions of navigator_main.cpp that the navigation modes call:
    the publication of vehicle commands with the bookkeeping of the image
    capture, and the buffer of the last air traffic conflict. *)

Module NavigatorServices.

Import Navigator.

(** [_traffic_buffer]. *)
Record traffic_buffer_s : Type := {
  icao_address : Z;
  tb_timestamp : hrt_abstime
}.

(** The opcodes of navigation.h named by [publish_vehicle_cmd]. *)
Class Opcodes : Type := {
  NAV_CMD_IMAGE_START_CAPTURE : vehicle_cmd;
  NAV_CMD_IMAGE_STOP_CAPTURE : vehicle_cmd;
  NAV_CMD_VIDEO_START_CAPTURE : vehicle_cmd;
  NAV_CMD_VIDEO_STOP_CAPTURE : vehicle_cmd
}.

(** The members used here: the vehicle status of the Navigator, and two
    members of their own. *)
Record Services : Type := {
  vstatus : vehicle_status_s;
  _is_capturing_images : bool;
  _traffic_buffer : traffic_buffer_s
}.

Definition set_is_capturing_images (v : bool) (c : Services) : Services :=
  {| vstatus := vstatus c; _is_capturing_images := v;
     _traffic_buffer := _traffic_buffer c |}.

Definition set_traffic_buffer (v : traffic_buffer_s) (c : Services)
  : Services :=
  {| vstatus := vstatus c; _is_capturing_images := _is_capturing_images c;
     _traffic_buffer := v |}.

(** What goes out on the vehicle_command topic. *)
Inductive event : Type :=
| vehicle_command (vcmd : vehicle_command_s).

Section Model.
Context {O : Opcodes}.

Definition SV : Type -> Type := M Services event.

(** MAV_COMP_ID_CAMERA *)
Definition MAV_COMP_ID_CAMERA : Z := 100.

(** [vehicle_command_s vcmd = {}]. *)
Definition vehicle_command_zero (cmd : vehicle_cmd) : vehicle_command_s :=
  {| command := cmd; param1 := Fin 0; param2 := Fin 0; param3 := Fin 0;
     param4 := Fin 0; param5 := Fin 0; param6 := Fin 0; param7 := Fin 0;
     target_system := 0; target_component := 0; source_system := 0;
     source_component := 0; from_external := false |}.

(** *** Navigator::publish_vehicle_cmd *)

Definition publish_vehicle_cmd (vcmd : vehicle_command_s) : SV unit :=
  s <- get ;;
  let addressed (cmd : vehicle_cmd) (p1 p2 p3 p4 p5 p6 p7 : float)
      (target_component_ : Z) : vehicle_command_s :=
    {| command := cmd; param1 := p1; param2 := p2; param3 := p3;
       param4 := p4; param5 := p5; param6 := p6; param7 := p7;
       target_system := system_id (vstatus s);
       target_component := target_component_;
       source_system := system_id (vstatus s);
       source_component := component_id (vstatus s);
       from_external := false |} in
  let unchanged (target_component_ : Z) : vehicle_command_s :=
    addressed (command vcmd) (param1 vcmd) (param2 vcmd) (param3 vcmd)
      (param4 vcmd) (param5 vcmd) (param6 vcmd) (param7 vcmd)
      target_component_ in
  (* The camera commands are not processed on the autopilot but will be
     sent to the mavlink links to other components. *)
  if same_command (command vcmd) NAV_CMD_IMAGE_START_CAPTURE then
    if cast_int (param3 vcmd) =? 1 then
      (* When sending a single capture we need to include the sequence
         number, thus camera_trigger needs to handle this cmd *)
      emit (vehicle_command
              (addressed VEHICLE_CMD_DO_DIGICAM_CONTROL (Fin 0) (Fin 0)
                 (Fin 0) (Fin 0) (Fin 1) (Fin 0) (Fin 0)
                 MAV_COMP_ID_CAMERA))
    else
      (* We are only capturing multiple if param3 is 0 or > 1. *)
      modify (set_is_capturing_images true) ;;
      emit (vehicle_command (unchanged MAV_COMP_ID_CAMERA))
  else if same_command (command vcmd) NAV_CMD_IMAGE_STOP_CAPTURE then
    modify (set_is_capturing_images false) ;;
    emit (vehicle_command (unchanged MAV_COMP_ID_CAMERA))
  else if same_command (command vcmd) NAV_CMD_VIDEO_START_CAPTURE
          || same_command (command vcmd) NAV_CMD_VIDEO_STOP_CAPTURE then
    emit (vehicle_command (unchanged MAV_COMP_ID_CAMERA))
  else
    emit (vehicle_command (unchanged (component_id (vstatus s)))).

(** *** Navigator::stop_capturing_images *)

Definition stop_capturing_images : SV unit :=
  s <- get ;;
  when (_is_capturing_images s)
       ((* _is_capturing_images is reset inside publish_vehicle_cmd. *)
        publish_vehicle_cmd (vehicle_command_zero NAV_CMD_IMAGE_STOP_CAPTURE)).

(** *** Navigator::buffer_air_traffic

    The clock is read twice: [now] by [hrt_elapsed_time], [stamp] by the
    [hrt_absolute_time] that is stored. *)

Definition buffer_air_traffic (now stamp : hrt_abstime) (icao_address_ : Z)
  : SV bool :=
  s <- get ;;
  if icao_address (_traffic_buffer s) =? icao_address_ then
    if 60 * us_per_s <? hrt_elapsed_time now (tb_timestamp (_traffic_buffer s))
    then
      modify (set_traffic_buffer
                {| icao_address := icao_address (_traffic_buffer s);
                   tb_timestamp := stamp |}) ;;
      ret true
    else ret false
  else
    modify (set_traffic_buffer
              {| icao_address := icao_address_; tb_timestamp := stamp |}) ;;
    ret true.

(** ** Terms of the statements *)

(** The case labels of a [switch] differ from one another. *)
Definition camera_opcodes_distinct : Prop :=
  NoDup [NAV_CMD_IMAGE_START_CAPTURE; NAV_CMD_IMAGE_STOP_CAPTURE;
         NAV_CMD_VIDEO_START_CAPTURE; NAV_CMD_VIDEO_STOP_CAPTURE].

Definition is_camera_opcode (cmd : vehicle_cmd) : bool :=
  same_command cmd NAV_CMD_IMAGE_START_CAPTURE
  || same_command cmd NAV_CMD_IMAGE_STOP_CAPTURE
  || same_command cmd NAV_CMD_VIDEO_START_CAPTURE
  || same_command cmd NAV_CMD_VIDEO_STOP_CAPTURE.

Definition commands_of (o : list event) : list vehicle_command_s :=
  map (fun e => match e with vehicle_command c => c end) o.

(** A conflict with air traffic: the two readings of the clock and the
    address of the aircraft. *)
Record conflict : Type := {
  read_at : hrt_abstime;
  stamped_at : hrt_abstime;
  aircraft : Z
}.

(** Conflicts reported one after the other; the answers of
    [buffer_air_traffic], in order. *)
Fixpoint buffer_conflicts (conflicts : list conflict) (s : Services)
  : list bool :=
  match conflicts with
  | [] => []
  | c :: rest =>
      let r := buffer_air_traffic (read_at c) (stamped_at c) (aircraft c) s in
      value_of r :: buffer_conflicts rest (state_of r)
  end.

Definition actions_needed (answers : list bool) : nat :=
  List.length (filter (fun b => b) answers).

(** Readings of a clock that does not go back, none before [start], within
    the 64 bits of [hrt_abstime]. *)
Fixpoint ascending (start : hrt_abstime) (conflicts : list conflict)
  : Prop :=
  match conflicts with
  | [] => True
  | c :: rest =>
      start <= read_at c <= stamped_at c /\ stamped_at c < 2 ^ 64
      /\ ascending (stamped_at c) rest
  end.

(** The last reading of the clock, [start] when there is none. *)
Fixpoint last_time (start : hrt_abstime) (conflicts : list conflict)
  : hrt_abstime :=
  match conflicts with
  | [] => start
  | c :: rest => last_time (stamped_at c) rest
  end.

(** A command to capture images; [param3] is the number of images. *)
Definition image_start_capture (count : float) : vehicle_command_s :=
  {| command := NAV_CMD_IMAGE_START_CAPTURE; param1 := Fin 0;
     param2 := Fin 0; param3 := count; param4 := Fin 0; param5 := Fin 0;
     param6 := Fin 0; param7 := Fin 0;
     target_system := 0; target_component := 0; source_system := 0;
     source_component := 0; from_external := false |}.

End Model.

End NavigatorServices.


(** * Terms of the statements about single commands *)

Module CommandSpec.

Section Terms.
Context {I : Commander.Interfaces}.

(** The actuator tests published in an output of the Commander. *)
Definition actuator_tests (o : list Commander.event)
  : list Commander.actuator_test_s :=
  flat_map (fun e => match e with
                     | Commander.actuator_test t => [t]
                     | _ => []
                     end) o.

(** The commands whose case hands a task to the worker thread. *)
Definition starts_worker_task (c : vehicle_cmd) : bool :=
  match c with
  | VEHICLE_CMD_PREFLIGHT_CALIBRATION
  | VEHICLE_CMD_FIXED_MAG_CAL_YAW
  | VEHICLE_CMD_PREFLIGHT_STORAGE => true
  | _ => false
  end.

(** The acknowledgments in an output of the Navigator. *)
Definition navigator_acks (o : list Navigator.event) : list cmd_result_t :=
  flat_map (fun e => match e with
                     | Navigator.command_ack _ r => [r]
                     | _ => []
                     end) o.

(** What the arm state machine answers when asked to shut down. *)
Definition shutdown_answer (s : Commander.Commander)
  : Commander.transition_result_t :=
  value_of (Commander.call_arming_state_transition ARMING_STATE_SHUTDOWN
              false Commander.shutdown s).

End Terms.

End CommandSpec.


(** * Reference runs of the command line and of the cycle *)

Module CommanderRuns.

Import Commander Reference.

(** ** The command line *)

#[export] Instance platform_ref : CommanderShell.Platform := {|
  CommanderShell.CONSTRAINED_FLASH := false;
  CommanderShell.VEHICLE_VTOL_STATE_MC := Fin (3 # 1);
  CommanderShell.VEHICLE_VTOL_STATE_FW := Fin (4 # 1);
  CommanderShell.atof := fun _ => Fin 0
|}.

(** The module runs, the topics are those of the vehicle after boot, and
    the takeoff command is accepted within the 100 ms, after the
    acknowledgment of another command. *)
Definition shell_env : CommanderShell.invocation :=
  {| CommanderShell.is_running := true;
     CommanderShell.vehicle_status := _vehicle_status commander_boot;
     CommanderShell.pre_flight_checks_pass := true;
     CommanderShell.publish_result := true;
     CommanderShell.acks_within_100_ms :=
       [(VEHICLE_CMD_DO_SET_MODE, VEHICLE_CMD_RESULT_ACCEPTED);
        (VEHICLE_CMD_NAV_TAKEOFF, VEHICLE_CMD_RESULT_ACCEPTED)] |}.

(** ** The monitoring cycle *)

(** RcOverrideBits and manual_control_setpoint_s::SOURCE_RC; the timeout
    is compared in microseconds. *)
#[export] Instance cycle_ref : CommanderCycle.CycleInterfaces := {|
  CommanderCycle.AUTO_MODE_BIT := 1;
  CommanderCycle.OFFBOARD_MODE_BIT := 2;
  CommanderCycle.SOURCE_RC := 1;
  CommanderCycle.exceeds_seconds := fun elapsed seconds =>
    match seconds with
    | Fin q => negb (Qle_bool (inject_Z elapsed) (q * 1000000))
    | NInf => true
    | _ => false
    end
|}.

(** The cycle around [c]: no message sent yet, no geofence action, the
    stick override enabled for the automatic modes, manual control lost
    after half a second. *)
Definition cycle_of (c : Commander) : CommanderCycle.Cycle :=
  {| CommanderCycle.core := c;
     CommanderCycle._last_print_mode_reject_time := 0;
     CommanderCycle._geofence_warning_action_on := false;
     CommanderCycle._geofence_loiter_on := false;
     CommanderCycle._geofence_rtl_on := false;
     CommanderCycle._geofence_land_on := false;
     CommanderCycle._geofence_violated_prev := false;
     CommanderCycle._battery_failsafe_timestamp := 0;
     CommanderCycle._arm_tune_played := false;
     CommanderCycle._battery_warning := CommanderCycle.BATTERY_WARNING_NONE;
     CommanderCycle.usb_connected := false;
     CommanderCycle.hil_state_on := false;
     CommanderCycle.rc_signal_found_once := true;
     CommanderCycle._last_valid_manual_control_setpoint := 0;
     CommanderCycle.flag_control_offboard_enabled := false;
     CommanderCycle._mode_switch_mapped := true;
     CommanderCycle._param_com_rc_override := 1;
     CommanderCycle._param_com_rc_loss_t := Fin (1 # 2) |}.

(** The vehicle in flight during a geofence action. *)
Definition cycle_in_geofence_action : CommanderCycle.Cycle :=
  CommanderCycle.set_geofence_warning_action_on true
    (cycle_of commander_flying).

(** Three mode switches rejected at 2 s, 2.5 s and 3.1 s. *)
Definition rejected_switches : list CommanderCycle.rejected_switch :=
  [ {| CommanderCycle.read_at := 2000000;
       CommanderCycle.stamped_at := 2000010;
       CommanderCycle.asked_for := MAIN_STATE_POSCTL |};
    {| CommanderCycle.read_at := 2500000;
       CommanderCycle.stamped_at := 2500010;
       CommanderCycle.asked_for := MAIN_STATE_ALTCTL |};
    {| CommanderCycle.read_at := 3100000;
       CommanderCycle.stamped_at := 3100010;
       CommanderCycle.asked_for := MAIN_STATE_POSCTL |} ].

(** A setpoint with the throttle stick at 0.75. *)
Definition setpoint_at_time (t : hrt_abstime) (valid_ moving : bool)
  : CommanderCycle.manual_control_setpoint_s :=
  {| CommanderCycle.mcs_timestamp := t;
     CommanderCycle.mcs_valid := valid_;
     CommanderCycle.mcs_z := Fin (3 # 4);
     CommanderCycle.sticks_moving := moving;
     CommanderCycle.data_source := 1 |}.

(** ** Single commands *)

(** The vehicle after boot in a manual mode with control of the climb rate,
    the throttle stick above the centre. *)
Definition commander_throttle_high : Commander :=
  {| _vehicle_status := _vehicle_status commander_boot;
     _actuator_armed := _actuator_armed commander_boot;
     _vehicle_control_mode := {| flag_control_manual_enabled := true;
       flag_control_climb_rate_enabled := true; flag_control_auto_enabled
       := false |};
     _vehicle_land_detected := _vehicle_land_detected commander_boot;
     _vehicle_status_flags := _vehicle_status_flags commander_boot;
     _commander_state := _commander_state commander_boot;
     _geofence_result := _geofence_result commander_boot;
     _mission_result := _mission_result commander_boot;
     _arm_state_machine := _arm_state_machine commander_boot;
     _health_and_arming_checks := _health_and_arming_checks commander_boot;
     _home_position := _home_position commander_boot;
     _worker_thread := _worker_thread commander_boot;
     _safety := _safety commander_boot;
     _lockdown_triggered := _lockdown_triggered commander_boot;
     _flight_termination_triggered := _flight_termination_triggered
       commander_boot;
     _status_changed := _status_changed commander_boot;
     _is_throttle_above_center := true;
     _is_throttle_low := false;
     _was_armed := _was_armed commander_boot;
     _have_taken_off_since_arming := _have_taken_off_since_arming
       commander_boot;
     _imbalanced_propeller_check_triggered :=
       _imbalanced_propeller_check_triggered commander_boot;
     _last_disarmed_timestamp := _last_disarmed_timestamp commander_boot;
     _boot_timestamp := _boot_timestamp commander_boot;
     _high_latency_datalink_heartbeat := _high_latency_datalink_heartbeat
       commander_boot;
     _param_com_home_en := _param_com_home_en commander_boot;
     _param_com_force_safety := _param_com_force_safety commander_boot;
     _param_com_mot_test_en := _param_com_mot_test_en commander_boot;
     _param_flight_uuid := _param_flight_uuid commander_boot;
     _failsafe_params := _failsafe_params commander_boot |}.

(** A command from the ground station with all seven parameters. *)
Definition full_command (c : vehicle_cmd) (p1 p2 p3 p4 p5 p6 p7 : float)
  : vehicle_command_s :=
  {| command := c; param1 := p1; param2 := p2; param3 := p3; param4 := p4;
     param5 := p5; param6 := p6; param7 := p7;
     target_system := 1; target_component := 1;
     source_system := 255; source_component := 190;
     from_external := true |}.

End CommanderRuns.

(** * Reference runs of the Navigator and of its services *)

Module NavigatorRuns.

Import Navigator NavigatorReference.

(** MAV_CMD_IMAGE_START_CAPTURE 2000, MAV_CMD_IMAGE_STOP_CAPTURE 2001,
    MAV_CMD_VIDEO_START_CAPTURE 2500, MAV_CMD_VIDEO_STOP_CAPTURE 2501. *)
#[export] Instance opcodes_ref : NavigatorServices.Opcodes := {|
  NavigatorServices.NAV_CMD_IMAGE_START_CAPTURE := VEHICLE_CMD_other 2000;
  NavigatorServices.NAV_CMD_IMAGE_STOP_CAPTURE := VEHICLE_CMD_other 2001;
  NavigatorServices.NAV_CMD_VIDEO_START_CAPTURE := VEHICLE_CMD_other 2500;
  NavigatorServices.NAV_CMD_VIDEO_STOP_CAPTURE := VEHICLE_CMD_other 2501
|}.

(** The vehicle of [navigator_at] in a mission. *)
Definition navigator_in_mission : Navigator :=
  navigator_at NAVIGATION_STATE_AUTO_MISSION ARMING_STATE_ARMED
    (Some mode_mission).

(** No capture running; the last conflict was with aircraft 4321 at
    1 s. *)
Definition services_boot : NavigatorServices.Services :=
  {| NavigatorServices.vstatus := _vstatus navigator_in_mission;
     NavigatorServices._is_capturing_images := false;
     NavigatorServices._traffic_buffer :=
       {| NavigatorServices.icao_address := 4321;
          NavigatorServices.tb_timestamp := 1000000 |} |}.

(** Aircraft 4321 again at 62 s, 90 s and 130 s. *)
Definition conflicts_with_4321 : list NavigatorServices.conflict :=
  [ {| NavigatorServices.read_at := 62000000;
       NavigatorServices.stamped_at := 62000005;
       NavigatorServices.aircraft := 4321 |};
    {| NavigatorServices.read_at := 90000000;
       NavigatorServices.stamped_at := 90000005;
       NavigatorServices.aircraft := 4321 |};
    {| NavigatorServices.read_at := 130000000;
       NavigatorServices.stamped_at := 130000005;
       NavigatorServices.aircraft := 4321 |} ].

(** A fixed-wing vehicle at the same place, before the first geofence
    position data. *)
Definition navigator_plane : Navigator :=
  {| _vstatus := {| system_id := 1; component_id := 1; nav_state :=
       NAVIGATION_STATE_AUTO_MISSION; arming_state := ARMING_STATE_ARMED;
       vehicle_type := VEHICLE_TYPE_FIXED_WING; is_vtol := false;
       in_transition_to_fw := false |};
     _global_pos := _global_pos navigator_in_mission;
     _local_pos := _local_pos navigator_in_mission;
     _gps_pos := _gps_pos navigator_in_mission;
     _home_pos := _home_pos navigator_in_mission;
     _land_detected := _land_detected navigator_in_mission;
     _position_controller_status := _position_controller_status
       navigator_in_mission;
     _mission_result := _mission_result navigator_in_mission;
     _geofence_result := _geofence_result navigator_in_mission;
     _vroi := _vroi navigator_in_mission;
     _pos_sp_triplet := _pos_sp_triplet navigator_in_mission;
     _reposition_triplet := _reposition_triplet navigator_in_mission;
     _takeoff_triplet := _takeoff_triplet navigator_in_mission;
     _navigation_mode := _navigation_mode navigator_in_mission;
     _previous_nav_state := _previous_nav_state navigator_in_mission;
     _pos_sp_triplet_published_invalid_once :=
       _pos_sp_triplet_published_invalid_once navigator_in_mission;
     _pos_sp_triplet_updated := _pos_sp_triplet_updated
       navigator_in_mission;
     _mission_result_updated := _mission_result_updated
       navigator_in_mission;
     _can_loiter_at_sp := _can_loiter_at_sp navigator_in_mission;
     _geofence_violation_warning_sent := _geofence_violation_warning_sent
       navigator_in_mission;
     _last_geofence_check := _last_geofence_check navigator_in_mission;
     have_geofence_position_data := false;
     _mission_cruising_speed_mc := _mission_cruising_speed_mc
       navigator_in_mission;
     _mission_cruising_speed_fw := _mission_cruising_speed_fw
       navigator_in_mission;
     _mission_throttle := _mission_throttle navigator_in_mission;
     _param_nav_loiter_rad := _param_nav_loiter_rad navigator_in_mission;
     _param_nav_acc_rad := _param_nav_acc_rad navigator_in_mission;
     _param_nav_force_vt := _param_nav_force_vt navigator_in_mission;
     _param_mpc_jerk_auto := _param_mpc_jerk_auto navigator_in_mission;
     _param_mpc_acc_hor := _param_mpc_acc_hor navigator_in_mission;
     _geofence := _geofence navigator_in_mission;
     _gf_breach_avoidance := _gf_breach_avoidance navigator_in_mission;
     _mission := _mission navigator_in_mission;
     _rtl := _rtl navigator_in_mission;
     _precland := _precland navigator_in_mission;
     _vtol_takeoff := _vtol_takeoff navigator_in_mission |}.

(** A command from the ground station with all seven parameters. *)
Definition navigator_command (c : vehicle_cmd)
  (p1 p2 p3 p4 p5 p6 p7 : float) : vehicle_command_s :=
  {| command := c; param1 := p1; param2 := p2; param3 := p3; param4 := p4;
     param5 := p5; param6 := p6; param7 := p7;
     target_system := 1; target_component := 1;
     source_system := 255; source_component := 190;
     from_external := true |}.

End NavigatorRuns.

(** * Equations of the monad *)

Section MonadFacts.
Context {St Ev A B : Type}.

Lemma bind_unfold (c : M St Ev A) (k : A -> M St Ev B) (s : St) :
  bind c k s =
    (value_of (k (value_of (c s)) (state_of (c s))),
     state_of (k (value_of (c s)) (state_of (c s))),
     output_of (c s) ++ output_of (k (value_of (c s)) (state_of (c s)))).
Proof.
  unfold bind, value_of, state_of, output_of.
  destruct (c s) as [[a s1] o1]. cbn.
  destruct (k a s1) as [[b s2] o2]. reflexivity.
Qed.

Lemma state_of_bind (c : M St Ev A) (k : A -> M St Ev B) (s : St) :
  state_of (bind c k s) = state_of (k (value_of (c s)) (state_of (c s))).
Proof. rewrite bind_unfold. reflexivity. Qed.

Lemma output_of_bind (c : M St Ev A) (k : A -> M St Ev B) (s : St) :
  output_of (bind c k s)
  = output_of (c s) ++ output_of (k (value_of (c s)) (state_of (c s))).
Proof. rewrite bind_unfold. reflexivity. Qed.

Lemma value_of_bind (c : M St Ev A) (k : A -> M St Ev B) (s : St) :
  value_of (bind c k s) = value_of (k (value_of (c s)) (state_of (c s))).
Proof. rewrite bind_unfold. reflexivity. Qed.

Variable P : Ev -> bool.

Lemma emits_none_ret (a : A) : emits_none P (ret (St := St) a).
Proof. intros s. reflexivity. Qed.

Lemma emits_none_get : emits_none P (get (St := St)).
Proof. intros s. reflexivity. Qed.

Lemma emits_none_modify (f : St -> St) : emits_none P (modify f).
Proof. intros s. reflexivity. Qed.

Lemma emits_none_emit (e : Ev) :
  P e = false -> emits_none P (emit (St := St) e).
Proof. intros H s. cbn. rewrite H. reflexivity. Qed.

Lemma emits_none_when (b : bool) (c : M St Ev unit) :
  emits_none P c -> emits_none P (when b c).
Proof. intros H. destruct b; [exact H | intros s; reflexivity]. Qed.

Lemma emits_none_bind (c : M St Ev A) (k : A -> M St Ev B) :
  emits_none P c -> (forall a, emits_none P (k a)) ->
  emits_none P (bind c k).
Proof.
  intros Hc Hk s. rewrite output_of_bind, filter_app, Hc, Hk. reflexivity.
Qed.
End MonadFacts.

(** * Properties of the Commander *)

Module CommanderProofs.

Import Commander CommanderSpec.

(** Flatten the monadic structure of a goal. *)
Ltac run_monad :=
  cbv beta iota zeta delta
    [bind ret get gets modify emit when log_event leaving
     value_of state_of output_of];
  cbn [fst snd app].

Ltac run_monad_in H :=
  cbv beta iota zeta delta
    [bind ret get gets modify emit when log_event leaving
     value_of state_of output_of] in H;
  cbn [fst snd app] in H.

Section Proofs.
Context {I : Interfaces}.

(** ** Order facts about the thresholds *)

Lemma fgt_fle_false x c : fgt x c = true -> fle x c = false.
Proof.
  destruct x; cbn; try discriminate; try reflexivity.
  destruct (Qle_bool q c); cbn; congruence.
Qed.

Lemma severities_exclusive cmd :
  (lockdown_severity cmd = true -> termination_severity cmd = false
                                   /\ clear_severity cmd = false)
  /\ (termination_severity cmd = true -> lockdown_severity cmd = false
                                         /\ clear_severity cmd = false)
  /\ (clear_severity cmd = true -> lockdown_severity cmd = false
                                   /\ termination_severity cmd = false).
Proof.
  unfold lockdown_severity, termination_severity, clear_severity.
  destruct (param1 cmd) as [ | | | q]; cbn; try (repeat split; congruence).
  destruct (Qle_bool q (3 # 2)) eqn:E32, (Qle_bool q (1 # 2)) eqn:E12;
    cbn; repeat split; try congruence.
  all: exfalso; apply Qle_bool_iff in E12;
    assert (Hle : Qle_bool q (3 # 2) = true)
      by (apply Qle_bool_iff; eapply Qle_trans;
          [eassumption | discriminate]);
    congruence.
Qed.

(** ** DO_FLIGHTTERMINATION *)

(** The three branches of the case, as equations. *)
Lemma flighttermination_lockdown cmd s :
  lockdown_severity cmd = true ->
  handle_do_flighttermination cmd s =
    if _lockdown_triggered s
    then (VEHICLE_CMD_RESULT_ACCEPTED, s, [])
    else (VEHICLE_CMD_RESULT_ACCEPTED,
          set_lockdown_triggered true
            (set_actuator_armed (set_lockdown true (_actuator_armed s)) s),
          [log "forcing lockdown (motors off)"]).
Proof.
  unfold lockdown_severity, handle_do_flighttermination. intros ->.
  run_monad. destruct (_lockdown_triggered s); reflexivity.
Qed.

Lemma flighttermination_terminate cmd s :
  termination_severity cmd = true ->
  handle_do_flighttermination cmd s =
    if _flight_termination_triggered s
    then (VEHICLE_CMD_RESULT_ACCEPTED, s, [])
    else (VEHICLE_CMD_RESULT_ACCEPTED,
          set_flight_termination_triggered true
            (set_actuator_armed
               (set_force_failsafe true (_actuator_armed s)) s),
          [log "forcing failsafe (termination)"; parachute_command]).
Proof.
  unfold termination_severity, handle_do_flighttermination.
  intros H. apply andb_true_iff in H as [H1 H2].
  assert (H3 : fgt (param1 cmd) (3 # 2) = false).
  { destruct (fgt (param1 cmd) (3 # 2)) eqn:E; [ | reflexivity].
    apply fgt_fle_false in E. congruence. }
  rewrite H3, H1. unfold send_parachute_command. run_monad.
  destruct (_flight_termination_triggered s); reflexivity.
Qed.

Lemma flighttermination_clear cmd s :
  clear_severity cmd = true ->
  handle_do_flighttermination cmd s =
    (VEHICLE_CMD_RESULT_ACCEPTED,
     set_flight_termination_triggered false
       (set_lockdown_triggered false
          (set_actuator_armed
             (set_lockdown false
                (set_force_failsafe false (_actuator_armed s))) s)),
     [log "disabling failsafe and lockdown"]).
Proof.
  intros H. destruct (severities_exclusive cmd) as (_ & _ & Hc).
  destruct (Hc H) as [H1 H2].
  unfold lockdown_severity in H1. unfold termination_severity in H2.
  unfold clear_severity in H.
  assert (H3 : fgt (param1 cmd) (1 # 2) = false).
  { destruct (fgt (param1 cmd) (1 # 2)) eqn:E; [ | reflexivity].
    apply fgt_fle_false in E. congruence. }
  unfold handle_do_flighttermination. rewrite H1, H3. run_monad.
  reflexivity.
Qed.

(** A handled DO_FLIGHTTERMINATION is the case followed by one
    acknowledgment [accepted]. *)
Lemma handle_command_flighttermination now cmd s :
  termination_for s cmd = true ->
  handle_command now cmd s =
    (returns true,
     state_of (handle_do_flighttermination cmd s),
     output_of (handle_do_flighttermination cmd s)
       ++ [command_ack VEHICLE_CMD_DO_FLIGHTTERMINATION
             VEHICLE_CMD_RESULT_ACCEPTED]).
Proof.
  unfold termination_for, is_flight_termination. intros H.
  apply andb_true_iff in H as [Hc Hn]. apply negb_true_iff in Hn.
  unfold handle_command. run_monad. rewrite Hn.
  unfold handle_command_switch.
  destruct (command cmd) eqn:E; try discriminate.
  unfold handle_do_flighttermination, answer_command,
    send_parachute_command.
  run_monad. rewrite ?E.
  destruct (fgt (param1 cmd) (3 # 2));
    [ | destruct (fgt (param1 cmd) (1 # 2)) ].
  - destruct (_lockdown_triggered s); reflexivity.
  - destruct (_flight_termination_triggered s); reflexivity.
  - reflexivity.
Qed.
Lemma parachute_commands_app o1 o2 :
  parachute_commands (o1 ++ o2)
  = (parachute_commands o1 + parachute_commands o2)%nat.
Proof.
  unfold parachute_commands. rewrite filter_app, length_app. reflexivity.
Qed.

Lemma acks_of_app o1 o2 : acks_of (o1 ++ o2) = acks_of o1 ++ acks_of o2.
Proof. unfold acks_of. apply flat_map_app. Qed.

Lemma termination_for_status s s' cmd :
  _vehicle_status s' = _vehicle_status s ->
  termination_for s' cmd = termination_for s cmd.
Proof.
  unfold termination_for, not_for_us. intros ->. reflexivity.
Qed.

(** One handled DO_FLIGHTTERMINATION, severity by severity. *)
Lemma flight_termination_step now cmd s :
  latches_hold s ->
  termination_for s cmd = true ->
  let r := handle_command now cmd s in
  let a := _actuator_armed (state_of r) in
  value_of r = returns true
  /\ acks_of (output_of r) = [VEHICLE_CMD_RESULT_ACCEPTED]
  /\ latches_hold (state_of r)
  /\ _vehicle_status (state_of r) = _vehicle_status s
  /\ (lockdown_severity cmd = true ->
      lockdown a = true /\ _lockdown_triggered (state_of r) = true
      /\ parachute_commands (output_of r) = 0%nat
      /\ _flight_termination_triggered (state_of r)
         = _flight_termination_triggered s
      /\ (_lockdown_triggered s = true -> state_of r = s))
  /\ (termination_severity cmd = true ->
      force_failsafe a = true
      /\ _flight_termination_triggered (state_of r) = true
      /\ parachute_commands (output_of r)
         = (if _flight_termination_triggered s then 0 else 1)%nat
      /\ (_flight_termination_triggered s = true -> state_of r = s))
  /\ (clear_severity cmd = true ->
      lockdown a = false /\ force_failsafe a = false
      /\ _lockdown_triggered (state_of r) = false
      /\ _flight_termination_triggered (state_of r) = false
      /\ parachute_commands (output_of r) = 0%nat).
Proof.
  intros [Hl Hf] Hfor. cbv zeta.
  rewrite (handle_command_flighttermination now cmd s Hfor).
  unfold value_of, state_of, output_of. cbn [fst snd].
  destruct (lockdown_severity cmd) eqn:E1;
    [ | destruct (termination_severity cmd) eqn:E2;
        [ | destruct (clear_severity cmd) eqn:E3 ] ].
  - destruct (severities_exclusive cmd) as (Hx & _ & _).
    destruct (Hx E1) as [-> ->].
    rewrite (flighttermination_lockdown cmd s E1).
    destruct (_lockdown_triggered s) eqn:El; cbn;
      repeat split; try congruence; auto.
  - destruct (severities_exclusive cmd) as (_ & Hx & _).
    destruct (Hx E2) as [_ ->].
    rewrite (flighttermination_terminate cmd s E2).
    destruct (_flight_termination_triggered s) eqn:El; cbn;
      repeat split; try congruence; auto.
  - rewrite (flighttermination_clear cmd s E3).
    repeat split; cbn; congruence.
  - (* neither order holds: param1 is NaN and the else branch runs *)
    unfold lockdown_severity in E1. unfold termination_severity in E2.
    unfold clear_severity in E3.
    unfold handle_do_flighttermination. run_monad. rewrite E1.
    destruct (fgt (param1 cmd) (1 # 2)) eqn:E4.
    + destruct (param1 cmd) as [ | | | q]; cbn in *; try discriminate.
      destruct (Qle_bool q (3 # 2)); discriminate.
    + repeat split; cbn; congruence.
Qed.

Lemma flight_termination_sequence cmds : forall s,
  latches_hold s ->
  Forall (fun nc => termination_for s (snd nc) = true) cmds ->
  let r := handle_commands cmds s in
  latches_hold (state_of r)
  /\ acks_of (output_of r)
     = repeat VEHICLE_CMD_RESULT_ACCEPTED (List.length cmds)
  /\ (Forall (fun nc => triggers (snd nc) = true) cmds ->
      parachute_commands (output_of r)
      = (if existsb (fun nc => termination_severity (snd nc)) cmds
            && negb (_flight_termination_triggered s)
         then 1 else 0)%nat).
Proof.
  induction cmds as [ | [now cmd] rest IH]; intros s Hinv Hall.
  - cbn. split; [exact Hinv | split; [reflexivity | intros _; reflexivity]].
  - inversion Hall as [ | ? ? Hcmd Hrest]; subst. cbn [snd] in Hcmd.
    destruct (flight_termination_step now cmd s Hinv Hcmd)
      as (_ & Hack & Hinv' & Hst & Hlock & Hterm & _).
    cbv zeta in Hack, Hinv', Hst, Hlock, Hterm.
    assert (Hrest' :
              Forall (fun nc =>
                        termination_for
                          (state_of (handle_command now cmd s)) (snd nc)
                        = true) rest).
    { eapply Forall_impl; [ | exact Hrest]. intros nc H.
      rewrite (termination_for_status s _ _ Hst). exact H. }
    specialize (IH _ Hinv' Hrest'). cbv zeta in IH.
    destruct IH as (IHinv & IHack & IHpar).
    cbn [handle_commands]. rewrite state_of_bind, output_of_bind.
    split; [exact IHinv | split].
    + rewrite acks_of_app, Hack, IHack. reflexivity.
    + intros Htrig. inversion Htrig as [ | ? ? Ht Htrest]; subst.
      cbn [snd] in Ht. rewrite parachute_commands_app, (IHpar Htrest).
      cbn [existsb snd]. unfold triggers in Ht.
      destruct (lockdown_severity cmd) eqn:El.
      * destruct (severities_exclusive cmd) as (Hx & _ & _).
        destruct (Hx El) as [-> _].
        destruct (Hlock eq_refl) as (_ & _ & -> & -> & _).
        reflexivity.
      * cbn in Ht. rewrite Ht.
        destruct (Hterm Ht) as (_ & -> & -> & _).
        destruct (_flight_termination_triggered s); cbn;
          rewrite ?andb_false_r; reflexivity.
Qed.

(** C1. Every handled DO_FLIGHTTERMINATION is acknowledged accepted.
    With param1 > 1.5 it sets lockdown, with 0.5 < param1 <= 1.5 it sets
    force_failsafe and sends the parachute command when the latch was
    clear, with param1 <= 0.5 it clears both flags and both latches.  Two
    commands of the same triggering severity in a row: the second changes
    nothing and sends nothing but its acknowledgment, and the parachute
    command goes out at most once.  Over any sequence of such commands
    without a clear the parachute command is sent exactly once if a
    termination occurs and the latch was clear at the start, and never
    otherwise. *)
Theorem flight_termination_idempotent s :
  latches_hold s ->
  (forall now cmd,
      termination_for s cmd = true ->
      let r := handle_command now cmd s in
      let a := _actuator_armed (state_of r) in
      value_of r = returns true
      /\ acks_of (output_of r) = [VEHICLE_CMD_RESULT_ACCEPTED]
      /\ latches_hold (state_of r)
      /\ (lockdown_severity cmd = true ->
          lockdown a = true /\ parachute_commands (output_of r) = 0%nat)
      /\ (termination_severity cmd = true ->
          force_failsafe a = true
          /\ parachute_commands (output_of r)
             = (if _flight_termination_triggered s then 0 else 1)%nat)
      /\ (clear_severity cmd = true ->
          lockdown a = false /\ force_failsafe a = false
          /\ _lockdown_triggered (state_of r) = false
          /\ _flight_termination_triggered (state_of r) = false))
  /\ (forall now1 now2 cmd1 cmd2,
         termination_for s cmd1 = true ->
         termination_for s cmd2 = true ->
         same_trigger_severity cmd1 cmd2 = true ->
         let r1 := handle_command now1 cmd1 s in
         let r2 := handle_command now2 cmd2 (state_of r1) in
         state_of r2 = state_of r1
         /\ output_of r2
            = [command_ack VEHICLE_CMD_DO_FLIGHTTERMINATION
                 VEHICLE_CMD_RESULT_ACCEPTED]
         /\ acks_of (output_of r1) = [VEHICLE_CMD_RESULT_ACCEPTED]
         /\ (parachute_commands (output_of r1 ++ output_of r2) <= 1)%nat)
  /\ (forall cmds,
         Forall (fun nc => termination_for s (snd nc) = true) cmds ->
         let r := handle_commands cmds s in
         latches_hold (state_of r)
         /\ acks_of (output_of r)
            = repeat VEHICLE_CMD_RESULT_ACCEPTED (List.length cmds)
         /\ (Forall (fun nc => triggers (snd nc) = true) cmds ->
             parachute_commands (output_of r)
             = (if existsb (fun nc => termination_severity (snd nc)) cmds
                   && negb (_flight_termination_triggered s)
                then 1 else 0)%nat)).
Proof.
  intros Hinv. split; [ | split].
  - intros now cmd Hfor.
    destruct (flight_termination_step now cmd s Hinv Hfor)
      as (Hv & Hack & Hinv' & _ & Hlock & Hterm & Hclear).
    cbv zeta in *. repeat split; try assumption.
    + apply Hinv'.
    + apply Hinv'.
    + apply Hlock; assumption.
    + apply Hlock; assumption.
    + apply Hterm; assumption.
    + apply Hterm; assumption.
    + apply Hclear; assumption.
    + apply Hclear; assumption.
    + apply Hclear; assumption.
    + apply Hclear; assumption.
  - intros now1 now2 cmd1 cmd2 H1 H2 Hsame. cbv zeta.
    destruct (flight_termination_step now1 cmd1 s Hinv H1)
      as (_ & Hack1 & Hinv1 & Hst1 & Hlock1 & Hterm1 & _).
    cbv zeta in *.
    assert (H2' : termination_for (state_of (handle_command now1 cmd1 s))
                    cmd2 = true)
      by (rewrite (termination_for_status s _ _ Hst1); exact H2).
    destruct (flight_termination_step now2 cmd2 _ Hinv1 H2')
      as (_ & _ & _ & _ & Hlock2 & Hterm2 & _).
    cbv zeta in *.
    rewrite (handle_command_flighttermination now2 cmd2 _ H2').
    unfold same_trigger_severity in Hsame.
    apply orb_true_iff in Hsame as [Hs | Hs];
      apply andb_true_iff in Hs as [Hs1 Hs2].
    + destruct (Hlock1 Hs1) as (_ & Hl1 & Hp1 & _ & _).
      rewrite (flighttermination_lockdown cmd2 _ Hs2), Hl1.
      unfold state_of at 1, output_of at 1. cbn [fst snd app].
      repeat split; try assumption.
      rewrite parachute_commands_app, Hp1. unfold output_of. cbn. lia.
    + destruct (Hterm1 Hs1) as (_ & Hl1 & Hp1 & _).
      rewrite (flighttermination_terminate cmd2 _ Hs2), Hl1.
      unfold state_of at 1, output_of at 1. cbn [fst snd app].
      repeat split; try assumption.
      rewrite parachute_commands_app, Hp1. unfold output_of. cbn.
      destruct (_flight_termination_triggered s); lia.
  - intros cmds Hall. apply flight_termination_sequence; assumption.
Qed.

(** ** What arm, disarm and the mode transition send out *)

(** Break a goal [emits_none P c] along the structure of [c]. *)
Ltac quiet_step :=
  first
    [ apply emits_none_ret
    | apply emits_none_get
    | apply emits_none_modify
    | apply emits_none_emit; reflexivity
    | apply emits_none_when
    | apply emits_none_bind; [ | intro ]
    | match goal with
      | |- emits_none _ (match ?x with _ => _ end) => destruct x
      | |- emits_none _ (let '(_, _) := ?x in _) => destruct x
      end ].

Ltac quiet := repeat quiet_step.


Lemma parachute_commands_none o :
  filter is_parachute o = [] -> parachute_commands o = 0%nat.
Proof. unfold parachute_commands. intros ->. reflexivity. Qed.

Section Quiet.
Variable P : event -> bool.
Hypothesis P_log : forall id, P (log id) = false.
Hypothesis P_tune : P tune_negative = false.

Lemma call_main_state_transition_quiet m :
  emits_none P (call_main_state_transition m).
Proof. unfold call_main_state_transition. quiet. Qed.

Lemma call_arming_state_transition_quiet target checks reason :
  emits_none P (call_arming_state_transition target checks reason).
Proof. unfold call_arming_state_transition. quiet. Qed.

Lemma log_event_quiet id : emits_none P (log_event id).
Proof. unfold log_event. apply emits_none_emit. apply P_log. Qed.

Lemma tune_negative_quiet : emits_none P (emit tune_negative : CM unit).
Proof. apply emits_none_emit. apply P_tune. Qed.

Ltac quiet_calls :=
  repeat first
    [ apply call_main_state_transition_quiet
    | apply call_arming_state_transition_quiet
    | apply log_event_quiet
    | apply tune_negative_quiet
    | quiet_step ].

Lemma arm_quiet now reason checks : emits_none P (arm now reason checks).
Proof. unfold arm. quiet_calls. Qed.

Lemma disarm_quiet reason forced : emits_none P (disarm reason forced).
Proof. unfold disarm. quiet_calls. Qed.

End Quiet.

(** ** Kill and Unkill *)

Lemma from_rc_switch_reason req :
  is_rc_switch (reason_of_source (source req)) = from_rc_switch req.
Proof. unfold from_rc_switch. destruct (source req); reflexivity. Qed.

Lemma from_rc_switch_is_rc_source req :
  from_rc_switch req = true -> is_rc_source (source req) = true.
Proof. unfold from_rc_switch. destruct (source req); easy. Qed.

Lemma kill_by_switch now req s :
  is_kill req = true -> from_rc_switch req = true ->
  rc_calibration_in_progress (_vehicle_status_flags s) = false ->
  executeActionRequest now req s =
    if manual_lockdown (_actuator_armed s) then (tt, s, [])
    else (tt,
          set_actuator_armed
            (set_manual_lockdown true (_actuator_armed s))
            (set_status_changed true s),
          [log "commander_kill_sw_engaged"; parachute_command]).
Proof.
  unfold is_kill. intros Hk Hsw Hcal. unfold executeActionRequest.
  run_monad. rewrite Hcal. cbn [andb].
  destruct (action req); try discriminate.
  rewrite from_rc_switch_reason, Hsw. unfold send_parachute_command.
  run_monad. destruct (manual_lockdown (_actuator_armed s)); reflexivity.
Qed.

Lemma unkill_by_switch now req s :
  is_unkill req = true -> from_rc_switch req = true ->
  rc_calibration_in_progress (_vehicle_status_flags s) = false ->
  executeActionRequest now req s =
    if manual_lockdown (_actuator_armed s)
    then (tt,
          set_actuator_armed
            (set_manual_lockdown false (_actuator_armed s))
            (set_status_changed true s),
          [log "commander_kill_sw_disengaged"])
    else (tt, s, []).
Proof.
  unfold is_unkill. intros Hk Hsw Hcal. unfold executeActionRequest.
  run_monad. rewrite Hcal. cbn [andb].
  destruct (action req); try discriminate.
  rewrite from_rc_switch_reason, Hsw.
  run_monad. destruct (manual_lockdown (_actuator_armed s)); reflexivity.
Qed.

Lemma kill_unkill_other_source now req s :
  is_kill req || is_unkill req = true -> from_rc_switch req = false ->
  executeActionRequest now req s = (tt, s, []).
Proof.
  unfold is_kill, is_unkill. intros Hk Hsw. unfold executeActionRequest.
  run_monad.
  destruct (rc_calibration_in_progress (_vehicle_status_flags s)
            && is_rc_source (source req)); [reflexivity | ].
  destruct (action req); try discriminate;
    rewrite from_rc_switch_reason, Hsw; reflexivity.
Qed.

Lemma rc_action_during_calibration now req s :
  rc_calibration_in_progress (_vehicle_status_flags s) = true ->
  is_rc_source (source req) = true ->
  executeActionRequest now req s = (tt, s, []).
Proof.
  intros Hcal Hrc. unfold executeActionRequest. run_monad.
  rewrite Hcal, Hrc. reflexivity.
Qed.

Lemma executeActionRequest_parachute now req s :
  parachute_commands (output_of (executeActionRequest now req s))
  = (if is_kill req && negb (manual_lockdown (_actuator_armed s))
        && manual_lockdown
             (_actuator_armed (state_of (executeActionRequest now req s)))
     then 1 else 0)%nat.
Proof.
  destruct (is_kill req) eqn:Hk.
  - destruct (from_rc_switch req) eqn:Hsw.
    + destruct (rc_calibration_in_progress (_vehicle_status_flags s))
        eqn:Hcal.
      * rewrite rc_action_during_calibration;
          auto using from_rc_switch_is_rc_source.
        unfold state_of, output_of. cbn.
        destruct (manual_lockdown (_actuator_armed s)); reflexivity.
      * rewrite kill_by_switch by assumption.
        destruct (manual_lockdown (_actuator_armed s)) eqn:Hm;
          unfold state_of, output_of; cbn; rewrite ?Hm; reflexivity.
    + rewrite kill_unkill_other_source by (rewrite ?Hk; auto).
      unfold state_of, output_of. cbn.
      destruct (manual_lockdown (_actuator_armed s)); reflexivity.
  - cbn [andb]. apply parachute_commands_none.
    revert s. change (emits_none is_parachute (executeActionRequest now req)).
    unfold is_kill in Hk. unfold executeActionRequest.
    apply emits_none_bind; [apply emits_none_get | intro s].
    destruct (rc_calibration_in_progress (_vehicle_status_flags s)
              && is_rc_source (source req)); [apply emits_none_ret | ].
    destruct (action req); try discriminate;
      repeat first
        [ apply arm_quiet; reflexivity
        | apply disarm_quiet; reflexivity
        | apply call_main_state_transition_quiet
        | quiet_step ].
Qed.

Lemma kill_edges_count reqs : forall s,
  parachute_commands (output_of (executeActionRequests reqs s))
  = kill_edges reqs s.
Proof.
  induction reqs as [ | [now req] rest IH]; intros s; [reflexivity | ].
  cbn [executeActionRequests kill_edges].
  rewrite output_of_bind, parachute_commands_app, IH.
  rewrite executeActionRequest_parachute. reflexivity.
Qed.

(** C2 (amended). A Kill whose source is the RC switch, outside RC
    calibration, sets manual_lockdown and sends the parachute command
    exactly when manual_lockdown was clear; while it is set, further Kill
    actions change nothing and send nothing.  A Kill or Unkill from any
    other source changes nothing.  An Unkill from the RC switch clears
    manual_lockdown.  During RC calibration every RC request is ignored.
    Over any sequence of requests the parachute commands sent are as many
    as the kill edges. *)
Theorem kill_once_per_edge_unkill_by_switch s :
  (forall now req,
      let r := executeActionRequest now req s in
      (is_kill req = true -> from_rc_switch req = true ->
       rc_calibration_in_progress (_vehicle_status_flags s) = false ->
       manual_lockdown (_actuator_armed (state_of r)) = true
       /\ parachute_commands (output_of r)
          = (if manual_lockdown (_actuator_armed s) then 0 else 1)%nat
       /\ (manual_lockdown (_actuator_armed s) = true ->
           state_of r = s /\ output_of r = []))
      /\ (is_kill req = true -> from_rc_switch req = false ->
          state_of r = s /\ output_of r = [])
      /\ (is_unkill req = true -> from_rc_switch req = true ->
          rc_calibration_in_progress (_vehicle_status_flags s) = false ->
          manual_lockdown (_actuator_armed (state_of r)) = false
          /\ parachute_commands (output_of r) = 0%nat)
      /\ (is_unkill req = true -> from_rc_switch req = false ->
          state_of r = s /\ output_of r = [])
      /\ (rc_calibration_in_progress (_vehicle_status_flags s) = true ->
          is_rc_source (source req) = true ->
          state_of r = s /\ output_of r = []))
  /\ (forall reqs,
         parachute_commands (output_of (executeActionRequests reqs s))
         = kill_edges reqs s).
Proof.
  split; [ | intros reqs; apply kill_edges_count].
  intros now req. cbv zeta. repeat split.
  - rewrite kill_by_switch by assumption.
    destruct (manual_lockdown (_actuator_armed s)) eqn:E;
      unfold state_of; cbn; auto.
  - rewrite kill_by_switch by assumption.
    destruct (manual_lockdown (_actuator_armed s)); reflexivity.
  - rewrite kill_by_switch by assumption.
    match goal with H : manual_lockdown _ = true |- _ => rewrite H end.
    reflexivity.
  - rewrite kill_by_switch by assumption.
    match goal with H : manual_lockdown _ = true |- _ => rewrite H end.
    reflexivity.
  - rewrite kill_unkill_other_source; auto.
    match goal with H : is_kill _ = true |- _ => rewrite H end.
    reflexivity.
  - rewrite kill_unkill_other_source; auto.
    match goal with H : is_kill _ = true |- _ => rewrite H end.
    reflexivity.
  - rewrite unkill_by_switch by assumption.
    destruct (manual_lockdown (_actuator_armed s)) eqn:E;
      unfold state_of; cbn; auto.
  - rewrite unkill_by_switch by assumption.
    destruct (manual_lockdown (_actuator_armed s)); reflexivity.
  - rewrite kill_unkill_other_source; auto.
    match goal with H : is_unkill _ = true |- _ => rewrite H end.
    apply orb_true_r.
  - rewrite kill_unkill_other_source; auto.
    match goal with H : is_unkill _ = true |- _ => rewrite H end.
    apply orb_true_r.
  - rewrite rc_action_during_calibration by assumption. reflexivity.
  - rewrite rc_action_during_calibration by assumption. reflexivity.
Qed.

(** ** The grace period of arm *)

Lemma arm_unfold now reason checks s :
  arm now reason checks s =
    arm now reason (arm_run_preflight_checks now s reason checks) s.
Proof.
  unfold arm. run_monad. unfold arm_run_preflight_checks.
  destruct (is_rc_switch reason
            && (hrt_elapsed_time now (_last_disarmed_timestamp s)
                  <? 5 * us_per_s));
    reflexivity.
Qed.

(** C5 (amended). An arm request by the RC switch that arrives less than
    5 s after the most recent disarm is evaluated as if
    run_preflight_checks were false: whatever the reason, a request
    without the checks is decided by the arm state machine alone, asked
    without the pre-arm checks.  A request by any other reason, RC stick
    and RC button included, is evaluated with its own value of
    run_preflight_checks whatever the time since the disarm, and so is a
    request by the switch from 5 s on: with the checks requested it is
    denied, and the state left alone, where the checks of arm deny it, and
    otherwise the arm state machine is asked with the pre-arm checks.  The
    disarm timestamp is the time of the cycle that saw the vehicle go from
    armed to disarmed. *)
Theorem arm_grace_period_rc_switch now s :
  (forall run_preflight_checks,
      hrt_elapsed_time now (_last_disarmed_timestamp s) < 5 * us_per_s ->
      arm now rc_switch run_preflight_checks s = arm now rc_switch false s)
  /\ (forall reason,
         value_of (arm now reason false s) = arming_answer s false reason)
  /\ (forall reason now' run_preflight_checks,
         is_rc_switch reason = false ->
         arm now reason run_preflight_checks s
         = arm now' reason run_preflight_checks s)
  /\ (forall reason,
         is_rc_switch reason = false
         \/ 5 * us_per_s
            <= hrt_elapsed_time now (_last_disarmed_timestamp s) ->
         let r := arm now reason true s in
         (denied_by_arm s reason = true ->
          value_of r = TRANSITION_DENIED /\ state_of r = s)
         /\ (denied_by_arm s reason = false ->
             value_of r = arming_answer s true reason))
  /\ (_was_armed s = true -> isArmed (_arm_state_machine s) = false ->
      _last_disarmed_timestamp (state_of (run_arming_state_changes now s))
      = now).
Proof.
  split; [ | split; [ | split; [ | split]]].
  - intros checks Hlt. rewrite (arm_unfold now rc_switch checks s).
    unfold arm_run_preflight_checks. cbn [is_rc_switch andb].
    apply Z.ltb_lt in Hlt. rewrite Hlt. reflexivity.
  - intros reason.
    assert (Hf : arm_run_preflight_checks now s reason false = false)
      by (unfold arm_run_preflight_checks;
          destruct (is_rc_switch reason && _); reflexivity).
    unfold arm, arming_answer. run_monad. rewrite Hf. cbn [andb].
    destruct (call_arming_state_transition ARMING_STATE_ARMED false reason
                s) as [[res s1] o1].
    cbn [fst snd]. destruct res; reflexivity.
  - intros reason now' checks Hr.
    unfold arm. run_monad. unfold arm_run_preflight_checks. rewrite Hr.
    reflexivity.
  - intros reason Hwhen. cbv zeta.
    assert (Ht : arm_run_preflight_checks now s reason true = true).
    { unfold arm_run_preflight_checks.
      destruct Hwhen as [Hr | Hge]; [rewrite Hr; reflexivity | ].
      apply Z.ltb_ge in Hge. rewrite Hge, andb_false_r. reflexivity. }
    unfold arm, arming_answer, denied_by_arm. run_monad. rewrite Ht.
    cbn [andb].
    destruct (isArmed (_arm_state_machine s)); cbn [negb andb];
      [ | destruct (arm_denial s reason) ].
    all: run_monad.
    all: try (split; [intros H; discriminate H | intros _ ]).
    all: try (split; [intros _; split; reflexivity | intros H; discriminate H]).
    all: destruct (call_arming_state_transition ARMING_STATE_ARMED true
                     reason s) as [[res s1] o1];
      cbn [fst snd]; destruct res; reflexivity.
  - intros Hwas Harmed. unfold run_arming_state_changes.
    run_monad. rewrite Hwas, Harmed. cbn [negb andb Bool.eqb].
    unfold call_main_state_transition. run_monad.
    destruct (flag_control_auto_enabled (_vehicle_control_mode s)).
    + match goal with
      | |- context [main_state_transition ?a ?b ?c ?d] =>
          destruct (main_state_transition a b c d)
      end.
      reflexivity.
    + reflexivity.
Qed.

(** ** Disarming in the air *)

Lemma disarm_denied reason s :
  landed_or_ground s = false ->
  mc_manual_thrust_mode s && commanded_by_rc reason = false ->
  disarm reason false s =
    (TRANSITION_DENIED, s,
     if is_rc_stick reason then []
     else [log "commander_disarming_denied_not_landed"]).
Proof.
  intros Hl Hm. unfold disarm. run_monad. rewrite Hl, Hm.
  cbn [negb andb]. destruct (is_rc_stick reason); reflexivity.
Qed.

Lemma commanded_by_rc_command cmd :
  commanded_by_rc (arm_disarm_reason_of cmd) = false.
Proof. unfold arm_disarm_reason_of. destruct (from_external cmd); reflexivity. Qed.

(** C6. With the vehicle neither landed nor maybe-landed nor a ground
    vehicle, a disarm request that is not forced is denied and changes
    nothing, for every calling reason, unless the vehicle is a rotary-wing
    vehicle in a manual-thrust mode and the request is commanded by RC.  An
    ARM_DISARM command that asks for such a disarm, never being commanded
    by RC, is denied: the Commander, its arm state machine and the armed
    flag included, is left as it was, and the command is acknowledged
    temporarily_rejected, once. *)
Theorem disarm_command_denied_in_air now s :
  landed_or_ground s = false ->
  (forall reason,
      mc_manual_thrust_mode s && commanded_by_rc reason = false ->
      let r := disarm reason false s in
      value_of r = TRANSITION_DENIED
      /\ state_of r = s
      /\ acks_of (output_of r) = [])
  /\ (forall cmd,
         command cmd = VEHICLE_CMD_COMPONENT_ARM_DISARM ->
         not_for_us s cmd = false ->
         arming_action_of cmd = ARMING_ACTION_DISARM ->
         forced_of cmd = false ->
         let r := handle_command now cmd s in
         value_of r = returns true
         /\ state_of r = s
         /\ isArmed (_arm_state_machine (state_of r))
            = isArmed (_arm_state_machine s)
         /\ armed (_actuator_armed (state_of r)) = armed (_actuator_armed s)
         /\ acks_of (output_of r) = [VEHICLE_CMD_RESULT_TEMPORARILY_REJECTED]).
Proof.
  intros Hl. split.
  - intros reason Hm. cbv zeta. rewrite (disarm_denied reason s Hl Hm).
    destruct (is_rc_stick reason); repeat split.
  - intros cmd Hc Hn Ha Hf. cbv zeta.
    assert (Hm : mc_manual_thrust_mode s
                 && commanded_by_rc (arm_disarm_reason_of cmd) = false)
      by (rewrite commanded_by_rc_command; apply andb_false_r).
    assert (Hd := disarm_denied (arm_disarm_reason_of cmd) s Hl Hm).
    assert (Hh : handle_command now cmd s =
                 (returns true, s,
                  [log "commander_disarming_denied_not_landed";
                   tune_negative;
                   command_ack VEHICLE_CMD_COMPONENT_ARM_DISARM
                     VEHICLE_CMD_RESULT_TEMPORARILY_REJECTED])).
    { unfold handle_command. run_monad. rewrite Hn.
      unfold handle_command_switch. rewrite Hc.
      unfold handle_component_arm_disarm. run_monad.
      rewrite Ha, Hf. unfold ARMING_ACTION_DISARM, ARMING_ACTION_ARM.
      cbn [Z.eqb negb andb]. rewrite ?andb_false_r. run_monad.
      rewrite Hd. cbn [is_denied]. unfold answer_command. run_monad.
      rewrite Hc. unfold arm_disarm_reason_of.
      destruct (from_external cmd); reflexivity. }
    rewrite Hh. repeat split.
Qed.

(** ** Acknowledgments of handle_command *)















(** ** The timestamp of the navigation state *)

(** C8. In the part of the cycle that sets the navigation state,
    nav_state_timestamp is refreshed to the time of the cycle if and only
    if the boolean of the failsafe resolver reports a change; otherwise it
    keeps the value the resolver left.  With a resolver whose boolean
    reports exactly a change of nav_state and which leaves the timestamp
    to its caller: the timestamp is refreshed when nav_state changed in
    the cycle, and is unchanged when nav_state is unchanged. *)
Theorem nav_state_timestamp_follows_change now s :
  let r := run_set_nav_state now s in
  let status' := _vehicle_status (state_of r) in
  value_of r = resolver_changed s
  /\ nav_state status' = nav_state (resolver_status s)
  /\ nav_state_timestamp status'
     = (if resolver_changed s then now
        else nav_state_timestamp (resolver_status s))
  /\ (resolver_reports_change s ->
      (nav_state status' <> nav_state (_vehicle_status s) ->
       nav_state_timestamp status' = now)
      /\ (nav_state status' = nav_state (_vehicle_status s) ->
          nav_state_timestamp status'
          = nav_state_timestamp (_vehicle_status s))).
Proof.
  unfold resolver_reports_change, resolver_changed, resolver_status,
    nav_state_result.
  cbv zeta. unfold run_set_nav_state. run_monad.
  destruct (set_nav_state (_vehicle_status s) (_actuator_armed s)
              (_commander_state s) (finished (_mission_result s))
              (stay_in_failsafe (_mission_result s))
              (_vehicle_status_flags s)
              (landed (_vehicle_land_detected s)) (_failsafe_params s))
    as [[[changed status] armed_] internal_state].
  cbn [fst snd] in *.
  destruct changed; cbn; (split; [reflexivity | ]);
    (split; [reflexivity | ]); (split; [reflexivity | ]);
    intros [Hts Hrep]; split.
  - intros _. reflexivity.
  - intros Heq. destruct Hrep as [Hrep _].
    exfalso. apply (Hrep eq_refl). exact Heq.
  - intros Hne. destruct Hrep as [_ Hrep].
    specialize (Hrep Hne). discriminate.
  - intros _. exact Hts.
Qed.

End Proofs.

(** ** Runs on the reference vehicle *)

Import Reference.

Lemma flight_termination_idempotent_witness :
  latches_hold commander_boot
  /\ (let r1 := handle_command 10 (flight_termination 2) commander_boot in
      let r2 := handle_command 20 (flight_termination 2) (state_of r1) in
      state_of r2 = state_of r1
      /\ output_of r2
         = [command_ack VEHICLE_CMD_DO_FLIGHTTERMINATION
              VEHICLE_CMD_RESULT_ACCEPTED]
      /\ acks_of (output_of r1) = [VEHICLE_CMD_RESULT_ACCEPTED]
      /\ (parachute_commands (output_of r1 ++ output_of r2) <= 1)%nat).
Proof.
  assert (H : latches_hold commander_boot)
    by (split; intros E; vm_compute in E; discriminate E).
  split; [exact H | ].
  apply (proj1 (proj2 (flight_termination_idempotent commander_boot H)));
    reflexivity.
Defined.

(** C2, as stated, fails: a Kill from the stick gesture (or any source but
    the RC switch) does not set manual_lockdown and sends no parachute
    command. *)
Lemma kill_from_stick_gesture_ignored :
  is_kill (kill_request SOURCE_RC_STICK_GESTURE) = true
  /\ manual_lockdown (_actuator_armed commander_boot) = false
  /\ rc_calibration_in_progress (_vehicle_status_flags commander_boot) = false
  /\ (let r := executeActionRequest 10 (kill_request SOURCE_RC_STICK_GESTURE)
                 commander_boot in
      manual_lockdown (_actuator_armed (state_of r)) = false
      /\ parachute_commands (output_of r) = 0%nat).
Proof. vm_compute. repeat split. Qed.

Lemma kill_once_per_edge_unkill_by_switch_witness :
  let req := kill_request SOURCE_RC_SWITCH in
  let r := executeActionRequest 10 req commander_boot in
  manual_lockdown (_actuator_armed (state_of r)) = true
  /\ parachute_commands (output_of r)
     = (if manual_lockdown (_actuator_armed commander_boot) then 0 else 1)%nat
  /\ (manual_lockdown (_actuator_armed commander_boot) = true ->
      state_of r = commander_boot /\ output_of r = []).
Proof.
  cbv zeta.
  apply (proj1 (proj1 (kill_once_per_edge_unkill_by_switch commander_boot)
                  10 (kill_request SOURCE_RC_SWITCH)));
    reflexivity.
Defined.

(** C5, as stated, fails: one second after the disarm, an arm request by
    stick gesture or by button still runs the preflight checks; here they
    deny it, while the same request without the checks arms. *)
Lemma arm_by_stick_or_button_has_no_grace_period :
  let s := commander_just_disarmed in
  let now := 61 * us_per_s in
  _last_disarmed_timestamp s = 60 * us_per_s
  /\ hrt_elapsed_time now (_last_disarmed_timestamp s) < 5 * us_per_s
  /\ value_of (arm now rc_stick true s) = TRANSITION_DENIED
  /\ value_of (arm now rc_stick false s) = TRANSITION_CHANGED
  /\ value_of (arm now rc_button true s) = TRANSITION_DENIED
  /\ value_of (arm now rc_button false s) = TRANSITION_CHANGED.
Proof. vm_compute. repeat split. Qed.

Lemma arm_grace_period_rc_switch_witness :
  let s := commander_just_disarmed in
  let now := 61 * us_per_s in
  hrt_elapsed_time now (_last_disarmed_timestamp s) < 5 * us_per_s
  /\ arm now rc_switch true s = arm now rc_switch false s
  /\ value_of (arm now rc_switch true s) = TRANSITION_CHANGED.
Proof.
  cbv zeta.
  assert (H : hrt_elapsed_time (61 * us_per_s)
                (_last_disarmed_timestamp commander_just_disarmed)
              < 5 * us_per_s) by reflexivity.
  split; [exact H | ].
  split; [ | reflexivity].
  apply (proj1 (arm_grace_period_rc_switch (61 * us_per_s)
                  commander_just_disarmed) true H).
Defined.

Lemma disarm_command_denied_in_air_witness :
  landed_or_ground commander_flying = false
  /\ (let r := disarm rc_switch false commander_flying in
      value_of r = TRANSITION_DENIED /\ state_of r = commander_flying
      /\ acks_of (output_of r) = [])
  /\ (let r := handle_command 10 disarm_command commander_flying in
      value_of r = returns true
      /\ state_of r = commander_flying
      /\ isArmed (_arm_state_machine (state_of r)) = true
      /\ acks_of (output_of r) = [VEHICLE_CMD_RESULT_TEMPORARILY_REJECTED]).
Proof.
  assert (Hl : landed_or_ground commander_flying = false) by reflexivity.
  destruct (disarm_command_denied_in_air 10 commander_flying Hl)
    as [Hreq Hcmd].
  split; [exact Hl | split].
  - apply Hreq. reflexivity.
  - destruct (Hcmd disarm_command eq_refl eq_refl eq_refl eq_refl)
      as (Hv & Hs & Harmed & _ & Hack).
    cbv zeta. split; [exact Hv | ]. split; [exact Hs | ].
    split; [rewrite Harmed; reflexivity | exact Hack].
Defined.



Lemma nav_state_timestamp_follows_change_witness :
  resolver_reports_change commander_flying
  /\ (let r := run_set_nav_state 77 commander_flying in
      nav_state (_vehicle_status commander_flying) = NAVIGATION_STATE_MANUAL
      /\ nav_state (_vehicle_status (state_of r))
         = NAVIGATION_STATE_AUTO_LOITER
      /\ nav_state_timestamp (_vehicle_status (state_of r)) = 77)
  /\ resolver_reports_change commander_boot
  /\ (let r := run_set_nav_state 77 commander_boot in
      nav_state (_vehicle_status (state_of r))
      = nav_state (_vehicle_status commander_boot)
      /\ nav_state_timestamp (_vehicle_status (state_of r))
         = nav_state_timestamp (_vehicle_status commander_boot)).
Proof.
  assert (H1 : resolver_reports_change commander_flying).
  { split; [reflexivity | ].
    split; [intros _; vm_compute; discriminate | reflexivity]. }
  assert (H2 : resolver_reports_change commander_boot).
  { split; [reflexivity | ].
    split; [vm_compute; discriminate | intros H; exfalso; apply H; reflexivity]. }
  pose proof (nav_state_timestamp_follows_change 77 commander_flying) as F.
  pose proof (nav_state_timestamp_follows_change 77 commander_boot) as B.
  cbv zeta in F, B.
  destruct F as (_ & Fn & _ & Fc). destruct B as (_ & Bn & _ & Bc).
  destruct (Fc H1) as [Fchanged _]. destruct (Bc H2) as [_ Bsame].
  split; [exact H1 | split; [ | split; [exact H2 | ]]].
  - split; [reflexivity | ].
    split; [rewrite Fn; reflexivity | ].
    apply Fchanged. rewrite Fn. vm_compute. discriminate.
  - assert (E : nav_state (_vehicle_status
                             (state_of (run_set_nav_state 77 commander_boot)))
                = nav_state (_vehicle_status commander_boot))
      by (rewrite Bn; reflexivity).
    split; [exact E | exact (Bsame E)].
Defined.

End CommanderProofs.

(** * Properties of the Navigator *)

Module NavigatorProofs.

Import Navigator NavigatorSpec.

Ltac run_monad :=
  cbv beta iota zeta delta
    [bind ret get gets modify emit when log_event
     value_of state_of output_of];
  cbn [fst snd app].

Section Proofs.
Context {I : Interfaces} {Modes : NavigatorModes}.

(** ** DO_REPOSITION without effect *)

Lemma reposition_while_disarmed now cmd s :
  command cmd = VEHICLE_CMD_DO_REPOSITION ->
  is_armed_state (arming_state (_vstatus s)) = false ->
  handle_vehicle_command now cmd s = (tt, s, []).
Proof.
  intros Hc Ha. unfold handle_vehicle_command. run_monad.
  rewrite Hc, Ha. reflexivity.
Qed.

Lemma reposition_outside_geofence now cmd s :
  command cmd = VEHICLE_CMD_DO_REPOSITION ->
  is_armed_state (arming_state (_vstatus s)) = true ->
  have_geofence_position_data s = true ->
  geofence_allows_position s (reposition_test_point s cmd) = false ->
  handle_vehicle_command now cmd s
  = (tt, s, [log "navigator_reposition_outside_geofence"]).
Proof.
  intros Hc Ha Hd Hg. unfold handle_vehicle_command. run_monad.
  rewrite Hc, Ha. unfold handle_do_reposition. run_monad.
  rewrite Hd, Hg. reflexivity.
Qed.

Lemma reposition_accepted now cmd s :
  command cmd = VEHICLE_CMD_DO_REPOSITION ->
  is_armed_state (arming_state (_vstatus s)) = true ->
  (if have_geofence_position_data s
   then geofence_allows_position s (reposition_test_point s cmd)
   else true) = true ->
  handle_vehicle_command now cmd s
  = (tt, set_reposition_triplet (reposition_setpoint now s cmd) s, []).
Proof.
  intros Hc Ha Hg. unfold handle_vehicle_command. run_monad.
  rewrite Hc, Ha. unfold handle_do_reposition. run_monad.
  rewrite Hg. reflexivity.
Qed.

(** C10. A DO_REPOSITION command received while the vehicle is not
    armed, or whose target position the geofence does not allow while
    geofence position data is available, leaves the reposition triplet,
    and the whole Navigator, unchanged. *)
Theorem reposition_rejected_without_effect now cmd s :
  command cmd = VEHICLE_CMD_DO_REPOSITION ->
  is_armed_state (arming_state (_vstatus s)) = false
  \/ (have_geofence_position_data s = true
      /\ geofence_allows_position s (reposition_test_point s cmd) = false) ->
  let r := handle_vehicle_command now cmd s in
  _reposition_triplet (state_of r) = _reposition_triplet s
  /\ state_of r = s.
Proof.
  intros Hc H. cbv zeta.
  destruct (is_armed_state (arming_state (_vstatus s))) eqn:Ha.
  - destruct H as [H | [Hd Hg]]; [discriminate | ].
    rewrite (reposition_outside_geofence now cmd s Hc Ha Hd Hg).
    split; reflexivity.
  - rewrite (reposition_while_disarmed now cmd s Hc Ha).
    split; reflexivity.
Qed.

(** ** The triplet across a mode switch *)

Lemma reset_triplets_unfold now s :
  reset_triplets now s =
    (tt,
     set_pos_sp_triplet_updated true
       (set_pos_sp_triplet
          {| triplet_timestamp := triplet_timestamp (_pos_sp_triplet s);
             previous := reset_position_setpoint now s;
             current := reset_position_setpoint now s;
             next := reset_position_setpoint now s |} s),
     []).
Proof. unfold reset_triplets. run_monad. reflexivity. Qed.

(** C4. When the selected behaviour differs from that of the previous
    cycle, the position setpoint triplet is reset to invalid/idle
    setpoints, unless the previous behaviour was Takeoff and the new one
    is Loiter, or the new one is Loiter and the current setpoint is valid
    with type LOITER; in these two cases, and when the behaviour did not
    change, the switch leaves the triplet as it was. *)
Theorem mode_switch_resets_triplet now navigation_mode_new s :
  let s' := state_of (switch_navigation_mode now navigation_mode_new s) in
  _navigation_mode s' = navigation_mode_new
  /\ (mode_ptr_eqb (_navigation_mode s) navigation_mode_new = false ->
      (takeoff_to_loiter s navigation_mode_new
       || loiter_with_valid_loiter_setpoint s navigation_mode_new = false ->
       triplet_is_idle (_pos_sp_triplet s')
       /\ _pos_sp_triplet_updated s' = true)
      /\ (takeoff_to_loiter s navigation_mode_new
          || loiter_with_valid_loiter_setpoint s navigation_mode_new = true ->
          _pos_sp_triplet s' = _pos_sp_triplet s))
  /\ (mode_ptr_eqb (_navigation_mode s) navigation_mode_new = true ->
      _pos_sp_triplet s' = _pos_sp_triplet s).
Proof.
  cbv zeta. unfold switch_navigation_mode, takeoff_to_loiter,
    loiter_with_valid_loiter_setpoint, publish_vehicle_cmd.
  run_monad.
  destruct (mode_ptr_eqb (_navigation_mode s) navigation_mode_new) eqn:Hm;
    cbn [negb].
  - repeat split; try discriminate; reflexivity.
  - destruct (is_mode mode_takeoff (_navigation_mode s)
              && is_mode mode_loiter navigation_mode_new) eqn:Ha;
      destruct (is_mode mode_loiter navigation_mode_new
                && valid_loiter_setpoint s) eqn:Hb;
      cbn [negb andb orb]; rewrite ?reset_triplets_unfold; run_monad;
      match goal with
      | |- context [if ?c then _ else _] => destruct c
      end;
      repeat split; try discriminate; try reflexivity.
Qed.

(** ** The dispatch of the navigation modes *)

Lemma runs_app o1 o2 : runs (o1 ++ o2) = runs o1 ++ runs o2.
Proof. unfold runs. apply flat_map_app. Qed.

Lemma runs_none o : filter is_mode_run o = [] -> runs o = [].
Proof.
  induction o as [ | e o IH]; [reflexivity | ].
  cbn. destruct e; cbn; try discriminate; exact IH.
Qed.

Lemma active_runs_of_runs o :
  active_runs o
  = flat_map (fun mb : navigator_mode * bool =>
                if snd mb then [fst mb] else []) (runs o).
Proof.
  unfold active_runs, runs.
  induction o as [ | e o IH]; [reflexivity | ].
  cbn [flat_map]. rewrite IH.
  destruct e as [ | | | | | | | | m [ | ]]; reflexivity.
Qed.

Lemma inactive_runs_of_runs o :
  inactive_runs o
  = flat_map (fun mb : navigator_mode * bool =>
                if snd mb then [] else [fst mb]) (runs o).
Proof.
  unfold inactive_runs, runs.
  induction o as [ | e o IH]; [reflexivity | ].
  cbn [flat_map]. rewrite IH.
  destruct e as [ | | | | | | | | m [ | ]]; reflexivity.
Qed.

Ltac quiet_step :=
  first
    [ apply emits_none_ret
    | apply emits_none_get
    | apply emits_none_modify
    | apply emits_none_emit; reflexivity
    | apply emits_none_when
    | apply emits_none_bind; [ | intro ]
    | match goal with
      | |- emits_none _ (match ?x with _ => _ end) => destruct x
      end ].

Ltac quiet := repeat quiet_step.

Lemma reset_triplets_no_run now : emits_none is_mode_run (reset_triplets now).
Proof. unfold reset_triplets. quiet. Qed.

Lemma select_navigation_mode_no_run :
  emits_none is_mode_run select_navigation_mode.
Proof.
  unfold select_navigation_mode, select_rtl_mode, log_event. quiet.
Qed.

Lemma switch_navigation_mode_no_run now p :
  emits_none is_mode_run (switch_navigation_mode now p).
Proof.
  unfold switch_navigation_mode, publish_vehicle_cmd, log_event.
  repeat first [apply reset_triplets_no_run | quiet_step].
Qed.

Lemma switch_navigation_mode_sets now p s :
  _navigation_mode (state_of (switch_navigation_mode now p s)) = p.
Proof.
  unfold switch_navigation_mode. rewrite state_of_bind.
  cbn [get value_of state_of fst snd]. rewrite state_of_bind.
  reflexivity.
Qed.

(** The selection reads the vehicle status and leaves it alone; what it
    selects belongs to the navigation state. *)
Lemma select_navigation_mode_spec s :
  let r := select_navigation_mode s in
  _vstatus (state_of r) = _vstatus s
  /\ match value_of r with
     | Some m => In m (behaviors_for (nav_state (_vstatus s)))
     | None => selects_behavior (nav_state (_vstatus s)) = false
     end.
Proof.
  cbv zeta. unfold select_navigation_mode, select_rtl_mode.
  run_monad.
  destruct (nav_state (_vstatus s)); run_monad; cbn; auto.
  all: repeat
         (run_monad;
          match goal with
          | |- context [if ?b then _ else _] => destruct b
          | |- context [get_rtl_type ?r] => destruct (get_rtl_type r)
          end);
    cbn; auto.
Qed.

Lemma run_navigation_modes_dispatch :
  run_keeps_navigation_mode ->
  forall modes s,
    runs (output_of (run_navigation_modes modes s))
    = map (fun m => (m, mode_ptr_eqb (_navigation_mode s) (Some m))) modes.
Proof.
  intros Hkeep. induction modes as [ | m rest IH]; intros s;
    [reflexivity | ].
  cbn [run_navigation_modes map].
  rewrite !output_of_bind.
  cbn [get emit modify value_of state_of output_of fst snd app].
  change (runs (mode_run m (mode_ptr_eqb (_navigation_mode s) (Some m))
                :: ?o))
    with ((m, mode_ptr_eqb (_navigation_mode s) (Some m)) :: runs o).
  rewrite IH, Hkeep. reflexivity.
Qed.

(** The calls of one cycle are the dispatch of the mode that the switch
    installed. *)
Lemma navigation_cycle_runs now s :
  run_keeps_navigation_mode ->
  runs (output_of (navigation_cycle now s))
  = dispatch_of
      (if negb (is_armed_state (arming_state (_vstatus s))) then None
       else value_of (select_navigation_mode s)).
Proof.
  intros Hkeep. unfold navigation_cycle.
  destruct (select_navigation_mode_spec s) as [Hst _]. cbv zeta in Hst.
  rewrite output_of_bind, runs_app.
  rewrite (runs_none _ (select_navigation_mode_no_run s)).
  cbn [app]. set (s1 := state_of (select_navigation_mode s)) in *.
  set (sel := value_of (select_navigation_mode s)).
  rewrite output_of_bind. cbn [get output_of value_of state_of fst snd app].
  rewrite output_of_bind. cbn [modify output_of value_of state_of fst snd app].
  rewrite output_of_bind, runs_app.
  rewrite (runs_none _ (switch_navigation_mode_no_run _ _ _)).
  cbn [app]. rewrite output_of_bind, runs_app.
  rewrite (run_navigation_modes_dispatch Hkeep).
  rewrite switch_navigation_mode_sets, Hst.
  match goal with
  | |- _ ++ runs (output_of (?c ?x)) = _ =>
      assert (Hq : emits_none is_mode_run c)
  end.
  { unfold publish_position_setpoint_triplet, publish_mission_result.
    repeat first [apply reset_triplets_no_run | quiet_step]. }
  rewrite (runs_none _ (Hq _)). rewrite app_nil_r. reflexivity.
Qed.

(** C3 (amended). In every cycle each of the seven behaviours is run once,
    in array order, and at most one of them as active.  When the vehicle
    is armed and the navigation state is one of the seven automatic
    states, exactly one behaviour is run as active, one that belongs to
    the navigation state, and the other six as inactive.  When the
    vehicle is not armed, or in any other navigation state, all seven are
    run as inactive and none as active. *)
Theorem at_most_one_behavior_active now s :
  run_keeps_navigation_mode ->
  let o := output_of (navigation_cycle now s) in
  let n := nav_state (_vstatus s) in
  let is_armed := is_armed_state (arming_state (_vstatus s)) in
  map fst (runs o) = _navigation_mode_array
  /\ (List.length (active_runs o) <= 1)%nat
  /\ (is_armed && selects_behavior n = true ->
      exists m,
        In m (behaviors_for n)
        /\ active_runs o = [m]
        /\ inactive_runs o
           = filter (fun m' => negb (navigator_mode_eqb m m'))
               _navigation_mode_array)
  /\ (is_armed && selects_behavior n = false ->
      active_runs o = [] /\ inactive_runs o = _navigation_mode_array).
Proof.
  intros Hkeep. cbv zeta.
  rewrite active_runs_of_runs, inactive_runs_of_runs.
  rewrite (navigation_cycle_runs now s Hkeep).
  destruct (select_navigation_mode_spec s) as [_ Hsel]. cbv zeta in Hsel.
  destruct (is_armed_state (arming_state (_vstatus s))); cbn [negb andb].
  - destruct (value_of (select_navigation_mode s)) as [m | ].
    + assert (Hs : selects_behavior (nav_state (_vstatus s)) = true)
        by (destruct (nav_state (_vstatus s)); cbn in Hsel;
            solve [reflexivity | contradiction]).
      rewrite Hs. repeat split.
      * destruct m; cbn; auto.
      * intros _. exists m. destruct m; repeat split; assumption.
      * discriminate.
      * discriminate.
    + rewrite Hsel. repeat split; try discriminate. cbn. auto.
  - repeat split; try discriminate. cbn. auto.
Qed.

(** ** The geofence breach check *)





End Proofs.

(** ** Runs on the reference vehicle *)

Import NavigatorReference.

Lemma modes_ref_keep_navigation_mode : run_keeps_navigation_mode.
Proof. intros m [ | ] s; reflexivity. Qed.

(** C3, as stated, fails: in a manual navigation state, and in an automatic
    one while disarmed, all seven behaviours are run as inactive and none
    as active. *)
Lemma no_behavior_active_in_manual_or_disarmed :
  (let o := output_of (navigation_cycle 10
                         (navigator_at NAVIGATION_STATE_MANUAL
                            ARMING_STATE_ARMED (Some mode_loiter))) in
   active_runs o = [] /\ inactive_runs o = _navigation_mode_array)
  /\ (let o := output_of (navigation_cycle 10
                            (navigator_at NAVIGATION_STATE_AUTO_MISSION
                               ARMING_STATE_STANDBY None)) in
      active_runs o = [] /\ inactive_runs o = _navigation_mode_array).
Proof. vm_compute. repeat split. Qed.

Lemma at_most_one_behavior_active_witness :
  run_keeps_navigation_mode
  /\ (let o := output_of (navigation_cycle 10
                            (navigator_at NAVIGATION_STATE_AUTO_LOITER
                               ARMING_STATE_ARMED None)) in
      map fst (runs o) = _navigation_mode_array
      /\ (List.length (active_runs o) <= 1)%nat
      /\ active_runs o = [mode_loiter]).
Proof.
  split; [exact modes_ref_keep_navigation_mode | ].
  pose proof (at_most_one_behavior_active 10
                (navigator_at NAVIGATION_STATE_AUTO_LOITER
                   ARMING_STATE_ARMED None)
                modes_ref_keep_navigation_mode) as H.
  cbv zeta in H. destruct H as (H1 & H2 & _).
  cbv zeta. split; [exact H1 | split; [exact H2 | reflexivity]].
Defined.

Lemma mode_switch_resets_triplet_witness :
  (let s := navigator_at NAVIGATION_STATE_AUTO_LOITER ARMING_STATE_ARMED
              (Some mode_takeoff) in
   _pos_sp_triplet (state_of (switch_navigation_mode 10 (Some mode_loiter) s))
   = _pos_sp_triplet s)
  /\ (let s := navigator_at NAVIGATION_STATE_AUTO_MISSION ARMING_STATE_ARMED
                 (Some mode_loiter) in
      triplet_is_idle
        (_pos_sp_triplet
           (state_of (switch_navigation_mode 10 (Some mode_mission) s)))).
Proof.
  split; cbv zeta.
  - apply (proj2 (proj1 (proj2 (mode_switch_resets_triplet 10
                                  (Some mode_loiter)
                                  (navigator_at NAVIGATION_STATE_AUTO_LOITER
                                     ARMING_STATE_ARMED (Some mode_takeoff))))
                    eq_refl));
      reflexivity.
  - apply (proj1 (proj1 (proj2 (mode_switch_resets_triplet 10
                                  (Some mode_mission)
                                  (navigator_at NAVIGATION_STATE_AUTO_MISSION
                                     ARMING_STATE_ARMED (Some mode_loiter))))
                    eq_refl));
      reflexivity.
Defined.



Lemma reposition_rejected_without_effect_witness :
  (let s := navigator_at NAVIGATION_STATE_AUTO_LOITER ARMING_STATE_STANDBY
              None in
   let r := handle_vehicle_command 10 (reposition_to (93 # 2) (17 # 2)) s in
   _reposition_triplet (state_of r) = _reposition_triplet s /\ state_of r = s)
  /\ (let s := navigator_at NAVIGATION_STATE_AUTO_LOITER ARMING_STATE_ARMED
                 (Some mode_loiter) in
      let r := handle_vehicle_command 10 (reposition_to (48 # 1) (17 # 2)) s in
      _reposition_triplet (state_of r) = _reposition_triplet s
      /\ state_of r = s).
Proof.
  split; cbv zeta.
  - apply reposition_rejected_without_effect; [reflexivity | ].
    left. reflexivity.
  - apply reposition_rejected_without_effect; [reflexivity | ].
    right. split; reflexivity.
Defined.

End NavigatorProofs.

(** * Properties of the command-line front end *)

Module CommanderShellProofs.

Import Commander CommanderSpec CommanderShell.

(** The facts of [custom_modes_distinct], one by one. *)
Ltac split_distinct H :=
  destruct H as (?Hmain & ?Hmain_range & ?Hsub & ?Hsub_range);
  repeat match goal with
         | H : NoDup (_ :: _) |- _ => apply NoDup_cons_iff in H; destruct H
         | H : NoDup [] |- _ => clear H
         | H : Forall _ (_ :: _) |- _ =>
             apply Forall_cons_iff in H; destruct H
         | H : Forall _ [] |- _ => clear H
         end;
  cbn [In] in *; cbv beta in *;
  repeat match goal with
         | H : ~ (_ \/ _) |- _ => apply Decidable.not_or in H; destruct H
         | H : ~ False |- _ => clear H
         end.

(** Decide the comparisons of mode numbers in the goal. *)
Ltac decide_modes :=
  repeat match goal with
         | |- context [?a =? ?a] => rewrite (Z.eqb_refl a)
         | |- context [?a =? ?b] =>
             destruct (Z.eqb_spec a b) as [? | ?];
             [exfalso; congruence | ]
         | |- context [0 <? ?a] =>
             replace (0 <? a) with true
               by (symmetry; apply Z.ltb_lt;
                   match goal with H : 0 < a < _ |- _ => exact (proj1 H) end)
         end.

(** Flatten the monadic structure of a goal. *)
Ltac run_shell :=
  cbv beta iota zeta delta
    [bind ret get gets modify emit when log_event leaving
     value_of state_of output_of];
  cbn [fst snd app].

Section Proofs.
Context {I : Interfaces} {P : Platform}.

Lemma cast_uint8_of_Z z : 0 <= z < 256 -> cast_uint8 (of_Z z) = z.
Proof.
  intros H. unfold cast_uint8, of_Z, float_to_Z, Qtrunc, wrap_unsigned.
  cbn [inject_Z Qnum Qden]. rewrite Z.quot_1_r.
  apply Z.mod_small. change (2 ^ 8) with 256. lia.
Qed.

Lemma decoded_main env main_ sub0 sub :
  0 <= main_ < 256 ->
  decoded (command_to_self env VEHICLE_CMD_DO_SET_MODE (Fin 1) (of_Z main_)
             NAN sub0 sub0 sub0 sub0) sub
  = decode_set_mode 1 main_ sub.
Proof.
  intros H. unfold decoded, command_to_self. cbn [param1 param2 param3].
  rewrite (cast_uint8_of_Z _ H). reflexivity.
Qed.

Lemma decoded_sub env main_ sub_ sub0 sub :
  0 <= main_ < 256 -> 0 < sub_ < 256 ->
  decoded (command_to_self env VEHICLE_CMD_DO_SET_MODE (Fin 1) (of_Z main_)
             (of_Z sub_) sub0 sub0 sub0 sub0) sub
  = decode_set_mode 1 main_ sub_.
Proof.
  intros H Hs. unfold decoded, command_to_self. cbn [param1 param2 param3].
  rewrite (cast_uint8_of_Z _ H).
  change (PX4_ISFINITE (of_Z sub_)) with true. cbv iota.
  rewrite cast_uint8_of_Z by lia. reflexivity.
Qed.

(** ** The argument of [commander mode] *)

(** X1. Each of the twelve mode names makes [commander mode] publish one
    DO_SET_MODE command that [handle_command] decodes into the main state
    the name stands for; further arguments are ignored. *)
Theorem mode_argument_decodes_to_main_state env name main_state_ more :
  custom_modes_distinct ->
  is_running env = true -> CONSTRAINED_FLASH = false ->
  In (name, main_state_) mode_names ->
  let r := run env "mode" (name :: more) in
  value_of r = 0
  /\ exists cmd,
       published r = [cmd]
       /\ command cmd = VEHICLE_CMD_DO_SET_MODE
       /\ forall sub,
            decoded cmd sub = (main_state_, TRANSITION_NOT_CHANGED, false).
Proof.
  intros Hd Hr Hf Hin. cbv zeta.
  unfold run, custom_command. rewrite Hr, Hf. cbn [negb].
  split_distinct Hd.
  unfold mode_names in Hin. cbn [In] in Hin.
  repeat (destruct Hin as [Hin | Hin];
          [injection Hin as <- <-;
           split; [reflexivity | ];
           eexists; split; [reflexivity | ]; split; [reflexivity | ];
           intros sub;
           first [rewrite decoded_main by assumption
                 | rewrite decoded_sub by assumption];
           unfold decode_set_mode;
           change (has_flag 1 VEHICLE_MODE_FLAG_CUSTOM_MODE_ENABLED) with true;
           cbv iota; decide_modes; reflexivity
          | ]).
  contradiction.
Qed.

(** ** What is refused *)

Lemma unknown_first_word arg0 :
  is_known arg0 = false ->
  Forall (fun k => String.eqb arg0 k = false) known_commands.
Proof.
  unfold is_known. intros H. apply Forall_forall. intros k Hk.
  destruct (String.eqb arg0 k) eqn:E; [ | reflexivity].
  assert (Ht : existsb (String.eqb arg0) known_commands = true)
    by (apply existsb_exists; exists k; split; assumption).
  congruence.
Qed.

Lemma not_listed (name : string) (l : list string) :
  ~ In name l -> Forall (fun k => String.eqb name k = false) l.
Proof.
  intros H. apply Forall_forall. intros k Hk.
  apply String.eqb_neq. intros ->. contradiction.
Qed.

(** Rewrite with the comparisons of a [Forall] over a list of words. *)
Ltac use_comparisons H :=
  repeat match type of H with
         | Forall _ (_ :: _) =>
             let E := fresh "E" in
             apply Forall_cons_iff in H; destruct H as [E H];
             cbv beta in E; rewrite ?E
         end;
  clear H.

(** X2. Nothing is published, and the exit code is 1, when the module is not
    running, when the first word is none of the twelve commands, and when
    [calibrate], [mode] or [lockdown] lack their argument.  An unknown
    sensor after [calibrate] publishes nothing and exits with 1; an unknown
    mode after [mode] publishes nothing either, but exits with 0. *)
Theorem shell_refuses_without_publishing env :
  (is_running env = false ->
   forall arg0 rest, run env arg0 rest = (1, tt, [usage "not running"]))
  /\ (is_running env = true ->
      (forall arg0 rest,
          is_known arg0 = false ->
          run env arg0 rest = (1, tt, [usage "unknown command"]))
      /\ (CONSTRAINED_FLASH = false ->
          run env "calibrate" []
          = (1, tt, [error "missing argument"; usage "unknown command"])
          /\ run env "mode" []
             = (1, tt, [error "missing argument"; usage "unknown command"])
          /\ run env "lockdown" []
             = (1, tt, [usage "not enough arguments, missing [on, off]"])
          /\ (forall sensor more,
                 ~ In sensor sensor_names ->
                 run env "calibrate" (sensor :: more)
                 = (1, tt, [error (unsupported sensor)]))
          /\ (forall name more,
                 ~ In name (map fst mode_names) ->
                 run env "mode" (name :: more)
                 = (0, tt, [error (unsupported name)])))).
Proof.
  split.
  - intros Hr arg0 rest. unfold run, custom_command. rewrite Hr. reflexivity.
  - intros Hr. split.
    + intros arg0 rest Hk. unfold run, custom_command. rewrite Hr.
      cbn [negb]. destruct CONSTRAINED_FLASH; [reflexivity | ].
      apply unknown_first_word in Hk. unfold known_commands in Hk.
      unfold custom_calibrate, custom_check, custom_arm, custom_disarm,
        custom_takeoff, custom_land, custom_transition, custom_mode,
        custom_lockdown, custom_pair, custom_set_ekf_origin, custom_poweroff.
      use_comparisons Hk. reflexivity.
    + intros Hf. unfold run, custom_command. rewrite Hr, Hf. cbn [negb].
      split; [reflexivity | ]. split; [reflexivity | ].
      split; [reflexivity | ]. split.
      * intros sensor more Hs. apply not_listed in Hs.
        unfold sensor_names in Hs. unfold or_else at 1.
        unfold custom_calibrate.
        change (String.eqb "calibrate" "calibrate") with true. cbv iota.
        use_comparisons Hs. reflexivity.
      * intros name more Hn. apply not_listed in Hn.
        unfold mode_names in Hn. cbn [map fst] in Hn.
        do 7 (unfold or_else at 1; cbn -[custom_mode bind ret or_else]).
        unfold or_else at 1. unfold custom_mode.
        change (String.eqb "mode" "mode") with true. cbv iota.
        use_comparisons Hn. reflexivity.
Qed.

(** ** [commander disarm] and the command handler *)

Lemma addressed_to_self env s cmd p1 p2 p3 p4 p5 p6 p7 :
  same_vehicle env s ->
  not_for_us s (command_to_self env cmd p1 p2 p3 p4 p5 p6 p7) = false.
Proof.
  intros [Hs Hc]. unfold not_for_us, command_to_self.
  cbn [target_system target_component]. rewrite Hs, Hc, !Z.eqb_refl.
  reflexivity.
Qed.

Lemma answer_events_acks cmd result :
  acks_of (answer_events cmd result) = [result].
Proof. destruct result; reflexivity. Qed.

Lemma acks_of_split o1 o2 : acks_of (o1 ++ o2) = acks_of o1 ++ acks_of o2.
Proof. unfold acks_of. apply flat_map_app. Qed.

(** A handled ARM_DISARM command that asks to disarm is [disarm] followed
    by one acknowledgment. *)
Lemma handle_command_disarm now cmd s :
  command cmd = VEHICLE_CMD_COMPONENT_ARM_DISARM ->
  not_for_us s cmd = false ->
  arming_action_of cmd = ARMING_ACTION_DISARM ->
  let d := disarm (arm_disarm_reason_of cmd) (forced_of cmd) s in
  handle_command now cmd s
  = (returns true, state_of d,
     output_of d
       ++ answer_events cmd (accepted_unless_denied (value_of d))).
Proof.
  intros Hc Hn Ha. cbv zeta. unfold handle_command. run_shell. rewrite Hn.
  unfold handle_command_switch. rewrite Hc.
  unfold handle_component_arm_disarm. cbv zeta. rewrite Ha.
  unfold ARMING_ACTION_DISARM, ARMING_ACTION_ARM.
  cbn [Z.eqb negb andb]. run_shell. rewrite ?andb_false_r. run_shell.
  destruct (disarm (arm_disarm_reason_of cmd) (forced_of cmd) s)
    as [[res s1] o1].
  unfold accepted_unless_denied.
  destruct res; cbn [is_denied is_unsupported negb];
    unfold answer_command; run_shell;
    rewrite ?app_nil_r, <- ?app_assoc; reflexivity.
Qed.

Lemma state_machine_quiet target checks reason s :
  acks_of (output_of (call_arming_state_transition target checks reason s))
  = [].
Proof.
  unfold call_arming_state_transition. run_shell.
  destruct (arming_state_transition _ _ _ _ _ _ _) as [[[[? ?] ?] ?] ?].
  reflexivity.
Qed.

(** A forced disarm is what the arm state machine answers to a request for
    standby. *)
Lemma disarm_forced reason s :
  let t := call_arming_state_transition ARMING_STATE_STANDBY false reason s in
  let d := disarm reason true s in
  value_of d = value_of t
  /\ _arm_state_machine (state_of d) = _arm_state_machine (state_of t)
  /\ acks_of (output_of d) = [].
Proof.
  cbv zeta. unfold disarm. run_shell. cbn [negb andb].
  unfold call_arming_state_transition. run_shell.
  destruct (arming_state_transition _ _ _ _ _ _ _) as [[[[res m] st] ar] ch].
  run_shell.
  destruct res; run_shell;
    try match goal with
        | |- context [if ?b then _ else _] => destruct b
        end;
    repeat split.
Qed.

(** X3. [commander disarm] publishes one ARM_DISARM command and exits with 0.
    When [handle_command] takes it with the vehicle in the air, the command
    without [-f] changes nothing and is acknowledged temporarily_rejected;
    with [-f] the arm state machine is asked for standby and its answer
    decides the acknowledgment. *)
Theorem shell_disarm_needs_force_in_air env rest now s :
  is_running env = true -> CONSTRAINED_FLASH = false ->
  same_vehicle env s ->
  landed_or_ground s = false ->
  let r := run env "disarm" rest in
  value_of r = 0
  /\ exists cmd,
       published r = [cmd]
       /\ command cmd = VEHICLE_CMD_COMPONENT_ARM_DISARM
       /\ let h := handle_command now cmd s in
          value_of h = returns true
          /\ (arg_is 0 rest "-f" = false ->
              state_of h = s
              /\ acks_of (output_of h)
                 = [VEHICLE_CMD_RESULT_TEMPORARILY_REJECTED])
          /\ (arg_is 0 rest "-f" = true ->
              _arm_state_machine (state_of h)
              = _arm_state_machine
                  (state_of (call_arming_state_transition
                               ARMING_STATE_STANDBY false command_internal s))
              /\ acks_of (output_of h)
                 = [accepted_unless_denied
                      (state_machine_answer ARMING_STATE_STANDBY s)]).
Proof.
  intros Hr Hf Hv Hl. cbv zeta.
  unfold run, custom_command. rewrite Hr, Hf. cbn [negb].
  split; [reflexivity | ].
  eexists. split; [reflexivity | ]. split; [reflexivity | ].
  rewrite handle_command_disarm;
    [ | reflexivity | apply addressed_to_self; assumption | reflexivity].
  split; [reflexivity | ].
  unfold arm_disarm_reason_of, force_param.
  cbn [from_external command_to_self value_of state_of output_of fst snd].
  split; intros ->.
  - change (forced_of _) with false.
    unfold disarm. run_shell. rewrite Hl.
    change (commanded_by_rc command_internal) with false.
    rewrite andb_false_r. cbn [negb andb is_rc_stick].
    split; reflexivity.
  - change (forced_of _) with true.
    destruct (disarm_forced command_internal s) as (Hval & Hm & Ho).
    cbv zeta in Hval, Hm, Ho. unfold value_of, state_of, output_of in *.
    split; [exact Hm | ].
    rewrite acks_of_split, Ho, answer_events_acks.
    unfold state_machine_answer, value_of. rewrite Hval. reflexivity.
Qed.

(** ** [commander lockdown] and the command handler *)

(** X4. [commander lockdown x] publishes one DO_FLIGHTTERMINATION command and
    exits with 0 when that is published, with 1 otherwise.
    [handle_command] accepts it and sends no parachute command.  Every [x]
    other than [off] engages the lockdown, the termination flag staying as
    it is; [off] clears lockdown and termination with their latches. *)
Theorem shell_lockdown_engages_unless_off env argv1 more now s :
  is_running env = true -> CONSTRAINED_FLASH = false ->
  same_vehicle env s ->
  let r := run env "lockdown" (argv1 :: more) in
  value_of r = exit_code (publish_result env)
  /\ exists cmd,
       published r = [cmd]
       /\ command cmd = VEHICLE_CMD_DO_FLIGHTTERMINATION
       /\ let h := handle_command now cmd s in
          let armed' := _actuator_armed (state_of h) in
          value_of h = returns true
          /\ acks_of (output_of h) = [VEHICLE_CMD_RESULT_ACCEPTED]
          /\ parachute_commands (output_of h) = 0%nat
          /\ (argv1 <> "off"%string ->
              _lockdown_triggered (state_of h) = true
              /\ (latches_hold s -> lockdown armed' = true)
              /\ force_failsafe armed' = force_failsafe (_actuator_armed s)
              /\ _flight_termination_triggered (state_of h)
                 = _flight_termination_triggered s)
          /\ (argv1 = "off"%string ->
              lockdown armed' = false
              /\ force_failsafe armed' = false
              /\ _lockdown_triggered (state_of h) = false
              /\ _flight_termination_triggered (state_of h) = false).
Proof.
  intros Hr Hf Hv. cbv zeta.
  unfold run, custom_command. rewrite Hr, Hf. cbn [negb].
  split; [reflexivity | ].
  eexists. split; [reflexivity | ]. split; [reflexivity | ].
  unfold handle_command. run_shell.
  rewrite (addressed_to_self _ _ _ _ _ _ _ _ _ _ Hv).
  unfold handle_command_switch. cbn [command command_to_self].
  unfold handle_do_flighttermination, answer_command. run_shell.
  cbn [param1 command command_to_self].
  destruct (String.eqb_spec argv1 "off") as [-> | Hne].
  - change (fgt (Fin 0) (3 # 2)) with false.
    change (fgt (Fin 0) (1 # 2)) with false. cbv iota.
    cbn [fst snd is_unsupported negb app].
    repeat split; try reflexivity; congruence.
  - change (fgt (Fin 2) (3 # 2)) with true. cbv iota.
    destruct (_lockdown_triggered s) eqn:El;
      cbn [fst snd is_unsupported negb app];
      repeat split; try reflexivity; try congruence.
    intros [Hl _]. exact (Hl El).
Qed.

(** ** [commander calibrate] and the command handler *)

(** A handled PREFLIGHT_CALIBRATION command is its case: the case answers
    by itself. *)
Lemma handle_command_calibration now cmd s :
  command cmd = VEHICLE_CMD_PREFLIGHT_CALIBRATION ->
  not_for_us s cmd = false ->
  handle_command now cmd s
  = (returns true, state_of (handle_preflight_calibration now cmd s),
     output_of (handle_preflight_calibration now cmd s)).
Proof.
  intros Hc Hn.
  assert (Hval : value_of (handle_preflight_calibration now cmd s)
                 = VEHICLE_CMD_RESULT_UNSUPPORTED).
  { unfold handle_preflight_calibration. rewrite !value_of_bind.
    reflexivity. }
  unfold handle_command. run_shell. rewrite Hn.
  unfold handle_command_switch. rewrite Hc. run_shell.
  destruct (handle_preflight_calibration now cmd s) as [[res s1] o1].
  cbn [value_of fst] in Hval. subst res.
  cbn [is_unsupported negb fst snd]. rewrite ?app_nil_r. reflexivity.
Qed.

(** What [start_calibration] leaves behind. *)
Lemma start_calibration_unfold cmd task s :
  start_calibration cmd task s
  = (tt,
     set_worker_thread (startTask task (_worker_thread s))
       (set_vehicle_status_flags
          (set_calibration_enabled true (_vehicle_status_flags s)) s),
     [command_ack (command cmd) VEHICLE_CMD_RESULT_ACCEPTED]).
Proof. reflexivity. Qed.

(** X5. The command line's way to each worker task: with the vehicle disarmed,
    the worker idle and the arm state machine willing to go to INIT,
    [commander calibrate] followed by the words of a calibration makes
    [handle_command] start the task of that calibration and acknowledge
    the command as accepted.  With the vehicle armed, shutting down or the
    worker busy, the command is temporarily rejected and nothing changes. *)
Theorem shell_calibrate_starts_named_task env args task more now s :
  temperature_code_apart ->
  is_running env = true -> CONSTRAINED_FLASH = false ->
  same_vehicle env s ->
  In (args, task) calibration_names ->
  arg_is 0 more "quick" = false ->
  let r := run env "calibrate" (args ++ more) in
  value_of r = 0
  /\ exists cmd,
       published r = [cmd]
       /\ command cmd = VEHICLE_CMD_PREFLIGHT_CALIBRATION
       /\ let h := handle_command now cmd s in
          let i := state_of (call_arming_state_transition ARMING_STATE_INIT
                               false command_internal s) in
          value_of h = returns true
          /\ (busy_or_armed s = true ->
              state_of h = s
              /\ acks_of (output_of h)
                 = [VEHICLE_CMD_RESULT_TEMPORARILY_REJECTED])
          /\ (busy_or_armed s = false ->
              state_machine_answer ARMING_STATE_INIT s <> TRANSITION_DENIED ->
              _worker_thread (state_of h) = startTask task (_worker_thread i)
              /\ calibration_enabled (_vehicle_status_flags (state_of h))
                 = true
              /\ acks_of (output_of h) = [VEHICLE_CMD_RESULT_ACCEPTED]).
Proof.
  intros Ht Hr Hf Hv Hin Hq. cbv zeta.
  unfold run, custom_command. rewrite Hr, Hf. cbn [negb].
  unfold temperature_code_apart in Ht. cbn [In] in Ht.
  repeat match goal with
         | H : ~ (_ \/ _) |- _ => apply Decidable.not_or in H; destruct H
         end.
  unfold calibration_names in Hin. cbn [In] in Hin.
  repeat (destruct Hin as [Hin | Hin];
          [injection Hin as <- <-; cbn [app];
           unfold or_else at 1; unfold custom_calibrate;
           cbn [String.eqb Ascii.eqb Bool.eqb];
           try change (arg_is 1 (_ :: "quick"%string :: more) "quick")
             with true;
           try change (arg_is 1 (_ :: more) "quick")
             with (arg_is 0 more "quick");
           rewrite ?Hq | ]); [ .. | contradiction].
  all: split; [reflexivity | ].
  all: eexists; split; [reflexivity | ]; split; [reflexivity | ].
  all: rewrite handle_command_calibration;
    [ | reflexivity | apply addressed_to_self; assumption].
  all: split; [reflexivity | ].
  all: unfold handle_preflight_calibration, state_machine_answer,
         arm_disarm_reason_of, call_arming_state_transition,
         start_calibration, answer_command;
       cbn [param1 param2 param3 param4 param5 param6 param7 from_external
            command command_to_self];
       change (cast_int (Fin 0)) with 0;
       change (cast_int (Fin 1)) with 1;
       change (cast_int (Fin 2)) with 2;
       change (cast_int (Fin 4)) with 4;
       repeat match goal with
              | |- context [?a =? PREFLIGHT_CALIBRATION_TEMPERATURE_CALIBRATION]
                => destruct
                     (Z.eqb_spec a
                        PREFLIGHT_CALIBRATION_TEMPERATURE_CALIBRATION);
                   [contradiction | ]
              end;
       cbn [Z.eqb Pos.eqb orb]; run_shell.
  all: split; intros Hb; rewrite Hb; [split; reflexivity | ].
  all: destruct (arming_state_transition _ _ _ _ _ _ _)
         as [[[[res m] st] ar] ch].
  all: run_shell; intros Hnd; destruct res; try contradiction;
       cbn [is_denied fst snd]; repeat split.
Qed.

(** ** [commander takeoff] *)

Lemma same_command_true a b : same_command a b = true <-> a = b.
Proof.
  unfold same_command. destruct (vehicle_cmd_eq_dec a b); split;
    congruence.
Qed.

Lemma reply_accepted_first acks :
  wait_for_vehicle_command_reply VEHICLE_CMD_NAV_TAKEOFF acks = true
  <-> takeoff_accepted_first acks.
Proof.
  unfold wait_for_vehicle_command_reply, takeoff_accepted_first.
  induction acks as [ | [c res] acks IH]; cbn [find fst].
  - split; [discriminate | ].
    intros (before & after & H & _). destruct before; discriminate.
  - destruct (same_command c VEHICLE_CMD_NAV_TAKEOFF) eqn:E.
    + apply same_command_true in E. subst c. split.
      * intros H. exists [], acks. destruct res; try discriminate.
        split; [reflexivity | constructor].
      * intros (before & after & H & Hb). destruct before as [ | b before].
        -- injection H as -> _. reflexivity.
        -- injection H as <- _. apply Forall_inv in Hb. cbn in Hb.
           congruence.
    + assert (Hc : c <> VEHICLE_CMD_NAV_TAKEOFF).
      { intros Hc. apply same_command_true in Hc. congruence. }
      rewrite IH. split.
      * intros (before & after & -> & Hb). exists ((c, res) :: before), after.
        split; [reflexivity | constructor; assumption].
      * intros (before & after & H & Hb). destruct before as [ | b before].
        -- injection H as -> _. congruence.
        -- injection H as _ ->. exists before, after.
           split; [reflexivity | eapply Forall_inv_tail; eassumption].
Qed.

(** X6. [commander takeoff] publishes NAV_TAKEOFF and exits with 0.  It
    publishes the command to arm, not forced, after that exactly when the
    first acknowledgment of NAV_TAKEOFF within the 100 ms accepts it; with
    that acknowledgment missing or of another result nothing else is
    published. *)
Theorem shell_takeoff_arms_after_accepted_reply env rest :
  is_running env = true -> CONSTRAINED_FLASH = false ->
  let r := run env "takeoff" rest in
  let takeoff :=
    command_to_self env VEHICLE_CMD_NAV_TAKEOFF NAN NAN NAN NAN NAN NAN NAN in
  let arm_ :=
    command_to_self env VEHICLE_CMD_COMPONENT_ARM_DISARM
      (of_Z ARMING_ACTION_ARM) (Fin 0) NAN NAN NAN NAN NAN in
  value_of r = 0
  /\ arming_action_of arm_ = ARMING_ACTION_ARM
  /\ forced_of arm_ = false
  /\ (takeoff_accepted_first (acks_within_100_ms env) ->
      published r = [takeoff; arm_])
  /\ (~ takeoff_accepted_first (acks_within_100_ms env) ->
      published r = [takeoff]).
Proof.
  intros Hr Hf. cbv zeta. unfold run, custom_command. rewrite Hr, Hf.
  cbn [negb]. do 4 (unfold or_else at 1; run_shell).
  unfold or_else at 1. unfold custom_takeoff.
  change (String.eqb "takeoff" "takeoff") with true. cbv iota.
  destruct (wait_for_vehicle_command_reply VEHICLE_CMD_NAV_TAKEOFF
              (acks_within_100_ms env)) eqn:E.
  - apply reply_accepted_first in E.
    repeat split; try reflexivity. intros Hn. contradiction.
  - assert (Hn : ~ takeoff_accepted_first (acks_within_100_ms env)).
    { intros H. apply reply_accepted_first in H. congruence. }
    repeat split; try reflexivity. intros H. contradiction.
Qed.

End Proofs.

(** ** Runs on the reference vehicle *)

Import Reference CommanderRuns.

Lemma reference_modes_distinct : custom_modes_distinct.
Proof.
  unfold custom_modes_distinct.
  repeat split;
    repeat first
      [ apply NoDup_nil
      | apply NoDup_cons; [cbn; intuition discriminate | ]
      | apply Forall_nil
      | apply Forall_cons; [cbn; lia | ] ].
Qed.

Lemma mode_argument_decodes_to_main_state_witness :
  custom_modes_distinct
  /\ In ("auto:rtl"%string, MAIN_STATE_AUTO_RTL) mode_names
  /\ (let r := run shell_env "mode" ["auto:rtl"; "now"]%string in
      value_of r = 0
      /\ exists cmd,
           published r = [cmd]
           /\ command cmd = VEHICLE_CMD_DO_SET_MODE
           /\ forall sub,
                decoded cmd sub
                = (MAIN_STATE_AUTO_RTL, TRANSITION_NOT_CHANGED, false)).
Proof.
  assert (Hd := reference_modes_distinct).
  assert (Hin : In ("auto:rtl"%string, MAIN_STATE_AUTO_RTL) mode_names)
    by (cbn; tauto).
  split; [exact Hd | split; [exact Hin | ]].
  exact (mode_argument_decodes_to_main_state (P := platform_ref) shell_env "auto:rtl"
           MAIN_STATE_AUTO_RTL ["now"%string] Hd eq_refl eq_refl Hin).
Defined.

Lemma shell_disarm_needs_force_in_air_witness :
  same_vehicle shell_env commander_flying
  /\ landed_or_ground commander_flying = false
  /\ (let r := run shell_env "disarm" ["-f"]%string in
      value_of r = 0
      /\ exists cmd,
           published r = [cmd]
           /\ command cmd = VEHICLE_CMD_COMPONENT_ARM_DISARM
           /\ let h := handle_command 10 cmd commander_flying in
              value_of h = returns true
              /\ isArmed (_arm_state_machine (state_of h)) = false
              /\ acks_of (output_of h) = [VEHICLE_CMD_RESULT_ACCEPTED]).
Proof.
  assert (Hv : same_vehicle shell_env commander_flying)
    by (split; reflexivity).
  split; [exact Hv | split; [reflexivity | ]].
  destruct (shell_disarm_needs_force_in_air (P := platform_ref) shell_env ["-f"%string] 10
              commander_flying eq_refl eq_refl Hv eq_refl)
    as (Hval & cmd & Hpub & Hcmd & Hret & _ & Hforce).
  cbv zeta. split; [exact Hval | ].
  exists cmd. split; [exact Hpub | ]. split; [exact Hcmd | ].
  split; [exact Hret | ].
  destruct (Hforce eq_refl) as [Hm Ha].
  split; [rewrite Hm; reflexivity | rewrite Ha; reflexivity].
Defined.

Lemma shell_lockdown_engages_unless_off_witness :
  same_vehicle shell_env commander_boot
  /\ latches_hold commander_boot
  /\ (let r := run shell_env "lockdown" ["on"]%string in
      value_of r = 0
      /\ exists cmd,
           published r = [cmd]
           /\ let h := handle_command 10 cmd commander_boot in
              _lockdown_triggered (state_of h) = true
              /\ lockdown (_actuator_armed (state_of h)) = true
              /\ parachute_commands (output_of h) = 0%nat).
Proof.
  assert (Hv : same_vehicle shell_env commander_boot)
    by (split; reflexivity).
  assert (Hl : latches_hold commander_boot)
    by (split; intros E; vm_compute in E; discriminate E).
  split; [exact Hv | split; [exact Hl | ]].
  destruct (shell_lockdown_engages_unless_off (P := platform_ref) shell_env "on" [] 10
              commander_boot eq_refl eq_refl Hv)
    as (Hval & cmd & Hpub & _ & _ & _ & Hp & Hon & _).
  cbv zeta. split; [exact Hval | ].
  exists cmd. split; [exact Hpub | ].
  destruct (Hon ltac:(discriminate)) as (Ht & Hlock & _).
  split; [exact Ht | ]. split; [exact (Hlock Hl) | exact Hp].
Defined.

Lemma shell_calibrate_starts_named_task_witness :
  temperature_code_apart
  /\ same_vehicle shell_env commander_boot
  /\ In (["accel"; "quick"]%string, AccelCalibrationQuick) calibration_names
  /\ busy_or_armed commander_boot = false
  /\ (let r := run shell_env "calibrate" ["accel"; "quick"]%string in
      value_of r = 0
      /\ exists cmd,
           published r = [cmd]
           /\ let h := handle_command 10 cmd commander_boot in
              calibration_enabled (_vehicle_status_flags (state_of h)) = true
              /\ acks_of (output_of h) = [VEHICLE_CMD_RESULT_ACCEPTED]).
Proof.
  assert (Ht : temperature_code_apart)
    by (intros H; vm_compute in H; intuition discriminate).
  assert (Hv : same_vehicle shell_env commander_boot)
    by (split; reflexivity).
  assert (Hin : In (["accel"; "quick"]%string, AccelCalibrationQuick)
                  calibration_names) by (cbn; tauto).
  split; [exact Ht | split; [exact Hv | split; [exact Hin | ]]].
  split; [reflexivity | ].
  destruct (shell_calibrate_starts_named_task (P := platform_ref) shell_env
              ["accel"; "quick"]%string AccelCalibrationQuick [] 10
              commander_boot Ht eq_refl eq_refl Hv Hin eq_refl)
    as (Hval & cmd & Hpub & _ & _ & _ & Hstart).
  cbv zeta. split; [exact Hval | ].
  exists cmd. split; [exact Hpub | ].
  destruct (Hstart eq_refl ltac:(vm_compute; discriminate))
    as (_ & Hc & Ha).
  split; [exact Hc | exact Ha].
Defined.

Lemma shell_takeoff_arms_after_accepted_reply_witness :
  takeoff_accepted_first (acks_within_100_ms shell_env)
  /\ (let r := run shell_env "takeoff" [] in
      value_of r = 0
      /\ map command (published r)
         = [VEHICLE_CMD_NAV_TAKEOFF; VEHICLE_CMD_COMPONENT_ARM_DISARM]).
Proof.
  assert (Ha : takeoff_accepted_first (acks_within_100_ms shell_env)).
  { exists [(VEHICLE_CMD_DO_SET_MODE, VEHICLE_CMD_RESULT_ACCEPTED)], [].
    split; [reflexivity | ].
    apply Forall_cons; [discriminate | apply Forall_nil]. }
  split; [exact Ha | ].
  destruct (shell_takeoff_arms_after_accepted_reply (P := platform_ref) shell_env []
              eq_refl eq_refl) as (Hval & _ & _ & Hyes & _).
  cbv zeta. split; [exact Hval | ].
  rewrite (Hyes Ha). reflexivity.
Defined.

End CommanderShellProofs.

(** * Properties of the monitoring cycle *)

Module CommanderCycleProofs.

Import Commander CommanderSpec CommanderCycle.

(** Flatten the monadic structure of a goal. *)
Ltac run_cycle :=
  cbv beta iota zeta delta
    [bind ret get gets modify emit when CommanderCycle.log_event lift
     modify_core value_of state_of output_of];
  cbn [fst snd app map].

Section Proofs.
Context {I : Interfaces} {CI : CycleInterfaces}.

(** ** The message of a rejected mode switch *)

Lemma rejections_app o1 o2 :
  rejections (o1 ++ o2) = (rejections o1 + rejections o2)%nat.
Proof. unfold rejections. rewrite filter_app, length_app. reflexivity. Qed.

Lemma last_time_lower start calls :
  ascending start calls -> start <= last_time start calls.
Proof.
  revert start. induction calls as [ | c rest IH]; intros start H.
  - cbn. lia.
  - cbn in H |- *. destruct H as (H1 & H2 & H3). specialize (IH _ H3). lia.
Qed.

Lemma print_reject_mode_unfold now stamp m s :
  print_reject_mode now stamp m s
  = if 1 * us_per_s <? hrt_elapsed_time now (_last_print_mode_reject_time s)
    then (tt, set_last_print_mode_reject_time stamp s,
          [mode_not_available m;
           tune (tune_negative_buzzer (isArmed (_arm_state_machine (core s))))])
    else (tt, s, []).
Proof.
  unfold print_reject_mode. run_cycle.
  destruct (1 * us_per_s <? _); reflexivity.
Qed.

Lemma rate_limited calls : forall s start,
  0 <= _last_print_mode_reject_time s <= start ->
  ascending start calls ->
  Z.of_nat (rejections (output_of (print_reject_modes calls s))) * us_per_s
  <= last_time start calls - _last_print_mode_reject_time s.
Proof.
  induction calls as [ | c rest IH]; intros s start Hs Ha.
  - cbn. lia.
  - cbn [print_reject_modes ascending last_time] in *.
    destruct Ha as (H1 & H2 & H3).
    rewrite output_of_bind, rejections_app.
    rewrite print_reject_mode_unfold.
    unfold hrt_elapsed_time, wrap_unsigned.
    rewrite Z.mod_small by lia.
    destruct (Z.ltb_spec (1 * us_per_s)
                (read_at c - _last_print_mode_reject_time s)) as [Hlt | Hle];
      cbn [value_of state_of output_of fst snd].
    + specialize (IH (set_last_print_mode_reject_time (stamped_at c) s)
                    (stamped_at c)).
      cbn [_last_print_mode_reject_time set_last_print_mode_reject_time]
        in IH.
      specialize (IH ltac:(lia) H3).
      change (rejections [mode_not_available (asked_for c); _]) with 1%nat.
      lia.
    + specialize (IH s (stamped_at c) ltac:(lia) H3).
      change (rejections []) with 0%nat. lia.
Qed.

(** X7. The message that a mode is not available is limited in rate: over any
    run of rejected mode switches, with a clock that does not go back,
    the time that passes from the last message before the run to the end
    of the run is at least one second for each message sent. *)
Theorem mode_reject_message_rate_limited calls s :
  0 <= _last_print_mode_reject_time s ->
  ascending (_last_print_mode_reject_time s) calls ->
  Z.of_nat (rejections (output_of (print_reject_modes calls s))) * us_per_s
  <= last_time (_last_print_mode_reject_time s) calls
     - _last_print_mode_reject_time s.
Proof. intros H0 Ha. apply rate_limited; [lia | assumption]. Qed.

(** ** The geofence action *)

(** Split the paths of [geofence_actions]. *)
Ltac geofence_paths :=
  unfold geofence_actions, geofence_transition, geofence_terminate,
    call_main_state_transition, send_parachute_command;
  run_cycle;
  repeat
    (match goal with
     | |- context [geofence_actions_due ?s] =>
         destruct (geofence_actions_due s) eqn:?
     | |- context [main_state_transition ?a ?b ?c ?d] =>
         destruct (main_state_transition a b c d) as [[ | | ] ?]
     | |- context [match geofence_action ?g with _ => _ end] =>
         destruct (geofence_action g) eqn:?
     | |- context [if ?b then _ else _] => destruct b eqn:?
     end;
     run_cycle;
     cbn [core set_core set_geofence_loiter_on set_geofence_rtl_on
          set_geofence_land_on set_geofence_warning_action_on
          set_geofence_violated_prev _geofence_loiter_on _geofence_rtl_on
          _geofence_land_on _geofence_warning_action_on
          _geofence_violated_prev is_changed negb andb orb] in *).


Lemma geofence_no_edge s :
  geofence_violated (_geofence_result (core s))
  && negb (_geofence_violated_prev s) = false ->
  outside_geofence_block (state_of (geofence_actions s))
  = outside_geofence_block s
  /\ core (state_of (geofence_actions s)) = core s
  /\ output_of (geofence_actions s) = [].
Proof.
  intros H. unfold geofence_actions, outside_geofence_block. run_cycle.
  rewrite H.
  destruct (geofence_actions_due s); run_cycle;
    repeat match goal with
           | |- context [if ?b then _ else _] => destruct b
           end;
    repeat split; reflexivity.
Qed.

Lemma geofence_not_due s :
  geofence_actions_due s = false ->
  core (state_of (geofence_actions s)) = core s
  /\ output_of (geofence_actions s) = [].
Proof.
  intros H. unfold geofence_actions. run_cycle. rewrite H.
  split; reflexivity.
Qed.

(** What a pass leaves of the data the block reads, and the flags it
    leaves. *)
Lemma geofence_pass_leaves s :
  let s1 := state_of (geofence_actions s) in
  let mode := main_state (_commander_state (core s1)) in
  _geofence_result (core s1) = _geofence_result (core s)
  /\ _arm_state_machine (core s1) = _arm_state_machine (core s)
  /\ _battery_failsafe_timestamp s1 = _battery_failsafe_timestamp s
  /\ _geofence_violated_prev s1
     = geofence_actions_due s
       && geofence_violated (_geofence_result (core s))
  /\ (_geofence_loiter_on s1 = true ->
      geofence_actions_due s = true /\ is_auto_loiter mode = true)
  /\ (_geofence_rtl_on s1 = true ->
      geofence_actions_due s = true /\ is_auto_rtl mode = true)
  /\ (_geofence_land_on s1 = true ->
      geofence_actions_due s = true /\ is_auto_land mode = true)
  /\ (_geofence_warning_action_on s1 = true ->
      geofence_actions_due s = true)
  /\ (_geofence_loiter_on s1 || _geofence_rtl_on s1 || _geofence_land_on s1
      = true -> _geofence_warning_action_on s1 = true).
Proof.
  cbv zeta. geofence_paths.
  all: repeat split; intros; try discriminate; try reflexivity;
    try assumption.
  all: repeat match goal with
              | H : negb _ = false |- _ => apply negb_false_iff in H
              | H : negb _ = true |- _ => apply negb_true_iff in H
              end;
    try assumption; try congruence.
  all: try (rewrite ?orb_true_r; reflexivity).
  all: destruct (_geofence_warning_action_on s); cbn [orb];
    try reflexivity; assumption.
Qed.

Lemma geofence_pass_settles s :
  let s1 := state_of (geofence_actions s) in
  geofence_actions_due s1 = geofence_actions_due s
  /\ (geofence_actions_due s = true ->
      _geofence_violated_prev s1
      = geofence_violated (_geofence_result (core s1))).
Proof.
  cbv zeta.
  destruct (geofence_pass_leaves s) as (Hg & Hm & Hb & Hp & _).
  cbv zeta in Hg, Hm, Hb, Hp.
  unfold geofence_actions_due at 1 2. rewrite Hg, Hm, Hb.
  split; [reflexivity | ].
  intros Hdue. rewrite Hp, Hdue. reflexivity.
Qed.

(** A pass over a Cycle whose five members are as a pass leaves them
    changes nothing. *)
Lemma geofence_pass_fixpoint s :
  let mode := main_state (_commander_state (core s)) in
  _geofence_violated_prev s
  = geofence_actions_due s && geofence_violated (_geofence_result (core s)) ->
  (_geofence_loiter_on s = true ->
   geofence_actions_due s = true /\ is_auto_loiter mode = true) ->
  (_geofence_rtl_on s = true ->
   geofence_actions_due s = true /\ is_auto_rtl mode = true) ->
  (_geofence_land_on s = true ->
   geofence_actions_due s = true /\ is_auto_land mode = true) ->
  (_geofence_warning_action_on s = true -> geofence_actions_due s = true) ->
  (_geofence_loiter_on s || _geofence_rtl_on s || _geofence_land_on s = true ->
   _geofence_warning_action_on s = true) ->
  geofence_actions s = (tt, s, []).
Proof.
  cbv zeta. intros Hp Hl Hr Hd Hw Hf.
  unfold geofence_actions. run_cycle.
  destruct (geofence_actions_due s) eqn:Ed.
  - cbn [andb] in Hp. rewrite Hp.
    replace (geofence_violated (_geofence_result (core s))
             && negb (geofence_violated (_geofence_result (core s))))
      with false by (destruct (geofence_violated _); reflexivity).
    run_cycle.
    destruct s as [c t0 w l r d p b a bw u h f lv o m ro rl].
    cbn [core set_core set_geofence_loiter_on set_geofence_rtl_on
         set_geofence_land_on set_geofence_warning_action_on
         set_geofence_violated_prev _geofence_loiter_on _geofence_rtl_on
         _geofence_land_on _geofence_warning_action_on
         _geofence_violated_prev] in *.
    subst p.
    destruct (is_auto_loiter (main_state (_commander_state c))) eqn:E1,
      (is_auto_rtl (main_state (_commander_state c))) eqn:E2,
      (is_auto_land (main_state (_commander_state c))) eqn:E3;
      cbn [negb]; run_cycle;
      cbn [core set_core set_geofence_loiter_on set_geofence_rtl_on
           set_geofence_land_on set_geofence_warning_action_on
           set_geofence_violated_prev _geofence_loiter_on _geofence_rtl_on
           _geofence_land_on _geofence_warning_action_on
           _geofence_violated_prev];
      destruct l, r, d, w; cbn [orb] in *;
      try reflexivity;
      try (destruct (Hl eq_refl); discriminate);
      try (destruct (Hr eq_refl); discriminate);
      try (destruct (Hd eq_refl); discriminate);
      try (specialize (Hf eq_refl); discriminate).
  - cbn [andb] in Hp.
    destruct s as [c t0 w l r d p b a bw u h f lv o m ro rl].
    cbn [core set_core set_geofence_loiter_on set_geofence_rtl_on
         set_geofence_land_on set_geofence_warning_action_on
         set_geofence_violated_prev _geofence_loiter_on _geofence_rtl_on
         _geofence_land_on _geofence_warning_action_on
         _geofence_violated_prev] in *.
    subst p.
    destruct l; [destruct (Hl eq_refl); discriminate | ].
    destruct r; [destruct (Hr eq_refl); discriminate | ].
    destruct d; [destruct (Hd eq_refl); discriminate | ].
    destruct w; [specialize (Hw eq_refl); discriminate | ].
    reflexivity.
Qed.

(** X9. The geofence action is taken on the edge of the violation.  A pass
    that does not see the violation begin changes no member but the memory
    of the violation and the four flags of the block, and sends nothing.
    A pass that follows another without new data changes no member at
    all, these five included, and sends nothing. *)
Theorem geofence_acts_on_violation_edge s :
  let r1 := geofence_actions s in
  let r2 := geofence_actions (state_of r1) in
  (geofence_violated (_geofence_result (core s))
   && negb (_geofence_violated_prev s) = false ->
   outside_geofence_block (state_of r1) = outside_geofence_block s
   /\ core (state_of r1) = core s
   /\ output_of r1 = [])
  /\ state_of r2 = state_of r1
  /\ output_of r2 = [].
Proof.
  cbv zeta. split; [apply geofence_no_edge | ].
  destruct (geofence_pass_settles s) as [Hdue _]. cbv zeta in Hdue.
  destruct (geofence_pass_leaves s)
    as (Hg & _ & _ & Hp & Hl & Hr & Hd & Hw & Hf).
  cbv zeta in Hg, Hp, Hl, Hr, Hd, Hw, Hf.
  rewrite (geofence_pass_fixpoint (state_of (geofence_actions s))).
  - split; reflexivity.
  - rewrite Hdue, Hg. exact Hp.
  - rewrite Hdue. exact Hl.
  - rewrite Hdue. exact Hr.
  - rewrite Hdue. exact Hd.
  - rewrite Hdue. exact Hw.
  - exact Hf.
Qed.

(** ** Termination by the geofence *)

(** A DO_FLIGHTTERMINATION command that triggers leaves one of the two
    latches set. *)
Lemma triggering_command_latches now cmd c :
  termination_for c cmd = true -> triggers cmd = true ->
  let c' := state_of (handle_command now cmd c) in
  _flight_termination_triggered c' = true \/ _lockdown_triggered c' = true.
Proof.
  unfold termination_for, is_flight_termination, triggers,
    lockdown_severity, termination_severity.
  intros H Ht. apply andb_true_iff in H as [Hc Hn].
  apply negb_true_iff in Hn. cbv zeta.
  unfold handle_command, handle_command_switch.
  cbv beta iota zeta delta [bind ret get value_of state_of output_of].
  rewrite Hn. destruct (command cmd); try discriminate.
  unfold leaving, handle_do_flighttermination, answer_command,
    send_parachute_command, Commander.log_event.
  cbv beta iota zeta delta
    [bind ret get modify emit when value_of state_of output_of].
  destruct (fgt (param1 cmd) (3 # 2)).
  - destruct (_lockdown_triggered c) eqn:E; cbn; auto.
  - cbn [orb andb] in Ht. apply andb_true_iff in Ht as [Ht _]. rewrite Ht.
    destruct (_flight_termination_triggered c) eqn:E; cbn; auto.
Qed.

(** X10. The geofence terminates the flight at most once: one pass sends at
    most one parachute command, and none when the termination or the
    lockdown has been triggered before, be it by an earlier pass or by a
    DO_FLIGHTTERMINATION command.  A pass that sends it sets the latch and
    forces the failsafe; no pass clears a latch. *)
Theorem geofence_termination_sends_parachute_once s :
  let r := geofence_actions s in
  let c := core s in
  let c' := core (state_of r) in
  (parachutes (output_of r) <= 1)%nat
  /\ (_flight_termination_triggered c = true \/ _lockdown_triggered c = true ->
      parachutes (output_of r) = 0%nat
      /\ _actuator_armed c' = _actuator_armed c)
  /\ (parachutes (output_of r) = 1%nat ->
      _flight_termination_triggered c' = true
      /\ force_failsafe (_actuator_armed c') = true)
  /\ (_flight_termination_triggered c = true ->
      _flight_termination_triggered c' = true)
  /\ _lockdown_triggered c' = _lockdown_triggered c
  /\ (latches_hold c -> latches_hold c')
  /\ (forall now cmd,
         termination_for c cmd = true -> triggers cmd = true ->
         parachutes
           (output_of
              (geofence_actions (state_of (lift (handle_command now cmd) s))))
         = 0%nat).
Proof.
  cbv zeta.
  assert (H : forall s : Cycle,
             (parachutes (output_of (geofence_actions s)) <= 1)%nat
             /\ (_flight_termination_triggered (core s) = true
                 \/ _lockdown_triggered (core s) = true ->
                 parachutes (output_of (geofence_actions s)) = 0%nat
                 /\ _actuator_armed (core (state_of (geofence_actions s)))
                    = _actuator_armed (core s))
             /\ (parachutes (output_of (geofence_actions s)) = 1%nat ->
                 _flight_termination_triggered
                   (core (state_of (geofence_actions s))) = true
                 /\ force_failsafe
                      (_actuator_armed (core (state_of (geofence_actions s))))
                    = true)
             /\ (_flight_termination_triggered (core s) = true ->
                 _flight_termination_triggered
                   (core (state_of (geofence_actions s))) = true)
             /\ _lockdown_triggered (core (state_of (geofence_actions s)))
                = _lockdown_triggered (core s)
             /\ (latches_hold (core s) ->
                 latches_hold (core (state_of (geofence_actions s))))).
  { clear s. intros s. unfold latches_hold, parachutes. geofence_paths.
    all: cbn [filter is_core_parachute List.length].
    all: repeat split; intros; try discriminate; try lia; try reflexivity;
         try assumption.
    all: try match goal with
         | H : _ /\ _ |- _ =>
             destruct H as [Hl Hf]; first [apply Hl | apply Hf]; assumption
         end.
    all: exfalso;
         match goal with
         | H : _ \/ _, Hb : negb _ && negb _ = true |- _ =>
             apply andb_true_iff in Hb; destruct Hb as [Hb1 Hb2];
             apply negb_true_iff in Hb1, Hb2; destruct H; congruence
         end. }
  destruct (H s) as (H1 & H2 & H3 & H4 & H5 & H6).
  repeat (split; [assumption | ]).
  intros now cmd Hc Ht.
  apply (H (state_of (lift (handle_command now cmd) s))).
  assert (Hl := triggering_command_latches now cmd (core s) Hc Ht).
  cbv zeta in Hl. unfold lift, state_of in *.
  destruct (handle_command now cmd (core s)) as [[a c1] o].
  exact Hl.
Qed.

(** ** The tunes of arming and disarming *)

Lemma arming_tunes_app o1 o2 :
  arming_tunes (o1 ++ o2) = (arming_tunes o1 + arming_tunes o2)%nat.
Proof. unfold arming_tunes. rewrite filter_app, length_app. reflexivity. Qed.

Lemma neutral_tunes_app o1 o2 :
  neutral_tunes (o1 ++ o2) = (neutral_tunes o1 + neutral_tunes o2)%nat.
Proof. unfold neutral_tunes. rewrite filter_app, length_app. reflexivity. Qed.

Lemma updateTunes_pass s :
  let r := updateTunes s in
  let is_armed := isArmed (_arm_state_machine (core s)) in
  core (state_of r) = core s
  /\ _arm_tune_played (state_of r) = is_armed
  /\ arming_tunes (output_of r)
     = (if is_armed && negb (_arm_tune_played s) then 1 else 0)%nat
  /\ neutral_tunes (output_of r)
     = (if negb is_armed && _arm_tune_played s then 1 else 0)%nat.
Proof.
  cbv zeta. unfold updateTunes, arming_tunes, neutral_tunes. run_cycle.
  destruct (isArmed (_arm_state_machine (core s))),
    (_arm_tune_played s) eqn:Ep; cbn [negb andb];
    repeat match goal with
           | |- context [if ?b then _ else _] => destruct b
           end;
    run_cycle; cbn [_arm_tune_played set_arm_tune_played];
    rewrite ?Ep; try discriminate; repeat split; reflexivity.
Qed.

(** X11. The arming tune is played once for each arming and the neutral tune
    once for each disarming: over any number of passes with the vehicle
    armed the arming tune is played on the first pass unless it has been
    played before, and never the neutral tune; with the vehicle disarmed
    the neutral tune is played on the first pass if the arming tune has
    been played, and never the arming tune. *)
Theorem arming_tune_once_per_arming n s :
  let o := output_of (updateTunes_passes n s) in
  let is_armed := isArmed (_arm_state_machine (core s)) in
  arming_tunes o
  = (if is_armed && negb (_arm_tune_played s) && (0 <? n)%nat then 1 else 0)%nat
  /\ neutral_tunes o
     = (if negb is_armed && _arm_tune_played s && (0 <? n)%nat
        then 1 else 0)%nat.
Proof.
  cbv zeta. revert s. induction n as [ | n IH]; intros s.
  - cbn. rewrite !andb_false_r. split; reflexivity.
  - cbn [updateTunes_passes]. rewrite output_of_bind.
    rewrite arming_tunes_app, neutral_tunes_app.
    destruct (updateTunes_pass s) as (Hc & Hp & Ha & Hn).
    cbv zeta in Hc, Hp, Ha, Hn.
    destruct (IH (state_of (updateTunes s))) as [IHa IHn].
    rewrite IHa, IHn, Ha, Hn, Hc, Hp.
    change (0 <? S n)%nat with true. rewrite !andb_true_r.
    destruct (isArmed (_arm_state_machine (core s))),
      (_arm_tune_played s), (0 <? n)%nat; split; reflexivity.
Qed.

(** ** The loss of manual control *)

Lemma rc_lost_reports_app o1 o2 :
  rc_lost_reports (o1 ++ o2)
  = (rc_lost_reports o1 + rc_lost_reports o2)%nat.
Proof.
  unfold rc_lost_reports. rewrite filter_app, length_app. reflexivity.
Qed.

(** Without a valid setpoint the check acts only on the signal lost flag
    and its report. *)
Lemma manual_control_check_without_setpoint now update s :
  is_valid_update update = false ->
  let r := manual_control_check now update s in
  (rc_signal_lost (_vehicle_status (core s)) = true ->
   state_of r = s /\ output_of r = [])
  /\ (rc_lost_reports (output_of r) <= 1)%nat
  /\ (rc_lost_reports (output_of r) = 1%nat ->
      rc_signal_lost (_vehicle_status (core (state_of r))) = true)
  /\ (rc_signal_lost (_vehicle_status (core s)) = true ->
      rc_signal_lost (_vehicle_status (core (state_of r))) = true).
Proof.
  intros Hv. cbv zeta. unfold manual_control_check, rc_lost_reports.
  run_cycle.
  destruct update as [sp | ]; cbn [is_valid_update] in Hv;
    [rewrite Hv | destruct (exceeds_seconds _ _)];
    destruct (rc_signal_lost (_vehicle_status (core s))) eqn:El;
    cbn [negb]; run_cycle; cbn;
    repeat split; intros; try discriminate; try lia; try assumption;
    try reflexivity.
  all: destruct s; reflexivity.
Qed.

(** X12. The loss of manual control is reported once: over any run of passes
    that bring no valid setpoint, "Manual control lost" is sent at most
    once, and not at all when the signal is already marked as lost. *)
Theorem manual_control_loss_reported_once passes s :
  Forall (fun p => is_valid_update (snd p) = false) passes ->
  let o := output_of (manual_control_checks passes s) in
  (rc_lost_reports o <= 1)%nat
  /\ (rc_signal_lost (_vehicle_status (core s)) = true ->
      rc_lost_reports o = 0%nat).
Proof.
  intros Hp. cbv zeta. revert s.
  induction Hp as [ | [now update] rest Hv _ IH]; intros s.
  - cbn. split; [lia | reflexivity].
  - cbn [manual_control_checks snd] in *.
    rewrite output_of_bind, rc_lost_reports_app.
    destruct (manual_control_check_without_setpoint now update s Hv)
      as (Hsame & Hle & Hone & Hkeep).
    cbv zeta in Hsame, Hle, Hone, Hkeep.
    destruct (IH (state_of (manual_control_check now update s)))
      as [IHle IHlost].
    split.
    + destruct (rc_lost_reports
                  (output_of (manual_control_check now update s)))
        as [ | [ | k]] eqn:E; [lia | | lia].
      rewrite (IHlost (Hone eq_refl)). lia.
    + intros Hl. destruct (Hsame Hl) as [Hs Ho].
      rewrite Ho, Hs in *. rewrite (IHlost Hl). reflexivity.
Qed.

(** ** The stick override *)

Lemma throttle_flags_exclusive z :
  fgt z float_0_6 && flt z float_0_1 = false.
Proof.
  destruct z as [ | | | q]; try reflexivity. cbn [fgt flt].
  destruct (Qle_bool q float_0_6) eqn:E6; [reflexivity | ].
  destruct (Qle_bool float_0_1 q) eqn:E1; [reflexivity | ].
  exfalso.
  assert (H6 : ~ (q <= float_0_6)%Q)
    by (intros H; apply Qle_bool_iff in H; congruence).
  assert (H1 : ~ (float_0_1 <= q)%Q)
    by (intros H; apply Qle_bool_iff in H; congruence).
  apply Qnot_le_lt in H6, H1.
  assert (H : (float_0_6 < float_0_1)%Q) by (eapply Qlt_trans; eassumption).
  discriminate H.
Qed.

Lemma has_no_bit bit : has_bit 0 bit = false.
Proof. unfold has_bit. rewrite Z.land_0_l. reflexivity. Qed.

Lemma stick_override_closed s :
  _geofence_warning_action_on s = true
  \/ _battery_failsafe_timestamp s <> 0
  \/ _param_com_rc_override s = 0 ->
  stick_override s = (tt, s, []).
Proof.
  intros Hb. unfold stick_override. run_cycle.
  assert (Hc :
            ((flag_control_auto_enabled (_vehicle_control_mode (core s))
              && has_bit (_param_com_rc_override s) AUTO_MODE_BIT)
             || (flag_control_offboard_enabled s
                 && has_bit (_param_com_rc_override s) OFFBOARD_MODE_BIT))
            && negb (negb (_battery_failsafe_timestamp s =? 0))
            && negb (_geofence_warning_action_on s)
            = false).
  { destruct Hb as [Hb | [Hb | Hb]].
    - rewrite Hb. apply andb_false_r.
    - apply Z.eqb_neq in Hb. rewrite Hb. cbn.
      rewrite andb_false_r. reflexivity.
    - rewrite Hb, !has_no_bit, !andb_false_r. reflexivity. }
  rewrite Hc. reflexivity.
Qed.

(** X13. With the vehicle armed, a valid setpoint leaves the main state as it
    is, whatever the sticks do, while a geofence action is on, during the
    delay of the battery failsafe, with COM_RC_OVERRIDE 0 and in a manual
    mode.  The setpoint clears the signal lost flag, is remembered with
    its timestamp, and sets at most one of the two throttle flags. *)
Theorem stick_override_blocked_during_failsafe_action now sp s :
  mcs_valid sp = true ->
  isArmed (_arm_state_machine (core s)) = true ->
  _geofence_warning_action_on s = true
  \/ _battery_failsafe_timestamp s <> 0
  \/ _param_com_rc_override s = 0
  \/ flag_control_manual_enabled (_vehicle_control_mode (core s)) = true ->
  let r := manual_control_check now (Some sp) s in
  let s' := state_of r in
  _commander_state (core s') = _commander_state (core s)
  /\ filter is_takeover (output_of r) = []
  /\ rc_signal_lost (_vehicle_status (core s')) = false
  /\ _last_valid_manual_control_setpoint s' = mcs_timestamp sp
  /\ _is_throttle_above_center (core s') && _is_throttle_low (core s')
     = false.
Proof.
  intros Hv Ha Hb. cbv zeta.
  assert (Ht := throttle_flags_exclusive (mcs_z sp)).
  unfold manual_control_check. run_cycle. rewrite Hv, Ha.
  destruct (flag_control_manual_enabled (_vehicle_control_mode (core s)))
    eqn:Em.
  - rewrite andb_false_r. cbn [negb andb].
    destruct (rc_signal_found_once s), (rc_signal_lost _) eqn:El;
      cbn [negb andb];
      try destruct (0 <? _last_valid_manual_control_setpoint s);
      run_cycle; cbn; rewrite ?El; repeat split; assumption.
  - assert (Hb' : _geofence_warning_action_on s = true
                  \/ _battery_failsafe_timestamp s <> 0
                  \/ _param_com_rc_override s = 0)
      by (destruct Hb as [? | [? | [? | ?]]]; [tauto | tauto | tauto
                                                | congruence]).
    destruct (sticks_moving sp
              && negb false
              && is_rotary_wing_type
                   (vehicle_type (_vehicle_status (core s))));
      destruct (rc_signal_found_once s), (rc_signal_lost _) eqn:El;
      cbn [negb andb];
      try destruct (0 <? _last_valid_manual_control_setpoint s);
      run_cycle; rewrite ?stick_override_closed by exact Hb';
      cbn; rewrite ?El; repeat split; assumption.
Qed.

End Proofs.

(** ** Runs on the reference vehicle *)

Import Reference CommanderRuns.

Lemma mode_reject_message_rate_limited_witness :
  let s := cycle_of commander_flying in
  0 <= _last_print_mode_reject_time s
  /\ ascending (_last_print_mode_reject_time s) rejected_switches
  /\ rejections (output_of (print_reject_modes rejected_switches s)) = 2%nat
  /\ Z.of_nat (rejections (output_of (print_reject_modes rejected_switches s)))
     * us_per_s
     <= last_time (_last_print_mode_reject_time s) rejected_switches
        - _last_print_mode_reject_time s.
Proof.
  cbv zeta.
  assert (H0 : 0 <= _last_print_mode_reject_time (cycle_of commander_flying))
    by (cbn; lia).
  assert (Ha : ascending
                 (_last_print_mode_reject_time (cycle_of commander_flying))
                 rejected_switches)
    by (cbn; lia).
  split; [exact H0 | split; [exact Ha | split; [reflexivity | ]]].
  exact (mode_reject_message_rate_limited rejected_switches
           (cycle_of commander_flying) H0 Ha).
Defined.

Lemma manual_control_loss_reported_once_witness :
  let passes :=
    [(600000, None); (700000, Some (setpoint_at_time 700000 false false));
     (800000, None)] in
  let s := cycle_of commander_flying in
  Forall (fun p => is_valid_update (snd p) = false) passes
  /\ rc_lost_reports (output_of (manual_control_checks passes s)) = 1%nat
  /\ (rc_lost_reports (output_of (manual_control_checks passes s)) <= 1)%nat.
Proof.
  cbv zeta.
  assert (Hp : Forall (fun p => is_valid_update (snd p) = false)
                 [(600000, None);
                  (700000, Some (setpoint_at_time 700000 false false));
                  (800000, None)])
    by (repeat constructor).
  split; [exact Hp | split; [reflexivity | ]].
  exact (proj1 (manual_control_loss_reported_once _
                  (cycle_of commander_flying) Hp)).
Defined.

Lemma stick_override_blocked_during_failsafe_action_witness :
  let sp := setpoint_at_time 500 true true in
  let s := cycle_in_geofence_action in
  mcs_valid sp = true
  /\ isArmed (_arm_state_machine (core s)) = true
  /\ _geofence_warning_action_on s = true
  /\ (let r := manual_control_check 600 (Some sp) s in
      _commander_state (core (state_of r)) = _commander_state (core s)
      /\ filter is_takeover (output_of r) = []
      /\ _last_valid_manual_control_setpoint (state_of r) = 500).
Proof.
  cbv zeta. split; [reflexivity | split; [reflexivity | ]].
  split; [reflexivity | ].
  destruct (stick_override_blocked_during_failsafe_action 600
              (setpoint_at_time 500 true true) cycle_in_geofence_action
              eq_refl eq_refl (or_introl eq_refl))
    as (Hs & Ho & _ & Ht & _).
  split; [exact Hs | split; [exact Ho | exact Ht]].
Defined.

End CommanderCycleProofs.

(** * Properties of the services of the Navigator *)

Module NavigatorServicesProofs.

Import Navigator NavigatorServices.

(** Flatten the monadic structure of a goal. *)
Ltac run_services :=
  cbv beta iota zeta delta
    [bind ret get gets modify emit when value_of state_of output_of];
  cbn [fst snd app].

Section Proofs.
Context {O : Opcodes}.

(** ** The buffer of the last conflict with air traffic *)

Lemma buffer_air_traffic_unfold now stamp icao s :
  buffer_air_traffic now stamp icao s
  = if icao_address (_traffic_buffer s) =? icao then
      if 60 * us_per_s
           <? hrt_elapsed_time now (tb_timestamp (_traffic_buffer s))
      then (true,
            set_traffic_buffer
              {| icao_address := icao_address (_traffic_buffer s);
                 tb_timestamp := stamp |} s, [])
      else (false, s, [])
    else (true,
          set_traffic_buffer
            {| icao_address := icao; tb_timestamp := stamp |} s, []).
Proof.
  unfold buffer_air_traffic. run_services.
  destruct (_ =? icao); [destruct (_ <? _) | ]; reflexivity.
Qed.

Lemma conflicts_rate_limited conflicts : forall s start,
  0 <= tb_timestamp (_traffic_buffer s) <= start ->
  ascending start conflicts ->
  Forall (fun c => aircraft c = icao_address (_traffic_buffer s)) conflicts ->
  Z.of_nat (actions_needed (buffer_conflicts conflicts s)) * (60 * us_per_s)
  <= last_time start conflicts - tb_timestamp (_traffic_buffer s).
Proof.
  induction conflicts as [ | c rest IH]; intros s start Hs Ha Hf.
  - cbn. lia.
  - cbn [buffer_conflicts ascending last_time] in *.
    destruct Ha as (H1 & H2 & H3).
    apply Forall_cons_iff in Hf as [Hc Hf].
    rewrite buffer_air_traffic_unfold, Hc, Z.eqb_refl.
    unfold hrt_elapsed_time, wrap_unsigned.
    rewrite Z.mod_small by lia.
    destruct (Z.ltb_spec (60 * us_per_s)
                (read_at c - tb_timestamp (_traffic_buffer s))) as [Hlt | Hle];
      cbn [value_of state_of fst snd].
    + specialize (IH (set_traffic_buffer
                        {| icao_address := icao_address (_traffic_buffer s);
                           tb_timestamp := stamped_at c |} s)
                    (stamped_at c)).
      cbn [_traffic_buffer set_traffic_buffer tb_timestamp icao_address]
        in IH.
      specialize (IH ltac:(lia) H3 Hf).
      unfold actions_needed in *. cbn [filter List.length].
      lia.
    + specialize (IH s (stamped_at c) ltac:(lia) H3 Hf).
      unfold actions_needed in *. cbn [filter]. lia.
Qed.

(** X14. Conflicts with the aircraft of the buffer need action at most once in
    60 s: over any run of such conflicts, with a clock that does not go
    back, the time from the buffered conflict to the end of the run is at
    least 60 s for each conflict that needs action.  A conflict with
    another aircraft always needs action and takes the buffer. *)
Theorem air_traffic_conflict_rate_limited conflicts s :
  0 <= tb_timestamp (_traffic_buffer s) ->
  ascending (tb_timestamp (_traffic_buffer s)) conflicts ->
  Forall (fun c => aircraft c = icao_address (_traffic_buffer s)) conflicts ->
  Z.of_nat (actions_needed (buffer_conflicts conflicts s)) * (60 * us_per_s)
  <= last_time (tb_timestamp (_traffic_buffer s)) conflicts
     - tb_timestamp (_traffic_buffer s)
  /\ forall now stamp icao,
       icao <> icao_address (_traffic_buffer s) ->
       let r := buffer_air_traffic now stamp icao s in
       value_of r = true
       /\ _traffic_buffer (state_of r)
          = {| icao_address := icao; tb_timestamp := stamp |}.
Proof.
  intros H0 Ha Hf. split.
  - apply conflicts_rate_limited; [lia | assumption | assumption].
  - intros now stamp icao Hne. cbv zeta.
    rewrite buffer_air_traffic_unfold.
    destruct (Z.eqb_spec (icao_address (_traffic_buffer s)) icao);
      [congruence | split; reflexivity].
Qed.

(** ** Vehicle commands and the image capture *)

Lemma same_command_refl c : same_command c c = true.
Proof. unfold same_command. destruct (vehicle_cmd_eq_dec c c); congruence. Qed.

Lemma same_command_differ a b : a <> b -> same_command a b = false.
Proof.
  unfold same_command. intros H. destruct (vehicle_cmd_eq_dec a b);
    [contradiction | reflexivity].
Qed.

(** X15. Every command the Navigator publishes is one command from this
    vehicle to this vehicle, marked as internal: to the camera, component
    100, for the four camera opcodes and to the component of the autopilot
    for every other.  The opcode and the parameters go out as given unless
    the command starts an image capture. *)
Theorem published_command_addressing vcmd s :
  let r := publish_vehicle_cmd vcmd s in
  exists c,
    commands_of (output_of r) = [c]
    /\ source_system c = system_id (vstatus s)
    /\ source_component c = component_id (vstatus s)
    /\ target_system c = system_id (vstatus s)
    /\ from_external c = false
    /\ target_component c
       = (if is_camera_opcode (command vcmd) then MAV_COMP_ID_CAMERA
          else component_id (vstatus s))
    /\ vstatus (state_of r) = vstatus s
    /\ _traffic_buffer (state_of r) = _traffic_buffer s
    /\ (same_command (command vcmd) NAV_CMD_IMAGE_START_CAPTURE = false ->
        command c = command vcmd
        /\ (param1 c, param2 c, param3 c, param4 c, param5 c, param6 c,
            param7 c)
           = (param1 vcmd, param2 vcmd, param3 vcmd, param4 vcmd,
              param5 vcmd, param6 vcmd, param7 vcmd)).
Proof.
  cbv zeta. unfold publish_vehicle_cmd, is_camera_opcode. run_services.
  destruct (same_command (command vcmd) NAV_CMD_IMAGE_START_CAPTURE);
    [destruct (cast_int (param3 vcmd) =? 1) | ];
    [ | | destruct (same_command (command vcmd) NAV_CMD_IMAGE_STOP_CAPTURE);
          [ | destruct (same_command (command vcmd)
                          NAV_CMD_VIDEO_START_CAPTURE);
              [ | destruct (same_command (command vcmd)
                              NAV_CMD_VIDEO_STOP_CAPTURE)]]];
    cbn; eexists; (split; [reflexivity | ]); repeat split;
    discriminate.
Qed.

(** X16. The capture of images is stopped once: [stop_capturing_images]
    publishes the stop command to the camera only while a capture of
    several images runs, and a second call publishes nothing.  A command
    for a single image, rewritten to DO_DIGICAM_CONTROL, starts no capture
    that would have to be stopped. *)
Theorem image_capture_stopped_once count s :
  camera_opcodes_distinct ->
  let stop := stop_capturing_images in
  let start := publish_vehicle_cmd (image_start_capture count) in
  let twice := (stop ;; stop) s in
  let started := (start ;; stop) s in
  List.length (commands_of (output_of twice))
  = (if _is_capturing_images s then 1 else 0)%nat
  /\ _is_capturing_images (state_of twice) = false
  /\ (forall c, In c (commands_of (output_of twice)) ->
                command c = NAV_CMD_IMAGE_STOP_CAPTURE
                /\ target_component c = MAV_COMP_ID_CAMERA)
  /\ _is_capturing_images (state_of started) = false
  /\ map command (commands_of (output_of started))
     = (if cast_int count =? 1
        then VEHICLE_CMD_DO_DIGICAM_CONTROL
             :: (if _is_capturing_images s
                 then [NAV_CMD_IMAGE_STOP_CAPTURE] else [])
        else [NAV_CMD_IMAGE_START_CAPTURE; NAV_CMD_IMAGE_STOP_CAPTURE]).
Proof.
  intros Hd. cbv zeta.
  apply NoDup_cons_iff in Hd as [Hd _]. cbn [In] in Hd.
  assert (Hne : NAV_CMD_IMAGE_STOP_CAPTURE <> NAV_CMD_IMAGE_START_CAPTURE)
    by (intros H; apply Hd; left; exact H).
  unfold stop_capturing_images, publish_vehicle_cmd, image_start_capture.
  run_services. cbn [command vehicle_command_zero param3].
  rewrite (same_command_differ _ _ Hne), !same_command_refl.
  destruct (_is_capturing_images s) eqn:Ec; cbn;
    destruct (cast_int count =? 1); cbn; rewrite ?Ec; cbn;
    repeat split; try reflexivity; try assumption;
    match goal with
    | H : False |- _ => destruct H
    | H : _ \/ False |- _ => destruct H as [<- | []]; reflexivity
    end.
Qed.

End Proofs.

(** ** Runs on the reference vehicle *)

Import NavigatorReference NavigatorRuns.

Lemma air_traffic_conflict_rate_limited_witness :
  let s := services_boot in
  0 <= tb_timestamp (_traffic_buffer s)
  /\ ascending (tb_timestamp (_traffic_buffer s)) conflicts_with_4321
  /\ Forall (fun c => aircraft c = icao_address (_traffic_buffer s))
       conflicts_with_4321
  /\ buffer_conflicts conflicts_with_4321 s = [true; false; true]
  /\ Z.of_nat (actions_needed (buffer_conflicts conflicts_with_4321 s))
     * (60 * us_per_s)
     <= last_time (tb_timestamp (_traffic_buffer s)) conflicts_with_4321
        - tb_timestamp (_traffic_buffer s)
  /\ value_of (buffer_air_traffic 62000000 62000005 777 s) = true.
Proof.
  cbv zeta.
  assert (H0 : 0 <= tb_timestamp (_traffic_buffer services_boot))
    by (cbn; lia).
  assert (Ha : ascending (tb_timestamp (_traffic_buffer services_boot))
                 conflicts_with_4321)
    by (cbn; lia).
  assert (Hf : Forall
                 (fun c => aircraft c
                           = icao_address (_traffic_buffer services_boot))
                 conflicts_with_4321)
    by (repeat constructor).
  split; [exact H0 | split; [exact Ha | split; [exact Hf | ]]].
  split; [reflexivity | ].
  destruct (air_traffic_conflict_rate_limited conflicts_with_4321
              services_boot H0 Ha Hf) as [Hrate Hother].
  split; [exact Hrate | ].
  apply (Hother 62000000 62000005 777). discriminate.
Defined.

Lemma reference_opcodes_distinct : camera_opcodes_distinct.
Proof.
  unfold camera_opcodes_distinct.
  repeat first
    [ apply NoDup_nil
    | apply NoDup_cons; [cbn; intuition discriminate | ] ].
Qed.

Lemma image_capture_stopped_once_witness :
  camera_opcodes_distinct
  /\ (let start := publish_vehicle_cmd (image_start_capture (Fin (3 # 1))) in
      let started := (start ;; stop_capturing_images) services_boot in
      _is_capturing_images (state_of (start services_boot)) = true
      /\ _is_capturing_images (state_of started) = false
      /\ map command (commands_of (output_of started))
         = [NAV_CMD_IMAGE_START_CAPTURE; NAV_CMD_IMAGE_STOP_CAPTURE]).
Proof.
  assert (Hd := reference_opcodes_distinct).
  split; [exact Hd | ].
  destruct (image_capture_stopped_once (Fin (3 # 1)) services_boot Hd)
    as (_ & _ & _ & Hs & Hc).
  cbv zeta. split; [reflexivity | ]. split; [exact Hs | exact Hc].
Defined.

End NavigatorServicesProofs.

(** * Properties of single commands of the Commander *)

Module CommanderCommandProofs.

Import Commander CommanderSpec CommandSpec.

(** Flatten the monadic structure of a goal. *)
Ltac run_command :=
  cbv beta iota zeta delta
    [bind ret get gets modify emit when log_event leaving
     value_of state_of output_of];
  cbn [fst snd app].

Section Proofs.
Context {I : Interfaces}.

Lemma acks_of_concat o1 o2 : acks_of (o1 ++ o2) = acks_of o1 ++ acks_of o2.
Proof. unfold acks_of. apply flat_map_app. Qed.

Lemma acks_of_answer cmd result : acks_of (answer_events cmd result) = [result].
Proof. destruct result; reflexivity. Qed.

Lemma answer_command_run cmd result s :
  answer_command cmd result s = (tt, s, answer_events cmd result).
Proof. unfold answer_command. run_command. destruct result; reflexivity. Qed.

(** ** The actuator test *)

(** X17. An actuator test is published only with the vehicle disarmed, the
    safety off where there is a button, and COM_MOT_TEST_EN 1; the test
    that is published runs for at least 1 ms and at most 3 s and names a
    function of 16 bits.  The case changes no member, publishes at most
    one test, and accepts the command exactly when it publishes one. *)
Theorem actuator_test_only_when_safe now cmd s :
  let r := handle_command_actuator_test now cmd s in
  let tests := actuator_tests (output_of r) in
  state_of r = s
  /\ (List.length tests <= 1)%nat
  /\ (value_of r = VEHICLE_CMD_RESULT_ACCEPTED <-> List.length tests = 1%nat)
  /\ (forall t,
         In t tests ->
         isArmed (_arm_state_machine s) = false
         /\ (isButtonAvailable (_safety s) = true ->
             isSafetyOff (_safety s) = true)
         /\ _param_com_mot_test_en s = 1
         /\ 1 <= at_timeout_ms t <= 3000
         /\ 0 <= at_function t < 2 ^ 16
         /\ at_value t = param1 cmd
         /\ at_timestamp t = now).
Proof.
  cbv zeta. unfold handle_command_actuator_test. run_command.
  destruct (isArmed (_arm_state_machine s)) eqn:Ea; cbn [orb];
    [repeat split; cbn; try lia; try discriminate; contradiction | ].
  destruct (isButtonAvailable (_safety s)) eqn:Eb,
    (isSafetyOff (_safety s)) eqn:Es; cbn [andb negb];
    try (repeat split; cbn; try lia; try discriminate; contradiction).
  all: destruct (Z.eqb_spec (_param_com_mot_test_en s) 1) as [Ep | Ep];
    cbn [negb];
    [ | repeat split; cbn; try lia; try discriminate; contradiction ].
  all: match goal with
       | |- context [match ?f with Some _ => _ | None => _ end] =>
           destruct f eqn:Ef
       end;
    run_command;
    [ | repeat split; cbn; try lia; try discriminate; contradiction ].
  all: cbn [actuator_tests flat_map app List.length In].
  all: repeat split; try lia; try discriminate; try reflexivity;
    try assumption;
    try match goal with
        | H : _ \/ False |- _ => destruct H as [<- | []]
        end;
    cbn [at_timeout_ms at_function at_value at_timestamp];
    try reflexivity; try assumption.
  all: try match goal with
           | E : _ = Some ?z |- context [?z] =>
               repeat match type of E with
                      | (if ?b then _ else _) = Some _ =>
                          destruct b; try discriminate E
                      end;
               injection E as <-; unfold wrap_unsigned;
               pose proof (Z.mod_pos_bound) as Hm;
               match goal with
               | |- context [?a mod 2 ^ 16] =>
                   specialize (Hm a (2 ^ 16) ltac:(lia)); lia
               end
           end.
  all: match goal with
       | |- context [cast_int ?x] => generalize (cast_int x); intros t
       end;
    destruct (Z.leb_spec t 0); cbn [Z.eqb orb];
    try lia;
    unfold wrap_unsigned;
    pose proof (Z.mod_pos_bound t (2 ^ 32) ltac:(lia));
    destruct (Z.eqb_spec (t mod 2 ^ 32) 0); cbn [orb]; try lia;
    destruct (Z.ltb_spec 3000 (t mod 2 ^ 32)); lia.
Qed.

(** ** Worker tasks *)

(** A command for this vehicle: the switch, and then the answer unless
    [cmd_result] is still unsupported. *)
Lemma handle_command_run now cmd s :
  not_for_us s cmd = false ->
  let sw := handle_command_switch now cmd s in
  handle_command now cmd s =
    match value_of sw with
    | leaves_switch res =>
        (returns true, state_of sw,
         output_of sw
           ++ (if is_unsupported res then [] else answer_events cmd res))
    | spins_forever => (never_returns, state_of sw, output_of sw)
    end.
Proof.
  intros Hn. cbv zeta. unfold handle_command. run_command. rewrite Hn.
  destruct (handle_command_switch now cmd s) as [[x s1] o1]. cbn [fst snd].
  destruct x as [res | ]; [ | rewrite ?app_nil_r; reflexivity].
  destruct (is_unsupported res); cbn [negb].
  - cbn [app]. rewrite ?app_nil_r. reflexivity.
  - rewrite answer_command_run. cbn [fst snd]. rewrite ?app_nil_r.
    reflexivity.
Qed.

(** X18. No task is handed to the worker thread while the vehicle is armed or
    shutting down or the worker is busy: a calibration, a quick
    magnetometer calibration and a parameter storage command are then
    acknowledged temporarily_rejected, once, and change nothing. *)
Theorem no_worker_task_while_armed_or_busy now cmd s :
  starts_worker_task (command cmd) = true ->
  not_for_us s cmd = false ->
  busy_or_armed s = true ->
  let r := handle_command now cmd s in
  value_of r = returns true
  /\ state_of r = s
  /\ acks_of (output_of r) = [VEHICLE_CMD_RESULT_TEMPORARILY_REJECTED].
Proof.
  intros Hc Hn Hb. cbv zeta. rewrite (handle_command_run now cmd s Hn).
  cbv zeta. unfold handle_command_switch.
  destruct (command cmd) eqn:Ec; try discriminate; unfold leaving.
  - unfold handle_preflight_calibration. run_command. rewrite Hb.
    rewrite answer_command_run. cbn. rewrite ?Ec. repeat split.
  - unfold handle_fixed_mag_cal_yaw. run_command. rewrite Hb.
    rewrite answer_command_run. cbn. rewrite ?Ec. repeat split.
  - unfold handle_preflight_storage. run_command. rewrite Hb.
    rewrite answer_command_run. cbn. rewrite ?Ec. repeat split.
Qed.

(** ** Arming by force *)

(** X19. The magic number that forces arming skips the checks of [arm] only for
    a command from inside the vehicle.  A command from outside that [arm]
    has a reason to deny is acknowledged temporarily_rejected and changes
    nothing, forced or not; the forced command from inside goes to the arm
    state machine without checks. *)
Theorem forced_arm_from_outside_keeps_checks now cmd s :
  command cmd = VEHICLE_CMD_COMPONENT_ARM_DISARM ->
  not_for_us s cmd = false ->
  arming_action_of cmd = ARMING_ACTION_ARM ->
  forced_of cmd = true ->
  isArmed (_arm_state_machine s) = false ->
  let r := handle_command now cmd s in
  (from_external cmd = true ->
   arm_denial s command_external <> None ->
   value_of r = returns true
   /\ state_of r = s
   /\ acks_of (output_of r) = [VEHICLE_CMD_RESULT_TEMPORARILY_REJECTED])
  /\ (from_external cmd = false ->
      let t := call_arming_state_transition ARMING_STATE_ARMED false
                 command_internal s in
      _arm_state_machine (state_of r) = _arm_state_machine (state_of t)
      /\ acks_of (output_of r) = [accepted_unless_denied (value_of t)]).
Proof.
  intros Hc Hn Ha Hf Harmed. cbv zeta.
  rewrite (handle_command_run now cmd s Hn). cbv zeta.
  unfold handle_command_switch. rewrite Hc. unfold leaving.
  unfold handle_component_arm_disarm. cbv zeta. rewrite Ha, Hf.
  unfold ARMING_ACTION_ARM, ARMING_ACTION_DISARM.
  cbn [Z.eqb Pos.eqb negb andb orb]. run_command.
  unfold arm, arm_run_preflight_checks, arm_disarm_reason_of.
  split.
  - intros He Hd. rewrite He. cbn [orb is_rc_switch andb]. run_command.
    rewrite Harmed. cbn [negb andb].
    destruct (arm_denial s command_external) as [id | ];
      [ | contradiction].
    run_command. cbn. rewrite ?Hc. repeat split.
  - intros He. rewrite He. cbn [orb is_rc_switch andb negb]. run_command.
    unfold call_arming_state_transition. run_command.
    destruct (arming_state_transition _ _ _ _ _ _ _)
      as [[[[res m] st] ar] ch].
    run_command.
    destruct res; cbn [is_denied is_changed andb];
      repeat match goal with
             | |- context [if ?b then _ else _] => destruct b
             end;
      cbn; rewrite ?Hc; split; reflexivity.
Qed.

(** ** The home position *)

(** X20. DO_SET_HOME is denied and changes nothing when COM_HOME_EN is off, and
    when it asks for a position that is not the current one and has a
    coordinate that is not a finite number. *)
Theorem set_home_denied_without_position now cmd s :
  command cmd = VEHICLE_CMD_DO_SET_HOME ->
  not_for_us s cmd = false ->
  _param_com_home_en s = false
  \/ (fgt (param1 cmd) (1 # 2) = false
      /\ PX4_ISFINITE (param5 cmd) && PX4_ISFINITE (param6 cmd)
         && PX4_ISFINITE (param7 cmd) = false) ->
  let r := handle_command now cmd s in
  value_of r = returns true
  /\ state_of r = s
  /\ acks_of (output_of r) = [VEHICLE_CMD_RESULT_DENIED].
Proof.
  intros Hc Hn Hd. cbv zeta. rewrite (handle_command_run now cmd s Hn).
  cbv zeta. unfold handle_command_switch. rewrite Hc. unfold leaving.
  unfold handle_do_set_home. run_command.
  destruct Hd as [Hd | [Hu Hd]].
  - rewrite Hd. cbn. rewrite ?Hc. repeat split.
  - destruct (_param_com_home_en s); [rewrite Hu, Hd | ];
      cbn; rewrite ?Hc; repeat split.
Qed.

(** ** The start of a mission *)

(** X21. MISSION_START does not arm without a mission item to start at: with no
    mission available, and with a first item that is not a number, below
    -1 or not below the number of items, the command is denied and nothing
    changes. *)
Theorem mission_start_denied_without_item now cmd s :
  command cmd = VEHICLE_CMD_MISSION_START ->
  not_for_us s cmd = false ->
  auto_mission_available (_vehicle_status s) = false
  \/ PX4_ISFINITE (param1 cmd) = false
  \/ flt (param1 cmd) (-1 # 1) = true
  \/ fge (param1 cmd) (inject_Z (seq_total (_mission_result s))) = true ->
  let r := handle_command now cmd s in
  value_of r = returns true
  /\ state_of r = s
  /\ acks_of (output_of r) = [VEHICLE_CMD_RESULT_DENIED].
Proof.
  intros Hc Hn Hd. cbv zeta. rewrite (handle_command_run now cmd s Hn).
  cbv zeta. unfold handle_command_switch. rewrite Hc. unfold leaving.
  unfold handle_mission_start. run_command.
  assert (Hcond : auto_mission_available (_vehicle_status s) = false
                  \/ PX4_ISFINITE (param1 cmd) && fge (param1 cmd) (-1 # 1)
                     && flt (param1 cmd)
                          (inject_Z (seq_total (_mission_result s)))
                     = false).
  { destruct Hd as [Hd | [Hd | [Hd | Hd]]]; [left; exact Hd | right ..].
    - rewrite Hd. reflexivity.
    - destruct (param1 cmd) as [ | | | q]; cbn in *; try reflexivity;
        try discriminate.
      apply negb_true_iff in Hd.
      destruct (Qle_bool (-1 # 1) q); [discriminate | reflexivity].
    - destruct (param1 cmd) as [ | | | q]; cbn in *; try reflexivity;
        try discriminate.
      rewrite Hd. cbn. apply andb_false_r. }
  destruct Hcond as [Hd' | Hd'].
  - rewrite Hd'. cbn. rewrite ?Hc. repeat split.
  - destruct (auto_mission_available (_vehicle_status s));
      [rewrite Hd' | ]; cbn; rewrite ?Hc; repeat split.
Qed.

(** ** Reboot and shutdown *)

(** X22. A reboot or shutdown request is acknowledged exactly once.  The task
    stops serving commands only for a request 1, 2 or 3 that the arm state
    machine lets pass, after it has acknowledged the command as accepted;
    a request that the arm state machine denies is acknowledged denied and
    the task goes on; request 0 is accepted and changes nothing. *)
Theorem reboot_request_outcomes now cmd s :
  command cmd = VEHICLE_CMD_PREFLIGHT_REBOOT_SHUTDOWN ->
  not_for_us s cmd = false ->
  let r := handle_command now cmd s in
  (cast_int (param1 cmd) = 0 ->
   value_of r = returns true /\ state_of r = s
   /\ acks_of (output_of r) = [VEHICLE_CMD_RESULT_ACCEPTED])
  /\ (cast_int (param1 cmd) <> 0 ->
      shutdown_answer s = TRANSITION_DENIED ->
      value_of r = returns true
      /\ acks_of (output_of r) = [VEHICLE_CMD_RESULT_DENIED])
  /\ (value_of r = never_returns ->
      acks_of (output_of r) = [VEHICLE_CMD_RESULT_ACCEPTED]
      /\ shutdown_answer s <> TRANSITION_DENIED
      /\ In (cast_int (param1 cmd)) [1; 2; 3]).
Proof.
  intros Hc Hn. cbv zeta. rewrite (handle_command_run now cmd s Hn).
  cbv zeta. unfold handle_command_switch. rewrite Hc.
  unfold handle_preflight_reboot_shutdown, reboot_arm, shutdown_if_allowed,
    shutdown_answer, call_arming_state_transition, answer_command.
  cbv zeta.
  destruct (Z.eqb_spec (cast_int (param1 cmd)) 0) as [E0 | E0].
  { run_command. cbn. rewrite ?Hc.
    repeat split; try discriminate; contradiction. }
  destruct (Z.eqb_spec (cast_int (param1 cmd)) 1) as [E1 | E1];
    destruct (Z.eqb_spec (cast_int (param1 cmd)) 2) as [E2 | E2];
    destruct (Z.eqb_spec (cast_int (param1 cmd)) 3) as [E3 | E3];
    try lia;
    destruct CONFIG_BOARDCTL_RESET, BOARD_HAS_POWER_CONTROL;
    cbn [andb]; run_command;
    repeat match goal with
           | |- context [arming_state_transition ?a ?b ?c ?d ?e ?f ?g] =>
               destruct (arming_state_transition a b c d e f g)
                 as [[[[res m] st] ar] ch]
           end;
    run_command;
    try (destruct res; cbn [is_denied negb andb]);
    repeat match goal with
           | |- context [px4_reboot_request ?a ?b =? 0] =>
               destruct (px4_reboot_request a b =? 0)
           | |- context [px4_shutdown_request ?a =? 0] =>
               destruct (px4_shutdown_request a =? 0)
           end;
    cbn; rewrite ?Hc;
    repeat split; try discriminate; try contradiction; try reflexivity;
    try (rewrite E1; cbn; tauto); try (rewrite E2; cbn; tauto);
    try (rewrite E3; cbn; tauto).
Qed.

End Proofs.

(** ** Runs on the reference vehicle *)

Import Reference CommanderRuns.

Lemma no_worker_task_while_armed_or_busy_witness :
  let cmd := full_command VEHICLE_CMD_PREFLIGHT_STORAGE (Fin 1) (Fin 0)
               (Fin 0) (Fin 0) (Fin 0) (Fin 0) (Fin 0) in
  starts_worker_task (command cmd) = true
  /\ not_for_us commander_flying cmd = false
  /\ busy_or_armed commander_flying = true
  /\ (let r := handle_command 10 cmd commander_flying in
      value_of r = returns true
      /\ state_of r = commander_flying
      /\ acks_of (output_of r) = [VEHICLE_CMD_RESULT_TEMPORARILY_REJECTED]).
Proof.
  cbv zeta. split; [reflexivity | split; [reflexivity | ]].
  split; [reflexivity | ].
  exact (no_worker_task_while_armed_or_busy 10
           (full_command VEHICLE_CMD_PREFLIGHT_STORAGE (Fin 1) (Fin 0)
              (Fin 0) (Fin 0) (Fin 0) (Fin 0) (Fin 0))
           commander_flying eq_refl eq_refl eq_refl).
Defined.

Lemma forced_arm_from_outside_keeps_checks_witness :
  let cmd := full_command VEHICLE_CMD_COMPONENT_ARM_DISARM (Fin 1)
               (Fin 21196) (Fin 0) (Fin 0) (Fin 0) (Fin 0) (Fin 0) in
  let s := commander_throttle_high in
  not_for_us s cmd = false
  /\ arming_action_of cmd = ARMING_ACTION_ARM
  /\ forced_of cmd = true
  /\ isArmed (_arm_state_machine s) = false
  /\ from_external cmd = true
  /\ arm_denial s command_external
     = Some "commander_arm_denied_throttle_center"%string
  /\ (let r := handle_command 10 cmd s in
      value_of r = returns true
      /\ state_of r = s
      /\ acks_of (output_of r) = [VEHICLE_CMD_RESULT_TEMPORARILY_REJECTED]).
Proof.
  cbv zeta.
  do 6 (split; [reflexivity | ]).
  apply (proj1 (forced_arm_from_outside_keeps_checks 10
                  (full_command VEHICLE_CMD_COMPONENT_ARM_DISARM (Fin 1)
                     (Fin 21196) (Fin 0) (Fin 0) (Fin 0) (Fin 0) (Fin 0))
                  commander_throttle_high eq_refl eq_refl eq_refl eq_refl
                  eq_refl));
    [reflexivity | discriminate].
Defined.

Lemma set_home_denied_without_position_witness :
  let cmd := full_command VEHICLE_CMD_DO_SET_HOME (Fin 0) (Fin 0) (Fin 0)
               (Fin 0) (Fin (95 # 2)) NaN (Fin (500 # 1)) in
  not_for_us commander_boot cmd = false
  /\ _param_com_home_en commander_boot = true
  /\ fgt (param1 cmd) (1 # 2) = false
  /\ PX4_ISFINITE (param6 cmd) = false
  /\ (let r := handle_command 10 cmd commander_boot in
      value_of r = returns true
      /\ state_of r = commander_boot
      /\ acks_of (output_of r) = [VEHICLE_CMD_RESULT_DENIED]).
Proof.
  cbv zeta.
  do 4 (split; [reflexivity | ]).
  exact (set_home_denied_without_position 10
           (full_command VEHICLE_CMD_DO_SET_HOME (Fin 0) (Fin 0) (Fin 0)
              (Fin 0) (Fin (95 # 2)) NaN (Fin (500 # 1)))
           commander_boot eq_refl eq_refl
           (or_intror (conj eq_refl eq_refl))).
Defined.

Lemma mission_start_denied_without_item_witness :
  let cmd := full_command VEHICLE_CMD_MISSION_START NaN (Fin 0) (Fin 0)
               (Fin 0) (Fin 0) (Fin 0) (Fin 0) in
  not_for_us commander_boot cmd = false
  /\ PX4_ISFINITE (param1 cmd) = false
  /\ (let r := handle_command 10 cmd commander_boot in
      value_of r = returns true
      /\ state_of r = commander_boot
      /\ isArmed (_arm_state_machine (state_of r)) = false
      /\ acks_of (output_of r) = [VEHICLE_CMD_RESULT_DENIED]).
Proof.
  cbv zeta.
  do 2 (split; [reflexivity | ]).
  destruct (mission_start_denied_without_item 10
              (full_command VEHICLE_CMD_MISSION_START NaN (Fin 0) (Fin 0)
                 (Fin 0) (Fin 0) (Fin 0) (Fin 0))
              commander_boot eq_refl eq_refl (or_intror (or_introl eq_refl)))
    as (Hv & Hs & Ha).
  split; [exact Hv | split; [exact Hs | ]].
  split; [rewrite Hs; reflexivity | exact Ha].
Defined.

Lemma reboot_request_outcomes_witness :
  let cmd := full_command VEHICLE_CMD_PREFLIGHT_REBOOT_SHUTDOWN (Fin 1)
               (Fin 0) (Fin 0) (Fin 0) (Fin 0) (Fin 0) (Fin 0) in
  not_for_us commander_flying cmd = false
  /\ shutdown_answer commander_flying = TRANSITION_DENIED
  /\ shutdown_answer commander_boot = TRANSITION_CHANGED
  /\ (let r := handle_command 10 cmd commander_flying in
      value_of r = returns true
      /\ acks_of (output_of r) = [VEHICLE_CMD_RESULT_DENIED])
  /\ (let r := handle_command 10 cmd commander_boot in
      value_of r = never_returns
      /\ acks_of (output_of r) = [VEHICLE_CMD_RESULT_ACCEPTED]).
Proof.
  cbv zeta.
  do 3 (split; [reflexivity | ]).
  split.
  - apply (proj1 (proj2 (reboot_request_outcomes 10
                           (full_command
                              VEHICLE_CMD_PREFLIGHT_REBOOT_SHUTDOWN (Fin 1)
                              (Fin 0) (Fin 0) (Fin 0) (Fin 0) (Fin 0)
                              (Fin 0))
                           commander_flying eq_refl eq_refl)));
      [discriminate | reflexivity].
  - split; [reflexivity | ].
    apply (proj2 (proj2 (reboot_request_outcomes 10
                           (full_command
                              VEHICLE_CMD_PREFLIGHT_REBOOT_SHUTDOWN (Fin 1)
                              (Fin 0) (Fin 0) (Fin 0) (Fin 0) (Fin 0)
                              (Fin 0))
                           commander_boot eq_refl eq_refl))).
    reflexivity.
Defined.

End CommanderCommandProofs.

(** * Properties of single commands of the Navigator *)

Module NavigatorCommandProofs.

Import Navigator CommandSpec.

(** Flatten the monadic structure of a goal. *)
Ltac run_navigator :=
  cbv beta iota zeta delta
    [bind ret get gets modify emit when log_event
     publish_vehicle_command_ack publish_vehicle_cmd
     value_of state_of output_of];
  cbn [fst snd app].

Section Proofs.
Context {I : Interfaces} {Modes : NavigatorModes}.
Context {CI : Commander.Interfaces}.

(** ** Who acknowledges a command *)

(** Split the paths of the command loop. *)
Ltac command_paths :=
  repeat
    (run_navigator;
     match goal with
     | |- context [land_start ?m] => destruct (land_start m)
     | |- context [set_current_mission_index ?a ?m] =>
         destruct (set_current_mission_index a m)
     | |- context [if ?b then _ else _] => destruct b
     | |- context [match nav_state ?s with _ => _ end] =>
         destruct (nav_state s)
     end).

(** X23. A command is acknowledged by the Navigator or by the Commander, never
    by both: the Navigator acknowledges a command at most once, as
    accepted, and a command it acknowledges is one the Commander leaves to
    other parts of the system, without acknowledgment and without
    effect. *)
Theorem command_acknowledged_by_one_module now cmd n c :
  let nav := handle_vehicle_command now cmd n in
  let com := Commander.handle_command now cmd c in
  (navigator_acks (output_of nav) = []
   \/ navigator_acks (output_of nav) = [VEHICLE_CMD_RESULT_ACCEPTED])
  /\ (navigator_acks (output_of nav) <> [] ->
      CommanderSpec.acks_of (output_of com) = [] /\ state_of com = c)
  /\ (CommanderSpec.acks_of (output_of com) <> [] ->
      navigator_acks (output_of nav) = []).
Proof.
  cbv zeta.
  assert (Hcom : Commander.handled_by_other_parts (command cmd) = true ->
                 CommanderSpec.acks_of
                   (output_of (Commander.handle_command now cmd c)) = []
                 /\ state_of (Commander.handle_command now cmd c) = c).
  { intros H. unfold Commander.handle_command.
    cbv beta iota zeta delta
      [bind ret get when value_of state_of output_of].
    destruct (Commander.not_for_us c cmd); [split; reflexivity | ].
    unfold Commander.handle_command_switch.
    destruct (command cmd); try discriminate; split; reflexivity. }
  assert (Hnav : (Commander.handled_by_other_parts (command cmd) = true
                  /\ navigator_acks
                       (output_of (handle_vehicle_command now cmd n))
                     = [VEHICLE_CMD_RESULT_ACCEPTED])
                 \/ navigator_acks
                      (output_of (handle_vehicle_command now cmd n)) = []).
  { unfold handle_vehicle_command, handle_do_reposition, handle_do_orbit,
      handle_do_change_speed, handle_set_roi, handle_do_vtol_transition,
      set_cruising_speed, set_cruising_throttle, reset_cruising_speed.
    destruct (command cmd); command_paths;
      first [right; reflexivity | left; split; reflexivity]. }
  destruct Hnav as [[Ho Ha] | Hn].
  - rewrite Ha. destruct (Hcom Ho) as [Hc1 Hc2]. rewrite Hc1.
    split; [right; reflexivity | ]. split; [intros _; auto | ].
    intros H. contradiction.
  - rewrite Hn. split; [left; reflexivity | ].
    split; [intros H; contradiction | reflexivity].
Qed.

(** ** The cruising speed *)

Lemma above_epsilon_positive x :
  fgt x FLT_EPSILON = true -> fgt x 0 = true.
Proof.
  destruct x as [ | | | q]; cbn; try discriminate; try reflexivity.
  intros H. apply negb_true_iff in H. apply negb_true_iff.
  destruct (Qle_bool q 0) eqn:E; [ | reflexivity].
  apply Qle_bool_iff in E.
  assert (Hle : Qle_bool q FLT_EPSILON = true).
  { apply Qle_bool_iff. eapply Qle_trans; [exact E | discriminate]. }
  congruence.
Qed.

(** X24. DO_CHANGE_SPEED is read back by the getters: a speed above
    [FLT_EPSILON] becomes the cruising speed and leaves the throttle; any
    other speed, NaN included, resets the cruising speed to -1 and sets the
    throttle to a hundredth of [param3], or to NaN when [param3] is not
    above [FLT_EPSILON].  The command is acknowledged as accepted in every
    case. *)
Theorem change_speed_read_back now cmd s :
  command cmd = VEHICLE_CMD_DO_CHANGE_SPEED ->
  let r := handle_vehicle_command now cmd s in
  let s' := state_of r in
  navigator_acks (output_of r) = [VEHICLE_CMD_RESULT_ACCEPTED]
  /\ (fgt (param2 cmd) FLT_EPSILON = true ->
      get_cruising_speed s' = param2 cmd
      /\ get_cruising_throttle s' = get_cruising_throttle s)
  /\ (fgt (param2 cmd) FLT_EPSILON = false ->
      get_cruising_speed s' = Fin (-1 # 1)
      /\ (fgt (param3 cmd) FLT_EPSILON = true ->
          _mission_throttle s' = fdiv (param3 cmd) (Fin (100 # 1)))
      /\ (fgt (param3 cmd) FLT_EPSILON = false ->
          get_cruising_throttle s' = NaN)).
Proof.
  intros Hc. cbv zeta. unfold handle_vehicle_command. run_navigator.
  rewrite Hc. unfold handle_do_change_speed, set_cruising_speed,
    set_cruising_throttle.
  destruct (fgt (param2 cmd) FLT_EPSILON) eqn:E2.
  - apply above_epsilon_positive in E2. run_navigator.
    unfold get_cruising_speed, get_cruising_throttle.
    destruct (is_rotary_wing_type (vehicle_type (_vstatus s))) eqn:Er;
      cbn; rewrite Er, E2; repeat split; discriminate.
  - run_navigator.
    unfold get_cruising_speed, get_cruising_throttle.
    destruct (fgt (param3 cmd) FLT_EPSILON) eqn:E3,
      (is_rotary_wing_type (vehicle_type (_vstatus s))) eqn:Er;
      cbn; rewrite Er; repeat split; try discriminate; reflexivity.
Qed.


(** ** Orbit and takeoff *)

(** X26. DO_ORBIT concerns the Navigator of a fixed-wing vehicle only; for every
    other vehicle the command changes nothing.  Without geofence position
    data, or with the geofence action none or warning, the orbit is
    accepted wherever it is: the reposition setpoint becomes a valid loiter
    at the commanded place, each coordinate that is not a finite number
    replaced by the one of the vehicle, with the radius and the sense of
    [param1] when that is finite. *)
Theorem orbit_command_fixed_wing_only now cmd s :
  command cmd = VEHICLE_CMD_DO_ORBIT ->
  let r := handle_vehicle_command now cmd s in
  let sp := current (_reposition_triplet (state_of r)) in
  (is_fixed_wing_type (vehicle_type (_vstatus s)) = false ->
   state_of r = s /\ output_of r = [])
  /\ (is_fixed_wing_type (vehicle_type (_vstatus s)) = true ->
      have_geofence_position_data s = false
      \/ getGeofenceAction (_geofence s) = GF_ACTION_NONE
      \/ getGeofenceAction (_geofence s) = GF_ACTION_WARN ->
      output_of r = []
      /\ valid sp = true
      /\ type sp = SETPOINT_TYPE_LOITER
      /\ timestamp sp = now
      /\ lat sp = (if PX4_ISFINITE (param5 cmd) then param5 cmd
                   else gpos_lat (_global_pos s))
      /\ lon sp = (if PX4_ISFINITE (param6 cmd) then param6 cmd
                   else gpos_lon (_global_pos s))
      /\ alt sp = (if PX4_ISFINITE (param7 cmd) then param7 cmd
                   else gpos_alt (_global_pos s))
      /\ loiter_radius sp
         = (if PX4_ISFINITE (param1 cmd) then fabsf (param1 cmd)
            else get_loiter_radius s)
      /\ loiter_direction_counter_clockwise sp
         = PX4_ISFINITE (param1 cmd) && flt (param1 cmd) 0).
Proof.
  intros Hc. cbv zeta. unfold handle_vehicle_command. run_navigator.
  rewrite Hc. split.
  - intros ->. split; reflexivity.
  - intros -> Hg. unfold handle_do_orbit. run_navigator.
    assert (Hv : (if have_geofence_position_data s
                  then geofence_allows_position s
                         {| gpos_lat := if PX4_ISFINITE (param5 cmd)
                                        then param5 cmd
                                        else gpos_lat (_global_pos s);
                            gpos_lon := if PX4_ISFINITE (param6 cmd)
                                        then param6 cmd
                                        else gpos_lon (_global_pos s);
                            gpos_alt := if PX4_ISFINITE (param7 cmd)
                                        then param7 cmd
                                        else gpos_alt (_global_pos s) |}
                  else true) = true).
    { destruct Hg as [Hg | [Hg | Hg]].
      - rewrite Hg. reflexivity.
      - destruct (have_geofence_position_data s); [ | reflexivity].
        unfold geofence_allows_position. rewrite Hg. reflexivity.
      - destruct (have_geofence_position_data s); [ | reflexivity].
        unfold geofence_allows_position. rewrite Hg. reflexivity. }
    rewrite Hv. unfold orbit_setpoint. cbn.
    destruct (param1 cmd); cbn; repeat split.
Qed.

(** X27. NAV_TAKEOFF always leaves a valid takeoff setpoint: at the commanded
    place when latitude and longitude are both finite, above the vehicle
    when one of them is not; with the commanded yaw only when the home and
    global positions are valid, with the heading of the vehicle otherwise.
    The place of the vehicle is stored as the previous setpoint and the
    next one is invalid.  The Navigator leaves the acknowledgment to the
    Commander. *)
Theorem takeoff_setpoint_always_valid now cmd s :
  command cmd = VEHICLE_CMD_NAV_TAKEOFF ->
  let r := handle_vehicle_command now cmd s in
  let t := _takeoff_triplet (state_of r) in
  let known := home_global_position_valid (_global_pos s) (_home_pos s) in
  output_of r = []
  /\ valid (current t) = true
  /\ type (current t) = SETPOINT_TYPE_TAKEOFF
  /\ timestamp (current t) = now
  /\ alt (current t) = param7 cmd
  /\ (lat (current t), lon (current t))
     = (if PX4_ISFINITE (param5 cmd) && PX4_ISFINITE (param6 cmd)
        then (param5 cmd, param6 cmd)
        else (gpos_lat (_global_pos s), gpos_lon (_global_pos s)))
  /\ yaw (current t)
     = (if known then param4 cmd else heading (_local_pos s))
  /\ valid (previous t) = known
  /\ (lat (previous t), lon (previous t), alt (previous t))
     = (gpos_lat (_global_pos s), gpos_lon (_global_pos s),
        gpos_alt (_global_pos s))
  /\ valid (next t) = false.
Proof.
  intros Hc. cbv zeta. unfold handle_vehicle_command. run_navigator.
  rewrite Hc. run_navigator. unfold takeoff_setpoint.
  destruct (home_global_position_valid (_global_pos s) (_home_pos s));
    destruct (PX4_ISFINITE (param5 cmd) && PX4_ISFINITE (param6 cmd));
    cbn; repeat split.
Qed.

(** X28. The Navigator sets the mission index on MISSION_START only for a first
    item that is a number and not negative, with a valid mission result:
    otherwise, as for the -1 that the Commander accepts, the command
    changes nothing here.  The Navigator sends nothing but the warning of
    a failed index and leaves the acknowledgment to the Commander. *)
Theorem mission_start_index_guard now cmd s :
  command cmd = VEHICLE_CMD_MISSION_START ->
  let r := handle_vehicle_command now cmd s in
  navigator_acks (output_of r) = []
  /\ (mission_result_valid (_mission_result s) = false
      \/ PX4_ISFINITE (param1 cmd) = false
      \/ flt (param1 cmd) 0 = true ->
      state_of r = s /\ output_of r = [])
  /\ (mission_result_valid (_mission_result s) = true ->
      PX4_ISFINITE (param1 cmd) = true -> fge (param1 cmd) 0 = true ->
      _mission (state_of r)
      = snd (set_current_mission_index (param1 cmd) (_mission s))
      /\ output_of r
         = (if fst (set_current_mission_index (param1 cmd) (_mission s))
            then [] else [log "CMD_MISSION_START failed"])).
Proof.
  intros Hc. cbv zeta. unfold handle_vehicle_command. run_navigator.
  rewrite Hc. split; [ | split].
  - destruct (mission_result_valid (_mission_result s)
              && PX4_ISFINITE (param1 cmd) && fge (param1 cmd) 0);
      [ | reflexivity].
    destruct (set_current_mission_index (param1 cmd) (_mission s))
      as [[ | ] m]; reflexivity.
  - intros Hd.
    assert (Hf : mission_result_valid (_mission_result s)
                 && PX4_ISFINITE (param1 cmd) && fge (param1 cmd) 0
                 = false).
    { destruct Hd as [Hd | [Hd | Hd]].
      - rewrite Hd. reflexivity.
      - rewrite Hd. rewrite andb_false_r. reflexivity.
      - destruct (param1 cmd) as [ | | | q]; cbn in *;
          rewrite ?andb_false_r; try reflexivity; try discriminate.
        apply negb_true_iff in Hd. rewrite Hd. apply andb_false_r. }
    rewrite Hf. split; reflexivity.
  - intros Hv Hf Hg. rewrite Hv, Hf, Hg. cbn [andb].
    destruct (set_current_mission_index (param1 cmd) (_mission s))
      as [[ | ] m]; split; reflexivity.
Qed.

End Proofs.

(** ** Runs on the reference vehicle *)

Import NavigatorReference NavigatorRuns.

Lemma change_speed_read_back_witness :
  let cmd := navigator_command VEHICLE_CMD_DO_CHANGE_SPEED (Fin 1)
               (Fin (12 # 1)) (Fin (-1 # 1)) (Fin 0) (Fin 0) (Fin 0)
               (Fin 0) in
  let r := handle_vehicle_command 10 cmd navigator_in_mission in
  command cmd = VEHICLE_CMD_DO_CHANGE_SPEED
  /\ get_cruising_speed navigator_in_mission = Fin (-1 # 1)
  /\ fgt (param2 cmd) FLT_EPSILON = true
  /\ navigator_acks (output_of r) = [VEHICLE_CMD_RESULT_ACCEPTED]
  /\ get_cruising_speed (state_of r) = Fin (12 # 1).
Proof.
  cbv zeta.
  do 3 (split; [reflexivity | ]).
  destruct (change_speed_read_back 10
              (navigator_command VEHICLE_CMD_DO_CHANGE_SPEED (Fin 1)
                 (Fin (12 # 1)) (Fin (-1 # 1)) (Fin 0) (Fin 0) (Fin 0)
                 (Fin 0))
              navigator_in_mission eq_refl) as (Ha & Hset & _).
  split; [exact Ha | ]. exact (proj1 (Hset eq_refl)).
Defined.


Lemma orbit_command_fixed_wing_only_witness :
  let cmd := navigator_command VEHICLE_CMD_DO_ORBIT (Fin (-120 # 1))
               (Fin 0) (Fin 0) (Fin 0) (Fin (48 # 1)) NaN NaN in
  command cmd = VEHICLE_CMD_DO_ORBIT
  /\ is_fixed_wing_type (vehicle_type (_vstatus navigator_in_mission)) = false
  /\ is_fixed_wing_type (vehicle_type (_vstatus navigator_plane)) = true
  /\ have_geofence_position_data navigator_plane = false
  /\ state_of (handle_vehicle_command 10 cmd navigator_in_mission)
     = navigator_in_mission
  /\ (let r := handle_vehicle_command 10 cmd navigator_plane in
      let sp := current (_reposition_triplet (state_of r)) in
      valid sp = true
      /\ type sp = SETPOINT_TYPE_LOITER
      /\ lat sp = Fin (48 # 1)
      /\ lon sp = gpos_lon (_global_pos navigator_plane)
      /\ loiter_radius sp = Fin (120 # 1)
      /\ loiter_direction_counter_clockwise sp = true).
Proof.
  cbv zeta.
  do 4 (split; [reflexivity | ]).
  split.
  - apply (proj1 (orbit_command_fixed_wing_only 10
                    (navigator_command VEHICLE_CMD_DO_ORBIT (Fin (-120 # 1))
                       (Fin 0) (Fin 0) (Fin 0) (Fin (48 # 1)) NaN NaN)
                    navigator_in_mission eq_refl) eq_refl).
  - destruct (proj2 (orbit_command_fixed_wing_only 10
                       (navigator_command VEHICLE_CMD_DO_ORBIT
                          (Fin (-120 # 1)) (Fin 0) (Fin 0) (Fin 0)
                          (Fin (48 # 1)) NaN NaN)
                       navigator_plane eq_refl)
                eq_refl (or_introl eq_refl))
      as (_ & Hv & Ht & _ & Hlat & Hlon & _ & Hr & Hd).
    split; [exact Hv | split; [exact Ht | ]].
    split; [exact Hlat | split; [exact Hlon | ]].
    split; [exact Hr | exact Hd].
Defined.

Lemma takeoff_setpoint_always_valid_witness :
  let cmd := navigator_command VEHICLE_CMD_NAV_TAKEOFF (Fin 0) (Fin 0)
               (Fin 0) (Fin (3 # 2)) NaN (Fin (17 # 2)) (Fin (520 # 1)) in
  let r := handle_vehicle_command 10 cmd navigator_in_mission in
  let t := _takeoff_triplet (state_of r) in
  command cmd = VEHICLE_CMD_NAV_TAKEOFF
  /\ PX4_ISFINITE (param5 cmd) = false
  /\ valid (current t) = true
  /\ type (current t) = SETPOINT_TYPE_TAKEOFF
  /\ alt (current t) = Fin (520 # 1)
  /\ (lat (current t), lon (current t))
     = (gpos_lat (_global_pos navigator_in_mission),
        gpos_lon (_global_pos navigator_in_mission))
  /\ valid (next t) = false.
Proof.
  cbv zeta.
  do 2 (split; [reflexivity | ]).
  destruct (takeoff_setpoint_always_valid 10
              (navigator_command VEHICLE_CMD_NAV_TAKEOFF (Fin 0) (Fin 0)
                 (Fin 0) (Fin (3 # 2)) NaN (Fin (17 # 2)) (Fin (520 # 1)))
              navigator_in_mission eq_refl)
    as (_ & Hv & Ht & _ & Ha & Hp & _ & _ & _ & Hn).
  split; [exact Hv | split; [exact Ht | ]].
  split; [exact Ha | split; [exact Hp | exact Hn]].
Defined.

Lemma mission_start_index_guard_witness :
  let cmd := navigator_command VEHICLE_CMD_MISSION_START (Fin (-1 # 1))
               (Fin 0) (Fin 0) (Fin 0) (Fin 0) (Fin 0) (Fin 0) in
  let r := handle_vehicle_command 10 cmd navigator_in_mission in
  command cmd = VEHICLE_CMD_MISSION_START
  /\ flt (param1 cmd) 0 = true
  /\ navigator_acks (output_of r) = []
  /\ state_of r = navigator_in_mission
  /\ output_of r = [].
Proof.
  cbv zeta.
  do 2 (split; [reflexivity | ]).
  destruct (mission_start_index_guard 10
              (navigator_command VEHICLE_CMD_MISSION_START (Fin (-1 # 1))
                 (Fin 0) (Fin 0) (Fin 0) (Fin 0) (Fin 0) (Fin 0))
              navigator_in_mission eq_refl) as (Ha & Hg & _).
  split; [exact Ha | ].
  exact (Hg (or_intror (or_intror eq_refl))).
Defined.

End NavigatorCommandProofs.
